(* ===== verification/_CoqProject ===== *)
-Q . S2P
Prelude.v
Js.v
Json.v
Pricing.v
Cart.v
Stages.v
OrderMachine.v
Store.v
TrackOrder.v
Notifications.v
Checkout.v
OrdersList.v
Shop.v
CartPage.v
Admin.v
Account.v
CartStore.v
Auth.v
Shell.v
OrdersPage.v
Nav.v
Schema.v
Reviews.v
