(* ===== verification/Prelude.v ===== *)
(** * Rue Organics: order lifecycle, checkout and pricing, a verification library

    This library models the TypeScript/React storefront of the Rue Organics
    repository (sources under src/src/ and src/unnamed/) and proves what its
    order and pricing code does.  The program is a single-page client over a
    hosted Postgres reached through the Supabase client; its parts and how
    they interact:

    - the cart ([CartContext] in src/src/contexts/AuthContext.tsx:
      [cartReducer], [getUnitPrice], [totalItems], [subtotal]) holds the
      cart lines in a React reducer, saved to and restored from
      localStorage by its provider; Cart.tsx and Checkout.tsx recompute the
      same tiered unit price;
    - checkout (src/src/pages/Checkout.tsx, [handlePlaceOrder]) inserts an
      order row: the items as a JSON array, the delivery details as a
      legacy one-entry "delivery" record in the [stages] text, the total
      less a pasted [SAVE10] discount;
    - the tracking page (src/src/pages/TrackOrder.tsx) fetches one order,
      decodes its loosely typed [stages] column (the legacy record, a list
      of stage objects, or garbage), enriches its items from the catalog,
      and offers two transitions, [advanceStage] and [confirmReceipt], each
      an owner-filtered update of the row followed by a refetch; a realtime
      channel refetches on every change of the row;
    - the orders list (src/src/pages/Notifications.tsx, [Orders]) lists the
      user's orders newest first, parsing the same columns its own way;
    - price strings (src/src/pages/ProductDetail.tsx [parsePriceToNumber],
      [formatPriceForDisplay]; TrackOrder's enrichment) become numbers;
    - the product page (ProductDetail.tsx) builds cart lines from a product,
      its variants and its tiers; the cart page (Cart.tsx) edits them;
    - the admin dashboard (src/src/pages/AdminDashboard.tsx) edits the
      products' tiers and variants that the product page reads;
    - the account page (src/src/pages/Account.tsx) runs the e-mail sign-in
      forms and keeps saved addresses in localStorage, which the checkout
      reads to fill in the delivery address;
    - the notifications page (src/src/pages/Notifications.tsx) and the
      notifications context (concatenated into Checkout.tsx) read and
      update the notifications table;
    - every page repeats one header and navigation drawer, whose admin
      link only the account page guards with [isAdmin]; the farmer
      support page (src/src/pages/FarmerSupport.tsx) opens a phone and a
      WhatsApp link;
    - the SQL schema (src/unnamed/part_003) declares the store's tables,
      constraints and row-level security.

    Files, in dependency order (each opens with its own summary):
    - [Prelude]: this header, the [outcome] error monad (stdpp monad
      instances), [promise_all], the [rue] hint databases, tactics, and the
      list, rational and string lemmas the components share;
    - [Js]: JavaScript values ([jvalue]), truthiness, [||], property access
      that throws on [null]/[undefined], [find]/[findIndex]/[map], the
      string conversion [String(v)] and string methods, [toFixed(2)] with
      its half-cent bounds, and TypeScript interface types ([ts_type],
      [has_type]) checked against values;
    - [Json]: the interface [JsonCodec] for [JSON.parse]/[JSON.stringify]
      with its law class [JsonCodecLaws] (round trip, non-empty output),
      and a concrete printer and fuel-bounded parser proved to satisfy it
      for values whose numbers are integers (the fuel is the input's
      length plus one, always enough);
    - [Pricing]: [getUnitPrice], totals, the price-string parser, with the
      specification's resolver as an abstract [UnitPricing] instance;
    - [Cart]: the [cartReducer] state machine, its invariant and
      reachability;
    - [Stages]: the stage decoder of TrackOrder.tsx as a state-and-exception
      program, the stage encoder, and their round trip;
    - [OrderMachine]: the stage list as a state machine ([advance_stages],
      [confirm_stages], the button guards, the buyer's step relation), the
      prefix-completion invariant and the termination of the buyer's
      clicks (a well-founded step relation);
    - [Store]: the [orders] table as a [gmap] of rows, the select, the
      owner-filtered update and the insert, with the table constraint as a
      parameter and the repository schema's constraint;
    - [TrackOrder]: the page: query with its error ladder and item
      enrichment, React Query's cache, the render, the two handlers, and the
      event system (remote writes, change notifications, clicks) with its
      synchronisation invariant;
    - [Notifications]: the notifications table, the page's query,
      mutations and render, and the notifications context with its
      realtime refetch and its two-step [markAllRead];
    - [Checkout]: the discount, the inserted row, [handlePlaceOrder], the
      notification it inserts, and the page's render;
    - [OrdersList]: the orders list query;
    - [Shop]: the product page's state, handlers and render and the cart
      page's buttons, as one event system over the cart;
    - [CartPage]: the cart page's screens (sign-in modal, empty cart, the
      rows with their printed prices) and its navigation;
    - [Admin]: the dashboard's catalog editor over a two-table store
      (products, product_variants) and the page's events;
    - [Account]: the sign-in forms' handlers, the saved-address list with
      its JSON persistence in a [localStorage] map, and the checkout's
      loading and auto-fill effects;
    - [CartStore]: the cart provider's [loadInitialCart], save effect and
      first render over the same [localStorage] map, with the cart lines'
      JSON and the [CartItem] interface read back;
    - [Auth]: the [AuthProvider] session machine under its two sources
      ([getSession()] and [onAuthStateChange]) and the context's value;
    - [Shell]: the route table of App.tsx, the splash hand-over, the
      catalog page's unread badge and card render, and the offers filter;
    - [OrdersPage]: the orders page's render over the list query, and the
      declared [Order] types checked against the rows checkout writes;
    - [Nav]: the pages' header and drawer ([Drawer]), the dashboard's tab
      bar and panels ([AdminTabs]), the account page's session panel and
      quick links ([AccountPanels]), the first version of the dashboard
      ([Restricted]) and the farmer support page with [encodeURIComponent]
      ([Support]);
    - [Schema]: the nine tables of the SQL file, the store's answers to
      inserts, selects and deletes under them (schema cache, casts,
      row-level security, [NOT NULL], [CHECK]), and the code's payloads;
    - [Reviews]: the product page's reviews query (newest first, shown as
      Anonymous), its review section (count, star buttons, form or sign-in
      prompt, cards, empty text) and the form's events, composed with
      [Schema] and the review handler of [Shop].

    What the theorems show, by group: the transitions complete exactly the
    current stage and keep the completed stages a prefix, while
    [confirmReceipt] breaks it and the last default stage can never be
    completed from the page ([OrderMachine]); what the transitions write
    reads back unchanged, and the page with the store refines the abstract
    [advanceStage] step, changes nothing when the write fails, and stays in
    sync under notified remote writes, but a Confirm Received from a stale
    view overwrites whatever another client wrote, losing its completions
    ([TrackOrder]); every checkout order decodes to the default
    workflow, and items written by checkout are never shown ([TrackOrder],
    [Checkout], [OrdersList]); the price-text parser agrees with the
    specification's one-step rule, and the tier lookup refines the specification only
    on descending tiers ([Pricing]); the cart invariant holds on every
    reachable cart ([Cart]), also through the product and cart pages, whose
    tiers apply to every size and which sell a size shown as out of stock
    ([Shop]); the dashboard saves one product's
    tiers into another, can neither add nor remove a variant, and its
    default tier makes every quantity below a product's earlier tier
    minimums free ([Admin]); the saved addresses round
    trip through JSON but are shared by every user of the browser, and the
    one-time-code and Google sign-in paths always fail ([Account]); Clear
    All deletes exactly the user's notifications, seen or not, and the
    context's [markAllRead] shows as read a notification the store holds
    unread ([Notifications]); the catalog's unread badge agrees with the
    notifications page, and the catalog throws on rows of the
    repository's schema and, composing [Admin] with [Shell], as soon as
    one product added from the dashboard's form (which has no
    [controls_or_benefits] field) is listed; the loading flag settles at the first
    auth delivery, and a late [getSession()] answer overwrites a newer
    session ([Auth]); the buyer's clicks on the tracking page terminate
    ([OrderMachine]); the cart page's printed line totals can drift from
    its printed subtotal by half a cent per line ([CartPage]); and, across
    [Checkout], [OrdersList], [Shell] and [OrdersPage], an order placed
    at checkout is listed as a blank card with the total checkout showed
    and a link to its tracking page, while its row matches the declared
    [Order] type in every column but [stages] ([OrdersPage]); no menu
    shows a user without the admin role the dashboard, yet its path
    serves it and its handlers write the catalog; every click in the open
    drawer closes it, the dashboard's tab bar always highlights one tab
    and its orders tab lists nothing, and the WhatsApp link carries its
    message escaped and recoverable ([Nav]); across reloads the cart
    invariant holds and a visit whose saves succeed is restored exactly,
    while stored text that is JSON but not an array crashes the first
    render ([CartStore]); and against the repository's schema, which turns
    row-level security on without a policy, the client can read and write
    nothing, and checkout's insert names columns the orders table lacks, so
    no order is ever placed ([Schema]); the reviews query lists the
    product's reviews once each, newest first, and, as the schema has no
    [reviews] table, the section never shows one and every submission ends
    in the schema-cache message ([Reviews]).

    Modelling conventions.  JavaScript numbers are exact rationals [Q]
    (prices) or integers [Z] (quantities); IEEE rounding is not modelled
    (so [toFixed(2)] rounds the exact value, as it does on binary
    fractions) and [NaN] is [None] where the code can produce it.  Exceptions are
    values of [outcome]; an asynchronous handler is modelled as the sequence
    of store calls it issues with the store's answers; React state updates
    are explicit state passing; the Supabase client's calls are modelled by
    their effect on a finite map of rows, and, in [Schema], by the
    answers Postgres and PostgREST give under the repository's schema.  Strings are byte strings, read as code points below 256.

    Fuel and bounds.  The JSON parser runs on fuel [S (length s)]; a
    successful parse needs no more fuel than the characters it consumes
    plus one, so any larger fuel gives the same answer
    ([Json.parse_json_fuel_enough]) and [parse_json] is the unbounded
    parser.  Every other definition is structural.  The dashboard reads its products query at the store's
    current value (React Query refetches it after each mutation).

    Fuel for [Nav.Support.decode_fuel] is the length of its input plus
    one, and each character consumes at least one unit.

    Not modelled: layout and styling; the video embed and static texts of
    the farmer support page; dates shown with toLocaleString; the schema's
    [UNIQUE] and foreign-key constraints, which depend on the other rows
    of the database, and numeric text sent to numeric columns (no payload
    sends any); the JSON text of non-integer numbers (the codec's law
    covers integers only, so the cart theorems about reloading assume
    integer prices); the review cards' [toLocaleDateString] date and the
    Sign In button's navigation; characters above code point 255 (strings are
    byte strings). *)

From stdpp Require Export base list strings sets.
From Stdlib Require Export QArith ZArith Lqa Ascii.
Export ListNotations.
Open Scope nat_scope.

Declare Scope rue_scope.
Delimit Scope rue_scope with rue.

(** ** An error monad

    [outcome E A] is the result of code that may throw or reject with an
    error of type [E]; it is an stdpp monad, so [x ← c; k] sequences it. *)

Inductive outcome (E A : Type) : Type :=
| Ok (a : A)
| Err (e : E).
Arguments Ok {E A} a.
Arguments Err {E A} e.

#[export] Instance outcome_ret E : MRet (outcome E) := λ A a, Ok a.
#[export] Instance outcome_bind E : MBind (outcome E) :=
  λ A B f c, match c with Ok a => f a | Err e => Err e end.
#[export] Instance outcome_fmap E : FMap (outcome E) :=
  λ A B f c, match c with Ok a => Ok (f a) | Err e => Err e end.

Definition is_ok {E A} (c : outcome E A) : bool :=
  match c with Ok _ => true | Err _ => false end.

(** ** Tactics and hints *)

Create HintDb rue discriminated.
Create Rewrite HintDb rue_rw.

Ltac invc H := inversion H; subst; clear H.

(** Split every [outcome] scrutinee of the goal and of the hypotheses. *)
Ltac outcome_cases :=
  repeat match goal with
  | |- context [match ?c with Ok _ => _ | Err _ => _ end] =>
      let E := fresh "E" in destruct c eqn:E
  | H : context [match ?c with Ok _ => _ | Err _ => _ end] |- _ =>
      let E := fresh "E" in destruct c eqn:E
  end; simplify_eq.

Lemma bind_ok {E A B} (a : A) (f : A → outcome E B) : (Ok a ≫= f) = f a.
Proof. reflexivity. Qed.

Lemma bind_err {E A B} (e : E) (f : A → outcome E B) : (Err e ≫= f) = Err e.
Proof. reflexivity. Qed.

Lemma bind_ok_inv {E A B} (c : outcome E A) (f : A → outcome E B) b :
  (c ≫= f) = Ok b → ∃ a, c = Ok a ∧ f a = Ok b.
Proof. destruct c; simpl; [eauto | discriminate]. Qed.

#[export] Hint Rewrite @bind_ok @bind_err : rue_rw.

(** ** Lists: JavaScript's [reduce], [find] and [filter] *)

(** [xs.reduce((acc, x) => acc + f x, 0)] over rationals. *)
Definition reduce_sum {A} (f : A → Q) (xs : list A) : Q :=
  fold_left (λ acc x, (acc + f x)%Q) xs 0%Q.

Lemma fold_left_Qplus_shift {A} (f : A → Q) (xs : list A) (a : Q) :
  (fold_left (λ acc x, acc + f x) xs a == a + fold_left (λ acc x, acc + f x) xs 0)%Q.
Proof.
  revert a. induction xs as [|x xs IH]; intros a; simpl.
  - ring.
  - rewrite (IH (a + f x)%Q), (IH (0 + f x)%Q). ring.
Qed.

Lemma reduce_sum_cons {A} (f : A → Q) x xs :
  (reduce_sum f (x :: xs) == f x + reduce_sum f xs)%Q.
Proof. unfold reduce_sum. simpl. rewrite fold_left_Qplus_shift. ring. Qed.

Lemma reduce_sum_app {A} (f : A → Q) xs ys :
  (reduce_sum f (xs ++ ys) == reduce_sum f xs + reduce_sum f ys)%Q.
Proof.
  unfold reduce_sum. rewrite fold_left_app, fold_left_Qplus_shift. reflexivity.
Qed.

Lemma reduce_sum_ext {A} (f g : A → Q) xs :
  (∀ x, x ∈ xs → f x == g x)%Q → (reduce_sum f xs == reduce_sum g xs)%Q.
Proof.
  induction xs as [|x xs IH]; intros Hfg; [reflexivity|].
  rewrite !reduce_sum_cons, (Hfg x) by set_solver.
  rewrite IH by set_solver. reflexivity.
Qed.

Lemma reduce_sum_nonneg {A} (f : A → Q) xs :
  (∀ x, x ∈ xs → 0 <= f x)%Q → (0 <= reduce_sum f xs)%Q.
Proof.
  induction xs as [|x xs IH]; intros Hf; [apply Qle_refl|].
  rewrite reduce_sum_cons.
  assert (0 <= f x)%Q by (apply Hf; set_solver).
  assert (0 <= reduce_sum f xs)%Q by (apply IH; set_solver). lra.
Qed.

(** [xs.reduce((acc, x) => acc + f x, 0)] over integers. *)
Definition reduce_sumZ {A} (f : A → Z) (xs : list A) : Z :=
  fold_left (λ acc x, (acc + f x)%Z) xs 0%Z.

Lemma fold_left_Zplus_shift {A} (f : A → Z) (xs : list A) (a : Z) :
  fold_left (λ acc x, acc + f x)%Z xs a = (a + fold_left (λ acc x, acc + f x)%Z xs 0)%Z.
Proof.
  revert a. induction xs as [|x xs IH]; intros a; simpl; [lia|].
  rewrite (IH (a + f x)%Z), (IH (0 + f x)%Z). lia.
Qed.

Lemma reduce_sumZ_cons {A} (f : A → Z) x xs :
  reduce_sumZ f (x :: xs) = (f x + reduce_sumZ f xs)%Z.
Proof. unfold reduce_sumZ. simpl. rewrite fold_left_Zplus_shift. lia. Qed.

Lemma reduce_sumZ_app {A} (f : A → Z) xs ys :
  reduce_sumZ f (xs ++ ys) = (reduce_sumZ f xs + reduce_sumZ f ys)%Z.
Proof. unfold reduce_sumZ. rewrite fold_left_app, fold_left_Zplus_shift. lia. Qed.

#[export] Hint Rewrite @reduce_sum_cons @reduce_sumZ_cons : rue_rw.

Lemma find_In_true {A} (p : A → bool) xs x :
  find p xs = Some x → x ∈ xs ∧ p x = true.
Proof.
  intros H. apply find_some in H as [Hin Hp].
  split; [by apply list_elem_of_In | done].
Qed.

Lemma find_None_false {A} (p : A → bool) xs x :
  find p xs = None → x ∈ xs → p x = false.
Proof. intros H Hin. eapply find_none; [done|]. by apply list_elem_of_In. Qed.

#[export] Hint Resolve find_In_true find_None_false : rue.

Lemma find_None_intro {A} (p : A → bool) xs :
  (∀ x, x ∈ xs → p x = false) → find p xs = None.
Proof.
  induction xs as [|x xs IH]; intros H; simpl; [done|].
  rewrite (H x) by set_solver. apply IH. set_solver.
Qed.

Lemma Forall_List_filter {A} (P : A → Prop) (p : A → bool) xs :
  Forall P xs → Forall P (List.filter p xs).
Proof.
  induction xs as [|x xs IH]; simpl; [done|]. intros [Hx Hxs]%Forall_cons.
  destruct (p x); [constructor|]; auto.
Qed.

#[export] Hint Resolve Forall_List_filter : rue.

Lemma Permutation_List_filter {A} (p : A → bool) xs ys :
  Permutation xs ys → Permutation (List.filter p xs) (List.filter p ys).
Proof.
  induction 1 as [|x xs ys _ IH|x y xs|xs ys zs _ IH1 _ IH2]; cbn.
  - done.
  - destruct (p x); [by constructor|done].
  - destruct (p x), (p y); try constructor; done.
  - by rewrite IH1.
Qed.

Lemma List_filter_filter {A} (p q : A → bool) xs :
  List.filter p (List.filter q xs) = List.filter (λ x, q x && p x) xs.
Proof. induction xs as [|x xs IH]; cbn; [done|]. destruct (q x); cbn; [destruct (p x)|]; by rewrite ?IH. Qed.

(** Keys stay distinct under [Array.prototype.filter]. *)
Lemma NoDup_map_List_filter {A B} (f : A → B) (p : A → bool) xs :
  NoDup (map f xs) → NoDup (map f (List.filter p xs)).
Proof.
  induction xs as [|x xs IH]; simpl; [done|]. intros [Hx Hxs]%NoDup_cons.
  destruct (p x); simpl; [|auto]. constructor; [|auto].
  intros (y & Hy & Hin)%list_elem_of_fmap. apply Hx, list_elem_of_fmap.
  exists y. split; [done|]. apply list_elem_of_In in Hin. apply list_elem_of_In.
  by apply filter_In in Hin as [? _].
Qed.

(** [xs.filter((_, i) => i !== index)] removes the only element with the
    key of [xs[index]]. *)
Lemma NoDup_map_delete_other {A B} (f : A → B) xs i x :
  NoDup (map f xs) → xs !! i = Some x → Forall (λ y, f y ≠ f x) (delete i xs).
Proof.
  revert i. induction xs as [|a xs IH]; intros [|j]; simpl; try discriminate;
    intros [Ha Hxs]%NoDup_cons Hj.
  - injection Hj as <-. apply Forall_forall. intros y Hy Heq. apply Ha, list_elem_of_fmap. eauto.
  - constructor; [|by apply IH]. intros Heq. apply Ha. rewrite Heq.
    apply list_elem_of_fmap. exists x. split; [done|]. by eapply list_elem_of_lookup_2.
Qed.

(** [Promise.all(xs.map(f))] for callbacks that may reject: the results
    in order, or the first rejection; also [xs.map(f)] for a callback that
    may throw. *)
Fixpoint promise_all {E A B} (f : A → outcome E B) (xs : list A) : outcome E (list B) :=
  match xs with
  | [] => Ok []
  | x :: xs' =>
      match f x with
      | Ok y => match promise_all f xs' with Ok ys => Ok (y :: ys) | Err e => Err e end
      | Err e => Err e
      end
  end.

Lemma promise_all_ok {E A B} (f : A → outcome E B) xs ys :
  promise_all f xs = Ok ys → Forall2 (λ x y, f x = Ok y) xs ys.
Proof.
  revert ys. induction xs as [|x xs IH]; intros ys; simpl; [intros [= <-]; constructor|].
  destruct (f x) eqn:Hx; [|discriminate]. destruct (promise_all f xs) eqn:Hr; [|discriminate].
  intros [= <-]. constructor; auto.
Qed.

Lemma promise_all_err {E A B} (f : A → outcome E B) xs x e :
  x ∈ xs → f x = Err e → ∃ e', promise_all f xs = Err e'.
Proof.
  induction xs as [|y xs IH]; intros Hx Hf; [by apply elem_of_nil in Hx|]. simpl.
  apply elem_of_cons in Hx as [->|Hx].
  - rewrite Hf. eauto.
  - destruct (f y); [|eauto]. destruct (IH Hx Hf) as [e' ->]. eauto.
Qed.

Lemma Forall2_elem_r {A B} (R : A → B → Prop) xs ys y :
  Forall2 R xs ys → y ∈ ys → ∃ x, x ∈ xs ∧ R x y.
Proof.
  induction 1 as [|x y' xs ys Hr _ IH]; [by intros ?%elem_of_nil|].
  intros [->|Hy]%elem_of_cons; [exists x; split; [left|]; done|].
  destruct (IH Hy) as (x' & ? & ?). exists x'. split; [by right|done].
Qed.

Lemma Forall2_elem_l {A B} (R : A → B → Prop) xs ys x :
  Forall2 R xs ys → x ∈ xs → ∃ y, y ∈ ys ∧ R x y.
Proof.
  induction 1 as [|x' y xs ys Hr _ IH]; [by intros ?%elem_of_nil|].
  intros [->|Hx]%elem_of_cons; [exists y; split; [left|]; done|].
  destruct (IH Hx) as (y' & ? & ?). exists y'. split; [by right|done].
Qed.

(** ** Strings *)

Definition is_digit (c : ascii) : bool :=
  let n := nat_of_ascii c in (48 <=? n) && (n <=? 57).

Fixpoint sdrop (n : nat) (s : string) : string :=
  match n, s with
  | 0, _ => s
  | S n', String _ s' => sdrop n' s'
  | S _, EmptyString => EmptyString
  end.

(** The leading run of digits of a string, and the rest. *)
Fixpoint take_digits (s : string) : list nat * string :=
  match s with
  | String c s' =>
      if is_digit c then let '(ds, r) := take_digits s' in ((nat_of_ascii c - 48) :: ds, r)
      else ([], s)
  | EmptyString => ([], EmptyString)
  end.

Definition digits_value (ds : list nat) : Z :=
  fold_left (λ acc d, acc * 10 + Z.of_nat d)%Z ds 0%Z.

(** stdpp declares [String.append] [simpl never]: its two equations. *)
Lemma sappend_nil (s : string) : String.append EmptyString s = s.
Proof. reflexivity. Qed.

Lemma sappend_cons c (s1 s2 : string) :
  String.append (String c s1) s2 = String c (String.append s1 s2).
Proof. reflexivity. Qed.

#[export] Hint Rewrite sappend_nil sappend_cons : rue_rw.

Lemma sappend_assoc (s1 s2 s3 : string) :
  String.append (String.append s1 s2) s3 = String.append s1 (String.append s2 s3).
Proof. induction s1 as [|c s1 IH]; [done|]. rewrite !sappend_cons. by rewrite IH. Qed.

Lemma sappend_nil_r (s : string) : String.append s EmptyString = s.
Proof. induction s as [|c s IH]; [done|]. rewrite sappend_cons. by rewrite IH. Qed.

Lemma sprefix_nil (s : string) : String.prefix EmptyString s = true.
Proof. by destruct s. Qed.

Lemma slength_append (s1 s2 : string) :
  String.length (String.append s1 s2) = String.length s1 + String.length s2.
Proof. induction s1 as [|c s1 IH]; [done|]. rewrite sappend_cons. simpl. by rewrite IH. Qed.
