(* ===== verification/Js.v ===== *)
(** * JavaScript values as the code sees them

    The stage decoder of TrackOrder.tsx and the orders list work on the
    untyped result of [JSON.parse]: this file gives those values a type
    ([jvalue]), and the few JavaScript operations the code applies to them:
    truthiness, [a || b], [!!a], [===] against a literal, property access
    ([v.k], [v[0]]) which throws a [TypeError] on [null] and [undefined],
    the array methods [find], [map] and [findIndex], whose callbacks may
    themselves throw, and the string methods [trim] and [split]. *)

From S2P Require Import Prelude.
#[local] Set Warnings "-register-all".
From stdpp Require Import pretty.
Open Scope nat_scope.

Declare Scope js_scope.
Delimit Scope js_scope with js.

(** A value: [undefined], or anything JSON.parse can return.  Objects keep
    their keys in insertion order, as JavaScript does. *)
Inductive jvalue : Type :=
| JUndef
| JNull
| JBool (b : bool)
| JNum (q : Q)
| JStr (s : string)
| JArr (xs : list jvalue)
| JObj (fs : list (string * jvalue)).

(** Exceptions: the runtime's [TypeError] and [SyntaxError], and the
    [new Error(msg)] the code throws itself. *)
Inductive js_exn : Type :=
| TypeError
| SyntaxError
| ErrorMsg (msg : string).

#[export] Instance js_exn_eq_dec : EqDecision js_exn.
Proof. solve_decision. Defined.

Abbreviation js := (outcome js_exn).

(** ** Truthiness, [||] and [!!] *)

Definition truthy (v : jvalue) : bool :=
  match v with
  | JUndef | JNull => false
  | JBool b => b
  | JNum q => negb (Qeq_bool q 0)
  | JStr s => negb (String.eqb s "")
  | JArr _ | JObj _ => true
  end.

(** [a || b]: the first operand when it is truthy, else the second. *)
Definition js_or (a b : jvalue) : jvalue := if truthy a then a else b.
Infix "|||" := js_or (at level 50, left associativity) : js_scope.
Open Scope js_scope.

(** [a === "lit"] and [a === n]. *)
Definition js_eq_str (v : jvalue) (s : string) : bool :=
  match v with JStr s' => String.eqb s' s | _ => false end.
Definition js_eq_num (v : jvalue) (q : Q) : bool :=
  match v with JNum q' => Qeq_bool q' q | _ => false end.

(** ** String conversion

    [String(v)], which [JSON.parse] applies to a non-string argument: an
    array is the comma-joined conversion of its elements ([null] and
    [undefined] elements give the empty string), an object is
    ["[object Object]"].  Numbers are converted exactly when they are
    integers (their numerator otherwise), the only numbers the columns the
    code converts can hold. *)
Definition join_comma (xs : list string) : string :=
  match xs with
  | [] => EmptyString
  | x :: xs' => foldl (λ acc y, String.append acc (String "," y)) x xs'
  end.

Fixpoint to_js_string (v : jvalue) : string :=
  match v with
  | JUndef => "undefined"
  | JNull => "null"
  | JBool true => "true"
  | JBool false => "false"
  | JNum q => pretty (Qnum q)
  | JStr s => s
  | JArr xs =>
      join_comma (map (λ x, match x with JUndef | JNull => EmptyString | _ => to_js_string x end) xs)
  | JObj _ => "[object Object]"
  end.

(** [String.prototype.trim] on ASCII text: tab, line feed, vertical tab,
    form feed, carriage return and space. *)
Definition is_space (c : ascii) : bool :=
  match nat_of_ascii c with 9 | 10 | 11 | 12 | 13 | 32 => true | _ => false end.

Fixpoint trim_start (s : string) : string :=
  match s with
  | String c r => if is_space c then trim_start r else s
  | EmptyString => EmptyString
  end.

Definition srev (s : string) : string :=
  String.string_of_list_ascii (rev (String.list_ascii_of_string s)).

Definition trim (s : string) : string := srev (trim_start (srev (trim_start s))).

(** ** Property access *)

(** The value of key [k] in an object literal: the last binding wins,
    as in [JSON.parse] with duplicate keys. *)
Fixpoint obj_find (k : string) (fs : list (string * jvalue)) : option jvalue :=
  match fs with
  | [] => None
  | (k', v) :: fs' =>
      match obj_find k fs' with
      | Some w => Some w
      | None => if String.eqb k k' then Some v else None
      end
  end.

Definition num_of_nat (n : nat) : jvalue := JNum (inject_Z (Z.of_nat n)).

(** [v.k] for a non-numeric property name [k]. *)
Definition get (v : jvalue) (k : string) : js jvalue :=
  match v with
  | JUndef | JNull => Err TypeError
  | JObj fs => Ok (default JUndef (obj_find k fs))
  | JArr xs => Ok (if String.eqb k "length" then num_of_nat (length xs) else JUndef)
  | JStr s => Ok (if String.eqb k "length" then num_of_nat (String.length s) else JUndef)
  | JBool _ | JNum _ => Ok JUndef
  end.

(** [v[i]] for an index [i]. *)
Definition get_index (v : jvalue) (i : nat) : js jvalue :=
  match v with
  | JUndef | JNull => Err TypeError
  | JArr xs => Ok (default JUndef (xs !! i))
  | JStr s => Ok (match String.get i s with Some c => JStr (String c EmptyString) | None => JUndef end)
  | JObj fs => Ok (default JUndef (obj_find (pretty (N.of_nat i)) fs))
  | JBool _ | JNum _ => Ok JUndef
  end.

(** ** Array methods *)

(** [xs.find(cb)]: the first element on which the callback's result is
    truthy; a receiver that is not an array has no [find] method. *)
Fixpoint find_list (cb : jvalue → js jvalue) (xs : list jvalue) : js jvalue :=
  match xs with
  | [] => Ok JUndef
  | x :: xs' =>
      r ← cb x; if truthy r then Ok x else find_list cb xs'
  end.

Definition js_find (cb : jvalue → js jvalue) (v : jvalue) : js jvalue :=
  match v with JArr xs => find_list cb xs | _ => Err TypeError end.

(** [xs.map(f)], stopping at the first exception. *)
Fixpoint map_list {B} (f : jvalue → js B) (xs : list jvalue) : js (list B) :=
  match xs with
  | [] => Ok []
  | x :: xs' => y ← f x; ys ← map_list f xs'; Ok (y :: ys)
  end.

Definition js_map {B} (f : jvalue → js B) (v : jvalue) : js (list B) :=
  match v with JArr xs => map_list f xs | _ => Err TypeError end.

(** [s.split(c)] *)
Fixpoint split_on (c : ascii) (s : string) : list string :=
  match s with
  | EmptyString => [EmptyString]
  | String d rest =>
      match split_on c rest with
      | w :: ws => if Ascii.eqb d c then EmptyString :: w :: ws else String d w :: ws
      | [] => [String d EmptyString]
      end
  end.

(** [xs.findIndex(p)] on a typed array: the first index, or [-1]. *)
Fixpoint find_index {A} (p : A → bool) (xs : list A) : Z :=
  match xs with
  | [] => (-1)%Z
  | x :: xs' => if p x then 0%Z else
                  let i := find_index p xs' in if (i <? 0)%Z then (-1)%Z else (i + 1)%Z
  end.

(** An optional string where the code tests it for truthiness
    ([item.size && ...]): the empty string counts as absent. *)
Definition truthy_text (o : option string) : option string :=
  match o with Some s => if String.eqb s "" then None else Some s | None => None end.

(** [s.slice(-n)]: the last [n] characters (the whole string when it is
    shorter). *)
Definition slice_last (n : nat) (s : string) : string :=
  String.substring (String.length s - n) n s.

(** [s.toUpperCase()] on ASCII text. *)
Definition upper_ascii (c : ascii) : ascii :=
  let n := nat_of_ascii c in if (97 <=? n) && (n <=? 122) then ascii_of_nat (n - 32) else c.

Fixpoint to_upper (s : string) : string :=
  match s with EmptyString => EmptyString | String c r => String (upper_ascii c) (to_upper r) end.

(** ** TypeScript types of JSON values

    The interfaces the pages declare for the rows they read: a field
    marked optional ([k?: T]) may be absent. *)
Inductive ts_type :=
| TAny
| TString
| TNumber
| TBool
| TArray (t : ts_type)
| TObject (fields : list (string * bool * ts_type)).

Fixpoint has_type (t : ts_type) (v : jvalue) : bool :=
  match t, v with
  | TAny, _ => true
  | TString, JStr _ | TNumber, JNum _ | TBool, JBool _ => true
  | TArray t', JArr xs => forallb (has_type t') xs
  | TObject fs, JObj kvs =>
      forallb (λ f, match obj_find f.1.1 kvs with Some w => has_type f.2 w | None => f.1.2 end) fs
  | _, _ => false
  end.

(** ** [Number.prototype.toFixed(2)]

    For [0 <= x], the integer [n] for which [n / 100 - x] is closest to
    zero, the larger one on a tie ([floor(100 x + 1/2)]), printed as its
    integer part, a dot and two digits; a negative [x] is printed as a
    minus sign before the conversion of [-x].  Amounts of [10^21] and
    more, which the method prints in exponent form, are not modelled. *)
Definition cents_of (q : Q) : Z := ((200 * Qnum q + Zpos (Qden q)) / (2 * Zpos (Qden q)))%Z.

Definition two_digits (n : Z) : string := if (n <? 10)%Z then String "0" (pretty n) else pretty n.

Definition fixed2_text (n : Z) : string :=
  String.append (pretty (n / 100)%Z) (String "." (two_digits (n mod 100)%Z)).

Definition to_fixed2 (q : Q) : string :=
  if Qle_bool 0 q then fixed2_text (cents_of q) else String "-" (fixed2_text (cents_of (- q))).

(** ** Lemmas *)

Lemma js_or_truthy a b : truthy a = true → (a ||| b) = a.
Proof. unfold js_or. by intros ->. Qed.

Lemma js_or_falsy a b : truthy a = false → (a ||| b) = b.
Proof. unfold js_or. by intros ->. Qed.

Lemma js_or_str_nonempty s b : s ≠ "" → (JStr s ||| b) = JStr s.
Proof.
  intros Hs. apply js_or_truthy. simpl.
  destruct (String.eqb_spec s ""); [done | reflexivity].
Qed.

#[export] Hint Rewrite js_or_str_nonempty using done : rue_rw.

Lemma get_obj k fs : get (JObj fs) k = Ok (default JUndef (obj_find k fs)).
Proof. reflexivity. Qed.

Lemma get_ok_inv v k r : get v k = Err r → v = JUndef ∨ v = JNull.
Proof. destruct v; simpl; intros H; try discriminate; auto. Qed.

Lemma map_list_length {B} (f : jvalue → js B) xs ys :
  map_list f xs = Ok ys → length ys = length xs.
Proof.
  revert ys. induction xs as [|x xs IH]; intros ys H; simpl in H.
  - by simplify_eq.
  - destruct (f x); [|discriminate]. simpl in H.
    destruct (map_list f xs) eqn:E; [|discriminate]. simpl in H. simplify_eq.
    simpl. f_equal. by apply IH.
Qed.

Lemma map_list_ok {B} (f : jvalue → js B) (g : jvalue → B) xs :
  (∀ x, x ∈ xs → f x = Ok (g x)) → map_list f xs = Ok (map g xs).
Proof.
  induction xs as [|x xs IH]; intros Hf; [done|]. simpl.
  rewrite (Hf x) by set_solver. simpl. rewrite IH by set_solver. reflexivity.
Qed.

Lemma map_list_map_inv {A B} (f : jvalue → js B) (h : A → jvalue) (g : A → B) (l : list A) :
  (∀ x, x ∈ l → f (h x) = Ok (g x)) → map_list f (map h l) = Ok (map g l).
Proof.
  induction l as [|x l IH]; intros Hf; [done|]. simpl.
  rewrite (Hf x) by set_solver. simpl. rewrite IH by set_solver. reflexivity.
Qed.

(** When [f] throws only [e], [map_list f] throws [e] as soon as one
    element does, wherever it stands. *)
Lemma map_list_err {B} (f : jvalue → js B) (e : js_exn) x xs :
  (∀ y r, f y = Err r → r = e) → x ∈ xs → f x = Err e → map_list f xs = Err e.
Proof.
  intros Hf Hx Hfx. induction xs as [|y xs IH]; [by apply elem_of_nil in Hx|]. cbn.
  destruct (f y) as [b|r] eqn:Hy; cbn; [|by rewrite (Hf y r Hy)].
  apply elem_of_cons in Hx as [->|Hx]; [congruence|]. by rewrite IH.
Qed.

Lemma split_on_no_sep c s : (∀ i d, String.get i s = Some d → d ≠ c) → split_on c s = [s].
Proof.
  induction s as [|d s IH]; intros Hs; [done|]. cbn. rewrite IH.
  - destruct (Ascii.eqb_spec d c) as [->|]; [by destruct (Hs 0 c)|done].
  - intros i e He. exact (Hs (S i) e He).
Qed.

Lemma foldl_comma_prefix (ys : list string) (x : string) :
  ∃ r, foldl (λ acc y, String.append acc (String "," y)) x ys = String.append x r.
Proof.
  revert x. induction ys as [|y ys IH]; intros x; simpl; [exists EmptyString; by rewrite sappend_nil_r|].
  destruct (IH (String.append x (String "," y))) as [r ->].
  exists (String.append (String "," y) r). by rewrite sappend_assoc.
Qed.

(** An array whose first element is an object converts to a string
    starting with ["[object Object]"]. *)
Lemma to_js_string_objects fs xs :
  ∃ r, to_js_string (JArr (JObj fs :: xs)) = String.append "[object Object]" r.
Proof. apply foldl_comma_prefix. Qed.

Lemma find_index_range {A} (p : A → bool) xs :
  (-1 <= find_index p xs < Z.of_nat (length xs))%Z.
Proof.
  induction xs as [|x xs IH]; simpl; [lia|].
  destruct (p x); [lia|]. destruct (Z.ltb_spec (find_index p xs) 0); lia.
Qed.

Lemma find_index_neg {A} (p : A → bool) xs :
  find_index p xs = (-1)%Z ↔ (∀ x, x ∈ xs → p x = false).
Proof.
  induction xs as [|x xs IH]; simpl.
  - split; [set_solver | done].
  - destruct (p x) eqn:Hp.
    + split; [lia|]. intros H. rewrite H in Hp; [discriminate | set_solver].
    + pose proof (find_index_range p xs) as Hr.
      destruct (Z.ltb_spec (find_index p xs) 0) as [Hlt|Hge].
      * assert (find_index p xs = -1)%Z as Hm by lia.
        pose proof (proj1 IH Hm) as Hall. split; [|done]. intros _ y Hy.
        apply elem_of_cons in Hy as [->|Hy]; auto.
      * split; [lia|]. intros H. exfalso.
        assert (find_index p xs = -1)%Z; [|lia].
        apply (proj2 IH). intros y Hy. apply H. set_solver.
Qed.

(** The index [findIndex] returns is the first position where [p] holds. *)
Lemma find_index_spec {A} (p : A → bool) xs (i : nat) :
  find_index p xs = Z.of_nat i ↔
  (∃ x, xs !! i = Some x ∧ p x = true) ∧ (∀ j y, j < i → xs !! j = Some y → p y = false).
Proof.
  revert i. induction xs as [|x xs IH]; intros i; simpl.
  - split; [lia|]. intros [(y & Hy & _) _]. done.
  - destruct (p x) eqn:Hp.
    + split.
      * intros H. assert (i = 0) as -> by lia. split; [eauto|]. intros j y Hj. lia.
      * intros [(y & Hy & Hpy) Hbefore]. destruct i as [|i]; [done|].
        exfalso. specialize (Hbefore 0 x). rewrite Hbefore in Hp; [discriminate|lia|done].
    + pose proof (find_index_range p xs) as Hr.
      destruct (Z.ltb_spec (find_index p xs) 0) as [Hlt|Hge].
      * split; [lia|]. intros [(y & Hy & Hpy) Hbefore].
        destruct i as [|i]; [simpl in Hy; simplify_eq; congruence|].
        assert (find_index p xs = -1)%Z as Hm by lia.
        pose proof (proj1 (find_index_neg p xs) Hm) as Hall. rewrite Hall in Hpy; [discriminate|].
        simpl in Hy. by eapply list_elem_of_lookup_2.
      * destruct i as [|i].
        -- split; [lia|]. intros [(y & Hy & Hpy) _]. simpl in Hy. simplify_eq. congruence.
        -- assert (find_index p xs + 1 = Z.of_nat (S i) ↔ find_index p xs = Z.of_nat i)%Z
             as -> by lia.
           rewrite IH. split.
           ++ intros [Hex Hbefore]. split; [done|]. intros [|j] y Hj Hy; [simpl in Hy; by simplify_eq|].
              apply (Hbefore j); [lia|done].
           ++ intros [Hex Hbefore]. split; [done|]. intros j y Hj Hy.
              apply (Hbefore (S j)); [lia|done].
Qed.

(** ** [toFixed(2)] *)

Lemma cents_of_Z q :
  (2 * Zpos (Qden q) * cents_of q <= 200 * Qnum q + Zpos (Qden q) < 2 * Zpos (Qden q) * (cents_of q + 1))%Z.
Proof.
  unfold cents_of. set (d := (2 * Zpos (Qden q))%Z). assert (0 < d)%Z by lia.
  pose proof (Z.mod_pos_bound (200 * Qnum q + Zpos (Qden q)) d H).
  pose proof (Z.div_mod (200 * Qnum q + Zpos (Qden q)) d ltac:(lia)). lia.
Qed.

(** The printed cents are within half a cent of the amount. *)
Lemma cents_of_bounds q :
  (inject_Z (cents_of q) <= 100 * q + (1#2) ∧ 100 * q - (1#2) < inject_Z (cents_of q))%Q.
Proof.
  pose proof (cents_of_Z q) as [H1 H2]. destruct q as [a b]. cbn [Qnum Qden] in *.
  remember (cents_of (a # b)) as n eqn:Hn; clear Hn.
  split; unfold Qle, Qlt, Qminus, Qplus, Qmult, Qopp, inject_Z; cbn [Qnum Qden]; rewrite ?Pos2Z.inj_mul; lia.
Qed.

(** They depend on the amount only, not on its representation. *)
#[export] Instance cents_of_proper : Proper (Qeq ==> eq) cents_of.
Proof.
  intros q q' Hq. destruct (cents_of_bounds q) as [H1 H2], (cents_of_bounds q') as [H3 H4].
  assert (inject_Z (cents_of q) < inject_Z (cents_of q' + 1))%Q by (rewrite inject_Z_plus; change (inject_Z 1) with 1%Q; lra).
  assert (inject_Z (cents_of q') < inject_Z (cents_of q + 1))%Q by (rewrite inject_Z_plus; change (inject_Z 1) with 1%Q; lra).
  rewrite <- Zlt_Qlt in *. lia.
Qed.

Lemma cents_of_nonneg q : (0 <= q)%Q → (0 <= cents_of q)%Z.
Proof.
  intros Hq. destruct (cents_of_bounds q) as [_ H].
  assert (inject_Z (-1) < inject_Z (cents_of q))%Q by (unfold inject_Z at 1; lra).
  rewrite <- Zlt_Qlt in H0. lia.
Qed.

Lemma to_fixed2_nonneg q : (0 <= q)%Q → to_fixed2 q = fixed2_text (cents_of q).
Proof. intros Hq. unfold to_fixed2. apply Qle_bool_iff in Hq. by rewrite Hq. Qed.
