(* ===== verification/Json.v ===== *)
(** * JSON.parse and JSON.stringify

    The order page decodes the [stages] column with [JSON.parse] and its
    transitions write it back with [JSON.stringify]; checkout writes the
    legacy record the same way.  These two functions belong to the
    JavaScript platform, not to the repository, so the components are
    written against an interface, the class [JsonCodec], whose law
    [JsonCodecLaws] is the round trip the code relies on:
    [JSON.parse(JSON.stringify(v))] gives back [v] for every value built
    from [null], booleans, integers, strings, arrays and objects.

    [json_codec] is an instance: a printer ([print_json], escaping the
    double quote and the backslash in strings) and a recursive-descent parser ([parse_value],
    [parse_elems], [parse_members], bounded by a fuel argument that the
    length of the input always makes sufficient), with the round trip
    proved by induction on values.  Numbers are printed and read as
    integers: the law covers integer numbers (the digits of [pretty] are
    read back by the parser's digit scanner),
    which are the numbers of the cart the provider stores; other numbers
    are outside the law, and the printer does not model their text. *)

From S2P Require Import Prelude Js.
#[local] Set Warnings "-register-all".
From stdpp Require Import pretty.
Open Scope nat_scope.

(** ** The interface *)

Class JsonCodec := {
  json_parse : string → js jvalue;
  json_stringify : jvalue → string
}.

(** Values the round trip covers: no [undefined]; numbers only when they
    are integers (from [10^21] on [JSON.stringify] writes them in exponent
    notation where the printer writes every digit; both read back to the
    same number). *)
Fixpoint json_ok (v : jvalue) : bool :=
  match v with
  | JUndef => false
  | JNum q => (Qden q =? 1)%positive
  | JNull | JBool _ | JStr _ => true
  | JArr xs => forallb json_ok xs
  | JObj fs => forallb (λ kv, json_ok kv.2) fs
  end.

Class JsonCodecLaws `{JsonCodec} := {
  json_roundtrip : ∀ v, json_ok v = true → json_parse (json_stringify v) = Ok v;
  json_stringify_nonempty : ∀ v, json_ok v = true → json_stringify v ≠ EmptyString
}.

(** ** Induction on values *)

Section jvalue_ind.
Variable P : jvalue → Prop.
Hypothesis (HUndef : P JUndef) (HNull : P JNull) (HBool : ∀ b, P (JBool b))
  (HNum : ∀ q, P (JNum q)) (HStr : ∀ s, P (JStr s))
  (HArr : ∀ xs, Forall P xs → P (JArr xs))
  (HObj : ∀ fs, Forall (λ kv, P kv.2) fs → P (JObj fs)).

Fixpoint jvalue_ind' (v : jvalue) : P v :=
  match v with
  | JUndef => HUndef
  | JNull => HNull
  | JBool b => HBool b
  | JNum q => HNum q
  | JStr s => HStr s
  | JArr xs =>
      HArr xs ((fix go (l : list jvalue) : Forall P l :=
                  match l with [] => @List.Forall_nil _ _ | x :: l' => @List.Forall_cons _ _ x l' (jvalue_ind' x) (go l') end) xs)
  | JObj fs =>
      HObj fs ((fix go (l : list (string * jvalue)) : Forall (λ kv, P kv.2) l :=
                  match l with
                  | [] => @List.Forall_nil _ _
                  | kv :: l' => @List.Forall_cons _ _ kv l' (jvalue_ind' kv.2) (go l')
                  end) fs)
  end.
End jvalue_ind.

(** ** The printer *)

Definition dq : ascii := ascii_of_nat 34.
Definition bs : ascii := ascii_of_nat 92.

Definition needs_escape (c : ascii) : bool := Ascii.eqb c dq || Ascii.eqb c bs.

Fixpoint escape (s : string) : string :=
  match s with
  | EmptyString => EmptyString
  | String c r => if needs_escape c then String bs (String c (escape r)) else String c (escape r)
  end.

(** A string literal followed by [rest]. *)
Definition quote (s rest : string) : string := String dq (String.append (escape s) (String dq rest)).

Definition print_num (q : Q) : string := pretty (Qnum q).

(** [print_json v rest]: the text of [v] followed by [rest]. *)
Fixpoint print_json (v : jvalue) (rest : string) : string :=
  match v with
  | JUndef | JNull => String.append "null" rest
  | JBool true => String.append "true" rest
  | JBool false => String.append "false" rest
  | JNum q => String.append (print_num q) rest
  | JStr s => quote s rest
  | JArr xs =>
      String "[" ((fix elems (l : list jvalue) : string :=
                     match l with
                     | [] => String "]" rest
                     | [x] => print_json x (String "]" rest)
                     | x :: l' => print_json x (String "," (elems l'))
                     end) xs)
  | JObj fs =>
      String "{" ((fix members (l : list (string * jvalue)) : string :=
                     match l with
                     | [] => String "}" rest
                     | [(k, x)] => quote k (String ":" (print_json x (String "}" rest)))
                     | (k, x) :: l' => quote k (String ":" (print_json x (String "," (members l'))))
                     end) fs)
  end.

Definition print_elems (xs : list jvalue) (rest : string) : string :=
  (fix elems (l : list jvalue) : string :=
     match l with
     | [] => String "]" rest
     | [x] => print_json x (String "]" rest)
     | x :: l' => print_json x (String "," (elems l'))
     end) xs.

Definition print_members (fs : list (string * jvalue)) (rest : string) : string :=
  (fix members (l : list (string * jvalue)) : string :=
     match l with
     | [] => String "}" rest
     | [(k, x)] => quote k (String ":" (print_json x (String "}" rest)))
     | (k, x) :: l' => quote k (String ":" (print_json x (String "," (members l'))))
     end) fs.

(** ** The parser *)

Fixpoint parse_str (s : string) : option (string * string) :=
  match s with
  | EmptyString => None
  | String c r =>
      if Ascii.eqb c dq then Some (EmptyString, r)
      else if Ascii.eqb c bs then
        match r with
        | String c' r' =>
            if needs_escape c' then '(str, r'') ← parse_str r'; Some (String c' str, r'')
            else None
        | EmptyString => None
        end
      else '(str, r') ← parse_str r; Some (String c str, r')
  end.

Definition parse_int (s : string) : option (jvalue * string) :=
  match s with
  | String c r =>
      if Ascii.eqb c "-" then
        match take_digits r with
        | ([], _) => None
        | (ds, r') => Some (JNum (inject_Z (- digits_value ds)), r')
        end
      else
        match take_digits s with
        | ([], _) => None
        | (ds, r') => Some (JNum (inject_Z (digits_value ds)), r')
        end
  | EmptyString => None
  end.

Fixpoint parse_value (fuel : nat) (s : string) : option (jvalue * string) :=
  match fuel with
  | 0 => None
  | S f =>
      match s with
      | EmptyString => None
      | String c r =>
          if Ascii.eqb c "n" then
            if String.prefix "ull" r then Some (JNull, sdrop 3 r) else None
          else if Ascii.eqb c "t" then
            if String.prefix "rue" r then Some (JBool true, sdrop 3 r) else None
          else if Ascii.eqb c "f" then
            if String.prefix "alse" r then Some (JBool false, sdrop 4 r) else None
          else if Ascii.eqb c dq then
            '(str, r') ← parse_str r; Some (JStr str, r')
          else if Ascii.eqb c "[" then
            match r with
            | String c' r' =>
                if Ascii.eqb c' "]" then Some (JArr [], r')
                else '(xs, r'') ← parse_elems f r; Some (JArr xs, r'')
            | EmptyString => None
            end
          else if Ascii.eqb c "{" then
            match r with
            | String c' r' =>
                if Ascii.eqb c' "}" then Some (JObj [], r')
                else '(fs, r'') ← parse_members f r; Some (JObj fs, r'')
            | EmptyString => None
            end
          else parse_int s
      end
  end
with parse_elems (fuel : nat) (s : string) : option (list jvalue * string) :=
  match fuel with
  | 0 => None
  | S f =>
      '(x, r) ← parse_value f s;
      match r with
      | String c r' =>
          if Ascii.eqb c "," then '(xs, r'') ← parse_elems f r'; Some (x :: xs, r'')
          else if Ascii.eqb c "]" then Some ([x], r')
          else None
      | EmptyString => None
      end
  end
with parse_members (fuel : nat) (s : string) : option (list (string * jvalue) * string) :=
  match fuel with
  | 0 => None
  | S f =>
      match s with
      | String c r =>
          if Ascii.eqb c dq then
            '(k, r1) ← parse_str r;
            match r1 with
            | String c1 r2 =>
                if Ascii.eqb c1 ":" then
                  '(x, r3) ← parse_value f r2;
                  match r3 with
                  | String c3 r4 =>
                      if Ascii.eqb c3 "," then '(fs, r5) ← parse_members f r4; Some ((k, x) :: fs, r5)
                      else if Ascii.eqb c3 "}" then Some ([(k, x)], r4)
                      else None
                  | EmptyString => None
                  end
                else None
            | EmptyString => None
            end
          else None
      | EmptyString => None
      end
  end.

Definition parse_json (s : string) : js jvalue :=
  match parse_value (S (String.length s)) s with
  | Some (v, EmptyString) => Ok v
  | _ => Err SyntaxError
  end.

#[export] Instance json_codec : JsonCodec := {|
  json_parse := parse_json;
  json_stringify := λ v, print_json v EmptyString
|}.

(** ** The round trip *)

(** The fuel a value needs: one per nesting level and one per element. *)
Fixpoint jsize (v : jvalue) : nat :=
  match v with
  | JArr xs => S (sum_list_with (λ x, S (jsize x)) xs)
  | JObj fs => S (sum_list_with (λ kv, S (jsize kv.2)) fs)
  | _ => 1
  end.

(** ** Integers *)

Definition digit_step (acc : Z) (d : nat) : Z := (acc * 10 + Z.of_nat d)%Z.

Lemma pretty_N_char_digit (n : N) :
  (n < 10)%N → is_digit (pretty_N_char n) = true ∧ nat_of_ascii (pretty_N_char n) - 48 = N.to_nat n.
Proof.
  intros Hn. assert (n = 0 ∨ n = 1 ∨ n = 2 ∨ n = 3 ∨ n = 4 ∨ n = 5 ∨ n = 6 ∨ n = 7 ∨ n = 8 ∨ n = 9)%N
    as Hc by lia. repeat destruct Hc as [->|Hc]; try (split; reflexivity). subst. split; reflexivity.
Qed.

Lemma take_digits_pretty_N_go (x : N) (s : string) :
  ∃ ds, take_digits (pretty_N_go x s) = (ds ++ (take_digits s).1, (take_digits s).2) ∧
        ∀ acc, fold_left digit_step ds acc = (acc * 10 ^ Z.of_nat (length ds) + Z.of_N x)%Z.
Proof.
  revert s. induction (N.lt_wf_0 x) as [x _ IH]; intros s.
  destruct (decide (x = 0%N)) as [->|Hx].
  - exists []. rewrite pretty_N_go_0. destruct (take_digits s). split; [done|]. intros acc. cbn. lia.
  - rewrite pretty_N_go_step by lia.
    destruct (IH (x `div` 10)%N ltac:(apply N.div_lt; lia) (String (pretty_N_char (x `mod` 10)) s))
      as [ds [Hds Hv]].
    destruct (pretty_N_char_digit (x `mod` 10)%N ltac:(apply N.mod_lt; lia)) as [Hd Hn].
    revert Hds. cbn [take_digits]. rewrite Hd. destruct (take_digits s) as [ds0 r] eqn:E. cbn.
    intros ->. exists (ds ++ [N.to_nat (x `mod` 10)]). rewrite Hn, <-app_assoc. split; [done|].
    intros acc. rewrite fold_left_app, Hv, length_app. cbn [fold_left length]. unfold digit_step.
    rewrite Nat2Z.inj_add, Z.pow_add_r by lia. rewrite N_nat_Z, N2Z.inj_mod, N2Z.inj_div.
    pose proof (Z.div_mod (Z.of_N x) 10 ltac:(lia)). cbn. lia.
Qed.

Definition num_follow (s : string) : bool :=
  match s with String c _ => negb (is_digit c) | EmptyString => true end.

Lemma take_digits_follow s : num_follow s = true → take_digits s = ([], s).
Proof. destruct s as [|c s]; cbn; [done|]. by destruct (is_digit c). Qed.

Lemma digits_value_pos_go (x : N) rest :
  (0 < x)%N → num_follow rest = true →
  ∃ c r ds, pretty_N_go x rest = String c r ∧ is_digit c = true ∧
    take_digits (pretty_N_go x rest) = (ds, rest) ∧ digits_value ds = Z.of_N x.
Proof.
  intros Hx Hf. destruct (take_digits_pretty_N_go x rest) as [ds [Hds Hv]].
  rewrite (take_digits_follow rest Hf) in Hds. cbn [fst snd] in Hds. rewrite app_nil_r in Hds.
  assert (Hval : digits_value ds = Z.of_N x) by (unfold digits_value; rewrite Hv; lia).
  destruct (pretty_N_go x rest) as [|c r] eqn:E.
  - cbn [take_digits] in Hds. injection Hds as <- _. cbn in Hval. lia.
  - exists c, r, ds. pose proof Hds as Ht. cbn [take_digits] in Hds. destruct (is_digit c) eqn:Hc; [by split_and!|].
    injection Hds as <- _. cbn in Hval. lia.
Qed.

Lemma pretty_N_go_append x s : pretty_N_go x s = String.append (pretty_N_go x "") s.
Proof.
  revert s. induction (N.lt_wf_0 x) as [x _ IH]; intros s.
  destruct (decide (x = 0%N)) as [->|Hx]; [by rewrite !pretty_N_go_0|].
  rewrite (pretty_N_go_step x s), (pretty_N_go_step x "") by lia. set (c := pretty_N_char (x `mod` 10)).
  assert (Hlt : (x `div` 10 < x)%N) by (apply N.div_lt; lia).
  rewrite (IH _ Hlt (String c s)), (IH _ Hlt (String c "")). by rewrite sappend_assoc.
Qed.

Lemma pretty_Z_append_pos (p : positive) rest :
  String.append (pretty (Zpos p)) rest = pretty_N_go (Npos p) rest.
Proof. change (pretty (Zpos p)) with (pretty_N_go (Npos p) ""). by rewrite <-pretty_N_go_append. Qed.

Lemma is_digit_not_special c :
  is_digit c = true →
  Ascii.eqb c "n" = false ∧ Ascii.eqb c "t" = false ∧ Ascii.eqb c "f" = false ∧
  Ascii.eqb c dq = false ∧ Ascii.eqb c "[" = false ∧ Ascii.eqb c "{" = false ∧
  Ascii.eqb c "-" = false ∧ Ascii.eqb c "]" = false ∧ Ascii.eqb c "}" = false.
Proof. destruct c as [[] [] [] [] [] [] [] []]; by vm_compute. Qed.

Lemma parse_int_minus s :
  parse_int (String "-" s) =
  match take_digits s with ([], _) => None | (ds, r') => Some (JNum (inject_Z (- digits_value ds)), r') end.
Proof. reflexivity. Qed.

(** A printed integer is read back, whatever follows it but a digit. *)
Lemma parse_int_pretty z rest :
  num_follow rest = true → parse_int (String.append (pretty z) rest) = Some (JNum (inject_Z z), rest).
Proof.
  intros Hf. destruct z as [|p|p].
  - change (String.append (pretty 0%Z) rest) with (String "0" rest). cbn.
    by rewrite take_digits_follow.
  - rewrite pretty_Z_append_pos.
    destruct (digits_value_pos_go (Npos p) rest) as (c & r & ds & Hs & Hc & Ht & Hv); [lia|done|].
    rewrite Hs. cbn [parse_int]. destruct (is_digit_not_special c Hc) as (_ & _ & _ & _ & _ & _ & -> & _).
    rewrite <-Hs, Ht. destruct ds; [cbn in Hv; lia|]. by rewrite Hv.
  - change (String.append (pretty (Zneg p)) rest) with (String "-" (String.append (pretty (Zpos p)) rest)).
    rewrite pretty_Z_append_pos, parse_int_minus.
    destruct (digits_value_pos_go (Npos p) rest) as (c & r & ds & Hs & Hc & Ht & Hv); [lia|done|].
    rewrite Ht. destruct ds; [cbn in Hv; lia|]. by rewrite Hv.
Qed.

Lemma pretty_Z_head (z : Z) rest :
  ∃ c r, String.append (pretty z) rest = String c r ∧ (is_digit c || Ascii.eqb c "-") = true.
Proof.
  destruct z as [|p|p].
  - by exists "0"%char, rest.
  - rewrite pretty_Z_append_pos, pretty_N_go_append.
    destruct (digits_value_pos_go (Npos p) "") as (c & r & ds & Hs & Hc & _); [lia|done|].
    exists c, (String.append r rest). by rewrite Hs, Hc.
  - by eexists _, _.
Qed.

Lemma num_head_not_special c :
  (is_digit c || Ascii.eqb c "-") = true →
  Ascii.eqb c "n" = false ∧ Ascii.eqb c "t" = false ∧ Ascii.eqb c "f" = false ∧
  Ascii.eqb c dq = false ∧ Ascii.eqb c "[" = false ∧ Ascii.eqb c "{" = false ∧
  Ascii.eqb c "]" = false ∧ Ascii.eqb c "}" = false.
Proof.
  destruct c as [[] [] [] [] [] [] [] []]; vm_compute; intros H;
    first [discriminate H | split_and!; reflexivity].
Qed.

Lemma parse_str_quote (s rest : string) :
  parse_str (String.append (escape s) (String dq rest)) = Some (s, rest).
Proof.
  induction s as [|c s IH]; [done|].
  simpl escape. destruct (needs_escape c) eqn:He.
  - rewrite !sappend_cons. simpl. rewrite He.
    unfold needs_escape in He. destruct (Ascii.eqb c dq) eqn:Hd.
    + apply Ascii.eqb_eq in Hd as ->. by rewrite IH.
    + simpl in He. apply Ascii.eqb_eq in He as ->. by rewrite IH.
  - rewrite sappend_cons. simpl. unfold needs_escape in He.
    apply orb_false_iff in He as [-> ->]. by rewrite IH.
Qed.

(** A printed value never starts with a closing bracket. *)
Lemma print_json_head v rest :
  json_ok v = true →
  ∃ c r, print_json v rest = String c r ∧ Ascii.eqb c "]" = false ∧ Ascii.eqb c "}" = false.
Proof.
  destruct v as [| | [] | q | s | xs | fs]; simpl; try done; intros _; eauto.
  unfold print_num. destruct (pretty_Z_head (Qnum q) rest) as (c & r & -> & Hc).
  destruct (num_head_not_special c Hc) as (_ & _ & _ & _ & _ & _ & ? & ?). eauto.
Qed.

Lemma print_elems_head xs rest :
  forallb json_ok xs = true →
  ∃ c r, print_elems xs rest = String c r ∧ (xs ≠ [] → Ascii.eqb c "]" = false).
Proof.
  destruct xs as [|x [|y ys]]; simpl; [intros _; by exists "]"%char, rest|..];
    intros [Hok _]%andb_prop; edestruct print_json_head as (c & r & -> & ? & _); eauto.
Qed.

Section roundtrip.
Variable rest : string.

Lemma parse_elems_print (xs : list jvalue) :
  Forall (λ v, json_ok v = true → ∀ f rest, num_follow rest = true → jsize v ≤ f →
                parse_value f (print_json v rest) = Some (v, rest)) xs →
  forallb json_ok xs = true → xs ≠ [] →
  ∀ f, sum_list_with (λ x, S (jsize x)) xs ≤ f →
  parse_elems f (print_elems xs rest) = Some (xs, rest).
Proof.
  induction 1 as [|x xs Hx Hxs IH]; [done|]. simpl. intros [Hok Hoks]%andb_prop _ [|f] Hf; [lia|].
  destruct xs as [|y ys].
  - simpl. rewrite (Hx Hok f) by (done || lia). reflexivity.
  - change (print_elems (x :: y :: ys) rest) with (print_json x (String "," (print_elems (y :: ys) rest))).
    simpl. rewrite (Hx Hok f) by (done || lia). unfold mbind, option_bind at 1. simpl.
    rewrite (IH Hoks) by (done || simpl in *; lia). reflexivity.
Qed.

Lemma parse_members_print (fs : list (string * jvalue)) :
  Forall (λ kv, json_ok kv.2 = true → ∀ f rest, num_follow rest = true → jsize kv.2 ≤ f →
                 parse_value f (print_json kv.2 rest) = Some (kv.2, rest)) fs →
  forallb (λ kv, json_ok kv.2) fs = true → fs ≠ [] →
  ∀ f, sum_list_with (λ kv, S (jsize kv.2)) fs ≤ f →
  parse_members f (print_members fs rest) = Some (fs, rest).
Proof.
  induction 1 as [|[k x] fs Hx Hfs IH]; [done|]. simpl in Hx |- *.
  intros [Hok Hoks]%andb_prop _ [|f] Hf; [lia|].
  destruct fs as [|[k' y] fs].
  - simpl. unfold quote. rewrite parse_str_quote. simpl. rewrite (Hx Hok f) by (done || lia). reflexivity.
  - change (print_members ((k, x) :: (k', y) :: fs) rest)
      with (quote k (String ":" (print_json x (String "," (print_members ((k', y) :: fs) rest))))).
    simpl. unfold quote. rewrite parse_str_quote. simpl. rewrite (Hx Hok f) by (done || lia).
    unfold mbind, option_bind at 1. simpl.
    rewrite (IH Hoks) by (done || simpl in *; lia). reflexivity.
Qed.
End roundtrip.

Lemma parse_value_print (v : jvalue) :
  json_ok v = true → ∀ f rest, num_follow rest = true → jsize v ≤ f →
  parse_value f (print_json v rest) = Some (v, rest).
Proof.
  induction v as [| | b | q | s | xs IH | fs IH] using jvalue_ind'; simpl; intros Hok f rest Hr Hf;
    try discriminate; (destruct f as [|f]; [lia|]).
  - rewrite !sappend_cons, sappend_nil. simpl. by rewrite sprefix_nil.
  - destruct b; rewrite !sappend_cons, sappend_nil; simpl; by rewrite sprefix_nil.
  - destruct q as [n d]. cbn in Hok. destruct d; try discriminate Hok.
    unfold print_num. cbn [Qnum]. destruct (pretty_Z_head n rest) as (c & r & Hs & Hc).
    rewrite Hs. destruct (num_head_not_special c Hc) as (Hn & Ht & Hf' & Hq & Hb & Hbr & _).
    cbn [parse_value]. rewrite Hn, Ht, Hf', Hq, Hb, Hbr, <-Hs. by apply parse_int_pretty.
  - unfold quote. simpl. by rewrite parse_str_quote.
  - change (parse_value (S f) (String "[" (print_elems xs rest)) = Some (JArr xs, rest)).
    destruct (print_elems_head xs rest) as (c & r & Hc & Hc1); [done..|].
    destruct xs as [|x xs']; [done|].
    rewrite Hc. simpl. rewrite Hc1 by done. rewrite <-Hc.
    rewrite (parse_elems_print rest (x :: xs')) by (done || lia). reflexivity.
  - change (parse_value (S f) (String "{" (print_members fs rest)) = Some (JObj fs, rest)).
    destruct fs as [|[k x] fs']; [done|].
    assert (Hm : ∃ r, print_members ((k, x) :: fs') rest = String dq r) by (destruct fs' as [|[]]; eexists; reflexivity).
    destruct Hm as [r Hr0]. rewrite Hr0. simpl. rewrite <-Hr0.
    rewrite (parse_members_print rest ((k, x) :: fs')) by (done || lia). reflexivity.
Qed.

(** The text of a value is at least as long as the fuel it needs. *)
Lemma print_json_length (v : jvalue) :
  json_ok v = true → ∀ rest, jsize v + String.length rest ≤ String.length (print_json v rest).
Proof.
  induction v as [| | b | q | s | xs IH | fs IH] using jvalue_ind'; simpl; intros Hok rest; try discriminate.
  - rewrite slength_append. simpl. lia.
  - destruct b; rewrite slength_append; simpl; lia.
  - unfold print_num. destruct (pretty_Z_head (Qnum q) "") as (c & r & Hs & _).
    rewrite sappend_nil_r in Hs. rewrite slength_append, Hs. simpl. lia.
  - unfold quote. simpl. rewrite slength_append. simpl. lia.
  - assert (∀ rest, sum_list_with (λ x, S (jsize x)) xs + String.length rest
                    ≤ String.length (print_elems xs rest)) as Hel; [|exact (le_n_S _ _ (Hel rest))].
    clear rest. induction IH as [|x xs Hx Hxs IHxs]; intros rest; simpl; [lia|].
    apply andb_prop in Hok as [Hok Hoks].
    destruct xs as [|y ys].
    + specialize (Hx Hok (String "]" rest)). simpl in *. lia.
    + specialize (Hx Hok (String "," (print_elems (y :: ys) rest))). specialize (IHxs Hoks rest).
      simpl in Hx, IHxs |- *. lia.
  - assert (∀ rest, sum_list_with (λ kv, S (jsize kv.2)) fs + String.length rest
                    ≤ String.length (print_members fs rest)) as Hel; [|exact (le_n_S _ _ (Hel rest))].
    clear rest. induction IH as [|[k x] fs Hx Hfs IHfs]; intros rest; simpl in *; [lia|].
    apply andb_prop in Hok as [Hok Hoks].
    destruct fs as [|[k' y] fs]; unfold quote; simpl; rewrite slength_append; simpl.
    + specialize (Hx Hok (String "}" rest)). simpl in *. lia.
    + specialize (Hx Hok (String "," (print_members ((k', y) :: fs) rest))). specialize (IHfs Hoks rest).
      simpl in Hx, IHfs |- *. lia.
Qed.

#[export] Instance json_codec_laws : JsonCodecLaws.
Proof.
  constructor; intros v Hok; simpl; pose proof (print_json_length v Hok EmptyString) as Hlen.
  - unfold parse_json. rewrite parse_value_print by (done || simpl in *; lia). reflexivity.
  - intros Hv. rewrite Hv in Hlen. destruct v; simpl in *; lia.
Qed.

(** [JSON.parse] rejects the string conversion of an array of objects. *)
Lemma parse_json_object_text r : json_parse (String.append "[object Object]" r) = Err SyntaxError.
Proof. rewrite !sappend_cons, sappend_nil. reflexivity. Qed.

(** ** The fuel is enough *)

Lemma sdrop_length n s : String.length (sdrop n s) ≤ String.length s.
Proof. revert s. induction n as [|n IH]; intros [|c s]; cbn; try lia. specialize (IH s). lia. Qed.

Lemma take_digits_length s ds r : take_digits s = (ds, r) → String.length r + length ds = String.length s.
Proof.
  revert ds r. induction s as [|c s IH]; intros ds r; cbn; [by intros [= <- <-]|].
  destruct (is_digit c); [|by intros [= <- <-]].
  destruct (take_digits s) as [ds' r'] eqn:E. intros [= <- <-]. specialize (IH _ _ eq_refl). cbn. lia.
Qed.

Lemma parse_int_shorter s v r : parse_int s = Some (v, r) → String.length r < String.length s.
Proof.
  destruct s as [|c s]; [done|]. unfold parse_int.
  destruct (Ascii.eqb c "-").
  - destruct (take_digits s) as [ds r'] eqn:E. destruct ds; intros; simplify_eq.
    apply take_digits_length in E. cbn in *. lia.
  - remember (String c s) as s0 eqn:Hs0. destruct (take_digits s0) as [ds r'] eqn:E.
    destruct ds; intros; simplify_eq. apply take_digits_length in E. cbn in *. lia.
Qed.

Lemma parse_str_shorter s k r : parse_str s = Some (k, r) → String.length r < String.length s.
Proof.
  remember (String.length s) as n eqn:Hn. revert s k r Hn.
  induction n as [n IH] using (well_founded_induction lt_wf). intros [|c s] k r Hn; cbn; [done|].
  destruct (Ascii.eqb c dq); [intros; simplify_eq; cbn; lia|].
  destruct (Ascii.eqb c bs).
  - destruct s as [|c' s']; [done|]. destruct (needs_escape c'); [|done].
    destruct (parse_str s') as [[k' r']|] eqn:E; cbn; [|done]. intros; simplify_eq.
    specialize (IH (String.length s') ltac:(cbn; lia) s' _ _ eq_refl E). cbn. lia.
  - destruct (parse_str s) as [[k' r']|] eqn:E; cbn; [|done]. intros; simplify_eq.
    specialize (IH (String.length s) ltac:(cbn; lia) s _ _ eq_refl E). cbn. lia.
Qed.

Section fuel.
Local Abbreviation len := String.length.

(** A successful parse consumes input, and any fuel above the number of
    characters it consumes gives the same result. *)
Definition value_fuel_ok (f : nat) : Prop := ∀ s v r, parse_value f s = Some (v, r) →
  len r < len s ∧ ∀ f', len s - len r < f' → parse_value f' s = Some (v, r).
Definition elems_fuel_ok (f : nat) : Prop := ∀ s xs r, parse_elems f s = Some (xs, r) →
  len r < len s ∧ ∀ f', len s - len r < f' → parse_elems f' s = Some (xs, r).
Definition members_fuel_ok (f : nat) : Prop := ∀ s fs r, parse_members f s = Some (fs, r) →
  len r < len s ∧ ∀ f', len s - len r < f' → parse_members f' s = Some (fs, r).

Ltac same_branch :=
  repeat match goal with
  | E : ?b = true |- context [if ?b then _ else _] => rewrite E
  | E : ?b = false |- context [if ?b then _ else _] => rewrite E
  | E : ?x = Some _ |- context [?x] => rewrite E
  | E : take_digits ?x = _ |- context [take_digits ?x] => rewrite E
  | H : ∀ f', _ < f' → ?p f' ?x = _ |- context [?p ?g ?x] => rewrite (H g) by (cbn in *; lia)
  end.

(** The facts the calls of a branch give: lengths for the leaves, the
    induction hypotheses for the recursive calls. *)
Ltac fuel_facts IHv IHe IHm :=
  repeat match goal with
  | Hr : parse_value _ ?x = Some (?a, ?b) |- _ => destruct (IHv _ _ _ Hr) as [?Hlen ?Hfuel]; clear Hr
  | Hr : parse_elems _ ?x = Some (?a, ?b) |- _ => destruct (IHe _ _ _ Hr) as [?Hlen ?Hfuel]; clear Hr
  | Hr : parse_members _ ?x = Some (?a, ?b) |- _ => destruct (IHm _ _ _ Hr) as [?Hlen ?Hfuel]; clear Hr
  end;
  try match goal with Hr : parse_str _ = Some _ |- _ => pose proof (parse_str_shorter _ _ _ Hr) end;
  try match goal with Hr : parse_int _ = Some _ |- _ => pose proof (parse_int_shorter _ _ _ Hr) end;
  try match goal with Hr : take_digits _ = (_, _) |- _ => pose proof (take_digits_length _ _ _ Hr) end.

Ltac fuel_close :=
  split; [cbn in *; lia|];
  let g := fresh "g" in let Hg := fresh "Hg" in
  intros [|g] Hg; [cbn in *; lia|];
  cbn [parse_value parse_elems parse_members]; unfold mbind, option_bind; same_branch; cbn; same_branch; done.

Lemma parse_fuel_needed f : value_fuel_ok f ∧ elems_fuel_ok f ∧ members_fuel_ok f.
Proof.
  induction f as [|f (IHv & IHe & IHm)]; [split_and!; by intros ???|].
  split_and!.
  - intros [|c r0] v r H; [done|]. cbn [parse_value] in H. unfold mbind, option_bind in H.
    repeat (case_match; simplify_eq/=; try discriminate); fuel_facts IHv IHe IHm; fuel_close.
  - intros s xs r H. cbn [parse_elems] in H. unfold mbind, option_bind in H.
    repeat (case_match; simplify_eq/=; try discriminate); fuel_facts IHv IHe IHm; fuel_close.
  - intros [|c r0] fs r H; [done|]. cbn [parse_members] in H. unfold mbind, option_bind in H.
    repeat (case_match; simplify_eq/=; try discriminate); fuel_facts IHv IHe IHm; fuel_close.
Qed.

End fuel.

(** The parser's fuel is never what makes [JSON.parse] fail: with any fuel above the length of the text, the recursive
    descent gives the answer [parse_json] gives with its fuel
    [S (String.length s)], so [parse_json] is the unbounded parser. *)
Theorem parse_json_fuel_enough s f :
  String.length s < f →
  parse_json s = match parse_value f s with Some (v, EmptyString) => Ok v | _ => Err SyntaxError end.
Proof.
  intros Hf. unfold parse_json.
  enough (parse_value (S (String.length s)) s = parse_value f s) as -> by done.
  destruct (parse_value f s) as [[v r]|] eqn:E.
  - apply (proj1 (parse_fuel_needed f) _ _ _ E). lia.
  - destruct (parse_value (S (String.length s)) s) as [[v r]|] eqn:E'; [|done].
    rewrite (proj2 (proj1 (parse_fuel_needed _) _ _ _ E') f) in E by lia. discriminate.
Qed.

Lemma parse_json_fuel_enough_witness :
  parse_json "[true,null]" = match parse_value 100 "[true,null]" with Some (v, EmptyString) => Ok v | _ => Err SyntaxError end.
Proof. refine (parse_json_fuel_enough "[true,null]" 100 _). cbn. lia. Defined.

(** ** What the parser returns *)

(** A value of the JSON type: no [undefined] anywhere in it. *)
Fixpoint json_typed (v : jvalue) : bool :=
  match v with
  | JUndef => false
  | JNull | JBool _ | JNum _ | JStr _ => true
  | JArr xs => forallb json_typed xs
  | JObj fs => forallb (λ kv, json_typed kv.2) fs
  end.

Lemma parse_typed f :
  (∀ s v r, parse_value f s = Some (v, r) → json_typed v = true) ∧
  (∀ s xs r, parse_elems f s = Some (xs, r) → forallb json_typed xs = true) ∧
  (∀ s fs r, parse_members f s = Some (fs, r) → forallb (λ kv, json_typed kv.2) fs = true).
Proof.
  induction f as [|f (IHv & IHe & IHm)]; [split_and!; by intros ???|].
  split_and!; intros s x r H;
    [cbn [parse_value] in H|cbn [parse_elems] in H|cbn [parse_members] in H];
    unfold mbind, option_bind in H; repeat (case_match; simplify_eq/=; try discriminate);
    repeat match goal with
    | Hr : parse_value f _ = Some _ |- _ => apply IHv in Hr
    | Hr : parse_elems f _ = Some _ |- _ => apply IHe in Hr
    | Hr : parse_members f _ = Some _ |- _ => apply IHm in Hr
    end; cbn; rewrite ?andb_true_iff; auto.
Qed.

(** Every value [JSON.parse] returns is of the JSON type: no
    [undefined] at any depth, so the code's [||] defaults on parsed fields
    only ever see JSON values. *)
Theorem parse_json_typed s v : parse_json s = Ok v → json_typed v = true.
Proof.
  unfold parse_json. destruct (parse_value _ s) as [[v' [|c r]]|] eqn:E; intros; simplify_eq.
  by eapply (proj1 (parse_typed _)).
Qed.

Lemma parse_json_typed_witness : parse_json "[1,{}]" = Ok (JArr [JNum 1; JObj []]) ∧ json_typed (JArr [JNum 1; JObj []]) = true.
Proof.
  assert (E : parse_json "[1,{}]" = Ok (JArr [JNum 1; JObj []])) by reflexivity.
  split; [exact E|]. exact (parse_json_typed _ _ E).
Defined.
