(* ===== verification/Pricing.v ===== *)
(** * Pricing: tiered unit prices, line totals and price strings

    Models the pricing code the cart, the cart page and checkout share:
    - [cart_item], [tier]: the [CartItem] interface of the cart context
      (src/src/contexts/AuthContext.tsx, second part);
    - [getUnitPrice], [lineTotal], [subtotal], [totalItems]: the tier
      lookup ([pricing_tiers.find(t => quantity >= t.min_quantity)]) and
      the [reduce] sums (AuthContext.tsx; the same code is copied in
      Cart.tsx and Checkout.tsx);
    - [strip_price], [parse_float_digits], [parsePriceToNumber],
      [formatPriceForDisplay], [enrich_price]: the conversion of the
      catalog's prices, stored as numbers or as text such as ["KES 1,200"]
      (ProductDetail.tsx, TrackOrder.tsx).

    The spec's resolver, which picks the applicable tier of largest
    [min_quantity], is [resolve_unit_price]; the class [UnitPricing] states
    what a unit-price function promises to the totals, and both the code's
    [getUnitPrice] and the spec's resolver are instances of it. *)

From S2P Require Import Prelude Js.
Open Scope nat_scope.

(** ** Data *)

Record tier := mk_tier { min_quantity : Z; tier_price : Q }.

Record cart_item := mk_item {
  id : string;
  name : string;
  price : Q;
  quantity : Z;
  imageUrl : option string;
  pricing_tiers : option (list tier);
  size : option string;
  variant_id : option string
}.

(** ** The code's unit price *)

(** [getUnitPrice]: no tiers (absent or empty) gives the base price;
    otherwise the FIRST tier, in list order, whose [min_quantity] the
    quantity reaches. *)
Definition getUnitPrice (item : cart_item) : Q :=
  match pricing_tiers item with
  | None | Some [] => price item
  | Some tiers =>
      match find (λ t, Z.geb (quantity item) (min_quantity t)) tiers with
      | Some t => tier_price t
      | None => price item
      end
  end.

Definition lineTotal (item : cart_item) : Q :=
  (getUnitPrice item * inject_Z (quantity item))%Q.

(** [cart.reduce((sum, item) => sum + item.quantity, 0)] *)
Definition totalItems (cart : list cart_item) : Z := reduce_sumZ quantity cart.

(** [cart.reduce((sum, item) => sum + getUnitPrice(item) * item.quantity, 0)] *)
Definition subtotal (cart : list cart_item) : Q :=
  reduce_sum (λ item, getUnitPrice item * inject_Z (quantity item))%Q cart.

(** Cart.tsx's [computedSubtotal = cart.reduce((sum, item) => sum + lineTotal(item), 0)]. *)
Definition computedSubtotal (cart : list cart_item) : Q := reduce_sum lineTotal cart.

(** ** The specification's resolver *)

(** Among the tiers whose [min_quantity] is at most [q], the one with the
    largest [min_quantity], the first one on ties. *)
Fixpoint best_tier (q : Z) (tiers : list tier) : option tier :=
  match tiers with
  | [] => None
  | t :: ts =>
      let b := best_tier q ts in
      if Z.leb (min_quantity t) q then
        match b with
        | Some t' => if Z.ltb (min_quantity t) (min_quantity t') then Some t' else Some t
        | None => Some t
        end
      else b
  end.

Definition resolve_unit_price (base : Q) (tiers : list tier) (q : Z) : Q :=
  match best_tier q tiers with Some t => tier_price t | None => base end.

Definition spec_unit_price (item : cart_item) : Q :=
  resolve_unit_price (price item) (default [] (pricing_tiers item)) (quantity item).

(** ** What a unit-price function promises *)

Definition tiers_of (item : cart_item) : list tier := default [] (pricing_tiers item).

Class UnitPricing (unit_price : cart_item → Q) := {
  unit_price_no_tiers : ∀ item, tiers_of item = [] → unit_price item = price item;
  unit_price_choice : ∀ item,
    unit_price item = price item ∨
    ∃ t, t ∈ tiers_of item ∧ (min_quantity t <= quantity item)%Z ∧ unit_price item = tier_price t
}.

(** ** Price strings *)

Definition is_dot (c : ascii) : bool := Ascii.eqb c ".".

(** [s.replace(/[^\d.]/g, '')]: keep digits and dots. *)
Fixpoint strip_price (s : string) : string :=
  match s with
  | EmptyString => EmptyString
  | String c s' => if is_digit c || is_dot c then String c (strip_price s') else strip_price s'
  end.

(** [s.replace(pat, rep)] with a non-empty string pattern: the first
    occurrence only. *)
Fixpoint replace_first (pat rep s : string) : string :=
  if String.prefix pat s then String.append rep (sdrop (String.length pat) s)
  else match s with
       | EmptyString => EmptyString
       | String c s' => String c (replace_first pat rep s')
       end.

(** [parseFloat] on a string of digits and dots (all [strip_price] leaves):
    the longest prefix [digits ('.' digits)?] with at least one digit, or
    [NaN] ([None]).  Signs, exponents, whitespace and [Infinity], which
    [parseFloat] also accepts, cannot occur in such a string. *)
Definition parse_float_digits (s : string) : option Q :=
  let '(ip, r) := take_digits s in
  match r with
  | String c r' =>
      if is_dot c then
        let '(fp, _) := take_digits r' in
        match ip, fp with
        | [], [] => None
        | _, _ => Some (inject_Z (digits_value ip) +
                        Qmake (digits_value fp) (Z.to_pos (10 ^ Z.of_nat (length fp))))%Q
        end
      else match ip with [] => None | _ => Some (inject_Z (digits_value ip)) end
  | EmptyString => match ip with [] => None | _ => Some (inject_Z (digits_value ip)) end
  end.

(** A price as the store returns it: absent, a number or a text. *)
Inductive raw_price : Type :=
| PAbsent
| PNum (q : Q)
| PStr (s : string).

(** ProductDetail.tsx [parsePriceToNumber]:
    [parseFloat(rawPrice.replace('KES ', '').replace(/[^\d.]/g, '')) || 0]. *)
Definition parsePriceToNumber (r : raw_price) : Q :=
  match r with
  | PAbsent => 0%Q
  | PNum q => q
  | PStr s =>
      match parse_float_digits (strip_price (replace_first "KES " "" s)) with
      | Some q => if Qeq_bool q 0 then 0%Q else q
      | None => 0%Q
      end
  end.

(** [s.includes(pat)]. *)
Fixpoint str_includes (pat s : string) : bool :=
  String.prefix pat s ||
  match s with EmptyString => false | String _ s' => str_includes pat s' end.

(** ProductDetail.tsx [formatPriceForDisplay]: the text shown for a price
    (numbers are printed by the JavaScript number-to-string conversion,
    which is passed in as [show_num]). *)
Definition formatPriceForDisplay (show_num : Q → string) (r : raw_price) : string :=
  match r with
  | PAbsent => "KES ___"
  | PNum q => String.append "KES " (show_num q)
  | PStr s => if str_includes "KES" s then s else String.append "KES " s
  end.

(** TrackOrder.tsx item enrichment, line 116 (product) and 121 (variant):
    [typeof p === 'string' ? parseFloat(p.replace(/[^\d.]/g, '')) : (p as number) || fallback]
    with [NaN] as [None]. *)
Definition enrich_price (r : raw_price) (fallback : option Q) : option Q :=
  match r with
  | PStr s => parse_float_digits (strip_price s)
  | PNum q => if Qeq_bool q 0 then fallback else Some q
  | PAbsent => fallback
  end.

(** ** Executable side conditions *)

(** Tiers listed by non-increasing, resp. strictly increasing, [min_quantity]. *)
Fixpoint tiers_desc (ts : list tier) : bool :=
  match ts with
  | t :: ((t' :: _) as ts') => Z.leb (min_quantity t') (min_quantity t) && tiers_desc ts'
  | _ => true
  end.

Fixpoint tiers_asc (ts : list tier) : bool :=
  match ts with
  | t :: ((t' :: _) as ts') => Z.ltb (min_quantity t) (min_quantity t') && tiers_asc ts'
  | _ => true
  end.

(** A well-formed line: non-negative quantity and price, and every tier
    price between 0 and the base price. *)
Definition item_okb (item : cart_item) : bool :=
  Z.leb 0 (quantity item) && Qle_bool 0 (price item) &&
  forallb (λ t, Qle_bool 0 (tier_price t) && Qle_bool (tier_price t) (price item)) (tiers_of item).

(** ** Lemmas on the tier lookups *)

Lemma getUnitPrice_find item :
  getUnitPrice item =
  match find (λ t, Z.geb (quantity item) (min_quantity t)) (tiers_of item) with
  | Some t => tier_price t | None => price item end.
Proof. unfold getUnitPrice, tiers_of. by destruct (pricing_tiers item) as [[|]|]. Qed.

Lemma best_tier_sound q ts t :
  best_tier q ts = Some t → t ∈ ts ∧ (min_quantity t <= q)%Z.
Proof.
  induction ts as [|t0 ts IH]; simpl; [discriminate|].
  destruct (Z.leb_spec (min_quantity t0) q) as [Hle|Hgt].
  - destruct (best_tier q ts) as [t'|] eqn:Hb.
    + destruct (Z.ltb _ _); intros H; simplify_eq.
      * destruct (IH eq_refl). split; [set_solver|done].
      * split; [set_solver|done].
    + intros H; simplify_eq. split; [set_solver|done].
  - intros H. destruct (IH H). split; [set_solver|done].
Qed.

Lemma tiers_desc_cons t ts :
  tiers_desc (t :: ts) = true → tiers_desc ts = true ∧ ∀ t', t' ∈ ts → (min_quantity t' <= min_quantity t)%Z.
Proof.
  revert t. induction ts as [|t1 ts IH]; intros t; simpl.
  - intros _. split; [done|set_solver].
  - intros [H1 H2]%andb_prop. apply Z.leb_le in H1. split; [done|].
    destruct (IH t1 H2) as [_ Hall]. intros t' Ht'.
    apply elem_of_cons in Ht' as [->|Ht']; [done|]. specialize (Hall t' Ht'). lia.
Qed.

(** On tiers sorted by decreasing threshold, the first applicable tier is
    the applicable tier of largest threshold. *)
Lemma find_desc_best q ts :
  tiers_desc ts = true → find (λ t, Z.geb q (min_quantity t)) ts = best_tier q ts.
Proof.
  induction ts as [|t ts IH]; intros Hs; [done|].
  destruct (tiers_desc_cons t ts Hs) as [Hs' Hle]. simpl.
  rewrite Z.geb_leb. destruct (Z.leb_spec (min_quantity t) q); [|by apply IH].
  rewrite <-(IH Hs'). destruct (find _ ts) as [t'|] eqn:Hf; [|done].
  apply find_some in Hf as [Hin _]. apply list_elem_of_In in Hin.
  specialize (Hle t' Hin). destruct (Z.ltb_spec (min_quantity t) (min_quantity t')); [lia|done].
Qed.

Lemma tiers_asc_head t ts :
  tiers_asc (t :: ts) = true → ∀ t', t' ∈ ts → (min_quantity t < min_quantity t')%Z.
Proof.
  revert t. induction ts as [|t1 ts IH]; intros t; simpl; [set_solver|].
  intros [H1 H2]%andb_prop. apply Z.ltb_lt in H1. intros t' Ht'.
  apply elem_of_cons in Ht' as [->|Ht']; [done|]. specialize (IH t1 H2 t' Ht'). lia.
Qed.

#[export] Instance getUnitPrice_pricing : UnitPricing getUnitPrice.
Proof.
  split.
  - intros item H. rewrite getUnitPrice_find, H. done.
  - intros item. rewrite getUnitPrice_find.
    destruct (find _ _) as [t|] eqn:Hf; [|by left].
    right. exists t. apply find_In_true in Hf as [Hin Hq].
    split; [done|]. split; [|done]. apply Z.geb_le in Hq. lia.
Qed.

#[export] Instance spec_unit_price_pricing : UnitPricing spec_unit_price.
Proof.
  split.
  - intros item H. unfold spec_unit_price, resolve_unit_price.
    fold (tiers_of item). by rewrite H.
  - intros item. unfold spec_unit_price, resolve_unit_price. fold (tiers_of item).
    destruct (best_tier _ _) as [t|] eqn:Hb; [|by left].
    right. exists t. apply best_tier_sound in Hb as [??]. done.
Qed.

(** ** Totals, proved for any unit-price function *)

Section Totals.
Context (unit_price : cart_item → Q) `{!UnitPricing unit_price}.

Definition subtotal_with (cart : list cart_item) : Q :=
  reduce_sum (λ item, unit_price item * inject_Z (quantity item))%Q cart.

Definition base_total (cart : list cart_item) : Q :=
  reduce_sum (λ item, price item * inject_Z (quantity item))%Q cart.

Lemma unit_price_bounds item :
  item_okb item = true → (0 <= unit_price item <= price item)%Q.
Proof.
  unfold item_okb. intros [[Hq Hp]%andb_prop Hts]%andb_prop.
  apply Qle_bool_imp_le in Hp. rewrite forallb_forall in Hts.
  destruct (unit_price_choice item) as [->|(t & Ht & _ & ->)].
  - split; [done|apply Qle_refl].
  - apply list_elem_of_In in Ht. apply Hts, andb_prop in Ht as [H0 H1].
    apply Qle_bool_imp_le in H0, H1. done.
Qed.

Lemma line_bounds item :
  item_okb item = true →
  (0 <= unit_price item * inject_Z (quantity item) <= price item * inject_Z (quantity item))%Q.
Proof.
  intros Hok. destruct (unit_price_bounds item Hok) as [H0 H1].
  assert (0 <= inject_Z (quantity item))%Q.
  { unfold item_okb in Hok. apply andb_prop in Hok as [[Hq _]%andb_prop _].
    apply Z.leb_le in Hq. change 0%Q with (inject_Z 0). by rewrite <-Zle_Qle. }
  split; [by apply Qmult_le_0_compat|]. by apply Qmult_le_compat_r.
Qed.

Lemma subtotal_with_bounds cart :
  forallb item_okb cart = true →
  (0 <= subtotal_with cart <= base_total cart)%Q.
Proof.
  unfold subtotal_with, base_total. induction cart as [|item cart IH]; simpl.
  - intros _. split; apply Qle_refl.
  - intros [Hi Hc]%andb_prop. rewrite !reduce_sum_cons.
    destruct (IH Hc). destruct (line_bounds item Hi). lra.
Qed.
End Totals.

(** ** Lemmas on price strings *)

Lemma strip_price_append s1 s2 :
  strip_price (String.append s1 s2) = String.append (strip_price s1) (strip_price s2).
Proof.
  induction s1 as [|c s1 IH]; simpl; [done|].
  destruct (is_digit c || is_dot c); simpl; by rewrite IH.
Qed.

Lemma prefix_append_sdrop p s :
  String.prefix p s = true → s = String.append p (sdrop (String.length p) s).
Proof.
  revert s. induction p as [|c p IH]; intros [|c' s]; simpl; try done.
  destruct (Ascii.ascii_dec c c') as [Heq|]; [subst c'|discriminate].
  intros H. rewrite (IH s H) at 1. reflexivity.
Qed.

Lemma strip_replace_first pat s :
  strip_price pat = EmptyString →
  strip_price (replace_first pat EmptyString s) = strip_price s.
Proof.
  intros Hp. induction s as [|c s IH].
  - destruct pat; reflexivity.
  - change (replace_first pat EmptyString (String c s)) with
      (if String.prefix pat (String c s)
       then String.append EmptyString (sdrop (String.length pat) (String c s))
       else String c (replace_first pat EmptyString s)).
    destruct (String.prefix pat (String c s)) eqn:E.
    + change (String.append EmptyString ?x) with x.
      rewrite (prefix_append_sdrop pat (String c s) E) at 2.
      rewrite strip_price_append, Hp. reflexivity.
    + simpl. destruct (is_digit c || is_dot c); by rewrite IH.
Qed.

Lemma digits_value_nonneg ds : (0 <= digits_value ds)%Z.
Proof.
  unfold digits_value.
  assert (∀ a, 0 <= a → 0 <= fold_left (λ acc d, acc * 10 + Z.of_nat d) ds a)%Z as H.
  { induction ds as [|d ds IH]; intros a Ha; simpl; [done|]. apply IH. lia. }
  apply H. lia.
Qed.

Lemma parse_float_digits_nonneg s q : parse_float_digits s = Some q → (0 <= q)%Q.
Proof.
  assert (∀ ds, 0 <= inject_Z (digits_value ds))%Q as Hi.
  { intros ds. change 0%Q with (inject_Z 0). rewrite <-Zle_Qle. apply digits_value_nonneg. }
  unfold parse_float_digits. destruct (take_digits s) as [ip r].
  destruct r as [|c r'].
  - destruct ip; intros H; simplify_eq. apply Hi.
  - destruct (is_dot c).
    + destruct (take_digits r') as [fp rest].
      pose proof (Hi ip) as Hip.
      assert (0 <= Qmake (digits_value fp) (Z.to_pos (10 ^ Z.of_nat (length fp))))%Q as Hf.
      { unfold Qle. simpl. pose proof (digits_value_nonneg fp). lia. }
      intros H. destruct ip, fp; simplify_eq; lra.
    + destruct ip; intros H; simplify_eq. apply Hi.
Qed.

(** A string with no digit. *)
Fixpoint no_digit (s : string) : bool :=
  match s with EmptyString => true | String c s' => negb (is_digit c) && no_digit s' end.

Lemma strip_no_digit s : no_digit s = true → no_digit (strip_price s) = true.
Proof.
  induction s as [|c s IH]; simpl; [done|].
  intros [Hc Hs]%andb_prop. destruct (is_digit c || is_dot c); simpl; [|auto].
  rewrite Hc. simpl. auto.
Qed.

Lemma take_digits_no_digit s : no_digit s = true → take_digits s = ([], s).
Proof.
  destruct s as [|c s]; simpl; [done|].
  intros [Hc _]%andb_prop. apply negb_true_iff in Hc. by rewrite Hc.
Qed.

Lemma parse_float_no_digit s : no_digit s = true → parse_float_digits s = None.
Proof.
  intros Hs. unfold parse_float_digits. rewrite take_digits_no_digit by done.
  destruct s as [|c r]; [done|]. destruct (is_dot c); [|done].
  simpl in Hs. apply andb_prop in Hs as [_ Hr].
  by rewrite take_digits_no_digit.
Qed.

Lemma prefix_self_append p s : String.prefix p (String.append p s) = true.
Proof.
  induction p as [|c p IH]; [by destruct s|]. simpl.
  destruct (Ascii.ascii_dec c c); [done|congruence].
Qed.

Lemma sdrop_self_append p s : sdrop (String.length p) (String.append p s) = s.
Proof. induction p as [|c p IH]; [done|]. exact IH. Qed.

Lemma subtotal_with_getUnitPrice cart : subtotal cart = subtotal_with getUnitPrice cart.
Proof. reflexivity. Qed.

(** ** Properties *)

(** C9 [refinement]: when the tiers are listed by decreasing threshold, the
    code's first-match lookup [getUnitPrice] computes the specification's
    unit price (the applicable tier of largest [min_quantity], else the base
    price). *)
Theorem getUnitPrice_refines_spec item :
  tiers_desc (tiers_of item) = true → getUnitPrice item = spec_unit_price item.
Proof.
  intros Hd. rewrite getUnitPrice_find.
  unfold spec_unit_price, resolve_unit_price. fold (tiers_of item).
  by rewrite find_desc_best.
Qed.

(** C26 [functional]: when the tiers are listed by increasing threshold (the
    order the product page displays them in), [getUnitPrice] only ever
    charges the first tier's price or the base price: every later, larger
    discount is unreachable. *)
Theorem getUnitPrice_ascending_first_only item t ts :
  tiers_of item = t :: ts → tiers_asc (t :: ts) = true →
  getUnitPrice item =
  (if Z.leb (min_quantity t) (quantity item) then tier_price t else price item).
Proof.
  intros Ht Hasc. rewrite getUnitPrice_find, Ht. simpl.
  rewrite Z.geb_leb. destruct (Z.leb_spec (min_quantity t) (quantity item)); [done|].
  rewrite find_None_intro; [done|]. intros t' Ht'.
  pose proof (tiers_asc_head t ts Hasc t' Ht'). rewrite Z.geb_leb. apply Z.leb_gt. lia.
Qed.

(** For lines with non-negative quantities and prices whose
    tier prices lie between 0 and the base price, the cart subtotal lies
    between 0 and the undiscounted total. *)
Theorem subtotal_bounds cart :
  forallb item_okb cart = true → (0 <= subtotal cart <= base_total cart)%Q.
Proof. intros H. rewrite subtotal_with_getUnitPrice. by apply (subtotal_with_bounds getUnitPrice). Qed.


(** A price text never parses to a negative number. *)
Theorem parsePriceToNumber_nonneg s : (0 <= parsePriceToNumber (PStr s))%Q.
Proof.
  simpl. destruct (parse_float_digits _) as [q|] eqn:E; [|apply Qle_refl].
  destruct (Qeq_bool q 0); [apply Qle_refl|]. by eapply parse_float_digits_nonneg.
Qed.

(** Parsing the text the product page displays for a
    price text gives back the price of that text. *)
Theorem parse_formatted_price show_num s :
  parsePriceToNumber (PStr (formatPriceForDisplay show_num (PStr s))) =
  parsePriceToNumber (PStr s).
Proof.
  simpl. destruct (str_includes "KES" s); [done|].
  rewrite !strip_replace_first by reflexivity.
  by rewrite strip_price_append.
Qed.

(** For a price text without any digit (such as ["n/a"]), the
    order page's item enrichment computes [NaN] while the product page's
    [parsePriceToNumber] computes 0. *)
Theorem enrich_price_no_digit_nan s fallback :
  no_digit s = true →
  enrich_price (PStr s) fallback = None ∧ parsePriceToNumber (PStr s) = 0%Q.
Proof.
  intros Hs. simpl. rewrite strip_replace_first by reflexivity.
  rewrite parse_float_no_digit by (by apply strip_no_digit). done.
Qed.

(** ** Witnesses *)

Definition example_tiers_asc : list tier := [mk_tier 5 90; mk_tier 10 80].

Definition example_line (q : Z) (ts : list tier) : cart_item :=
  mk_item "p1" "Rue Foliar - 1L" 100 q None (Some ts) (Some "1L") (Some "v1").

Lemma getUnitPrice_refines_spec_witness :
  tiers_desc (tiers_of (example_line 10 (rev example_tiers_asc))) = true ∧
  getUnitPrice (example_line 10 (rev example_tiers_asc)) =
  spec_unit_price (example_line 10 (rev example_tiers_asc)).
Proof.
  split; [reflexivity|]. apply getUnitPrice_refines_spec. reflexivity.
Defined.

Lemma getUnitPrice_ascending_first_only_witness :
  getUnitPrice (example_line 10 example_tiers_asc) = 90%Q.
Proof.
  rewrite (getUnitPrice_ascending_first_only _ (mk_tier 5 90) [mk_tier 10 80]);
    reflexivity.
Defined.

Lemma subtotal_bounds_witness :
  (0 <= subtotal [example_line 10 example_tiers_asc; example_line 1 []]
     <= base_total [example_line 10 example_tiers_asc; example_line 1 []])%Q.
Proof. apply subtotal_bounds. vm_compute. reflexivity. Defined.

Lemma enrich_price_no_digit_nan_witness :
  enrich_price (PStr "n/a") (Some 0%Q) = None ∧ parsePriceToNumber (PStr "n/a") = 0%Q.
Proof. apply enrich_price_no_digit_nan. reflexivity. Defined.

(** The specification's table (tiers 5 ↦ 90 and 10 ↦ 80 over base 100, at
    quantities 1, 5, 9 and 10) against the code. *)
Example spec_table_code :
  map (λ q, getUnitPrice (example_line q example_tiers_asc)) [1; 5; 9; 10]%Z = [100; 90; 90; 90]%Q.
Proof. reflexivity. Qed.

Example spec_table_spec :
  map (λ q, spec_unit_price (example_line q example_tiers_asc)) [1; 5; 9; 10]%Z = [100; 90; 90; 80]%Q.
Proof. reflexivity. Qed.

Example parse_kes_example : parsePriceToNumber (PStr "KES 1,200.50") = (120050 # 100)%Q.
Proof. reflexivity. Qed.
