(* ===== verification/Cart.v ===== *)
(** * The cart: [cartReducer] as a state machine

    Models the cart context of src/src/contexts/AuthContext.tsx (second
    part): the [CartAction] union, the [cartReducer] over the list of cart
    lines, and the provider's operations [addItem], [updateQuantity],
    [removeItem] and [clearCart], each a [dispatch] of one action.  Lines are
    keyed by the PRODUCT id ([item.id]); the variant is only data of the
    line.

    The invariant [cart_wf] (distinct product ids, every quantity at least
    1) holds of every cart reachable from the empty cart by actions the
    pages can dispatch ([reachable], by rule induction). *)

From S2P Require Import Prelude Js Pricing.
Open Scope nat_scope.

(** ** Data and operations *)

Inductive cart_action : Type :=
| ADD_ITEM (payload : cart_item)
| UPDATE_QUANTITY (item_id : string) (q : Z)
| REMOVE_ITEM (item_id : string)
| CLEAR_CART.

(** [{ ...item, quantity: q }] *)
Definition with_quantity (item : cart_item) (q : Z) : cart_item :=
  mk_item (id item) (name item) (price item) q (imageUrl item)
          (pricing_tiers item) (size item) (variant_id item).

Definition same_id (i : string) (item : cart_item) : bool := String.eqb (id item) i.

Definition cartReducer (state : list cart_item) (action : cart_action) : list cart_item :=
  match action with
  | ADD_ITEM p =>
      match find (same_id (id p)) state with
      | Some _ =>
          map (λ item, if same_id (id p) item
                       then with_quantity item (quantity item + quantity p) else item) state
      | None => state ++ [p]
      end
  | UPDATE_QUANTITY i q =>
      List.filter (λ item, Z.ltb 0 (quantity item))
        (map (λ item, if same_id i item then with_quantity item (Z.max 1 q) else item) state)
  | REMOVE_ITEM i => List.filter (λ item, negb (same_id i item)) state
  | CLEAR_CART => []
  end.

(** The provider's operations. *)
Definition addItem (cart : list cart_item) (item : cart_item) : list cart_item :=
  cartReducer cart (ADD_ITEM item).
Definition updateQuantity (cart : list cart_item) (i : string) (q : Z) : list cart_item :=
  cartReducer cart (UPDATE_QUANTITY i q).
Definition removeItem (cart : list cart_item) (i : string) : list cart_item :=
  cartReducer cart (REMOVE_ITEM i).
Definition clearCart (cart : list cart_item) : list cart_item := cartReducer cart CLEAR_CART.

(** ** The invariant and the reachable carts *)

Definition cart_wf (cart : list cart_item) : Prop :=
  NoDup (map id cart) ∧ Forall (λ item, (1 <= quantity item)%Z) cart.

(** Actions the pages dispatch: the product page adds at least one unit
    ([Math.max(1, prev + delta)]); the others are unconstrained. *)
Definition action_ok (a : cart_action) : bool :=
  match a with ADD_ITEM p => Z.leb 1 (quantity p) | _ => true end.

Inductive reachable : list cart_item → Prop :=
| reachable_empty : reachable []
| reachable_step cart a :
    reachable cart → action_ok a = true → reachable (cartReducer cart a).

(** ** Lemmas *)

Lemma map_id_with_quantity_map (f : cart_item → bool) (g : cart_item → Z) cart :
  map id (map (λ item, if f item then with_quantity item (g item) else item) cart) = map id cart.
Proof. induction cart as [|x cart IH]; simpl; [done|]. destruct (f x); simpl; by rewrite IH. Qed.

Lemma NoDup_map_filter {A B} (f : A → B) (p : A → bool) xs :
  NoDup (map f xs) → NoDup (map f (List.filter p xs)).
Proof.
  induction xs as [|x xs IH]; simpl; [done|]. intros [Hx Hnd]%NoDup_cons.
  destruct (p x); simpl; [|auto]. constructor; [|auto].
  intros Hin. apply Hx. apply list_elem_of_In, in_map_iff in Hin as (y & <- & Hy).
  apply list_elem_of_In, in_map_iff. exists y. split; [done|].
  apply filter_In in Hy as [??]. done.
Qed.

Lemma Forall_with_quantity_map (f : cart_item → bool) (g : cart_item → Z) cart :
  Forall (λ item, 1 <= quantity item)%Z cart →
  (∀ item, item ∈ cart → f item = true → 1 <= g item)%Z →
  Forall (λ item, 1 <= quantity item)%Z
    (map (λ item, if f item then with_quantity item (g item) else item) cart).
Proof.
  induction cart as [|x cart IH]; intros Hall Hg; simpl; [done|].
  apply Forall_cons in Hall as [Hx Hall]. constructor.
  - destruct (f x) eqn:E; [|done]. simpl. apply Hg; [set_solver|done].
  - apply IH; [done|]. intros y Hy. apply Hg. set_solver.
Qed.

Lemma not_in_ids_find p cart :
  find (same_id (id p)) cart = None → id p ∉ map id cart.
Proof.
  intros Hf Hin. apply list_elem_of_In, in_map_iff in Hin as (x & Hx & Hin).
  apply list_elem_of_In in Hin. pose proof (find_None_false _ _ _ Hf Hin) as H.
  unfold same_id in H. rewrite Hx, String.eqb_refl in H. discriminate.
Qed.

#[export] Hint Resolve NoDup_map_filter Forall_with_quantity_map : rue.

(** One dispatch of an admitted action keeps the invariant. *)
Lemma cartReducer_wf cart a :
  cart_wf cart → action_ok a = true → cart_wf (cartReducer cart a).
Proof.
  intros [Hnd Hq] Ha. destruct a as [p|i q|i|]; simpl in *.
  - apply Z.leb_le in Ha. destruct (find (same_id (id p)) cart) eqn:Hf.
    + split; [by rewrite map_id_with_quantity_map|].
      apply Forall_with_quantity_map; [done|]. intros x Hx _.
      rewrite Forall_forall in Hq. specialize (Hq x Hx). lia.
    + split.
      * rewrite map_app. simpl. apply NoDup_app. split; [done|]. split; [|apply NoDup_singleton].
        intros x Hx ->%list_elem_of_singleton. by apply (not_in_ids_find p cart).
      * apply Forall_app. split; [done|]. by constructor.
  - split.
    + apply NoDup_map_filter. by rewrite map_id_with_quantity_map.
    + apply Forall_List_filter. apply Forall_with_quantity_map; [done|]. intros. lia.
  - split; [by apply NoDup_map_filter|]. by apply Forall_List_filter.
  - split; constructor.
Qed.

(** ** Properties *)

(** C28 [invariant]: every action the pages dispatch preserves the cart
    invariant: product ids stay distinct and every quantity stays at least 1. *)
Theorem cartReducer_preserves_wf cart a :
  cart_wf cart → action_ok a = true → cart_wf (cartReducer cart a).
Proof. apply cartReducer_wf. Qed.

(** Every cart reachable from the empty cart satisfies the
    invariant (rule induction on [reachable]). *)
Theorem reachable_cart_wf cart : reachable cart → cart_wf cart.
Proof.
  induction 1 as [|cart a _ IH Ha].
  - split; constructor.
  - by apply cartReducer_wf.
Qed.

Lemma map_same_id_noop i (g : cart_item → Z) cart :
  (∀ x, x ∈ cart → same_id i x = false) →
  map (λ item, if same_id i item then with_quantity item (g item) else item) cart = cart.
Proof.
  induction cart as [|x cart IH]; intros H; simpl; [done|].
  rewrite H by set_solver. f_equal. apply IH. set_solver.
Qed.

Lemma same_id_true i x : same_id i x = true ↔ id x = i.
Proof. unfold same_id. apply String.eqb_eq. Qed.

Lemma same_id_fresh i cart :
  i ∉ map id cart → ∀ x, x ∈ cart → same_id i x = false.
Proof.
  intros Hi x Hx. destruct (same_id i x) eqn:E; [|done].
  apply same_id_true in E. exfalso. apply Hi. subst. by apply list_elem_of_fmap_2.
Qed.

Lemma totalItems_merge p cart :
  NoDup (map id cart) → find (same_id (id p)) cart ≠ None →
  totalItems (map (λ item, if same_id (id p) item
                           then with_quantity item (quantity item + quantity p) else item) cart) =
  (totalItems cart + quantity p)%Z.
Proof.
  unfold totalItems. induction cart as [|x cart IH]; simpl; [done|].
  intros [Hx Hnd]%NoDup_cons Hf. rewrite !reduce_sumZ_cons.
  destruct (same_id (id p) x) eqn:E; simpl.
  - apply same_id_true in E. rewrite map_same_id_noop; [simpl; lia|].
    apply same_id_fresh. by rewrite <-E.
  - rewrite IH; [lia|done|done].
Qed.

Lemma filter_pos_noop (xs : list cart_item) :
  Forall (λ item, 1 <= quantity item)%Z xs → List.filter (λ item, Z.ltb 0 (quantity item)) xs = xs.
Proof.
  induction xs as [|x xs IH]; simpl; [done|]. intros [Hx Hxs]%Forall_cons.
  destruct (Z.ltb_spec 0 (quantity x)); [|lia]. by rewrite IH.
Qed.

Lemma map_with_quantity_preserves (f : cart_item → bool) (g : cart_item → Z) cart x :
  x ∈ map (λ item, if f item then with_quantity item (g item) else item) cart →
  ∃ y, y ∈ cart ∧ id x = id y ∧ variant_id x = variant_id y.
Proof.
  intros (y & -> & Hy)%list_elem_of_fmap. exists y. split; [done|].
  destruct (f y); done.
Qed.

(** On a well-formed cart, adding a line increases the
    item count shown in the header by exactly the added quantity, whether
    the product was already in the cart (quantities merged) or not (line
    appended). *)
Theorem totalItems_addItem cart p :
  cart_wf cart → totalItems (addItem cart p) = (totalItems cart + quantity p)%Z.
Proof.
  intros [Hnd _]. unfold addItem. simpl.
  destruct (find (same_id (id p)) cart) eqn:Hf.
  - apply totalItems_merge; [done|congruence].
  - unfold totalItems. rewrite reduce_sumZ_app.
    change (reduce_sumZ quantity [p]) with (0 + quantity p)%Z. lia.
Qed.

(** On a well-formed cart, [UPDATE_QUANTITY] never removes
    a line, whatever the requested quantity (0 and negative ones included):
    [Math.max(1, q)] makes the reducer's "remove if quantity becomes 0"
    filter dead code. *)
Theorem updateQuantity_keeps_lines cart i q :
  cart_wf cart → map id (updateQuantity cart i q) = map id cart.
Proof.
  intros [_ Hq]. unfold updateQuantity. simpl.
  rewrite filter_pos_noop; [apply map_id_with_quantity_map|].
  apply Forall_with_quantity_map; [done|]. intros. lia.
Qed.

(** Adding a second size (variant) of a product that is
    already in the cart does not add a line for that variant: the quantity
    is merged into the existing line, which keeps its own variant, size and
    price, so no line of the resulting cart carries the new variant. *)
Theorem addItem_loses_variant cart p :
  (∃ it, it ∈ cart ∧ id it = id p) →
  (∀ it, it ∈ cart → variant_id it ≠ variant_id p) →
  ∀ x, x ∈ addItem cart p → variant_id x ≠ variant_id p.
Proof.
  intros (it & Hit & Hid) Hvar x Hx. unfold addItem in Hx. simpl in Hx.
  destruct (find (same_id (id p)) cart) eqn:Hf.
  - apply map_with_quantity_preserves in Hx as (y & Hy & _ & ->). by apply Hvar.
  - exfalso. pose proof (find_None_false _ _ _ Hf Hit) as H.
    unfold same_id in H. rewrite Hid, String.eqb_refl in H. discriminate.
Qed.

(** ** Witnesses *)

Definition foliar_1l : cart_item :=
  mk_item "p1" "Rue Foliar - 1L" 900 2 None None (Some "1L") (Some "v-1l").
Definition foliar_5l : cart_item :=
  mk_item "p1" "Rue Foliar - 5L" 4000 1 None None (Some "5L") (Some "v-5l").
Definition compost_bag : cart_item :=
  mk_item "p2" "Compost - 50kg" 1500 3 None (Some [mk_tier 5 1400]) (Some "50kg") (Some "v-50").

Lemma cart_wf_example : cart_wf [foliar_1l; compost_bag].
Proof.
  split.
  - simpl. repeat constructor; simpl; set_solver.
  - repeat constructor; simpl; lia.
Qed.

Lemma cartReducer_preserves_wf_witness :
  cart_wf (cartReducer [foliar_1l; compost_bag] (ADD_ITEM foliar_5l)).
Proof. apply cartReducer_preserves_wf; [apply cart_wf_example|reflexivity]. Defined.

Lemma reachable_cart_wf_witness : cart_wf (addItem (addItem [] foliar_1l) compost_bag).
Proof.
  apply reachable_cart_wf. unfold addItem.
  repeat (apply reachable_step; [|reflexivity]). apply reachable_empty.
Defined.

Lemma totalItems_addItem_witness :
  totalItems (addItem [foliar_1l; compost_bag] foliar_5l) = 6%Z.
Proof. rewrite totalItems_addItem; [reflexivity|apply cart_wf_example]. Defined.

Lemma updateQuantity_keeps_lines_witness :
  map id (updateQuantity [foliar_1l; compost_bag] "p2" 0) = ["p1"; "p2"].
Proof. rewrite updateQuantity_keeps_lines; [reflexivity|apply cart_wf_example]. Defined.

Lemma addItem_loses_variant_witness : variant_id (with_quantity foliar_1l 3) ≠ Some "v-5l".
Proof.
  apply (addItem_loses_variant [foliar_1l; compost_bag] foliar_5l).
  - exists foliar_1l. split; [set_solver|reflexivity].
  - intros it Hit. repeat (apply elem_of_cons in Hit as [->|Hit]; [discriminate|]).
    by apply elem_of_nil in Hit.
  - vm_compute. apply elem_of_cons. left. reflexivity.
Defined.
