(* ===== verification/Stages.v ===== *)
(** * The stage decoder of the order tracking page

    Models lines 131-176 of src/src/pages/TrackOrder.tsx: the [try] block
    that turns the order's [stages] column into the list of stages the
    page shows, and extracts the delivery address and instructions that
    Checkout.tsx stored there.  The block assigns the outer variables
    [deliveryAddress] and [instructions] as it goes, and any exception
    (a [SyntaxError] of JSON.parse, a [TypeError] on a [null] element)
    sends it to the [catch] branch, which substitutes the default
    workflow but keeps whatever was assigned before the throw.  The block
    is therefore modelled in a state-and-exception monad [stx]: the state
    is the pair of delivery variables, and it survives an exception.

    - [Stage.t]: the [Stage] interface ([name], [timestamp], [completed]),
      with [name] and [timestamp] as the JavaScript values the code puts
      there (the code does not coerce them to strings);
    - [normalize_stage]: the [map] callback
      [{ name: s.name || s.stage || 'Unknown', timestamp: s.timestamp || '',
      completed: !!s.completed }];
    - [stages_try], [parse_stages]: the [try]/[catch];
    - [stages_source], [decode_stages]: [JSON.parse(data.stages || '[]')]
      through the platform's JSON codec ([JsonCodec], file [Json]);
    - [stage_to_json], [encode_stages]: [JSON.stringify(updatedStages)] as
      the transitions write it, and the round trip [decode_encode_canonical]
      against any codec satisfying [JsonCodecLaws]. *)

From S2P Require Import Prelude Js Json.
Open Scope nat_scope.

(** ** Stages *)

Module Stage.
Record t := mk { name : jvalue; timestamp : jvalue; completed : bool }.
End Stage.

(** ** The state-and-exception monad of the [try] block *)

Record dstate := mk_dstate { deliveryAddress : jvalue; instructions : jvalue }.

Definition init_dstate : dstate := mk_dstate (JStr "") (JStr "").

Definition stx (A : Type) : Type := dstate → js A * dstate.

#[export] Instance stx_ret : MRet stx := λ A a s, (Ok a, s).
#[export] Instance stx_bind : MBind stx :=
  λ A B f c s, match c s with (Ok a, s') => f a s' | (Err e, s') => (Err e, s') end.

Definition lift {A} (c : js A) : stx A := λ s, (c, s).
Definition set_address (v : jvalue) : stx unit :=
  λ s, (Ok tt, mk_dstate v (instructions s)).
Definition set_instructions (v : jvalue) : stx unit :=
  λ s, (Ok tt, mk_dstate (deliveryAddress s) v).

(** ** The default workflow *)

(** The six stage objects of lines 143-150 (the legacy delivery record),
    before the normalizing [map]. *)
Definition default_stage_objects (created_at : jvalue) : list jvalue :=
  [ JObj [("name", JStr "Order Placed"); ("completed", JBool true); ("timestamp", created_at)];
    JObj [("name", JStr "Payment Pending"); ("completed", JBool false); ("timestamp", JStr "")];
    JObj [("name", JStr "Processing"); ("completed", JBool false); ("timestamp", JStr "")];
    JObj [("name", JStr "Shipped"); ("completed", JBool false); ("timestamp", JStr "")];
    JObj [("name", JStr "Delivered"); ("completed", JBool false); ("timestamp", JStr "")];
    JObj [("name", JStr "Confirmed Received"); ("completed", JBool false); ("timestamp", JStr "")] ].

(** The six stages of lines 168-175 (the [catch] branch), not normalized. *)
Definition fallback_stages (created_at : jvalue) : list Stage.t :=
  [ Stage.mk (JStr "Order Placed") created_at true;
    Stage.mk (JStr "Payment Pending") (JStr "") false;
    Stage.mk (JStr "Processing") (JStr "") false;
    Stage.mk (JStr "Shipped") (JStr "") false;
    Stage.mk (JStr "Delivered") (JStr "") false;
    Stage.mk (JStr "Confirmed Received") (JStr "") false ].

(** ** The decoder *)

Definition normalize_stage (s : jvalue) : js Stage.t :=
  n ← get s "name";
  n' ← (if truthy n then Ok n else st ← get s "stage"; Ok (st ||| JStr "Unknown"));
  ts ← get s "timestamp";
  c ← get s "completed";
  Ok (Stage.mk n' (ts ||| JStr "") (truthy c)).

(** [parsedStages.length === 1 && parsedStages[0].stage === 'delivery'] *)
Definition is_delivery_record (ps : jvalue) : js bool :=
  len ← get ps "length";
  if js_eq_num len 1 then
    s0 ← get_index ps 0; st ← get s0 "stage"; Ok (js_eq_str st "delivery")
  else Ok false.

(** [deliveryAddress = d.address || ''; instructions = d.instructions || ''] *)
Definition extract_delivery (d : jvalue) : stx unit :=
  a ← lift (get d "address");
  set_address (a ||| JStr "");;
  i ← lift (get d "instructions");
  set_instructions (i ||| JStr "").

(** Lines 139-158: the legacy delivery record is replaced by the default
    workflow; otherwise the first entry with a truthy [address] provides
    the delivery variables. *)
Definition select_stages (ps : jvalue) (created_at : jvalue) : stx jvalue :=
  legacy ← lift (is_delivery_record ps);
  if (legacy : bool) then
    s0 ← lift (get_index ps 0);
    extract_delivery s0;;
    mret (JArr (default_stage_objects created_at))
  else
    d ← lift (js_find (λ s, get s "address") ps);
    (if truthy d then extract_delivery d else mret tt);;
    mret ps.

(** Lines 136-164: from JSON.parse's result to the normalized stages. *)
Definition stages_try (parsed : js jvalue) (created_at : jvalue) : stx (list Stage.t) :=
  ps ← lift parsed;
  ps' ← select_stages ps created_at;
  lift (js_map normalize_stage ps').

(** The [try]/[catch] of lines 135-176: the stages and the delivery
    variables the page ends up with. *)
Definition parse_stages (parsed : js jvalue) (created_at : jvalue) : list Stage.t * dstate :=
  match stages_try parsed created_at init_dstate with
  | (Ok stages, st) => (stages, st)
  | (Err _, st) => (fallback_stages created_at, st)
  end.

(** [data.stages || '[]'], converted to a string as [JSON.parse] converts
    its argument: the column is whatever the store returns for it (text,
    [null], or an already decoded JSON value). *)
Definition stages_source (raw : jvalue) : string :=
  if truthy raw then to_js_string raw else "[]".

Definition decode_stages `{JsonCodec} (raw : jvalue) (created_at : jvalue)
  : list Stage.t * dstate :=
  parse_stages (json_parse (stages_source raw)) created_at.

(** ** Encoding

    The transitions write [JSON.stringify(updatedStages)], where every
    element is a normalized stage [{ name, timestamp, completed }] or its
    spread with [completed] and [timestamp] overridden (lines 223, 228,
    247 and 252); both have the keys in this order. *)
Definition stage_to_json (s : Stage.t) : jvalue :=
  JObj [("name", Stage.name s); ("timestamp", Stage.timestamp s);
        ("completed", JBool (Stage.completed s))].

Definition encode_stages `{JsonCodec} (stages : list Stage.t) : string :=
  json_stringify (JArr (map stage_to_json stages)).

(** A stage as the transitions produce it: a non-empty name and a string
    timestamp. *)
Definition canonical_stage (s : Stage.t) : bool :=
  match Stage.name s, Stage.timestamp s with
  | JStr n, JStr _ => negb (String.eqb n "")
  | _, _ => false
  end.

(** The default workflow after the normalizing [map]. *)
Definition default_stages (created_at : jvalue) : list Stage.t :=
  [ Stage.mk (JStr "Order Placed") (created_at ||| JStr "") true;
    Stage.mk (JStr "Payment Pending") (JStr "") false;
    Stage.mk (JStr "Processing") (JStr "") false;
    Stage.mk (JStr "Shipped") (JStr "") false;
    Stage.mk (JStr "Delivered") (JStr "") false;
    Stage.mk (JStr "Confirmed Received") (JStr "") false ].

(** ** Lemmas *)

Lemma stx_bind_ok {A B} (c : stx A) (f : A → stx B) s a s' :
  c s = (Ok a, s') → (c ≫= f) s = f a s'.
Proof. intros H. unfold mbind, stx_bind. by rewrite H. Qed.

Lemma stx_bind_err {A B} (c : stx A) (f : A → stx B) s e s' :
  c s = (Err e, s') → (c ≫= f) s = (Err e, s').
Proof. intros H. unfold mbind, stx_bind. by rewrite H. Qed.

Lemma is_delivery_record_legacy fs :
  obj_find "stage" fs = Some (JStr "delivery") → is_delivery_record (JArr [JObj fs]) = Ok true.
Proof. intros H. unfold is_delivery_record. cbn. by rewrite H. Qed.

Lemma map_default_objects created_at :
  map_list normalize_stage (default_stage_objects created_at) = Ok (default_stages created_at).
Proof. reflexivity. Qed.

Lemma extract_delivery_ok d s :
  truthy d = true → extract_delivery d s = (Ok tt, snd (extract_delivery d s)).
Proof. by destruct d as [| |[]| | | |]. Qed.

(** Whatever [parse_stages] returns is one of its three shapes. *)
Lemma stages_try_ok_shape parsed created_at stages st :
  stages_try parsed created_at init_dstate = (Ok stages, st) →
  stages = default_stages created_at ∨
  ∃ xs, parsed = Ok (JArr xs) ∧ map_list normalize_stage xs = Ok stages.
Proof.
  unfold stages_try, mbind, stx_bind, lift at 1.
  destruct parsed as [ps|e]; [|discriminate].
  destruct (select_stages ps created_at init_dstate) as [[ps'|e] s'] eqn:Hsel; [|discriminate].
  intros H. injection H as Hmap _.
  unfold select_stages, mbind, stx_bind, lift at 1 in Hsel.
  destruct (is_delivery_record ps) as [[|]|e]; [| |discriminate].
  - unfold lift at 1 in Hsel. destruct (get_index ps 0) as [s0|e]; [|discriminate].
    destruct (extract_delivery s0 init_dstate) as [[[]|e] s1]; [|discriminate].
    injection Hsel as <- _. left. cbn [js_map] in Hmap.
    rewrite map_default_objects in Hmap. congruence.
  - unfold lift at 1 in Hsel. destruct (js_find _ ps) as [d|e] eqn:Hf; [|discriminate].
    destruct ((if truthy d then extract_delivery d else mret tt) init_dstate) as [[[]|e] s1];
      [|discriminate].
    injection Hsel as <- _. right. destruct ps; try discriminate. eauto.
Qed.

Lemma js_or_str_empty t : (JStr t ||| JStr "") = JStr t.
Proof. unfold js_or. simpl. by destruct (String.eqb_spec t ""); subst. Qed.

Lemma normalize_encoded s :
  canonical_stage s = true → normalize_stage (stage_to_json s) = Ok s.
Proof.
  destruct s as [n t c]. unfold canonical_stage. simpl.
  destruct n as [| | | |n| |]; try discriminate; destruct t as [| | | |t| |]; try discriminate.
  intros Hn. unfold normalize_stage. cbn. rewrite Hn. simpl. by rewrite js_or_str_empty.
Qed.

Lemma find_address_encoded l :
  find_list (λ s, get s "address") (map stage_to_json l) = Ok JUndef.
Proof. induction l as [|s l IH]; [done|]. cbn. exact IH. Qed.

Lemma is_delivery_record_encoded l :
  is_delivery_record (JArr (map stage_to_json l)) = Ok false.
Proof.
  unfold is_delivery_record. cbn. case_match; [|done]. by destruct l.
Qed.

Lemma encoded_json_ok l :
  forallb canonical_stage l = true → json_ok (JArr (map stage_to_json l)) = true.
Proof.
  induction l as [|[n t c] l IH]; [done|]. simpl in *. intros [Hs Hl]%andb_prop.
  rewrite (IH Hl). unfold canonical_stage in Hs. simpl in Hs.
  destruct n; try discriminate; destruct t; try discriminate. done.
Qed.

(** ** Properties *)

(** C8 [functional]: the legacy shape written by checkout, a one-element
    list whose entry has [stage: "delivery"], decodes to the six-stage
    default workflow, with only "Order Placed" completed at the order's
    creation time, and yields the entry's address and instructions. *)
Theorem parse_stages_legacy fs created_at :
  obj_find "stage" fs = Some (JStr "delivery") →
  parse_stages (Ok (JArr [JObj fs])) created_at =
  (default_stages created_at,
   mk_dstate (default JUndef (obj_find "address" fs) ||| JStr "")
             (default JUndef (obj_find "instructions" fs) ||| JStr "")).
Proof.
  intros H. unfold parse_stages, stages_try, select_stages, mbind, stx_bind, lift at 1 2.
  rewrite is_delivery_record_legacy by done. reflexivity.
Qed.

(** The decoder always produces one of three results:
    the [catch] branch's default workflow, the normalized default workflow
    (legacy record), or the element-wise normalization of the parsed array
    (one stage per element, in order). *)
Theorem parse_stages_shapes parsed created_at :
  let stages := fst (parse_stages parsed created_at) in
  stages = fallback_stages created_at ∨ stages = default_stages created_at ∨
  ∃ xs, parsed = Ok (JArr xs) ∧ map_list normalize_stage xs = Ok stages ∧
        length stages = length xs.
Proof.
  simpl. unfold parse_stages.
  destruct (stages_try parsed created_at init_dstate) as [[stages|e] st] eqn:E; simpl; [|by left].
  right. apply stages_try_ok_shape in E as [->|(xs & -> & Hm)]; [by left|right].
  exists xs. split; [done|]. split; [done|]. by eapply map_list_length.
Qed.

(** The delivery variables are assigned inside the [try]
    block, so an exception raised later in the block (a [null] entry
    reaching the normalizing [map]) replaces the stages by the default
    workflow but keeps the address and instructions already extracted. *)
Theorem parse_stages_throw_keeps_delivery xs d e created_at :
  is_delivery_record (JArr xs) = Ok false →
  find_list (λ s, get s "address") xs = Ok d → truthy d = true →
  map_list normalize_stage xs = Err e →
  parse_stages (Ok (JArr xs)) created_at =
  (fallback_stages created_at, snd (extract_delivery d init_dstate)).
Proof.
  intros Hl Hf Hd Hm. unfold parse_stages, stages_try, select_stages, mbind, stx_bind, lift at 1 2.
  rewrite Hl. unfold lift, js_find. rewrite Hf, Hd.
  destruct (extract_delivery d init_dstate) as [r s1] eqn:Ex.
  assert (r = Ok tt) as ->.
  { rewrite extract_delivery_ok in Ex by done. by simplify_eq. }
  unfold mret, stx_ret. cbn [js_map]. by rewrite Hm.
Qed.

Section codec.
Context `{JsonCodecLaws}.

(** Decoding [JSON.stringify] of a list of canonical stages gives the same
    list and no delivery information, for every codec satisfying the laws. *)
Lemma decode_encode_canonical stages created_at :
  forallb canonical_stage stages = true →
  decode_stages (JStr (encode_stages stages)) created_at = (stages, init_dstate).
Proof.
  intros Hc. pose proof (encoded_json_ok stages Hc) as Hok.
  unfold decode_stages, stages_source, encode_stages.
  simpl. destruct (String.eqb_spec (json_stringify (JArr (map stage_to_json stages))) "") as [He|_].
  { by destruct (json_stringify_nonempty _ Hok). }
  simpl.
  rewrite json_roundtrip by done.
  unfold parse_stages, stages_try, select_stages, mbind, stx_bind, lift at 1 2.
  rewrite is_delivery_record_encoded. unfold lift, js_find.
  rewrite find_address_encoded. unfold mret, stx_ret. cbn [truthy js_map].
  rewrite (map_list_map_inv _ _ id); [by rewrite list_fmap_id|].
  intros s Hs. apply normalize_encoded. by apply (proj1 (forallb_forall _ _) Hc), list_elem_of_In.
Qed.
End codec.

(** ** Witnesses *)

Definition legacy_fields : list (string * jvalue) :=
  [("stage", JStr "delivery"); ("address", JStr "Plot 12, Ngong Road");
   ("instructions", JStr "Call on arrival"); ("status", JStr "pending")].

Lemma parse_stages_legacy_witness :
  parse_stages (Ok (JArr [JObj legacy_fields])) (JStr "2025-03-01T10:00:00Z") =
  (default_stages (JStr "2025-03-01T10:00:00Z"),
   mk_dstate (JStr "Plot 12, Ngong Road") (JStr "Call on arrival")).
Proof. apply parse_stages_legacy. reflexivity. Defined.

Definition entry_with_address : jvalue :=
  JObj [("name", JStr "Order Placed"); ("completed", JBool true); ("address", JStr "Plot 12")].

Lemma parse_stages_throw_keeps_delivery_witness :
  parse_stages (Ok (JArr [entry_with_address; JNull])) (JStr "t0") =
  (fallback_stages (JStr "t0"), mk_dstate (JStr "Plot 12") (JStr "")).
Proof.
  apply (parse_stages_throw_keeps_delivery _ entry_with_address TypeError);
    reflexivity.
Defined.

