(* ===== verification/OrderMachine.v ===== *)
(** * The order's stage list as a state machine

    Models the pure part of the two transitions of
    src/src/pages/TrackOrder.tsx and the guards the page puts on them:
    - [current_index]: [order.stages.findIndex(s => !s.completed)];
    - [advance_stages]: the stage update and the new [status] computed by
      [advanceStage] (lines 218-232): complete the current stage with the
      time [now], and report the name of the next one, but only when the
      current stage is not the last one ([currentIndex < stages.length - 1]);
    - [confirm_stages]: the same for [confirmReceipt] (lines 242-255): if
      the LAST stage is not completed, complete it and report
      ["Confirmed Received"];
    - [mark_done_visible], [confirm_visible]: the rendering conditions of
      the two buttons that trigger them (lines 377, 395 and 414);
    - [ui_step], [ui_reachable]: the transitions a buyer can trigger from
      the page, as a step relation, and its reflexive-transitive closure.

    The invariant the specification asks for, "completion is monotonic and
    a prefix" ([prefix_completed]), is preserved by [advance_stages] and
    broken by [confirm_stages].  Both transitions keep stages canonical
    (string names and timestamps), so what they write through the stage
    encoder of file [Stages] decodes back to itself ([transitions_roundtrip],
    for every codec satisfying [JsonCodecLaws]). *)

From S2P Require Import Prelude Js Json Stages.
From Stdlib Require Import Wellfounded Wf_nat.
From stdpp Require Import relations.
Open Scope nat_scope.

(** ** The machine *)

Definition current_index (stages : list Stage.t) : Z :=
  find_index (λ s, negb (Stage.completed s)) stages.

(** [{ ...stage, completed: true, timestamp: now }] *)
Definition complete_stage (now : jvalue) (s : Stage.t) : Stage.t :=
  Stage.mk (Stage.name s) now true.

(** [advanceStage], lines 220-228: the new status and stage list, or
    [None] when the handler does nothing. *)
Definition advance_stages (stages : list Stage.t) (now : jvalue) : option (jvalue * list Stage.t) :=
  let ci := current_index stages in
  if Z.ltb (-1) ci && Z.ltb ci (Z.of_nat (length stages) - 1) then
    let i := Z.to_nat ci in
    let updated := alter (complete_stage now) i stages in
    match updated !! (i + 1) with
    | Some next => Some (Stage.name next, updated)
    | None => None
    end
  else None.

(** [confirmReceipt], lines 243-251: reading [order.stages[length - 1].completed]
    throws a [TypeError] on an empty list. *)
Definition confirm_stages (stages : list Stage.t) (now : jvalue)
  : js (option (jvalue * list Stage.t)) :=
  match last stages with
  | None => Err TypeError
  | Some s =>
      if Stage.completed s then Ok None
      else Ok (Some (JStr "Confirmed Received",
                     alter (complete_stage now) (length stages - 1) stages))
  end.

(** The "Mark as Done" button: on the current stage, when its name is
    ["Confirmed Received"] (lines 377 and 395). *)
Definition mark_done_visible (stages : list Stage.t) : bool :=
  let ci := current_index stages in
  Z.leb 0 ci &&
  match stages !! Z.to_nat ci with
  | Some s => negb (Stage.completed s) && js_eq_str (Stage.name s) "Confirmed Received"
  | None => false
  end.

(** The "Confirm Received" button:
    [order.stages[order.stages.length - 1].name === 'Delivered' &&
    !order.stages[order.stages.length - 1].completed] (line 414), evaluated
    on every render; on an empty list it reads a property of [undefined]
    and throws. *)
Definition confirm_visible (stages : list Stage.t) : js bool :=
  match last stages with
  | Some s => Ok (js_eq_str (Stage.name s) "Delivered" && negb (Stage.completed s))
  | None => Err TypeError
  end.

Inductive ui_step : list Stage.t → list Stage.t → Prop :=
| ui_advance stages now st stages' :
    mark_done_visible stages = true →
    advance_stages stages now = Some (st, stages') →
    ui_step stages stages'
| ui_confirm stages now st stages' :
    confirm_visible stages = Ok true →
    confirm_stages stages now = Ok (Some (st, stages')) →
    ui_step stages stages'.

Inductive ui_reachable (init : list Stage.t) : list Stage.t → Prop :=
| ui_reach_init : ui_reachable init init
| ui_reach_step s s' : ui_reachable init s → ui_step s s' → ui_reachable init s'.

(** ** The invariant *)

(** Completed stages form a prefix of the list. *)
Fixpoint prefix_completed (stages : list Stage.t) : bool :=
  match stages with
  | [] => true
  | s :: rest =>
      if Stage.completed s then prefix_completed rest
      else forallb (λ s', negb (Stage.completed s')) rest
  end.

Definition count_completed (stages : list Stage.t) : nat :=
  length (List.filter Stage.completed stages).

Abbreviation done_stages := (Forall (λ x, Stage.completed x = true)).
Abbreviation pending_stages := (forallb (λ x, negb (Stage.completed x))).

(** ** Lemmas *)

(** Every stage list is either fully completed, or splits at its first
    pending stage. *)
Lemma stages_split (l : list Stage.t) :
  done_stages l ∨
  ∃ c s u, l = c ++ s :: u ∧ done_stages c ∧ Stage.completed s = false.
Proof.
  induction l as [|x l IH]; [left; constructor|].
  destruct (Stage.completed x) eqn:Hx.
  - destruct IH as [H|(c & s & u & -> & Hc & Hs)].
    + left. by constructor.
    + right. exists (x :: c), s, u. split; [done|]. split; [by constructor|done].
  - right. exists [], x, l. done.
Qed.

Lemma current_index_split c s u :
  done_stages c → Stage.completed s = false →
  current_index (c ++ s :: u) = Z.of_nat (length c).
Proof.
  unfold current_index. induction c as [|x c IH]; intros Hc Hs; simpl.
  - by rewrite Hs.
  - apply Forall_cons in Hc as [Hx Hc]. rewrite Hx. simpl. rewrite IH by done.
    destruct (Z.ltb_spec (Z.of_nat (length c)) 0); lia.
Qed.

Lemma current_index_done l : done_stages l → current_index l = (-1)%Z.
Proof.
  intros H. apply find_index_neg. intros x Hx.
  rewrite Forall_forall in H. by rewrite (H x Hx).
Qed.

Lemma pending_prefix_completed u : pending_stages u = true → prefix_completed u = true.
Proof. destruct u as [|x u]; simpl; [done|]. by intros [->%negb_true_iff ?]%andb_prop. Qed.

Lemma prefix_completed_split c s u :
  done_stages c → Stage.completed s = false →
  prefix_completed (c ++ s :: u) = pending_stages u.
Proof.
  induction c as [|x c IH]; intros Hc Hs; simpl; [by rewrite Hs|].
  apply Forall_cons in Hc as [Hx Hc]. rewrite Hx. auto.
Qed.

Lemma prefix_completed_app c u :
  done_stages c → pending_stages u = true → prefix_completed (c ++ u) = true.
Proof.
  induction c as [|x c IH]; intros Hc Hu; simpl; [by apply pending_prefix_completed|].
  apply Forall_cons in Hc as [Hx Hc]. rewrite Hx. auto.
Qed.

Lemma count_completed_app l1 l2 :
  count_completed (l1 ++ l2) = count_completed l1 + count_completed l2.
Proof. unfold count_completed. by rewrite List.filter_app, length_app. Qed.

Lemma count_completed_cons s l :
  count_completed (s :: l) = (if Stage.completed s then 1 else 0) + count_completed l.
Proof. unfold count_completed. simpl. by destruct (Stage.completed s). Qed.

Lemma count_completed_done c : done_stages c → count_completed c = length c.
Proof.
  induction c as [|x c IH]; intros Hc; [done|]. apply Forall_cons in Hc as [Hx Hc].
  unfold count_completed in *. simpl. rewrite Hx. simpl. auto.
Qed.

Lemma count_completed_pending u : pending_stages u = true → count_completed u = 0.
Proof.
  induction u as [|x u IH]; [done|]. simpl. intros [Hx Hu]%andb_prop.
  apply negb_true_iff in Hx. unfold count_completed in *. simpl. rewrite Hx. auto.
Qed.

Lemma alter_at_split (f : Stage.t → Stage.t) c s u :
  alter f (length c) (c ++ s :: u) = c ++ f s :: u.
Proof. rewrite (alter_app_r_alt f c (s :: u)); [|lia]. by rewrite Nat.sub_diag. Qed.

(** [advanceStage] on a list whose first pending stage is [s]: it
    completes [s] when a stage follows it, and does nothing otherwise. *)
Lemma advance_stages_split c s u now :
  done_stages c → Stage.completed s = false →
  advance_stages (c ++ s :: u) now =
  match u with
  | [] => None
  | n :: _ => Some (Stage.name n, c ++ complete_stage now s :: u)
  end.
Proof.
  intros Hc Hs. unfold advance_stages. rewrite current_index_split by done.
  rewrite length_app. simpl length. rewrite Nat2Z.id.
  destruct u as [|n u].
  - simpl length. destruct (Z.ltb_spec (Z.of_nat (length c)) (Z.of_nat (length c + 1) - 1)); [lia|].
    by rewrite andb_false_r.
  - destruct (Z.ltb_spec (-1) (Z.of_nat (length c))); [|lia].
    destruct (Z.ltb_spec (Z.of_nat (length c)) (Z.of_nat (length c + S (length (n :: u))) - 1));
      [|simpl in *; lia].
    simpl. rewrite alter_at_split.
    rewrite lookup_app_r by lia. replace (length c + 1 - length c) with 1 by lia. done.
Qed.

Lemma advance_stages_done l now : done_stages l → advance_stages l now = None.
Proof. intros H. unfold advance_stages. by rewrite current_index_done. Qed.

#[export] Hint Resolve prefix_completed_app pending_prefix_completed : rue.

Lemma advance_stages_last l now st l' :
  advance_stages l now = Some (st, l') → last l' = last l.
Proof.
  destruct (stages_split l) as [Hd|(c & s & u & -> & Hc & Hs)].
  - by rewrite advance_stages_done.
  - rewrite advance_stages_split by done. destruct u as [|n u]; [done|].
    intros H; simplify_eq. by rewrite !last_app_cons, !last_cons_cons.
Qed.

Lemma pending_alter_complete now u i :
  i < length u → pending_stages (alter (complete_stage now) i u) = false.
Proof.
  revert i. induction u as [|x u IH]; intros [|i] Hi;
    [simpl in Hi; lia | simpl in Hi; lia | reflexivity |].
  change (alter (complete_stage now) (S i) (x :: u)) with (x :: alter (complete_stage now) i u).
  simpl in Hi. change (pending_stages (x :: ?r)) with (negb (Stage.completed x) && pending_stages r).
  rewrite IH by lia. apply andb_false_r.
Qed.

Lemma ui_step_default created_at l : ¬ ui_step (default_stages created_at) l.
Proof. intros Hs. by inversion Hs. Qed.

Lemma canonical_complete_stage now s :
  canonical_stage s = true → canonical_stage (complete_stage (JStr now) s) = true.
Proof. destruct s as [[] [] c]; by unfold canonical_stage. Qed.

Lemma canonical_alter_complete now i l :
  forallb canonical_stage l = true →
  forallb canonical_stage (alter (complete_stage (JStr now)) i l) = true.
Proof.
  revert i. induction l as [|x l IH]; intros [|i]; [done..| |]; intros [Hx Hl]%andb_prop.
  - change (canonical_stage (complete_stage (JStr now) x) && forallb canonical_stage l = true).
    by rewrite canonical_complete_stage.
  - change (canonical_stage x && forallb canonical_stage (alter (complete_stage (JStr now)) i l) = true).
    by rewrite Hx, IH.
Qed.

(** Both transitions write the list with one stage completed. *)
Lemma advance_stages_alter l now st l' :
  advance_stages l now = Some (st, l') → ∃ i, l' = alter (complete_stage now) i l.
Proof. unfold advance_stages. repeat case_match; intros; simplify_eq; eauto. Qed.

Lemma confirm_stages_alter l now st l' :
  confirm_stages l now = Ok (Some (st, l')) → ∃ i, l' = alter (complete_stage now) i l.
Proof. unfold confirm_stages. repeat case_match; intros; simplify_eq; eauto. Qed.

(** ** Termination of the buyer's clicks *)

Lemma count_completed_le l : count_completed l ≤ length l.
Proof. unfold count_completed. induction l as [|x l IH]; cbn; [lia|]. destruct (Stage.completed x); cbn; lia. Qed.

(** Completing the first pending stage, or the last one, adds one
    completed stage. *)
Lemma count_completed_complete c s u now :
  Stage.completed s = false →
  count_completed (c ++ complete_stage now s :: u) = S (count_completed (c ++ s :: u)).
Proof. intros Hs. rewrite !count_completed_app, !count_completed_cons, Hs. cbn. lia. Qed.

(** Each step the page offers keeps the length and completes one more
    stage. *)
Lemma ui_step_count l l' : ui_step l l' → length l' = length l ∧ count_completed l < count_completed l'.
Proof.
  intros [stages now st stages' _ Ha | stages now st stages' _ Hc].
  - destruct (stages_split stages) as [Hd|(c & s & u & -> & Hcd & Hs)];
      [by rewrite advance_stages_done in Ha|].
    rewrite advance_stages_split in Ha by done. destruct u as [|n u]; [done|]. simplify_eq.
    rewrite count_completed_complete by done. rewrite !length_app. cbn. lia.
  - unfold confirm_stages in Hc. destruct (last stages) as [s|] eqn:Hl; [|done].
    destruct (Stage.completed s) eqn:Hs; [done|]. simplify_eq.
    apply last_Some in Hl as [c ->]. rewrite length_app, Nat.add_sub, alter_at_split.
    rewrite count_completed_complete by done. rewrite !length_app. cbn. lia.
Qed.

Lemma ui_nsteps_count n l l' : nsteps ui_step n l l' → length l' = length l ∧ n + count_completed l ≤ count_completed l'.
Proof.
  induction 1 as [|n l1 l2 l3 Hs _ [IHl IHc]]; [lia|].
  destruct (ui_step_count _ _ Hs). lia.
Qed.

(** ** Properties *)

(** C1 [functional]: [advanceStage] on a list whose first pending stage
    [s] is followed by another stage [n] completes [s] at time [now], leaves
    every other stage as it was, and sets the status to [n]'s name. *)
Theorem advanceStage_completes_current c s n u now :
  done_stages c → Stage.completed s = false →
  advance_stages (c ++ s :: n :: u) now =
  Some (Stage.name n, c ++ complete_stage now s :: n :: u).
Proof. intros Hc Hs. by rewrite advance_stages_split. Qed.

(** [advanceStage] does nothing when every stage is
    completed (terminal order) and also when the only pending stage left
    is the last one. *)
Theorem advanceStage_noop_at_end l now :
  done_stages l ∨ (∃ c s, l = c ++ [s] ∧ done_stages c ∧ Stage.completed s = false) →
  advance_stages l now = None.
Proof.
  intros [Hd|(c & s & -> & Hc & Hs)]; [by apply advance_stages_done|].
  by rewrite advance_stages_split.
Qed.

(** C2 [invariant]: [advanceStage] preserves the invariant that completed
    stages form a prefix of the list, and completes exactly one stage. *)
Theorem advanceStage_preserves_prefix l now st l' :
  prefix_completed l = true → advance_stages l now = Some (st, l') →
  prefix_completed l' = true ∧ count_completed l' = S (count_completed l).
Proof.
  destruct (stages_split l) as [Hd|(c & s & u & -> & Hc & Hs)].
  - by rewrite advance_stages_done.
  - rewrite prefix_completed_split, advance_stages_split by done.
    destruct u as [|n u]; intros Hu H; [discriminate|]. simplify_eq.
    assert (done_stages (c ++ [complete_stage now s])) as Hc'.
    { apply Forall_app. split; [done|]. by constructor. }
    replace (c ++ complete_stage now s :: n :: u) with ((c ++ [complete_stage now s]) ++ n :: u)
      by by rewrite <-app_assoc.
    split; [by apply prefix_completed_app|].
    rewrite count_completed_app, (count_completed_done _ Hc'), (count_completed_pending _ Hu).
    rewrite count_completed_app, (count_completed_done _ Hc), count_completed_cons, Hs.
    rewrite (count_completed_pending _ Hu), length_app. simpl. lia.
Qed.

(** C23 [termination]: the buyer cannot click the tracking page's buttons
    forever: every "Mark as Done" or "Confirm Received" that changes the
    stages completes one more stage of a list whose length it keeps, so
    the step relation is well founded, and a run of [n] clicks from a list
    with [k] completed stages out of [len] has [n + k <= len]. *)
Theorem ui_clicks_terminate :
  well_founded (λ l' l, ui_step l l') ∧
  ∀ n l l', nsteps ui_step n l l' → n + count_completed l ≤ length l.
Proof.
  split.
  - apply (wf_incl _ _ (ltof _ (λ l, length l - count_completed l))); [|apply well_founded_ltof].
    intros l' l Hs. unfold ltof. destruct (ui_step_count _ _ Hs). pose proof (count_completed_le l'). lia.
  - intros n l l' Hn. destruct (ui_nsteps_count _ _ _ Hn). pose proof (count_completed_le l'). lia.
Qed.

(** C7 [liveness]: when the last stage is named "Confirmed Received" (as
    in the default workflow), no action the page offers ever completes it:
    "Mark as Done" runs [advanceStage], which never touches the last stage,
    and "Confirm Received" is only shown when the last stage is named
    "Delivered".  The order can never be confirmed as received. *)
Theorem confirmed_received_never_completed init l s :
  last init = Some s → js_eq_str (Stage.name s) "Confirmed Received" = true →
  ui_reachable init l → last l = Some s.
Proof.
  intros Hlast Hname. induction 1 as [|l l' _ IH Hstep]; [done|].
  destruct Hstep as [l now st l' _ Hadv|l now st l' Hvis _].
  - by rewrite (advance_stages_last l now st l' Hadv).
  - exfalso. unfold confirm_visible in Hvis. rewrite IH in Hvis.
    destruct (Stage.name s); try discriminate. simpl in *.
    apply String.eqb_eq in Hname. subst. discriminate.
Qed.

(** From the default workflow (what every order placed
    through checkout decodes to) the buyer has no enabled action at all:
    the only reachable stage list is the initial one. *)
Theorem default_workflow_stuck created_at l :
  ui_reachable (default_stages created_at) l → l = default_stages created_at.
Proof.
  induction 1 as [|l l' _ IH Hstep]; [done|]. subst. by apply ui_step_default in Hstep.
Qed.

(** C5 [safety]: [confirmReceipt] checks only that the last stage is
    pending: on a well-formed list where an earlier stage is still pending
    it does not reject, and the list it writes no longer has its completed
    stages as a prefix. *)
Theorem confirmReceipt_breaks_prefix c s u now :
  done_stages c → Stage.completed s = false → u ≠ [] → pending_stages u = true →
  ∃ l', confirm_stages (c ++ s :: u) now = Ok (Some (JStr "Confirmed Received", l')) ∧
        prefix_completed l' = false.
Proof.
  intros Hc Hs Hu Hp. destruct (last u) as [y|] eqn:Hy; [|by apply last_None in Hy].
  assert (Stage.completed y = false) as Hyc.
  { apply last_Some_elem_of, list_elem_of_In in Hy.
    pose proof (proj1 (forallb_forall _ u) Hp y Hy) as H. by apply negb_true_iff. }
  unfold confirm_stages. rewrite last_app_cons, last_cons, Hy, Hyc.
  eexists. split; [reflexivity|].
  replace (c ++ s :: u) with ((c ++ [s]) ++ u) by by rewrite <-app_assoc.
  rewrite length_app, length_app. simpl length.
  assert (1 <= length u) by (destruct u; [done|simpl; lia]).
  replace (length c + 1 + length u - 1) with (length (c ++ [s]) + (length u - 1))
    by (rewrite length_app; simpl; lia).
  rewrite alter_app_r, <-app_assoc. simpl app.
  rewrite prefix_completed_split by done.
  apply pending_alter_complete. lia.
Qed.

Section roundtrip.
Context `{JsonCodecLaws}.

(** C4 [roundtrip]: what the transitions write is what the page reads
    back.  From a list of canonical stages (non-empty string names, string
    timestamps, as the decoder produces from a well-formed column), the
    list [advanceStage] or [confirmReceipt] stores with
    [JSON.stringify(updatedStages)], with [now] an ISO date string, decodes
    to itself with no delivery information, for every JSON codec
    satisfying the round-trip law. *)
Theorem transitions_roundtrip stages now created_at :
  forallb canonical_stage stages = true →
  (∀ st l', advance_stages stages (JStr now) = Some (st, l') →
     decode_stages (JStr (encode_stages l')) created_at = (l', init_dstate)) ∧
  (∀ st l', confirm_stages stages (JStr now) = Ok (Some (st, l')) →
     decode_stages (JStr (encode_stages l')) created_at = (l', init_dstate)).
Proof.
  intros Hc. split; intros st l' Ht;
    [apply advance_stages_alter in Ht as [i ->] | apply confirm_stages_alter in Ht as [i ->]];
    by apply decode_encode_canonical, canonical_alter_complete.
Qed.
End roundtrip.

(** ** Witnesses *)

Definition st_placed := Stage.mk (JStr "Order Placed") (JStr "2025-03-01") true.
Definition st_paid := Stage.mk (JStr "Payment Pending") (JStr "") false.
Definition st_processing := Stage.mk (JStr "Processing") (JStr "") false.
Definition st_delivered := Stage.mk (JStr "Delivered") (JStr "") false.

Lemma advanceStage_completes_current_witness :
  advance_stages [st_placed; st_paid; st_processing] (JStr "2025-03-02") =
  Some (JStr "Processing",
        [st_placed; complete_stage (JStr "2025-03-02") st_paid; st_processing]).
Proof.
  apply (advanceStage_completes_current [st_placed] st_paid st_processing []);
    [repeat constructor | reflexivity].
Defined.

Lemma advanceStage_noop_at_end_witness :
  advance_stages [st_placed; st_processing] (JStr "now") = None.
Proof.
  apply advanceStage_noop_at_end. right. exists [st_placed], st_processing.
  split; [reflexivity|]. split; [repeat constructor|reflexivity].
Defined.

Lemma advanceStage_preserves_prefix_witness :
  prefix_completed [st_placed; complete_stage (JStr "t") st_paid; st_processing] = true ∧
  count_completed [st_placed; complete_stage (JStr "t") st_paid; st_processing] = 2.
Proof.
  apply (advanceStage_preserves_prefix [st_placed; st_paid; st_processing] (JStr "t") (JStr "Processing"));
    reflexivity.
Defined.

Definition st_cr_pending := Stage.mk (JStr "Confirmed Received") (JStr "") false.

(** A list with two stages named "Confirmed Received": "Mark as Done" is
    shown on the first one and completes it; the last one stays pending. *)
Lemma confirmed_received_never_completed_witness :
  last [st_placed; complete_stage (JStr "t1") st_cr_pending; st_cr_pending] = Some st_cr_pending.
Proof.
  apply (confirmed_received_never_completed [st_placed; st_cr_pending; st_cr_pending]);
    [reflexivity | reflexivity |].
  eapply ui_reach_step; [apply ui_reach_init|].
  eapply (ui_advance _ (JStr "t1") (JStr "Confirmed Received")); reflexivity.
Defined.

Lemma default_workflow_stuck_witness :
  default_stages (JStr "t0") = default_stages (JStr "t0").
Proof. apply default_workflow_stuck, ui_reach_init. Defined.

Lemma confirmReceipt_breaks_prefix_witness :
  ∃ l', confirm_stages [st_placed; st_processing; st_delivered] (JStr "now") =
        Ok (Some (JStr "Confirmed Received", l')) ∧ prefix_completed l' = false.
Proof.
  apply (confirmReceipt_breaks_prefix [st_placed] st_processing [st_delivered]);
    [repeat constructor | reflexivity | discriminate | reflexivity].
Defined.

Lemma transitions_roundtrip_witness :
  forallb canonical_stage (default_stages (JStr "t0")) = true ∧
  decode_stages (JStr (encode_stages (alter (complete_stage (JStr "t1")) 1 (default_stages (JStr "t0")))))
    (JStr "t0") =
  (alter (complete_stage (JStr "t1")) 1 (default_stages (JStr "t0")), init_dstate).
Proof.
  split; [reflexivity|].
  apply (proj1 (transitions_roundtrip (default_stages (JStr "t0")) "t1" (JStr "t0") eq_refl)
           (JStr "Processing")).
  reflexivity.
Defined.

(** One "Mark as Done" on a three-stage list with one completed stage. *)
Lemma ui_clicks_terminate_witness :
  1 + count_completed [st_placed; st_cr_pending; st_delivered] ≤ length [st_placed; st_cr_pending; st_delivered].
Proof.
  apply (proj2 ui_clicks_terminate 1 _ [st_placed; complete_stage (JStr "t1") st_cr_pending; st_delivered]).
  eapply nsteps_l; [|apply nsteps_O].
  eapply (ui_advance _ (JStr "t1") (JStr "Delivered")); reflexivity.
Defined.
