(* ===== verification/Store.v ===== *)
(** * The [orders] table and the data-store calls on it

    The pages talk to a hosted Postgres through the Supabase client; the
    calls on the [orders] table are modelled by their effect on a finite
    map from order id to row (stdpp's [gmap]):
    - [select_single]: [.from('orders').select('*').eq('id', id).single()]
      (TrackOrder.tsx lines 77-81), which fails when no row matches;
    - [update_eq]: [.update(patch).eq('id', id).eq('user_id', uid)]
      (TrackOrder.tsx lines 225-232 and 248-255): a conditional update
      that changes the row only when both filters match, reports no error
      when none does, and fails when the new row breaks the table's
      constraint;
    - [insert_row]: [.insert(row)] of checkout (Checkout.tsx lines
      143-154), with the fresh id as an input.

    The table's constraint is a parameter [check] of the calls.
    [schema_check] is the one the repository's schema declares
    (src/unnamed/part_003, lines 37-42: [status] must be one of nine
    snake-case codes); that schema has no [items], [stages] or
    [total_price] column, so it is not the table the pages run against,
    and the theorems are stated for every [check].  The whole schema,
    row-level security included, is modelled in [Schema], whose
    [schema_accepts] is the [check] that schema imposes. *)

From S2P Require Import Prelude Js.
From stdpp Require Import gmap.
Open Scope nat_scope.

(** ** Rows *)

(** The columns the pages read and write, as the JavaScript values the
    client returns for them. *)
Record order_row := mk_row {
  row_user_id : string;
  row_status : jvalue;
  row_stages : jvalue;
  row_items : jvalue;
  row_total_price : jvalue;
  row_created_at : jvalue
}.

Abbreviation table := (gmap string order_row).

Inductive store_error :=
| NoRows            (** [.single()] on an empty result (PGRST116) *)
| CheckViolation.   (** the new row breaks the table's constraint *)

#[export] Instance store_error_eq_dec : EqDecision store_error.
Proof. solve_decision. Defined.

(** The session the calls are made with ([AuthContextType]'s [session]
    and [user], src/src/contexts/AuthContext.tsx lines 13-14): whether a
    session exists, and the signed-in user's id. *)
Record auth := mk_auth { session : bool; user : option string }.

(** ** Calls *)

Definition select_single (db : table) (id : string) : outcome store_error order_row :=
  match db !! id with
  | Some r => Ok r
  | None => Err NoRows
  end.

Section calls.
Variable check : order_row → bool.

Definition update_eq (db : table) (id uid : string) (patch : order_row → order_row)
  : outcome store_error table :=
  match db !! id with
  | Some r =>
      if String.eqb (row_user_id r) uid then
        if check (patch r) then Ok (<[id := patch r]> db) else Err CheckViolation
      else Ok db
  | None => Ok db
  end.

Definition insert_row (db : table) (id : string) (r : order_row) : outcome store_error table :=
  if check r then Ok (<[id := r]> db) else Err CheckViolation.
End calls.

(** The patch of both transitions: [{ status, stages }]. *)
Definition set_status_stages (status stages : jvalue) (r : order_row) : order_row :=
  mk_row (row_user_id r) status stages (row_items r) (row_total_price r) (row_created_at r).

(** The [status] constraint of src/unnamed/part_003, lines 39-42. *)
Definition schema_statuses : list string :=
  ["order_placed"; "payment_pending"; "payment_approved"; "assigned_to_transport";
   "on_transport"; "vehicle_reached"; "out_for_delivery"; "delivered"; "confirmed_received"].

Definition schema_check (r : order_row) : bool :=
  match row_status r with
  | JStr s => bool_decide (s ∈ schema_statuses)
  | _ => false
  end.

(** ** Lemmas *)

Section lemmas.
Variable check : order_row → bool.

Lemma update_eq_owner db id uid patch r :
  db !! id = Some r → row_user_id r = uid → check (patch r) = true →
  update_eq check db id uid patch = Ok (<[id := patch r]> db).
Proof. intros Hr <- Hc. unfold update_eq. by rewrite Hr, ?String.eqb_refl, Hc. Qed.

Lemma update_eq_rejected db id uid patch r :
  db !! id = Some r → row_user_id r = uid → check (patch r) = false →
  update_eq check db id uid patch = Err CheckViolation.
Proof. intros Hr <- Hc. unfold update_eq. by rewrite Hr, ?String.eqb_refl, Hc. Qed.

Lemma update_eq_other db id uid patch r :
  db !! id = Some r → row_user_id r ≠ uid → update_eq check db id uid patch = Ok db.
Proof.
  intros Hr Hu. unfold update_eq. rewrite Hr.
  by destruct (String.eqb_spec (row_user_id r) uid).
Qed.

Lemma update_eq_missing db id uid patch :
  db !! id = None → update_eq check db id uid patch = Ok db.
Proof. intros Hr. unfold update_eq. by rewrite Hr. Qed.

(** Whatever the outcome, no row but [id] changes, and [id] changes only
    to its patched value. *)
Lemma update_eq_frame db id uid patch db' :
  update_eq check db id uid patch = Ok db' →
  (∀ id', id' ≠ id → db' !! id' = db !! id') ∧
  (db' !! id = db !! id ∨ ∃ r, db !! id = Some r ∧ row_user_id r = uid ∧ db' !! id = Some (patch r)).
Proof.
  unfold update_eq. destruct (db !! id) as [r|] eqn:Hr; [|intros; simplify_eq; auto].
  destruct (String.eqb_spec (row_user_id r) uid) as [Hu|Hu]; [|intros; simplify_eq; auto].
  destruct (check (patch r)); intros; simplify_eq; split.
  - intros id' Hid. by rewrite lookup_insert_ne.
  - right. exists r. by rewrite lookup_insert_eq.
Qed.
End lemmas.

#[export] Hint Resolve update_eq_owner update_eq_missing : rue.
