(* ===== verification/TrackOrder.v ===== *)
(** * The order tracking page against the store

    Models src/src/pages/TrackOrder.tsx as the composition of the pieces
    of the other files:
    - [enrich_item], [parse_items]: the item part of the query (lines
      96-129): [JSON.parse(data.items || '[]')] with a [catch] that gives
      [[]], then one catalog lookup per item for its name, price and size;
    - [fetch_order]: the whole [queryFn] (lines 60-189), its error ladder
      and the decoded order it returns;
    - [page], [refetch]: React Query's cache ([data], [error]) and the
      [order] state copied from it by the effect of lines 191-196;
    - [render]: the three screens of lines 267-431 and the expressions
      the tracking screen evaluates that can throw;
    - [advanceStage], [confirmReceipt]: the two handlers (lines 218-263),
      each a conditional update of the store, then an alert or a refetch.

    Every function is parametrized by the table constraint [check] and the
    catalog [cat]; the JSON codec is the class of file [Json]. *)

From S2P Require Import Prelude Js Json Pricing Stages OrderMachine Store.
From stdpp Require Import gmap.
Open Scope nat_scope.

(** ** The catalog *)

(** [products] rows by id: [name] and [price]; [product_variants] rows
    by id: [size] and [price]. *)
Record catalog := mk_catalog {
  cat_products : gmap string (jvalue * raw_price);
  cat_variants : gmap string (jvalue * raw_price)
}.

(** [.select(...).eq('id', key).single()], whose [data] is [null] when no
    row matches (the error is ignored by the code); an id that is not a
    string matches no row. *)
Definition lookup_row (m : gmap string (jvalue * raw_price)) (key : jvalue)
  : option (jvalue * raw_price) :=
  match key with JStr k => m !! k | _ => None end.

Definition row_name (o : option (jvalue * raw_price)) : jvalue :=
  match o with Some (n, _) => n | None => JUndef end.

Definition row_price (o : option (jvalue * raw_price)) : raw_price :=
  match o with Some (_, p) => p | None => PAbsent end.

(** ** Items *)

(** [{ ...item, name: productName, price: itemPrice, size: variantSize }] *)
Record item_view := mk_item_view {
  item_raw : jvalue;
  item_name : jvalue;
  item_price : option Q;
  item_size : jvalue
}.

(** The callback of lines 108-128.  [item.size] is read before the [try]
    and throws on a [null] item; nothing inside the [try] can throw, the
    client reporting lookup failures as [data: null]. *)
Definition enrich_item (cat : catalog) (item : jvalue) : js item_view :=
  size ← get item "size";
  pid ← get item "product_id";
  let product := lookup_row (cat_products cat) pid in
  let productName := row_name product ||| JStr "Unknown Product" in
  let itemPrice := enrich_price (row_price product) (Some 0%Q) in
  vid ← get item "variant_id";
  if truthy vid then
    let variant := lookup_row (cat_variants cat) vid in
    Ok (mk_item_view item productName (enrich_price (row_price variant) itemPrice)
          (row_name variant ||| JStr ""))
  else Ok (mk_item_view item productName itemPrice (size ||| JStr "")).

(** Lines 97-104: [JSON.parse(data.items || '[]')], [[]] on a syntax error. *)
Definition parse_items `{JsonCodec} (raw : jvalue) : jvalue :=
  match json_parse (if truthy raw then to_js_string raw else "[]") with
  | Ok v => v
  | Err _ => JArr []
  end.

(** ** The query *)

Inductive fetch_error :=
| NoOrderId                       (** ['No order ID provided'] *)
| NotSignedIn                     (** ['Please sign in'] *)
| NotAuthenticated                (** ['User not authenticated'] *)
| StoreError (e : store_error)    (** [throw fetchError] *)
| AccessDenied                    (** ['Access denied'] *)
| ItemError (e : js_exn).         (** a rejection of [Promise.all] *)

Record order_view := mk_view {
  view_row : order_row;
  view_items : list item_view;
  view_stages : list Stage.t;
  view_delivery : dstate
}.

(** The [queryFn] of lines 62-186.  The [if (!data)] check of line 86 is
    unreachable: [.single()] reports an empty result as an error. *)
Definition fetch_order `{JsonCodec} (cat : catalog) (db : table) (orderId : option string)
  (a : auth) : outcome fetch_error order_view :=
  match orderId with
  | None => Err NoOrderId
  | Some oid =>
      if negb (session a) then Err NotSignedIn else
      match user a with
      | None => Err NotAuthenticated
      | Some uid =>
          match select_single db oid with
          | Err e => Err (StoreError e)
          | Ok data =>
              if negb (String.eqb (row_user_id data) uid) then Err AccessDenied else
              match js_map (enrich_item cat) (parse_items (row_items data)) with
              | Err e => Err (ItemError e)
              | Ok items =>
                  let '(stages, d) := decode_stages (row_stages data) (row_created_at data) in
                  Ok (mk_view data items stages d)
              end
          end
      end
  end.

(** ** The page *)

(** React Query's [data] (the last successful result, kept when a later
    fetch fails) and [error] (the last fetch's error), and the component's
    [order] state. *)
Record page := mk_page {
  pg_data : option order_view;
  pg_error : option fetch_error;
  pg_order : option order_view
}.

Definition init_page : page := mk_page None None None.

(** A run of the query; on success the effect of lines 191-196 copies the
    result to [order]. *)
Definition refetch `{JsonCodec} (cat : catalog) (db : table) (orderId : option string)
  (a : auth) (p : page) : page :=
  match fetch_order cat db orderId a with
  | Ok v => mk_page (Some v) None (Some v)
  | Err e => mk_page (pg_data p) (Some e) (pg_order p)
  end.

Inductive screen :=
| Loading
| ErrorScreen (e : option fetch_error)
| Tracking (o : order_view) (confirm_button : bool).

(** Lines 267-431.  The tracking screen calls [total_price.toFixed(2)]
    and [status.toLowerCase()], which throw unless the values are a number
    and a string, and evaluates the "Confirm Received" condition. *)
Definition render (p : page) : js screen :=
  match pg_error p, pg_data p, pg_order p with
  | None, None, _ => Ok Loading
  | None, Some _, Some o =>
      match row_total_price (view_row o), row_status (view_row o) with
      | JNum _, JStr _ => b ← confirm_visible (view_stages o); Ok (Tracking o b)
      | _, _ => Err TypeError
      end
  | e, _, _ => Ok (ErrorScreen e)
  end.

(** ** The handlers *)

Inductive alert :=
| AdvanceFailed      (** ['Failed to advance stage. Please contact support.'] *)
| ConfirmFailed      (** ['Failed to confirm receipt. Please contact support.'] *)
| ConfirmedThanks.   (** ['Order confirmed as received! Thank you.'] *)

(** The [{ status, stages: JSON.stringify(updatedStages) }] patch. *)
Definition stage_patch `{JsonCodec} (st : jvalue) (updated : list Stage.t) : order_row → order_row :=
  set_status_stages st (JStr (encode_stages updated)).

Section handlers.
Context `{JsonCodec}.
Variables (check : order_row → bool) (cat : catalog) (orderId : string) (a : auth).

(** Lines 218-240: the store, the page and the alert after the handler
    has run (the refetch included). *)
Definition advanceStage (now : string) (db : table) (p : page) : table * page * option alert :=
  match pg_order p, user a with
  | Some o, Some uid =>
      match advance_stages (view_stages o) (JStr now) with
      | Some (st, updated) =>
          match update_eq check db orderId uid (stage_patch st updated) with
          | Err _ => (db, p, Some AdvanceFailed)
          | Ok db' => (db', refetch cat db' (Some orderId) a p, None)
          end
      | None => (db, p, None)
      end
  | _, _ => (db, p, None)
  end.

(** Lines 242-263; the guard of line 243 throws on an empty stage list. *)
Definition confirmReceipt (now : string) (db : table) (p : page)
  : js (table * page * option alert) :=
  match pg_order p, user a with
  | Some o, Some uid =>
      r ← confirm_stages (view_stages o) (JStr now);
      match r with
      | None => Ok (db, p, None)
      | Some (st, updated) =>
          match update_eq check db orderId uid (stage_patch st updated) with
          | Err _ => Ok (db, p, Some ConfirmFailed)
          | Ok db' => Ok (db', refetch cat db' (Some orderId) a p, Some ConfirmedThanks)
          end
      end
  | _, _ => Ok (db, p, None)
  end.

(** ** Synchronisation

    The store and the page evolve by four kinds of events: a write by
    another client ([Remote]), the delivery of a change notification by
    the channel of lines 199-216, which refetches ([Notify]), and the two
    buttons.  A handler that throws changes nothing. *)
Record sys := mk_sys { sys_db : table; sys_page : page }.

Inductive event :=
| Remote (f : table → table)
| Notify
| ClickAdvance (now : string)
| ClickConfirm (now : string).

Definition step (s : sys) (e : event) : sys :=
  match e with
  | Remote f => mk_sys (f (sys_db s)) (sys_page s)
  | Notify => mk_sys (sys_db s) (refetch cat (sys_db s) (Some orderId) a (sys_page s))
  | ClickAdvance now =>
      let '(db', p', _) := advanceStage now (sys_db s) (sys_page s) in mk_sys db' p'
  | ClickConfirm now =>
      match confirmReceipt now (sys_db s) (sys_page s) with
      | Ok (db', p', _) => mk_sys db' p'
      | Err _ => s
      end
  end.

Definition run (s : sys) (es : list event) : sys := foldl step s es.

(** The page shows what the store holds: whenever the query would succeed,
    the [order] state is its result. *)
Definition synced (s : sys) : Prop :=
  ∀ v, fetch_order cat (sys_db s) (Some orderId) a = Ok v → pg_order (sys_page s) = Some v.

(** Every remote write is followed by the delivery of its notification. *)
Fixpoint notified (es : list event) : Prop :=
  match es with
  | [] => True
  | Remote _ :: Notify :: es' => notified es'
  | Remote _ :: _ => False
  | _ :: es' => notified es'
  end.
End handlers.

(** ** Lemmas *)

Section fetch_lemmas.
Context `{JsonCodec}.
Variables (cat : catalog) (oid : string) (a : auth).

Lemma fetch_order_ok_inv db v :
  fetch_order cat db (Some oid) a = Ok v →
  ∃ uid items, session a = true ∧ user a = Some uid ∧ db !! oid = Some (view_row v) ∧
    row_user_id (view_row v) = uid ∧
    js_map (enrich_item cat) (parse_items (row_items (view_row v))) = Ok items ∧
    v = mk_view (view_row v) items
          (fst (decode_stages (row_stages (view_row v)) (row_created_at (view_row v))))
          (snd (decode_stages (row_stages (view_row v)) (row_created_at (view_row v)))).
Proof.
  unfold fetch_order, select_single. destruct (session a); [|discriminate]. simpl.
  destruct (user a) as [uid|]; [|discriminate].
  destruct (db !! oid) as [data|]; [|discriminate].
  destruct (String.eqb_spec (row_user_id data) uid) as [Hu|]; [|discriminate]. simpl.
  destruct (js_map _ _) as [items|] eqn:Hi; [|discriminate].
  destruct (decode_stages _ _) as [stages d] eqn:Hd. intros [= <-]. simpl.
  exists uid, items. by rewrite Hd.
Qed.

(** The patch of a transition keeps the owner and the items, so the next
    fetch finds the same items and decodes the written stages. *)
Lemma fetch_after_patch `{!JsonCodecLaws} db v st l' :
  fetch_order cat db (Some oid) a = Ok v → forallb canonical_stage l' = true →
  fetch_order cat (<[oid := stage_patch st l' (view_row v)]> db) (Some oid) a =
  Ok (mk_view (stage_patch st l' (view_row v)) (view_items v) l' init_dstate).
Proof.
  intros Hf Hc. destruct (fetch_order_ok_inv _ _ Hf) as (uid & items & Hs & Hu & Hd & Ho & Hi & Hv).
  unfold fetch_order, select_single. rewrite Hs, Hu, lookup_insert_eq. simpl.
  rewrite Ho, String.eqb_refl, Hi. simpl.
  rewrite (decode_encode_canonical l' _ Hc). by rewrite Hv.
Qed.

Lemma refetch_ok db p v :
  fetch_order cat db (Some oid) a = Ok v → refetch cat db (Some oid) a p = mk_page (Some v) None (Some v).
Proof. intros Hf. unfold refetch. by rewrite Hf. Qed.
End fetch_lemmas.

Section handler_lemmas.
Context `{JsonCodec}.
Variables (check : order_row → bool) (cat : catalog) (oid : string) (a : auth).

Lemma refetch_synced db p : synced cat oid a (mk_sys db (refetch cat db (Some oid) a p)).
Proof. intros v Hv. cbn [sys_db sys_page] in *. unfold refetch. by rewrite Hv. Qed.

(** A handler either changes nothing or ends with a refetch. *)
Lemma advanceStage_cases now db p :
  let '(db', p', _) := advanceStage check cat oid a now db p in
  (db' = db ∧ p' = p) ∨ p' = refetch cat db' (Some oid) a p.
Proof.
  unfold advanceStage. repeat case_match; simplify_eq; auto.
Qed.

Lemma confirmReceipt_cases now db p db' p' al :
  confirmReceipt check cat oid a now db p = Ok (db', p', al) →
  (db' = db ∧ p' = p) ∨ p' = refetch cat db' (Some oid) a p.
Proof.
  unfold confirmReceipt, mbind, outcome_bind. repeat case_match; intros; simplify_eq; auto.
Qed.

(** Every event but a remote write keeps the page in sync; a remote write
    followed by its notification gives a synced state from any state. *)
Lemma step_synced s e :
  synced cat oid a s → (∀ f, e ≠ Remote f) → synced cat oid a (step check cat oid a s e).
Proof.
  intros Hs He. destruct s as [db p]. destruct e as [f| |now|now]; [by destruct (He f)| | |]; simpl.
  - apply refetch_synced.
  - pose proof (advanceStage_cases now db p) as Hc.
    destruct (advanceStage check cat oid a now db p) as [[db' p'] al].
    destruct Hc as [[-> ->] | ->]; [done|apply refetch_synced].
  - destruct (confirmReceipt check cat oid a now db p) as [[[db' p'] al]|] eqn:Hc; [|done].
    apply confirmReceipt_cases in Hc as [[-> ->] | ->]; [done|apply refetch_synced].
Qed.

Lemma remote_notify_synced s f :
  synced cat oid a (step check cat oid a (step check cat oid a s (Remote f)) Notify).
Proof. apply refetch_synced. Qed.
End handler_lemmas.

Lemma decode_stages_falsy `{JsonCodecLaws} raw created_at :
  truthy raw = false → json_parse "[]" = Ok (JArr []) →
  decode_stages raw created_at = ([], init_dstate).
Proof. intros Hr Hp. unfold decode_stages, stages_source. rewrite Hr, Hp. reflexivity. Qed.

Lemma parse_items_objects fs xs : parse_items (JArr (JObj fs :: xs)) = JArr [].
Proof.
  unfold parse_items. simpl truthy. cbv iota.
  destruct (to_js_string_objects fs xs) as [r ->]. by rewrite parse_json_object_text.
Qed.


(** ** Properties *)

Section properties.
Context `{JsonCodecLaws}.
Variables (check : order_row → bool) (cat : catalog) (oid : string) (a : auth).

(** C3 [refinement]: the page and the store implement the abstract
    [advanceStage] step.  When the page shows what the store holds and the
    write is accepted, clicking the button stores the advanced stage list
    and the status [advance_stages] computes, and after the handler's
    refetch the page shows exactly that list, with the same items and no
    error. *)
Theorem advanceStage_refines db p o now st l' :
  fetch_order cat db (Some oid) a = Ok o → pg_order p = Some o →
  forallb canonical_stage (view_stages o) = true →
  advance_stages (view_stages o) (JStr now) = Some (st, l') →
  check (stage_patch st l' (view_row o)) = true →
  advanceStage check cat oid a now db p =
  (<[oid := stage_patch st l' (view_row o)]> db,
   mk_page (Some (mk_view (stage_patch st l' (view_row o)) (view_items o) l' init_dstate)) None
           (Some (mk_view (stage_patch st l' (view_row o)) (view_items o) l' init_dstate)),
   None).
Proof.
  intros Hf Hp Hc Hadv Hck.
  destruct (fetch_order_ok_inv _ _ _ _ _ Hf) as (uid & items & _ & Hu & Hd & Ho & _).
  unfold advanceStage. rewrite Hp, Hu, Hadv, (update_eq_owner check _ _ _ _ _ Hd Ho Hck).
  apply advance_stages_alter in Hadv as [i ->].
  rewrite (refetch_ok _ _ _ _ _ _ (fetch_after_patch _ _ _ _ _ _ _ Hf (canonical_alter_complete _ _ _ Hc))).
  reflexivity.
Qed.

(** C12 [error]: a write the store rejects leaves the store and the page as
    they were and alerts the buyer; neither handler changes the page
    before the store has accepted the write. *)
Theorem transitions_write_failure db p o now :
  fetch_order cat db (Some oid) a = Ok o → pg_order p = Some o →
  (∀ st l', advance_stages (view_stages o) (JStr now) = Some (st, l') →
     check (stage_patch st l' (view_row o)) = false →
     advanceStage check cat oid a now db p = (db, p, Some AdvanceFailed)) ∧
  (∀ st l', confirm_stages (view_stages o) (JStr now) = Ok (Some (st, l')) →
     check (stage_patch st l' (view_row o)) = false →
     confirmReceipt check cat oid a now db p = Ok (db, p, Some ConfirmFailed)).
Proof.
  intros Hf Hp. destruct (fetch_order_ok_inv _ _ _ _ _ Hf) as (uid & items & _ & Hu & Hd & Ho & _).
  split; intros st l' Ht Hck.
  - unfold advanceStage. by rewrite Hp, Hu, Ht, (update_eq_rejected check _ _ _ _ _ Hd Ho Hck).
  - unfold confirmReceipt. rewrite Hp, Hu, Ht. simpl.
    by rewrite (update_eq_rejected check _ _ _ _ _ Hd Ho Hck).
Qed.

(** C6 [safety]: a transition attempted by a user who does not own the
    order (the page still showing an order fetched before the user
    changed) writes nothing: the owner filter of the update matches no
    row.  The refetch then reports [Access denied]; [confirmReceipt]
    nevertheless tells the user that the order was confirmed. *)
Theorem transitions_other_user db p o now uid r :
  session a = true → user a = Some uid → pg_order p = Some o →
  db !! oid = Some r → row_user_id r ≠ uid →
  (∀ st l', advance_stages (view_stages o) (JStr now) = Some (st, l') →
     advanceStage check cat oid a now db p =
     (db, mk_page (pg_data p) (Some AccessDenied) (pg_order p), None)) ∧
  (∀ st l', confirm_stages (view_stages o) (JStr now) = Ok (Some (st, l')) →
     confirmReceipt check cat oid a now db p =
     Ok (db, mk_page (pg_data p) (Some AccessDenied) (pg_order p), Some ConfirmedThanks)).
Proof.
  intros Hs Hu Hp Hd Ho.
  assert (refetch cat db (Some oid) a p = mk_page (pg_data p) (Some AccessDenied) (pg_order p)) as Hr.
  { unfold refetch, fetch_order, select_single. rewrite Hs, Hu, Hd. simpl.
    by destruct (String.eqb_spec (row_user_id r) uid). }
  split; intros st l' Ht.
  - unfold advanceStage. by rewrite Hp, Hu, Ht, (update_eq_other check _ _ _ _ _ Hd Ho), Hr, Hp.
  - unfold confirmReceipt. rewrite Hp, Hu, Ht. simpl.
    by rewrite (update_eq_other check _ _ _ _ _ Hd Ho), Hr, Hp.
Qed.
End properties.

Section sync.
Context `{JsonCodec}.
Variables (check : order_row → bool) (cat : catalog) (oid : string) (a : auth).

Definition starts_notify (es : list event) : Prop :=
  match es with Notify :: _ => True | _ => False end.

Lemma run_synced_gen es s :
  notified es → synced cat oid a s ∨ starts_notify es → synced cat oid a (run check cat oid a s es).
Proof.
  revert s. induction es as [|e es IH]; intros s Hn Hs; [by destruct Hs|]. unfold run; simpl.
  destruct e as [f| |now|now].
  - destruct es as [|[] es]; try done. apply IH; [exact Hn|by right].
  - apply IH; [exact Hn|left; apply refetch_synced].
  - destruct Hs as [Hs|[]]. apply IH; [exact Hn|left; apply step_synced; [done|congruence]].
  - destruct Hs as [Hs|[]]. apply IH; [exact Hn|left; apply step_synced; [done|congruence]].
Qed.

(** C11 [invariant]: the synchronisation protocol of the page.  If every
    write by another client is followed by the delivery of its change
    notification before the buyer acts, the page stays in sync with the
    store through any sequence of events: whenever the query would
    succeed, the page's order is its result. *)
Theorem notified_run_synced es s :
  synced cat oid a s → notified es → synced cat oid a (run check cat oid a s es).
Proof. intros Hs Hn. apply run_synced_gen; [done|by left]. Qed.
End sync.

(** C10 [safety]: the update is not conditioned on the stages the buyer
    saw, so a stale page loses concurrent completions.  Whatever another
    client (an operator) writes to the order, a Confirm Received click
    made before that write's notification reaches the page stores the
    stages the page showed, with the last one completed, over the
    operator's row: every stage the operator completed and the page
    showed pending is pending again in the store, and the refetch shows
    the reverted list. *)
Theorem stale_confirm_reopens_stage `{JsonCodec} check cat oid a s f now o uid r x :
  pg_order (sys_page s) = Some o → user a = Some uid →
  last (view_stages o) = Some x → Stage.completed x = false →
  f (sys_db s) !! oid = Some r → row_user_id r = uid →
  check (stage_patch (JStr "Confirmed Received")
           (alter (complete_stage (JStr now)) (length (view_stages o) - 1) (view_stages o)) r) = true →
  let db' := <[oid := set_status_stages (JStr "Confirmed Received")
                 (JStr (encode_stages (alter (complete_stage (JStr now)) (length (view_stages o) - 1)
                                        (view_stages o)))) r]> (f (sys_db s)) in
  run check cat oid a s [Remote f; ClickConfirm now] = mk_sys db' (refetch cat db' (Some oid) a (sys_page s)).
Proof.
  intros Hp Hu Hl Hx Hr Ho Hc db'. cbn [run foldl step sys_db sys_page].
  unfold confirmReceipt. rewrite Hp, Hu. unfold confirm_stages at 1. rewrite Hl, Hx. cbn.
  by rewrite (update_eq_owner check _ _ _ _ _ Hr Ho Hc).
Qed.

(** ** Concrete behaviours of the page

    With the platform codec [json_codec] of file [Json]. *)

Definition demo_auth : auth := mk_auth true (Some "u1").
Definition demo_cat : catalog := mk_catalog ∅ ∅.
Definition accept_all (_ : order_row) : bool := true.

Definition demo_row (stages : jvalue) (status : string) (items : jvalue) : order_row :=
  mk_row "u1" (JStr status) stages items (JNum 1200) (JStr "2025-03-01T10:00:00Z").

Definition demo_db (r : order_row) : table := {[ "o1" := r ]}.

(** The completion flags of the stages the store holds for ["o1"], and of
    the stages the page shows. *)
Definition stored_completion (s : sys) : option (list bool) :=
  r ← sys_db s !! "o1"; Some (Stage.completed <$> fst (decode_stages (row_stages r) (row_created_at r))).

Definition shown_completion (s : sys) : option (list bool) :=
  o ← pg_order (sys_page s); Some (Stage.completed <$> view_stages o).

Definition ship_stages : list Stage.t :=
  [Stage.mk (JStr "Order Placed") (JStr "t0") true; Stage.mk (JStr "Shipped") (JStr "") false;
   Stage.mk (JStr "Delivered") (JStr "") false].

Definition ship_row : order_row := demo_row (JStr (encode_stages ship_stages)) "Shipped" (JArr []).

(** Another client (an operator) completes "Shipped". *)
Definition operator_ships (db : table) : table :=
  <["o1" := stage_patch (JStr "Delivered") (alter (complete_stage (JStr "t1")) 1 ship_stages) ship_row]> db.

Definition ship_sys : sys :=
  mk_sys (demo_db ship_row) (refetch demo_cat (demo_db ship_row) (Some "o1") demo_auth init_page).

(** C13 [error]: an order whose [stages] column is empty or [null] decodes
    to no stage at all (not to the default workflow), and the tracking
    screen then throws: it reads [order.stages[order.stages.length - 1]]
    on every render. *)
Theorem absent_stages_crash cat db oid a p v :
  fetch_order cat db (Some oid) a = Ok v → truthy (row_stages (view_row v)) = false →
  view_stages v = [] ∧ render (refetch cat db (Some oid) a p) = Err TypeError.
Proof.
  intros Hf Hr. destruct (fetch_order_ok_inv _ _ _ _ _ Hf) as (uid & items & _ & _ & _ & _ & _ & Hv).
  assert (json_parse "[]" = Ok (JArr [])) as Hp by reflexivity.
  rewrite (decode_stages_falsy _ _ Hr Hp) in Hv.
  split; [by rewrite Hv|]. rewrite (refetch_ok _ _ _ _ _ _ Hf). unfold render. rewrite Hv. simpl.
  by destruct (row_total_price (view_row v)), (row_status (view_row v)).
Qed.

(** C32 [functional]: checkout stores the items as a JSON array (a jsonb
    value, returned decoded by the client), and the page runs
    [JSON.parse] on it: the array converts to the text
    ["[object Object],..."], the parse throws, the [catch] substitutes
    [[]], and the page shows no item of the order. *)
Theorem checkout_items_not_shown cat db oid a v fs xs :
  fetch_order cat db (Some oid) a = Ok v → row_items (view_row v) = JArr (JObj fs :: xs) →
  view_items v = [].
Proof.
  intros Hf Hi. destruct (fetch_order_ok_inv _ _ _ _ _ Hf) as (uid & items & _ & _ & _ & _ & Hm & Hv).
  rewrite Hi, parse_items_objects in Hm. injection Hm as <-. by rewrite Hv.
Qed.

(** ** Witnesses *)

Definition adv_stages : list Stage.t :=
  [Stage.mk (JStr "Order Placed") (JStr "t0") true; Stage.mk (JStr "Payment Pending") (JStr "") false;
   Stage.mk (JStr "Processing") (JStr "") false].

Definition adv_row : order_row := demo_row (JStr (encode_stages adv_stages)) "Order Placed" (JArr []).
Definition adv_view : order_view := mk_view adv_row [] adv_stages init_dstate.
Definition adv_page : page := mk_page (Some adv_view) None (Some adv_view).
Definition adv_done : list Stage.t := alter (complete_stage (JStr "t1")) 1 adv_stages.
Definition adv_written : order_row := stage_patch (JStr "Processing") adv_done adv_row.

Lemma advanceStage_refines_witness :
  fetch_order demo_cat (demo_db adv_row) (Some "o1") demo_auth = Ok adv_view ∧
  advanceStage accept_all demo_cat "o1" demo_auth "t1" (demo_db adv_row) adv_page =
  (<["o1" := adv_written]> (demo_db adv_row),
   mk_page (Some (mk_view adv_written [] adv_done init_dstate)) None
           (Some (mk_view adv_written [] adv_done init_dstate)), None).
Proof.
  split; [vm_compute; reflexivity|].
  apply (advanceStage_refines accept_all demo_cat "o1" demo_auth (demo_db adv_row) adv_page adv_view
           "t1" (JStr "Processing") adv_done); vm_compute; reflexivity.
Defined.

Lemma transitions_write_failure_witness :
  fetch_order demo_cat (demo_db adv_row) (Some "o1") demo_auth = Ok adv_view ∧
  advanceStage schema_check demo_cat "o1" demo_auth "t1" (demo_db adv_row) adv_page =
  (demo_db adv_row, adv_page, Some AdvanceFailed).
Proof.
  split; [vm_compute; reflexivity|].
  refine (proj1 (transitions_write_failure schema_check demo_cat "o1" demo_auth (demo_db adv_row)
                   adv_page adv_view "t1" _ _) (JStr "Processing") adv_done _ _);
    vm_compute; reflexivity.
Defined.

Lemma transitions_other_user_witness :
  advanceStage accept_all demo_cat "o1" (mk_auth true (Some "u2")) "t1" (demo_db adv_row) adv_page =
  (demo_db adv_row, mk_page (Some adv_view) (Some AccessDenied) (Some adv_view), None).
Proof.
  refine (proj1 (transitions_other_user accept_all demo_cat "o1" (mk_auth true (Some "u2"))
                   (demo_db adv_row) adv_page adv_view "t1" "u2" adv_row _ _ _ _ _)
            (JStr "Processing") adv_done _); [vm_compute; reflexivity.. | discriminate | vm_compute; reflexivity].
Defined.

Lemma notified_run_synced_witness :
  synced demo_cat "o1" demo_auth
    (run accept_all demo_cat "o1" demo_auth ship_sys [Remote operator_ships; Notify; ClickConfirm "t2"]).
Proof.
  apply notified_run_synced; [apply refetch_synced | simpl; exact I].
Defined.

Definition null_stages_row : order_row := demo_row JNull "Order Placed" (JArr []).

Lemma absent_stages_crash_witness :
  view_stages (mk_view null_stages_row [] [] init_dstate) = [] ∧
  render (refetch demo_cat (demo_db null_stages_row) (Some "o1") demo_auth init_page) = Err TypeError.
Proof.
  apply (absent_stages_crash demo_cat (demo_db null_stages_row) "o1" demo_auth init_page
           (mk_view null_stages_row [] [] init_dstate)); vm_compute; reflexivity.
Defined.

Definition checkout_items : jvalue :=
  JArr [JObj [("product_id", JStr "p1"); ("variant_id", JStr "v-5l"); ("size", JStr "5L");
              ("quantity", JNum 2)]].

Definition items_row : order_row := demo_row (JStr (encode_stages adv_stages)) "Order Placed" checkout_items.

Lemma checkout_items_not_shown_witness :
  view_items (mk_view items_row [] adv_stages init_dstate) = [].
Proof.
  apply (checkout_items_not_shown demo_cat (demo_db items_row) "o1" demo_auth
           (mk_view items_row [] adv_stages init_dstate)
           [("product_id", JStr "p1"); ("variant_id", JStr "v-5l"); ("size", JStr "5L"); ("quantity", JNum 2)] []);
    vm_compute; reflexivity.
Defined.

(** An operator completes "Shipped"; before the notification reaches the
    page the buyer clicks "Confirm Received": "Shipped" is pending again in
    the store, and the refetch shows it pending. *)
Lemma stale_confirm_reopens_stage_witness :
  stored_completion (run accept_all demo_cat "o1" demo_auth ship_sys [Remote operator_ships])
    = Some [true; true; false] ∧
  stored_completion (run accept_all demo_cat "o1" demo_auth ship_sys
                       [Remote operator_ships; ClickConfirm "t2"]) = Some [true; false; true] ∧
  shown_completion (run accept_all demo_cat "o1" demo_auth ship_sys
                      [Remote operator_ships; ClickConfirm "t2"]) = Some [true; false; true].
Proof.
  split; [vm_compute; reflexivity|].
  destruct (pg_order (sys_page ship_sys)) as [o|] eqn:Hp; [|discriminate].
  assert (Hl : last (view_stages o) = Some (Stage.mk (JStr "Delivered") (JStr "") false))
    by (revert Hp; vm_compute; intros [= <-]; reflexivity).
  rewrite (stale_confirm_reopens_stage accept_all demo_cat "o1" demo_auth ship_sys operator_ships "t2" o "u1"
             (stage_patch (JStr "Delivered") (alter (complete_stage (JStr "t1")) 1 ship_stages) ship_row) _
             Hp eq_refl Hl eq_refl eq_refl eq_refl eq_refl).
  revert Hp; vm_compute; intros [= <-]. split; reflexivity.
Defined.
