(* ===== verification/Notifications.v ===== *)
(** * Notifications: the page and the context

    - the [notifications] table as a [gmap] from ids to rows, with the
      select, updates and delete the code issues;
    - the page [Notifications] of src/src/pages/Notifications.tsx (lines
      16-218): its query (the user's rows newest first), [markAsRead] and
      [clearAll] with their mutations, which refetch on success; rows
      written by others reach the page only on a refetch;
    - the context [NotificationsProvider] of the file concatenated into
      src/src/pages/Checkout.tsx (lines 312-422): its list and loading
      flag, [fetchNotifications] on every user change and on every
      realtime change of the user's rows, [markAsRead], and [markAllRead]
      as two steps, the request and the local update on its answer, so
      that other events can come in between.  No component reads this
      context.

    The store's answer to each write is an input ([ok]); the repository's
    schema names the column [is_read] where the code writes [read]
    ([notif_schema_has_read]). *)

From S2P Require Import Prelude Js.
From stdpp Require Import gmap sorting pretty.
Open Scope nat_scope.

(** ** The table *)

Record notif_row := mk_notif {
  n_user : string;
  n_title : string;
  n_message : string;
  n_read : bool;
  n_created : string
}.

Abbreviation ntable := (gmap string notif_row).

(** [created_at] of the first row is not earlier than that of the second
    (ISO timestamps of one format compare as strings). *)
Definition newer_notif (x y : string * notif_row) : Prop :=
  String.leb (n_created y.2) (n_created x.2) = true.

#[export] Instance newer_notif_dec : RelDecision newer_notif.
Proof. intros x y. unfold newer_notif. apply _. Defined.

(** [.select('*').eq('user_id', uid).order('created_at', { ascending: false })] *)
Definition select_notifications (db : ntable) (uid : string) : list (string * notif_row) :=
  merge_sort newer_notif (List.filter (λ kr, String.eqb (n_user kr.2) uid) (map_to_list db)).

(** [{ ...n, read: true }] *)
Definition set_read (r : notif_row) : notif_row :=
  mk_notif (n_user r) (n_title r) (n_message r) true (n_created r).

(** [.update({ read: true }).eq('id', id).eq('user_id', uid)] *)
Definition update_read (db : ntable) (id uid : string) : ntable :=
  match db !! id with
  | Some r => if String.eqb (n_user r) uid then <[id := set_read r]> db else db
  | None => db
  end.

(** [.update({ read: true }).in('id', ids).eq('user_id', uid)] *)
Definition update_read_in (db : ntable) (ids : list string) (uid : string) : ntable :=
  map_imap (λ k r, Some (if bool_decide (k ∈ ids) && String.eqb (n_user r) uid then set_read r else r)) db.

(** [.delete().eq('user_id', uid)] *)
Definition delete_user_rows (db : ntable) (uid : string) : ntable :=
  filter (λ kr, n_user kr.2 ≠ uid) db.

(** The columns of [public.notifications] in src/unnamed/part_003. *)
Definition notif_schema_columns : list string :=
  ["id"; "user_id"; "title"; "message"; "type"; "related_order_id"; "is_read"; "created_at"].

Definition notif_schema_has_read : bool := bool_decide ("read" ∈ notif_schema_columns).

(** ** The page *)

(** The query's data: [enabled: !!user?.id], so without a user it never
    runs and the list is the default [[]]. *)
Definition notif_query (u : option string) (db : ntable) : list (string * notif_row) :=
  match u with Some uid => select_notifications db uid | None => [] end.

Inductive npage_event :=
| NMarkRead (id : string) (ok : bool)      (** "Mark as Read" *)
| NClearAll (confirmed ok : bool)          (** "Clear All", [confirmed] the answer to [confirm] *)
| NInsert (id : string) (r : notif_row)    (** a row written by another client *)
| NRefetch.                                (** React Query refetches (focus, remount, stale time) *)

(** The page's list is React Query's data; [u] is [user?.id]. *)
Definition npage_step (u : option string) (s : ntable * list (string * notif_row)) (e : npage_event)
  : ntable * list (string * notif_row) :=
  let '(db, view) := s in
  match e with
  | NMarkRead id ok =>
      match u with
      | Some uid => if ok then let db' := update_read db id uid in (db', notif_query u db') else (db, view)
      | None => (db, view)
      end
  | NClearAll confirmed ok =>
      if negb (length view =? 0) && confirmed then
        match u with
        | Some uid => if ok then let db' := delete_user_rows db uid in (db', notif_query u db') else (db, view)
        | None => (db, view)
        end
      else (db, view)
  | NInsert id r => (<[id := r]> db, view)
  | NRefetch => (db, notif_query u db)
  end.

Definition npage_run (u : option string) (s : ntable * list (string * notif_row)) (es : list npage_event)
  : ntable * list (string * notif_row) :=
  foldl (npage_step u) s es.

(** The page's render (lines 92-212): the loading and error screens,
    "No notifications", or the list with its "Clear All" button and, on
    each unread notification, a "Mark as Read" button; [mark_pending] and
    [clear_pending] are the two mutations' [isPending]. *)
Record nitem_view := mk_nitem_view {
  nv_key : string;
  nv_title : string;
  nv_message : string;
  nv_unread : bool;                       (** the blue highlight *)
  nv_button : option (string * bool)      (** label and [disabled] of "Mark as Read" *)
}.

Definition nitem_view_of (mark_pending : bool) (kr : string * notif_row) : nitem_view :=
  mk_nitem_view kr.1 (n_title kr.2) (n_message kr.2) (negb (n_read kr.2))
    (if n_read kr.2 then None else Some (if mark_pending then "Reading..." else "Mark as Read", mark_pending)).

Inductive nscreen :=
| NLoading
| NFailed                 (** "Failed to load notifications." with Retry *)
| NEmpty                  (** "No notifications" *)
| NList (count : nat) (clear_label : string) (clear_disabled : bool) (items : list nitem_view).

Definition npage_render (q : option (js (list (string * notif_row)))) (mark_pending clear_pending : bool)
  : nscreen :=
  match q with
  | None => NLoading
  | Some (Err _) => NFailed
  | Some (Ok l) =>
      if length l =? 0 then NEmpty
      else NList (length l)
             (if clear_pending then "Clearing..." else String.append "Clear All (" (String.append (pretty (length l)) ")"))
             (clear_pending || (length l =? 0)) (map (nitem_view_of mark_pending) l)
  end.

(** ** The context *)

Record nctx := mk_nctx {
  nc_list : list (string * notif_row);
  nc_loading : bool;
  nc_pending : option bool   (** a [markAllRead] request in flight, with the store's answer *)
}.

Definition nctx_init : nctx := mk_nctx [] true None.

(** [fetchNotifications]: nothing without a user; a failed select only
    clears [loading]. *)
Definition fetchNotifications (u : option string) (db : ntable) (ok : bool) (c : nctx) : nctx :=
  match u with
  | None => c
  | Some uid => mk_nctx (if ok then select_notifications db uid else nc_list c) false (nc_pending c)
  end.

(** [markAsRead]'s local update on success. *)
Definition mark_local (id : string) (l : list (string * notif_row)) : list (string * notif_row) :=
  map (λ kr, if String.eqb kr.1 id then (kr.1, set_read kr.2) else kr) l.

Definition unread_ids (l : list (string * notif_row)) : list string :=
  map fst (List.filter (λ kr, negb (n_read kr.2)) l).

Inductive nctx_event :=
| CUser (u : option string)                  (** the user changes: the fetch effect *)
| CRemote (id : string) (r : notif_row)      (** another client writes a row; the channel refetches *)
| CMarkRead (id : string) (ok : bool)
| CMarkAllReadSend (ok : bool)               (** [markAllRead]'s request, [ok] the store's answer *)
| CMarkAllReadDone.                          (** its answer reaches the context *)

(** The context's state with the current user and the table. *)
Definition nctx_step (s : option string * ntable * nctx) (e : nctx_event) : option string * ntable * nctx :=
  let '(u, db, c) := s in
  match e with
  | CUser u' => (u', db, fetchNotifications u' db true c)
  | CRemote id r =>
      let db' := <[id := r]> db in
      if bool_decide (u = Some (n_user r)) then (u, db', fetchNotifications u db' true c) else (u, db', c)
  | CMarkRead id ok =>
      match u with
      | Some uid => if ok then (u, update_read db id uid, mk_nctx (mark_local id (nc_list c)) (nc_loading c) (nc_pending c))
                    else (u, db, c)
      | None => (u, db, c)
      end
  | CMarkAllReadSend ok =>
      let ids := unread_ids (nc_list c) in
      if length ids =? 0 then (u, db, c) else
      match u with
      | Some uid => ((u, if ok then update_read_in db ids uid else db), mk_nctx (nc_list c) (nc_loading c) (Some ok))
      | None => (u, db, mk_nctx (nc_list c) (nc_loading c) (Some false))  (** [eq('user_id', undefined)] fails *)
      end
  | CMarkAllReadDone =>
      match nc_pending c with
      | Some true => (u, db, mk_nctx (map (λ kr, (kr.1, set_read kr.2)) (nc_list c)) (nc_loading c) None)
      | Some false => (u, db, mk_nctx (nc_list c) (nc_loading c) None)
      | None => (u, db, c)
      end
  end.

Definition nctx_run (s : option string * ntable * nctx) (es : list nctx_event) : option string * ntable * nctx :=
  foldl nctx_step s es.

(** ** The table's operations *)

Lemma select_notifications_spec db uid kr :
  kr ∈ select_notifications db uid ↔ db !! kr.1 = Some kr.2 ∧ n_user kr.2 = uid.
Proof.
  destruct kr as [k r]. unfold select_notifications.
  rewrite merge_sort_Permutation, list_elem_of_In, filter_In, <-list_elem_of_In, elem_of_map_to_list.
  cbn. by rewrite String.eqb_eq.
Qed.

Lemma select_notifications_nil db uid :
  (∀ k r, db !! k = Some r → n_user r ≠ uid) → select_notifications db uid = [].
Proof.
  intros Hno. destruct (select_notifications db uid) as [|kr l] eqn:E; [done|].
  assert (kr ∈ select_notifications db uid) as [Hk Hu]%select_notifications_spec by (rewrite E; left).
  by destruct (Hno _ _ Hk Hu).
Qed.

Lemma delete_user_rows_lookup db uid k :
  delete_user_rows db uid !! k = db !! k ≫= λ r, if String.eqb (n_user r) uid then None else Some r.
Proof.
  unfold delete_user_rows. rewrite map_lookup_filter.
  destruct (db !! k) as [r|]; cbn; [|done].
  destruct (String.eqb_spec (n_user r) uid); cbn; case_guard; naive_solver.
Qed.

(** C37 [safety]: "Clear All", confirmed and accepted, deletes every
    notification of the user, also those written after the page's last
    fetch that it never showed, and no notification of anyone else; the
    page then shows none. *)
Theorem clear_all_deletes_every_own_row uid db view :
  view ≠ [] →
  let '(db', view') := npage_step (Some uid) (db, view) (NClearAll true true) in
  (∀ k, db' !! k = db !! k ≫= λ r, if String.eqb (n_user r) uid then None else Some r) ∧ view' = [].
Proof.
  intros Hv. cbn. destruct view as [|kr view]; [done|]. cbn. split.
  - intros k. apply delete_user_rows_lookup.
  - apply select_notifications_nil. intros k r. rewrite delete_user_rows_lookup.
    destruct (db !! k) as [r'|]; cbn; [|done].
    destruct (String.eqb_spec (n_user r') uid); [done|]. by intros [= <-].
Qed.

(** ** The context's [markAllRead] *)

Lemma in_map_set_read (l : list (string * notif_row)) k r :
  (k, r) ∈ l → (k, set_read r) ∈ map (λ kr, (kr.1, set_read kr.2)) l.
Proof. intros Hin. apply list_elem_of_fmap. by exists (k, r). Qed.

Lemma map_set_read_all (l : list (string * notif_row)) kr :
  kr ∈ map (λ kr, (kr.1, set_read kr.2)) l → n_read kr.2 = true.
Proof. intros (kr' & -> & _)%list_elem_of_fmap. done. Qed.

(** C38 [safety]: [markAllRead] updates the rows unread at the click, but on
    its answer marks read every row the context then lists: a notification
    the channel brought in while the request was in flight is shown as
    read, while the store holds it unread. *)
Theorem mark_all_read_masks_new_row uid db c k r :
  unread_ids (nc_list c) ≠ [] → n_user r = uid → n_read r = false →
  let '(_, db', c') := nctx_run (Some uid, db, c) [CMarkAllReadSend true; CRemote k r; CMarkAllReadDone] in
  db' !! k = Some r ∧ (k, set_read r) ∈ nc_list c' ∧ (k, r) ∉ nc_list c'.
Proof.
  intros Hu Hr Hunread. cbn [nctx_run foldl nctx_step].
  destruct (length (unread_ids (nc_list c)) =? 0) eqn:E.
  { apply Nat.eqb_eq, length_zero_iff_nil in E. contradiction. }
  cbn [nctx_step]. rewrite bool_decide_eq_true_2 by (by rewrite Hr). cbn. split_and!.
  - apply lookup_insert_eq.
  - apply in_map_set_read, select_notifications_spec. cbn. by rewrite lookup_insert_eq.
  - intros Hin%map_set_read_all. cbn in Hin. congruence.
Qed.

(** ** The page's "Mark as Read" *)

(** "Mark as Read" changes at most the read flag of the clicked row, and
    only when the row is the user's. *)
Lemma mark_as_read_own_row_only uid db view id ok :
  let '(db', _) := npage_step (Some uid) (db, view) (NMarkRead id ok) in
  ∀ k, db' !! k = (λ r, if ok && String.eqb k id && String.eqb (n_user r) uid then set_read r else r) <$> db !! k.
Proof.
  destruct ok; cbn; intros k; [|by destruct (db !! k)].
  unfold update_read. destruct (String.eqb_spec k id) as [->|Hne].
  - destruct (db !! id) as [r|] eqn:Hr; cbn; [|by rewrite Hr].
    destruct (String.eqb (n_user r) uid); [by rewrite lookup_insert_eq|by rewrite Hr].
  - destruct (db !! id) as [r|]; [case_match|]; rewrite ?lookup_insert_ne by done;
      by destruct (db !! k).
Qed.

(** A successful "Mark as Read" on one of the user's notifications: the
    refetched page still lists it, without highlight and without its
    button. *)
Lemma mark_read_page uid db view id r mp cp :
  db !! id = Some r → n_user r = uid →
  let '(_, view') := npage_step (Some uid) (db, view) (NMarkRead id true) in
  ∃ v, v ∈ map (nitem_view_of mp) view' ∧ nv_key v = id ∧ nv_unread v = false ∧ nv_button v = None ∧
    npage_render (Some (Ok view')) mp cp ≠ NEmpty.
Proof.
  intros Hr Hu. cbn [npage_step notif_query].
  assert ((id, set_read r) ∈ select_notifications (update_read db id uid) uid) as Hin.
  { apply select_notifications_spec. cbn. unfold update_read. rewrite Hr, Hu, String.eqb_refl.
    by rewrite lookup_insert_eq. }
  exists (nitem_view_of mp (id, set_read r)). split_and!; [by apply list_elem_of_fmap; eexists|done..|].
  unfold npage_render. destruct (select_notifications _ _); [by apply elem_of_nil in Hin|done].
Qed.

(** ** Witnesses *)

Definition harvest_note : notif_row := mk_notif "u1" "Order shipped" "Your order is on its way" false "2024-05-02T10:00:00".
Definition late_note : notif_row := mk_notif "u1" "Order delivered" "Your order has arrived" false "2024-05-03T09:00:00".
Definition other_note : notif_row := mk_notif "u2" "Welcome" "Thanks for joining" false "2024-05-01T08:00:00".

Definition notes_db : ntable := <["n1" := harvest_note]> (<["n3" := other_note]> ∅).

Lemma clear_all_deletes_every_own_row_witness :
  let '(db', view') := npage_step (Some "u1") (<["n2" := late_note]> notes_db, [("n1", harvest_note)])
                         (NClearAll true true) in
  (∀ k, db' !! k = (<["n2" := late_note]> notes_db) !! k ≫=
                     λ r, if String.eqb (n_user r) "u1" then None else Some r) ∧ view' = [].
Proof. exact (clear_all_deletes_every_own_row "u1" _ [("n1", harvest_note)] ltac:(discriminate)). Defined.

Lemma mark_all_read_masks_new_row_witness :
  let '(_, db', c') := nctx_run (Some "u1", notes_db, mk_nctx [("n1", harvest_note)] false None)
                         [CMarkAllReadSend true; CRemote "n2" late_note; CMarkAllReadDone] in
  db' !! "n2" = Some late_note ∧ ("n2", set_read late_note) ∈ nc_list c' ∧ ("n2", late_note) ∉ nc_list c'.
Proof.
  refine (mark_all_read_masks_new_row "u1" notes_db (mk_nctx [("n1", harvest_note)] false None) "n2" late_note _ _ _);
    [vm_compute; discriminate|reflexivity|reflexivity].
Defined.
