(* ===== verification/Checkout.v ===== *)
(** * Checkout: the discount and the creation of an order

    Models src/src/pages/Checkout.tsx:
    - [checkout_state]: the page state ([deliveryInfo], [discountCode],
      [appliedDiscount], [isPlacingOrder]);
    - [handlePaste], [type_code]: the discount code; only the Paste button
      applies [SAVE10] (lines 93-110), typing in the field sets the code
      alone (line 269);
    - [order_item_json], [delivery_record], [checkout_row]: the row
      [handlePlaceOrder] inserts (lines 128-154): the items as a JSON
      array, the legacy one-entry delivery record as the [stages] text,
      the status ['Order Placed (Making Order)'];
    - [handlePlaceOrder]: the handler (lines 114-173), with its guards
      ([session], the prompts, [user && deliveryInfo.address]) and the
      store insert; [user] is the value captured when the page rendered. *)

From S2P Require Import Prelude Js Json Pricing Stages OrderMachine Store Notifications.
From stdpp Require Import gmap.
Open Scope nat_scope.

(** ** Page state *)

Record delivery_info := mk_delivery { address : string; instructions_text : string }.

Record checkout_state := mk_co {
  co_delivery : delivery_info;
  co_code : string;
  co_applied : Q;
  co_placing : bool
}.

Definition init_checkout : checkout_state := mk_co (mk_delivery "" "") "" 0 false.

(** [handlePaste]: [clip] is the clipboard text, [None] when the
    clipboard API is missing or reading it fails (both leave the state
    unchanged). *)
Definition handlePaste (subtotal : Q) (clip : option string) (st : checkout_state) : checkout_state :=
  match clip with
  | None => st
  | Some text =>
      let code := trim text in
      mk_co (co_delivery st) code
        (if String.eqb code "SAVE10" then (subtotal * (1 # 10))%Q else 0%Q) (co_placing st)
  end.

(** [onChange={(e) => setDiscountCode(e.target.value)}] *)
Definition type_code (code : string) (st : checkout_state) : checkout_state :=
  mk_co (co_delivery st) code (co_applied st) (co_placing st).

(** [handleInputChange] on the address field. *)
Definition type_address (addr : string) (st : checkout_state) : checkout_state :=
  mk_co (mk_delivery addr (instructions_text (co_delivery st))) (co_code st) (co_applied st) (co_placing st).

Definition discountedTotal (subtotal : Q) (st : checkout_state) : Q := (subtotal - co_applied st)%Q.

(** [disabled={isPlacingOrder || !deliveryInfo.address || subtotal === 0}] *)
Definition place_enabled (subtotal : Q) (st : checkout_state) : bool :=
  negb (co_placing st) && negb (String.eqb (address (co_delivery st)) "") && negb (Qeq_bool subtotal 0).

(** ** The page (lines 174-330) *)

Record summary_line := mk_summary_line {
  sl_name : string; sl_size : option string; sl_quantity : Z;
  sl_total : string                    (** [itemTotal.toFixed(2)] *)
}.

Record co_view := mk_co_view {
  cv_lines : list summary_line;
  cv_total : string;                   (** "Total:", [total.toFixed(2)] of the discounted total *)
  cv_discount : option string;         (** "Discount Applied: -KES ...", when positive *)
  cv_sign_in_hint : bool;              (** without a session *)
  cv_saved_select : bool;              (** with a session and saved addresses *)
  cv_place_disabled : bool;
  cv_place_label : string              (** "Placing Order..." or "Place Order - KES {total}" *)
}.

Definition checkout_view (session : bool) (n_saved : nat) (subtotal : Q) (cart : list cart_item)
  (st : checkout_state) : co_view :=
  let total := to_fixed2 (discountedTotal subtotal st) in
  mk_co_view
    (map (λ it, mk_summary_line (name it) (truthy_text (Pricing.size it)) (quantity it) (to_fixed2 (lineTotal it))) cart)
    total (if Qle_bool (co_applied st) 0 then None else Some (to_fixed2 (co_applied st)))
    (negb session) (session && negb (n_saved =? 0)) (negb (place_enabled subtotal st))
    (if co_placing st then "Placing Order..." else String.append "Place Order - KES " total).

(** ** The inserted row *)

(** An optional field, dropped from the request body when [undefined]. *)
Definition opt_field (k : string) (o : option string) : list (string * jvalue) :=
  match o with Some v => [(k, JStr v)] | None => [] end.

(** [{ product_id: item.id, variant_id: item.variant_id, size: item.size,
    quantity: item.quantity }] *)
Definition order_item_json (item : cart_item) : jvalue :=
  JObj ([("product_id", JStr (id item))] ++ opt_field "variant_id" (variant_id item) ++
        opt_field "size" (Pricing.size item) ++ [("quantity", JNum (inject_Z (quantity item)))]).

(** [{ stage: 'delivery', address, instructions, status: 'pending' }] *)
Definition delivery_record (d : delivery_info) : jvalue :=
  JObj [("stage", JStr "delivery"); ("address", JStr (address d));
        ("instructions", JStr (instructions_text d)); ("status", JStr "pending")].

(** The row of lines 144-152; [created_at] is the store's [NOW()]. *)
Definition checkout_row `{JsonCodec} (uid : string) (cart : list cart_item) (total : Q)
  (d : delivery_info) (created_at : jvalue) : order_row :=
  mk_row uid (JStr "Order Placed (Making Order)") (JStr (json_stringify (JArr [delivery_record d])))
    (JArr (map order_item_json cart)) (JNum total) created_at.

(** ** The handler *)

Inductive co_result :=
| CoAbort           (** no session and a prompt cancelled or left empty *)
| CoSignupFailed    (** ['Account creation failed'] *)
| CoNothing         (** no user or no address: nothing happens *)
| CoInsertFailed    (** ['Order creation failed: ...'] *)
| CoPlaced (oid : string).  (** ['Order placed! ...'], cart cleared, to /orders *)

Definition js_truthy_str (o : option string) : bool :=
  match o with Some s => negb (String.eqb s "") | None => false end.

Section place.
Context `{JsonCodec}.
Variables (check : order_row → bool) (subtotal : Q).

(** Lines 128-170, once the session test has passed. *)
Definition place_order (db : table) (a : auth) (cart : list cart_item) (st : checkout_state)
  (fresh : string) (now : jvalue) : table * list cart_item * co_result :=
  match user a with
  | Some uid =>
      if String.eqb (address (co_delivery st)) "" then (db, cart, CoNothing) else
      match insert_row check db fresh
              (checkout_row uid cart (discountedTotal subtotal st) (co_delivery st) now) with
      | Err _ => (db, cart, CoInsertFailed)
      | Ok db' => (db', [], CoPlaced fresh)
      end
  | None => (db, cart, CoNothing)
  end.

(** Lines 114-173: [prompts] are the answers to the e-mail and password
    prompts ([None] when cancelled), [signup_ok] whether [signUp]
    resolved. *)
Definition handlePlaceOrder (db : table) (a : auth) (prompts : option string * option string)
  (signup_ok : bool) (cart : list cart_item) (st : checkout_state) (fresh : string) (now : jvalue)
  : table * list cart_item * co_result :=
  if session a then place_order db a cart st fresh now
  else if js_truthy_str prompts.1 && js_truthy_str prompts.2 then
    if signup_ok then place_order db a cart st fresh now else (db, cart, CoSignupFailed)
  else (db, cart, CoAbort).
End place.

(** The order code the page shows: [order.id.slice(-6).toUpperCase()]. *)
Definition order_code (oid : string) : string := to_upper (slice_last 6 oid).

(** The notification inserted once the order is placed (lines 158-166):
    [{ user_id, title: 'Order Created', message }]; [read] is not sent, so
    the row holds the column's default.  Its failure is only logged. *)
Definition order_notification (uid oid created : string) : notif_row :=
  mk_notif uid "Order Created"
    (String.append "Your order #" (String.append (order_code oid)
       " has been placed successfully. Call 0725600710 to complete payment."))
    false created.

(** The columns of [public.notifications] that are [NOT NULL] without a
    default (src/unnamed/part_003, lines 115-124), and those the insert
    sends. *)
Definition notif_required_columns : list string := ["user_id"; "title"; "message"; "type"].
Definition order_notification_fields : list string := ["user_id"; "title"; "message"].

Definition notif_insert_accepted : bool :=
  forallb (λ c, bool_decide (c ∈ order_notification_fields)) notif_required_columns.

(** The notifications table after the handler: the insert runs only when
    the order was placed; [ok] is the store's answer. *)
Definition notify_placed (ndb : ntable) (nid : string) (ok : bool) (a : auth) (res : co_result)
  (created : string) : ntable :=
  match res, user a with
  | CoPlaced oid, Some uid => if ok then <[nid := order_notification uid oid created]> ndb else ndb
  | _, _ => ndb
  end.

(** ** Checkout events *)

Inductive co_event :=
| EvPaste (clip : option string)
| EvTypeCode (code : string)
| EvTypeAddress (addr : string).

Definition co_step (subtotal : Q) (st : checkout_state) (e : co_event) : checkout_state :=
  match e with
  | EvPaste clip => handlePaste subtotal clip st
  | EvTypeCode c => type_code c st
  | EvTypeAddress addr => type_address addr st
  end.

Definition co_run (subtotal : Q) (es : list co_event) : checkout_state :=
  foldl (co_step subtotal) init_checkout es.

(** ** Lemmas *)

Section lemmas.
Context `{JsonCodec}.
Variables (check : order_row → bool) (subtotal : Q).

Lemma place_order_placed db a cart st fresh now db' cart' oid :
  place_order check subtotal db a cart st fresh now = (db', cart', CoPlaced oid) →
  ∃ uid, user a = Some uid ∧ address (co_delivery st) ≠ "" ∧ oid = fresh ∧ cart' = [] ∧
    db' = <[fresh := checkout_row uid cart (discountedTotal subtotal st) (co_delivery st) now]> db.
Proof.
  unfold place_order, insert_row. destruct (user a) as [uid|] eqn:Hu; [|discriminate].
  destruct (String.eqb_spec (address (co_delivery st)) "") as [|Ha]; [discriminate|].
  repeat case_match; intros; simplify_eq. by exists uid.
Qed.

Lemma handlePlaceOrder_placed db a p ok cart st fresh now db' cart' oid :
  handlePlaceOrder check subtotal db a p ok cart st fresh now = (db', cart', CoPlaced oid) →
  place_order check subtotal db a cart st fresh now = (db', cart', CoPlaced oid).
Proof. unfold handlePlaceOrder. by repeat case_match. Qed.
End lemmas.

(** A placed order is announced on the buyer's notifications page, unread,
    under the code its card shows, when the store accepts the insert. *)
Lemma placed_order_notified `{JsonCodec} check subtotal db a p ok cart st fresh now db' cart' oid ndb nid created :
  handlePlaceOrder check subtotal db a p ok cart st fresh now = (db', cart', CoPlaced oid) →
  ∃ uid, user a = Some uid ∧
    (nid, order_notification uid oid created) ∈
      select_notifications (notify_placed ndb nid true a (CoPlaced oid) created) uid ∧
    nv_button (nitem_view_of false (nid, order_notification uid oid created)) = Some ("Mark as Read", false).
Proof.
  intros Hh. apply handlePlaceOrder_placed, place_order_placed in Hh as (uid & Hu & _).
  exists uid. split_and!; [done| |done].
  apply select_notifications_spec. cbn. unfold notify_placed. rewrite Hu. by rewrite lookup_insert_eq.
Qed.

(** Against the repository's schema the insert lacks the [NOT NULL]
    column [type] and is rejected: the announcement never appears. *)
Lemma notif_insert_rejected : notif_insert_accepted = false.
Proof. reflexivity. Qed.

Lemma co_applied_foldl subtotal st es :
  co_applied st = 0%Q ∨ co_applied st = (subtotal * (1 # 10))%Q →
  co_applied (foldl (co_step subtotal) st es) = 0%Q ∨
  co_applied (foldl (co_step subtotal) st es) = (subtotal * (1 # 10))%Q.
Proof.
  revert st. induction es as [|e es IH]; intros st Hst; [done|]. simpl. apply IH.
  destruct e as [[text|]| |]; simpl; auto. case_match; auto.
Qed.

Lemma co_applied_cases subtotal es :
  co_applied (co_run subtotal es) = 0%Q ∨ co_applied (co_run subtotal es) = (subtotal * (1 # 10))%Q.
Proof. apply co_applied_foldl. by left. Qed.

(** ** Properties *)

Section properties.
Context `{JsonCodecLaws}.
Variables (check : order_row → bool) (subtotal : Q).

(** C14 [functional]: every order checkout places is tracked as the
    default workflow.  The stored row holds the legacy delivery record as
    its [stages] text, which the tracking page decodes to the six default
    stages (only "Order Placed" completed, at the row's creation time) and
    the delivery address and instructions typed at checkout; its status
    ['Order Placed (Making Order)'] is the name of no stage.  The cart is
    emptied. *)
Theorem placed_order_decodes_default db a p ok cart st fresh now db' cart' oid :
  handlePlaceOrder check subtotal db a p ok cart st fresh now = (db', cart', CoPlaced oid) →
  ∃ r, db' !! oid = Some r ∧ row_status r = JStr "Order Placed (Making Order)" ∧ cart' = [] ∧
    decode_stages (row_stages r) (row_created_at r) =
    (default_stages now,
     mk_dstate (JStr (address (co_delivery st))) (JStr (instructions_text (co_delivery st)))).
Proof.
  intros Hh. apply handlePlaceOrder_placed, place_order_placed in Hh as (uid & _ & Ha & -> & -> & ->).
  eexists. rewrite lookup_insert_eq. do 3 (split; [done|]).
  assert (json_ok (JArr [delivery_record (co_delivery st)]) = true) as Hok by done.
  unfold decode_stages, stages_source. simpl.
  destruct (String.eqb_spec (json_stringify (JArr [delivery_record (co_delivery st)])) "") as [He|_].
  { by destruct (json_stringify_nonempty _ Hok). }
  simpl. rewrite json_roundtrip by done.
  transitivity (default_stages now,
    mk_dstate (JStr (address (co_delivery st)) ||| JStr "") (JStr (instructions_text (co_delivery st)) ||| JStr "")).
  - unfold parse_stages, stages_try, select_stages, mbind, stx_bind, lift at 1 2.
    unfold delivery_record. rewrite is_delivery_record_legacy by reflexivity. reflexivity.
  - by rewrite js_or_str_nonempty, js_or_str_empty.
Qed.

(** The handler reads the [user] captured when the page was
    rendered.  Without it checkout never writes an order; in particular a
    buyer without a session who answers both prompts and whose sign-up
    succeeds gets no order and no message at all. *)
Theorem checkout_without_user db a p ok cart st fresh now :
  user a = None →
  (handlePlaceOrder check subtotal db a p ok cart st fresh now).1.1 = db ∧
  (∀ oid, (handlePlaceOrder check subtotal db a p ok cart st fresh now).2 ≠ CoPlaced oid) ∧
  (session a = false → js_truthy_str p.1 = true → js_truthy_str p.2 = true →
   handlePlaceOrder check subtotal db a p true cart st fresh now = (db, cart, CoNothing)).
Proof.
  intros Hu. unfold handlePlaceOrder, place_order. rewrite Hu.
  split; [by repeat case_match|]. split; [intros oid; by repeat case_match|].
  intros -> -> ->. reflexivity.
Qed.

(** C40 [bounds]: whatever the buyer pastes or types before placing the
    order, the stored total is the subtotal or the subtotal less the 10%
    [SAVE10] discount: for a non-negative subtotal it lies between 90% of
    the subtotal and the subtotal. *)
Theorem placed_total_bounds db a p ok cart es fresh now db' cart' oid :
  (0 <= subtotal)%Q →
  handlePlaceOrder check subtotal db a p ok cart (co_run subtotal es) fresh now = (db', cart', CoPlaced oid) →
  ∃ r q, db' !! oid = Some r ∧ row_total_price r = JNum q ∧ (subtotal * (9 # 10) <= q <= subtotal)%Q.
Proof.
  intros Hs Hh. apply handlePlaceOrder_placed, place_order_placed in Hh as (uid & _ & _ & -> & -> & ->).
  eexists _, _. rewrite lookup_insert_eq. split; [done|]. split; [done|].
  unfold discountedTotal. destruct (co_applied_cases subtotal es) as [-> | ->]; lra.
Qed.
End properties.

(** ** Witnesses *)

Definition foliar_line : cart_item :=
  mk_item "p1" "Foliar Feed" 1000 1 None None (Some "5L") (Some "v-5l").

Definition plot_state : checkout_state := mk_co (mk_delivery "Plot 12, Ngong Road" "Call on arrival") "" 0 false.

Definition placed_db : table :=
  <["o9" := checkout_row "u1" [foliar_line] (discountedTotal 1000 plot_state) (co_delivery plot_state)
              (JStr "2025-03-01T10:00:00Z")]> ∅.

Lemma placed_order_decodes_default_witness :
  ∃ r, placed_db !! "o9" = Some r ∧ row_status r = JStr "Order Placed (Making Order)" ∧ [] = @nil cart_item ∧
    decode_stages (row_stages r) (row_created_at r) =
    (default_stages (JStr "2025-03-01T10:00:00Z"),
     mk_dstate (JStr "Plot 12, Ngong Road") (JStr "Call on arrival")).
Proof.
  apply (placed_order_decodes_default (λ _, true) 1000 ∅ (mk_auth true (Some "u1")) (None, None) false
           [foliar_line] plot_state "o9" (JStr "2025-03-01T10:00:00Z") placed_db [] "o9").
  vm_compute. reflexivity.
Defined.

Lemma checkout_without_user_witness :
  handlePlaceOrder (λ _, true) 1000 ∅ (mk_auth false None) (Some "buyer@example.com", Some "secret")
    true [foliar_line] plot_state "o9" (JStr "t0") = (∅, [foliar_line], CoNothing).
Proof.
  apply (checkout_without_user (λ _, true) 1000 ∅ (mk_auth false None) (Some "buyer@example.com", Some "secret")
           true [foliar_line] plot_state "o9" (JStr "t0")); reflexivity.
Defined.

Definition paste_events : list co_event :=
  [EvTypeAddress "Plot 12, Ngong Road"; EvPaste (Some "  SAVE10
")].

Lemma placed_total_bounds_witness :
  ∃ r q, (<["o9" := checkout_row "u1" [foliar_line] (discountedTotal 1000 (co_run 1000 paste_events))
                      (co_delivery (co_run 1000 paste_events)) (JStr "t0")]> ∅ : table) !! "o9" = Some r ∧
    row_total_price r = JNum q ∧ (1000 * (9 # 10) <= q <= 1000)%Q.
Proof.
  apply (placed_total_bounds (λ _, true) 1000 ∅ (mk_auth true (Some "u1")) (None, None) false [foliar_line]
           paste_events "o9" (JStr "t0") _ [] "o9"); vm_compute; [congruence | reflexivity].
Defined.
