(* ===== verification/OrdersList.v ===== *)
(** * The orders list

    Models the [Orders] component of src/src/pages/Notifications.tsx
    (lines 253-332), the buyer's list of orders:
    - [list_rows]: [.select('*').eq('user_id', user.id)
      .order('created_at', { ascending: false })], the owner's rows newest
      first (stdpp's [merge_sort] on the creation timestamp text);
    - [parse_order_json]: the [try] of lines 279-287, which parses the
      [stages] and then the [items] column and resets BOTH to [[]] when
      either parse throws;
    - [enrich_list_item]: the item callback of lines 290-304, which cannot
      throw (its [try] covers every property access);
    - [summarize], [list_orders]: one order and the whole query, whose
      [Promise.all] rejects as soon as one order's items are not an array. *)

From S2P Require Import Prelude Js Json Pricing Stages Store TrackOrder.
From stdpp Require Import gmap sorting.
Open Scope nat_scope.

(** ** Rows of the owner, newest first *)

(** The creation time as text; ISO timestamps of one format compare
    chronologically as strings. *)
Definition created_key (r : order_row) : string :=
  match row_created_at r with JStr s => s | _ => EmptyString end.

(** [created_at] of the first row is not earlier than that of the second. *)
Definition newer_or_same (x y : string * order_row) : Prop :=
  String.leb (created_key y.2) (created_key x.2) = true.

#[export] Instance newer_or_same_dec : RelDecision newer_or_same.
Proof. intros x y. unfold newer_or_same. apply _. Defined.

Definition owned_by (uid : string) (kr : string * order_row) : bool :=
  String.eqb (row_user_id kr.2) uid.

Definition list_rows (db : table) (uid : string) : list (string * order_row) :=
  merge_sort newer_or_same (List.filter (owned_by uid) (map_to_list db)).

(** ** One order *)

(** [{ ...item, name: productName, size: variantSize }] *)
Record list_item := mk_list_item { li_raw : jvalue; li_name : jvalue; li_size : jvalue }.

Definition enrich_list_item (cat : catalog) (item : jvalue) : list_item :=
  match get item "product_id" with
  | Err _ => mk_list_item item (JStr "Unknown") (JStr "")
  | Ok pid =>
      let name := row_name (lookup_row (cat_products cat) pid) ||| JStr "Unknown" in
      match get item "variant_id" with
      | Ok vid =>
          if truthy vid then mk_list_item item name (row_name (lookup_row (cat_variants cat) vid) ||| JStr "")
          else mk_list_item item name (JStr "")
      | Err _ => mk_list_item item name (JStr "")
      end
  end.

(** Lines 279-287: both columns parsed, or both reset to [[]]. *)
Definition parse_order_json `{JsonCodec} (r : order_row) : jvalue * jvalue :=
  match json_parse (stages_source (row_stages r)) with
  | Err _ => (JArr [], JArr [])
  | Ok st =>
      match json_parse (stages_source (row_items r)) with
      | Err _ => (JArr [], JArr [])
      | Ok its => (st, its)
      end
  end.

(** [{ ...order, stages: parsedStages, items: enrichedItems }]; the
    stages are shown as parsed, without the normalization of the tracking
    page. *)
Record summary := mk_summary {
  sm_id : string;
  sm_row : order_row;
  sm_stages : jvalue;
  sm_items : list list_item
}.

Definition summarize `{JsonCodec} (cat : catalog) (kr : string * order_row) : js summary :=
  let '(st, its) := parse_order_json kr.2 in
  match its with
  | JArr xs => Ok (mk_summary kr.1 kr.2 st (map (enrich_list_item cat) xs))
  | _ => Err TypeError
  end.

(** A rejection of [Promise.all]: [items.map] on a value that is not an array. *)
Inductive list_error := ListItemsError (e : js_exn).

(** The [queryFn] of lines 263-309 ([fetchError] is not modelled: a
    select on a table the client can read does not fail). *)
Definition list_orders `{JsonCodec} (cat : catalog) (db : table) (a : auth)
  : outcome list_error (list summary) :=
  match user a with
  | None => Ok []
  | Some uid =>
      match promise_all (summarize cat) (list_rows db uid) with
      | Ok ls => Ok ls
      | Err e => Err (ListItemsError e)
      end
  end.

(** ** Lemmas *)

Lemma list_rows_spec db uid kr :
  kr ∈ list_rows db uid ↔ db !! kr.1 = Some kr.2 ∧ row_user_id kr.2 = uid.
Proof.
  destruct kr as [k r]. unfold list_rows. rewrite merge_sort_Permutation, list_elem_of_In, filter_In.
  rewrite <-list_elem_of_In, elem_of_map_to_list. unfold owned_by. simpl.
  by rewrite String.eqb_eq.
Qed.

#[export] Instance newer_or_same_total : Total newer_or_same.
Proof. intros x y. unfold newer_or_same. destruct (String.leb_total (created_key x.2) (created_key y.2)); auto. Qed.

Section summaries.
Context `{JsonCodec}.
Variable cat : catalog.

Lemma summarize_ok kr s : summarize cat kr = Ok s → sm_id s = kr.1 ∧ sm_row s = kr.2.
Proof. unfold summarize. destruct (parse_order_json kr.2) as [st its]. destruct its; intros; simplify_eq; auto. Qed.

Lemma summaries_keys rows ls :
  Forall2 (λ kr s, summarize cat kr = Ok s) rows ls → (λ s, (sm_id s, sm_row s)) <$> ls = rows.
Proof.
  induction 1 as [|[k r] s rows ls Hs _ IH]; [done|].
  rewrite fmap_cons, IH. by destruct (summarize_ok _ _ Hs) as [-> ->].
Qed.
End summaries.

Lemma NoDup_fst_filter {A B} (P : A * B → bool) (l : list (A * B)) :
  NoDup l.*1 → NoDup (List.filter P l).*1.
Proof.
  induction l as [|[x y] l IH]; simpl; [done|]. rewrite NoDup_cons. intros [Hx Hl].
  destruct (P (x, y)); simpl; [|by apply IH]. rewrite NoDup_cons. split; [|by apply IH].
  intros Hin. apply Hx. apply list_elem_of_fmap in Hin as ([x' y'] & -> & Hin).
  apply list_elem_of_In, filter_In in Hin as [Hin _]. apply list_elem_of_fmap. exists (x', y').
  split; [done|]. by apply list_elem_of_In.
Qed.

Lemma parse_order_json_objects r fs xs :
  row_items r = JArr (JObj fs :: xs) → parse_order_json r = (JArr [], JArr []).
Proof.
  intros Hi. unfold parse_order_json. destruct (json_parse (stages_source (row_stages r))); [|done].
  rewrite Hi. unfold stages_source. simpl truthy. cbv iota.
  destruct (to_js_string_objects fs xs) as [t ->]. by rewrite parse_json_object_text.
Qed.

(** ** Properties *)

Section properties.
Context `{JsonCodec}.
Variable cat : catalog.

(** C25 [functional]: the list shows exactly the signed-in user's orders,
    each once, newest first: an (id, row) pair is listed iff the table
    holds that row under that id and the row belongs to the user. *)
Theorem list_orders_owner_sorted db a uid ls :
  user a = Some uid → list_orders cat db a = Ok ls →
  (∀ k r, (k, r) ∈ (λ s, (sm_id s, sm_row s)) <$> ls ↔ db !! k = Some r ∧ row_user_id r = uid) ∧
  NoDup (sm_id <$> ls) ∧
  Sorted newer_or_same ((λ s, (sm_id s, sm_row s)) <$> ls).
Proof.
  intros Hu. unfold list_orders. rewrite Hu. destruct (promise_all _ _) as [ls'|] eqn:Hp; [|discriminate].
  intros [= <-]. pose proof (summaries_keys _ _ _ (promise_all_ok _ _ _ Hp)) as Hk.
  split; [|split].
  - intros k r. rewrite Hk. apply list_rows_spec.
  - replace (sm_id <$> ls') with (((λ s, (sm_id s, sm_row s)) <$> ls').*1)
      by (rewrite <-list_fmap_compose; reflexivity).
    rewrite Hk. unfold list_rows. rewrite merge_sort_Permutation.
    apply NoDup_fst_filter, NoDup_fst_map_to_list.
  - rewrite Hk. apply Sorted_merge_sort. exact newer_or_same_total.
Qed.

(** One order of the user whose [items] text parses to a
    value that is not an array (an object, a number) makes [items.map]
    throw, and [Promise.all] rejects the whole query: none of the user's
    orders is shown. *)
Theorem list_one_bad_row db a uid k r st its :
  user a = Some uid → db !! k = Some r → row_user_id r = uid →
  json_parse (stages_source (row_stages r)) = Ok st →
  json_parse (stages_source (row_items r)) = Ok its → (∀ xs, its ≠ JArr xs) →
  ∃ e, list_orders cat db a = Err e.
Proof.
  intros Hu Hk Ho Hs Hi Hn.
  assert (summarize cat (k, r) = Err TypeError) as Hsum.
  { unfold summarize, parse_order_json. simpl. rewrite Hs, Hi. by destruct its as [| | | | |xs|]; [..|destruct (Hn xs)|]. }
  destruct (promise_all_err _ (list_rows db uid) (k, r) _ (proj2 (list_rows_spec db uid (k, r)) (conj Hk Ho)) Hsum)
    as [e He].
  unfold list_orders. rewrite Hu, He. eauto.
Qed.
End properties.

(** The list parses the [stages] and [items] columns in one [try]; an
    order placed through checkout has its items stored as a
    JSON array, whose parse throws, and the [catch] resets both: every such
    order is listed with no stage and no item. *)
Theorem list_checkout_orders_blank cat db a ls s fs xs :
  list_orders cat db a = Ok ls → s ∈ ls → row_items (sm_row s) = JArr (JObj fs :: xs) →
  sm_stages s = JArr [] ∧ sm_items s = [].
Proof.
  unfold list_orders. destruct (user a) as [uid|]; [|intros [= <-]; by intros ?%elem_of_nil].
  destruct (promise_all _ _) as [ls'|] eqn:Hp; [|discriminate]. intros [= <-] Hs Hi.
  destruct (Forall2_elem_r _ _ _ _ (promise_all_ok _ _ _ Hp) Hs) as ([k r] & _ & Hsum).
  destruct (summarize_ok _ _ _ Hsum) as [_ Hr]. simpl in Hr. rewrite Hr in Hi.
  unfold summarize in Hsum. simpl in Hsum. rewrite (parse_order_json_objects _ _ _ Hi) in Hsum.
  by injection Hsum as <-.
Qed.

(** ** Witnesses *)

Definition u1 : auth := mk_auth true (Some "u1").

Definition listed_row (owner created : string) (items : jvalue) : order_row :=
  mk_row owner (JStr "Order Placed (Making Order)") (JStr "[]") items (JNum 1000) (JStr created).

Definition three_db : table :=
  <["o1" := listed_row "u1" "2025-03-01T10:00:00Z" (JStr "[]")]>
  (<["o2" := listed_row "u2" "2025-03-02T10:00:00Z" (JStr "[]")]>
  {[ "o3" := listed_row "u1" "2025-03-03T10:00:00Z" (JStr "[]") ]}).

Lemma list_orders_owner_sorted_witness :
  match list_orders demo_cat three_db u1 with
  | Ok ls =>
      (∀ k r, (k, r) ∈ (λ s, (sm_id s, sm_row s)) <$> ls ↔ three_db !! k = Some r ∧ row_user_id r = "u1") ∧
      NoDup (sm_id <$> ls) ∧ Sorted newer_or_same ((λ s, (sm_id s, sm_row s)) <$> ls)
  | Err _ => False
  end.
Proof.
  destruct (list_orders demo_cat three_db u1) as [ls|e] eqn:E; [|vm_compute in E; discriminate].
  exact (list_orders_owner_sorted demo_cat three_db u1 "u1" ls eq_refl E).
Defined.

Definition bad_items_db : table :=
  <["o1" := listed_row "u1" "2025-03-01T10:00:00Z" (JStr "{}")]>
  {[ "o3" := listed_row "u1" "2025-03-03T10:00:00Z" (JStr "[]") ]}.

Lemma list_one_bad_row_witness : ∃ e, list_orders demo_cat bad_items_db u1 = Err e.
Proof.
  apply (list_one_bad_row demo_cat bad_items_db u1 "u1" "o1"
           (listed_row "u1" "2025-03-01T10:00:00Z" (JStr "{}")) (JArr []) (JObj []));
    [reflexivity | vm_compute; reflexivity | reflexivity | vm_compute; reflexivity
    | vm_compute; reflexivity | intros xs; discriminate].
Defined.

Definition checkout_listed_db : table :=
  {[ "o1" := listed_row "u1" "2025-03-01T10:00:00Z"
               (JArr [JObj [("product_id", JStr "p1"); ("quantity", JNum 2)]]) ]}.

Lemma list_checkout_orders_blank_witness :
  match list_orders demo_cat checkout_listed_db u1 with
  | Ok [s] => sm_stages s = JArr [] ∧ sm_items s = []
  | _ => False
  end.
Proof.
  assert (list_orders demo_cat checkout_listed_db u1 =
          Ok [mk_summary "o1" (listed_row "u1" "2025-03-01T10:00:00Z"
                                 (JArr [JObj [("product_id", JStr "p1"); ("quantity", JNum 2)]])) (JArr []) []])
    as E by (vm_compute; reflexivity).
  rewrite E.
  apply (list_checkout_orders_blank demo_cat checkout_listed_db u1 _ _
           [("product_id", JStr "p1"); ("quantity", JNum 2)] [] E); [left | reflexivity].
Defined.
