(* ===== verification/Shop.v ===== *)
(** * The product page and the cart page

    Models the two pages that dispatch cart actions:
    - src/src/pages/ProductDetail.tsx: the page state (lines 47-51), the
      size selector (lines 284-289), the quantity stepper
      ([handleQuantityChange], lines 142-144), the selected price
      ([getNumericPriceForCart], lines 159-168), [handleAddToCart] (lines
      170-193) and the review form's guards ([handleAddReview], lines
      195-206, with the mutation of lines 120-140), and the render
      ([pd_render], lines 208-352: the loading and not-found screens, the
      [currentPrice] of [getPriceForVariant], the benefits lines, whose
      [split] throws when the product has none, the size options with their
      stock text, the bulk pricing list, the stepper and the Add button);
    - src/src/pages/Cart.tsx: the quantity buttons and the remove button of
      each line (lines 169-190), the "Bulk discount applied" label (line
      163), and [handleProceedToCheckout] (lines 43-53);
    - [shop_step], [shop_run]: the events of both pages (for one product
      and its variants) acting on the product page's state and the cart;
      leaving the product page (adding to the cart navigates to the cart
      page) unmounts it and resets its state. *)

From S2P Require Import Prelude Js Pricing Cart Store.
From stdpp Require Import pretty.
Open Scope nat_scope.

(** ** Catalog data as the product page reads it *)

Record variant := mk_variant { v_id : string; v_size : string; v_price : raw_price; v_stock : Z }.

Record product := mk_product {
  p_id : string;
  p_name : string;
  p_price : raw_price;
  p_image : option string;
  p_benefits : option string;  (** [controls_or_benefits]; [None] when null or absent *)
  p_tiers : option (list (Z * raw_price))
}.

(** ** The product page *)

Record pd_state := mk_pd {
  pd_quantity : Z;
  pd_size : string;
  pd_variant : string;
  pd_comment : string;
  pd_rating : Z;
  pd_error : string
}.

Definition pd_init : pd_state := mk_pd 1 "" "" "" 5 "".

(** [setQuantity(prev => Math.max(1, prev + delta))] *)
Definition handleQuantityChange (delta : Z) (st : pd_state) : pd_state :=
  mk_pd (Z.max 1 (pd_quantity st + delta)) (pd_size st) (pd_variant st) (pd_comment st) (pd_rating st) (pd_error st).

(** The size [<select>]: the size is set, and the variant id only when a
    variant of that size exists (the first one). *)
Definition select_size (variants : list variant) (sz : string) (st : pd_state) : pd_state :=
  let vid := match find (λ v, String.eqb (v_size v) sz) variants with
             | Some v => v_id v
             | None => pd_variant st
             end in
  mk_pd (pd_quantity st) sz vid (pd_comment st) (pd_rating st) (pd_error st).

Definition find_variant (variants : list variant) (vid : string) : option variant :=
  find (λ v, String.eqb (v_id v) vid) variants.

(** The raw price of [getPriceForVariant] and [getNumericPriceForCart]. *)
Definition selected_raw_price (p : product) (variants : list variant) (st : pd_state) : raw_price :=
  if String.eqb (pd_variant st) "" then p_price p
  else match find_variant variants (pd_variant st) with Some v => v_price v | None => PAbsent end.

Definition getNumericPriceForCart (p : product) (variants : list variant) (st : pd_state) : Q :=
  parsePriceToNumber (selected_raw_price p variants st).

(** [product.pricing_tiers?.map(tier => ({ min_quantity, price: parsePriceToNumber(tier.price) }))] *)
Definition numeric_tiers (p : product) : option (list tier) :=
  option_map (map (λ t, mk_tier t.1 (parsePriceToNumber t.2))) (p_tiers p).

(** [handleAddToCart]: the line added, if any. *)
Definition handleAddToCart (prod : option product) (variants : list variant) (st : pd_state)
  : option cart_item :=
  match prod with
  | Some p =>
      if String.eqb (pd_variant st) "" then None else
      match find_variant variants (pd_variant st) with
      | Some v =>
          Some (mk_item (p_id p) (String.append (p_name p) (String.append " - " (v_size v)))
                  (getNumericPriceForCart p variants st) (pd_quantity st) (p_image p)
                  (numeric_tiers p) (Some (v_size v)) (Some (v_id v)))
      | None => None
      end
  | None => None
  end.

(** The review insert [handleAddReview] requests. *)
Record review := mk_review { rv_user : string; rv_comment : string; rv_rating : Z }.

(** [handleAddReview] with the mutation: [insert_err] is the store's
    answer to the insert ([None] on success, else the error's message). *)
Definition handleAddReview (a : auth) (insert_err : option string) (st : pd_state)
  : pd_state * option review :=
  let err msg := mk_pd (pd_quantity st) (pd_size st) (pd_variant st) (pd_comment st) (pd_rating st) msg in
  if negb (session a) then (err "Please sign in to add a review.", None)
  else if String.eqb (trim (pd_comment st)) "" then (err "Comment cannot be empty.", None)
  else match user a with
       | None => (err "Must be signed in", None)
       | Some uid =>
           let r := mk_review uid (pd_comment st) (pd_rating st) in
           match insert_err with
           | None => (mk_pd (pd_quantity st) (pd_size st) (pd_variant st) "" 5 "", Some r)
           | Some msg => (err (if String.eqb msg "" then "Failed to add review." else msg), None)
           end
       end.

(** ** The product page's render (lines 146-157 and 208-350) *)

Section render.
(** The JavaScript conversion of a number to text, which
    [formatPriceForDisplay] applies to numeric prices. *)
Variable show_num : Q → string.

(** [getPriceForVariant], shown as [currentPrice]. *)
Definition getPriceForVariant (p : product) (variants : list variant) (st : pd_state) : string :=
  formatPriceForDisplay show_num (selected_raw_price p variants st).

(** [product.controls_or_benefits.split('\n').filter(line => line.trim())]:
    [split] on [null] or [undefined] throws. *)
Definition benefit_lines (b : option string) : js (list string) :=
  match b with
  | Some s => Ok (List.filter (λ l, negb (String.eqb (trim l) "")) (split_on "010"%char s))
  | None => Err TypeError
  end.

(** [`${variant.stock} in stock`] or ['Out of stock']. *)
Definition stock_label (n : Z) : string :=
  if (0 <? n)%Z then String.append (pretty n) " in stock" else "Out of stock".

(** An option of the size [<select>]: its value (the size) and its text. *)
Definition size_option (v : variant) : string * (string * string * string) :=
  (v_size v, (v_size v, formatPriceForDisplay show_num (v_price v), stock_label (v_stock v))).

(** The "Bulk pricing" list, shown when the product has tiers: one unit at
    the product's price, then each tier's threshold and price. *)
Definition tier_rows (p : product) : list (Z * string) :=
  match p_tiers p with
  | Some ((_ :: _) as ts) =>
      (1%Z, formatPriceForDisplay show_num (p_price p)) ::
        map (λ t, (t.1, formatPriceForDisplay show_num t.2)) ts
  | _ => []
  end.

Record pd_view := mk_pd_view {
  pv_name : string;
  pv_price : string;                                     (** [currentPrice] *)
  pv_benefits : list string;
  pv_options : list (string * (string * string * string));
  pv_tiers : list (Z * string);
  pv_stepper : option bool;        (** shown with a size; [true]: the minus button is disabled *)
  pv_add : option (Z * string * string)   (** "Add {quantity} x {selectedSize} to Cart ({currentPrice})" *)
}.

Inductive pd_screen := PdLoading | PdNotFound | PdPage (v : pd_view).

(** The page: the product query's state ([None] while loading, [Err] on
    an error, [Ok None] when there is no product), then the page, whose
    render throws where the benefits text does. *)
Definition pd_render (q : option (js (option product))) (variants : list variant) (st : pd_state)
  : js pd_screen :=
  match q with
  | None => Ok PdLoading
  | Some (Err _) | Some (Ok None) => Ok PdNotFound
  | Some (Ok (Some p)) =>
      lines ← benefit_lines (p_benefits p);
      let price := getPriceForVariant p variants st in
      let sized := negb (String.eqb (pd_size st) "") in
      Ok (PdPage (mk_pd_view (p_name p) price lines (map size_option variants) (tier_rows p)
            (if sized then Some (bool_decide (pd_quantity st <= 1)%Z) else None)
            (if sized then Some (pd_quantity st, pd_size st, price) else None)))
  end.
End render.

(** ** The cart page *)

Inductive cart_click :=
| MinusClick (i : string)
| PlusClick (i : string)
| RemoveClick (i : string).

(** The action a click on the buttons of line [i] dispatches; the minus
    button is disabled at quantity 1. *)
Definition cart_page_action (cart : list cart_item) (c : cart_click) : option cart_action :=
  match c with
  | MinusClick i =>
      match find (same_id i) cart with
      | Some it => if Z.leb (quantity it) 1 then None else Some (UPDATE_QUANTITY i (quantity it - 1))
      | None => None
      end
  | PlusClick i =>
      match find (same_id i) cart with
      | Some it => Some (UPDATE_QUANTITY i (quantity it + 1))
      | None => None
      end
  | RemoveClick i => Some (REMOVE_ITEM i)
  end.

(** [item.pricing_tiers && item.pricing_tiers.length > 0 && item.quantity >= 5] *)
Definition bulk_label (item : cart_item) : bool :=
  match pricing_tiers item with
  | Some (_ :: _) => Z.leb 5 (quantity item)
  | _ => false
  end.

Inductive proceed := ProceedWait | ProceedWarn | ProceedCheckout.

Definition handleProceedToCheckout (loading : bool) (a : auth) : proceed :=
  if loading then ProceedWait else
  match user a with None => ProceedWarn | Some _ => ProceedCheckout end.

(** ** Both pages *)

Inductive shop_event :=
| PdQuantity (delta : Z)
| PdSelect (sz : string)
| PdAdd
| CartPageClick (c : cart_click)
| OrderPlaced.   (** checkout's [clearCart()] *)

Section shop.
Variables (prod : option product) (variants : list variant).

Definition shop_step (s : pd_state * list cart_item) (e : shop_event) : pd_state * list cart_item :=
  let '(st, cart) := s in
  match e with
  | PdQuantity d => (handleQuantityChange d st, cart)
  | PdSelect sz => (select_size variants sz st, cart)
  | PdAdd =>
      match handleAddToCart prod variants st with
      | Some item => (pd_init, addItem cart item)
      | None => (st, cart)
      end
  | CartPageClick c =>
      match cart_page_action cart c with
      | Some act => (pd_init, cartReducer cart act)
      | None => (pd_init, cart)
      end
  | OrderPlaced => (pd_init, clearCart cart)
  end.

Definition shop_run (es : list shop_event) : pd_state * list cart_item :=
  foldl shop_step (pd_init, []) es.
End shop.

(** ** Lemmas *)

Lemma handleAddToCart_some prod variants st item :
  handleAddToCart prod variants st = Some item →
  ∃ p v, prod = Some p ∧ pd_variant st ≠ "" ∧ find_variant variants (pd_variant st) = Some v ∧
    item = mk_item (p_id p) (String.append (p_name p) (String.append " - " (v_size v)))
             (parsePriceToNumber (v_price v)) (pd_quantity st) (p_image p) (numeric_tiers p)
             (Some (v_size v)) (Some (v_id v)).
Proof.
  unfold handleAddToCart. destruct prod as [p|]; [|discriminate].
  destruct (String.eqb_spec (pd_variant st) "") as [|Hv]; [discriminate|].
  destruct (find_variant variants (pd_variant st)) as [v|] eqn:Hf; [|discriminate].
  intros [= <-]. exists p, v. repeat split; try done.
  unfold getNumericPriceForCart, selected_raw_price. apply String.eqb_neq in Hv. by rewrite Hv, Hf.
Qed.

Lemma shop_step_inv prod variants s e :
  reachable s.2 → (1 <= pd_quantity s.1)%Z →
  reachable (shop_step prod variants s e).2 ∧ (1 <= pd_quantity (shop_step prod variants s e).1)%Z.
Proof.
  destruct s as [st cart]. simpl. intros Hr Hq.
  destruct e as [d|sz| |c|]; simpl.
  - split; [done|lia].
  - by split.
  - destruct (handleAddToCart prod variants st) as [item|] eqn:Ha; [|by split].
    apply handleAddToCart_some in Ha as (p & v & _ & _ & _ & ->). simpl. split; [|lia].
    apply reachable_step; [done|]. simpl. apply Z.leb_le. done.
  - destruct (cart_page_action cart c) as [act|] eqn:Hc; [|split; [done|simpl; lia]].
    split; [|simpl; lia].
    apply reachable_step; [done|]. destruct c; simpl in Hc; repeat case_match; simplify_eq; done.
  - split; [|simpl; lia]. by apply reachable_step.
Qed.

Lemma shop_foldl_inv prod variants s es :
  reachable s.2 → (1 <= pd_quantity s.1)%Z →
  reachable (foldl (shop_step prod variants) s es).2 ∧
  (1 <= pd_quantity (foldl (shop_step prod variants) s es).1)%Z.
Proof.
  revert s. induction es as [|e es IH]; intros s Hr Hq; [by split|]. simpl.
  destruct (shop_step_inv prod variants s e Hr Hq). by apply IH.
Qed.

(** A size the selector labels "Out of stock" can be bought:
    selecting it shows the quantity stepper and the Add button with the
    size's price, and the button adds to the cart a line of that variant
    at the page's quantity; nothing on the page checks the stock. *)
Theorem out_of_stock_addable show_num p variants st cart v b :
  (v_stock v <= 0)%Z → v_size v ≠ "" → v_id v ≠ "" → p_benefits p = Some b →
  find (λ w, String.eqb (v_size w) (v_size v)) variants = Some v →
  find_variant variants (v_id v) = Some v →
  (∃ pv, pd_render show_num (Some (Ok (Some p))) variants (select_size variants (v_size v) st) = Ok (PdPage pv) ∧
     size_option show_num v ∈ pv_options pv ∧ stock_label (v_stock v) = "Out of stock" ∧
     pv_add pv = Some (pd_quantity st, v_size v, formatPriceForDisplay show_num (v_price v))) ∧
  ∃ item, shop_step (Some p) variants (select_size variants (v_size v) st, cart) PdAdd = (pd_init, addItem cart item) ∧
     variant_id item = Some (v_id v) ∧ quantity item = pd_quantity st.
Proof.
  intros Hs Hsz Hid Hb Hfs Hfv. apply String.eqb_neq in Hsz, Hid.
  assert (select_size variants (v_size v) st =
            mk_pd (pd_quantity st) (v_size v) (v_id v) (pd_comment st) (pd_rating st) (pd_error st)) as ->
    by (unfold select_size; by rewrite Hfs).
  split.
  - unfold pd_render. rewrite Hb. cbn [benefit_lines]. rewrite bind_ok. eexists. split; [reflexivity|].
    cbn. rewrite Hsz. unfold getPriceForVariant, selected_raw_price, stock_label. cbn.
    rewrite Hid, Hfv. refine (conj _ (conj _ eq_refl)).
    + apply list_elem_of_In, in_map. by eapply find_some.
    + by replace (0 <? v_stock v)%Z with false by (symmetry; apply Z.ltb_ge; lia).
  - unfold shop_step, handleAddToCart. cbn. rewrite Hid, Hfv. by eexists.
Qed.

(** ** Properties *)

(** C39 [invariant]: the product page and the cart page only dispatch the
    actions the cart's invariant assumes: every cart the two pages can
    produce from the empty cart is [reachable] (hence well formed, by
    [Cart.reachable_cart_wf]), and the product page's quantity is always at
    least 1. *)
Theorem shop_run_reachable prod variants es :
  reachable (shop_run prod variants es).2 ∧ (1 <= pd_quantity (shop_run prod variants es).1)%Z.
Proof. apply shop_foldl_inv; [constructor|simpl; lia]. Qed.

(** "Add to Cart" adds the selected variant at its own
    parsed price, whatever its stock, but with the PRODUCT's tiers: when
    the product has a single tier, a quantity at its threshold is charged
    the tier's price for every size. *)
Theorem add_to_cart_tier_all_sizes p variants st v m r item :
  pd_variant st ≠ "" → find_variant variants (pd_variant st) = Some v →
  p_tiers p = Some [(m, r)] →
  handleAddToCart (Some p) variants st = Some item →
  (m <= pd_quantity st)%Z →
  price item = parsePriceToNumber (v_price v) ∧ getUnitPrice item = parsePriceToNumber r.
Proof.
  intros _ Hv Ht Ha Hm. apply handleAddToCart_some in Ha as (p' & v' & [= <-] & _ & Hv' & ->).
  rewrite Hv in Hv'. injection Hv' as <-. split; [done|].
  unfold getUnitPrice, numeric_tiers. rewrite Ht. simpl.
  by replace (pd_quantity st >=? m)%Z with true by (symmetry; apply Z.geb_le; lia).
Qed.

(** The cart page's "Bulk discount applied" label is
    computed from the quantity alone (5 or more) and not from the tiers:
    it is shown on a line no tier applies to, charged the base price, and
    hidden on a line whose first tier applies below 5 units. *)
Theorem bulk_label_mismatch item t ts :
  pricing_tiers item = Some (t :: ts) →
  ((Forall (λ t', quantity item < min_quantity t') (t :: ts))%Z → (5 <= quantity item)%Z →
     bulk_label item = true ∧ getUnitPrice item = price item) ∧
  ((min_quantity t <= quantity item < 5)%Z →
     bulk_label item = false ∧ getUnitPrice item = tier_price t).
Proof.
  intros Ht. unfold bulk_label, getUnitPrice. rewrite Ht. split.
  - intros Hall H5. split; [by apply Z.leb_le|].
    rewrite find_None_intro; [done|]. intros t' Ht'.
    rewrite Forall_forall in Hall. specialize (Hall t' Ht'). rewrite Z.geb_leb. apply Z.leb_gt. lia.
  - intros Hq. split; [apply Z.leb_gt; lia|]. simpl.
    by replace (quantity item >=? min_quantity t)%Z with true by (symmetry; apply Z.geb_le; lia).
Qed.

(** ** Witnesses *)

Definition foliar : product :=
  mk_product "p1" "Foliar Feed" (PStr "KES 1,000") None (Some "Aphids") (Some [(10%Z, PNum 900)]).

Definition foliar_5l_v : variant := mk_variant "v5" "5L" (PStr "KES 4,500") 0.

Definition foliar_variants : list variant := [mk_variant "v1" "1L" (PNum 1000) 12; foliar_5l_v].

Definition ten_of_5l : pd_state := mk_pd 10 "5L" "v5" "" 5 "".

Lemma add_to_cart_tier_all_sizes_witness :
  match handleAddToCart (Some foliar) foliar_variants ten_of_5l with
  | Some item => price item = 4500%Q ∧ getUnitPrice item = 900%Q
  | None => False
  end.
Proof.
  destruct (handleAddToCart (Some foliar) foliar_variants ten_of_5l) as [item|] eqn:E;
    [|vm_compute in E; discriminate].
  refine (add_to_cart_tier_all_sizes foliar foliar_variants ten_of_5l
            (mk_variant "v5" "5L" (PStr "KES 4,500") 0) 10 (PNum 900) item _ _ _ E _);
    [discriminate | reflexivity | reflexivity | vm_compute; discriminate].
Defined.

Definition bulk_line : cart_item :=
  mk_item "p1" "Foliar Feed - 1L" 1000 5 None (Some [mk_tier 10 800]) (Some "1L") (Some "v1").

Lemma bulk_label_mismatch_witness :
  bulk_label bulk_line = true ∧ getUnitPrice bulk_line = price bulk_line.
Proof.
  apply (proj1 (bulk_label_mismatch bulk_line (mk_tier 10 800) [] eq_refl)).
  - repeat constructor.
  - vm_compute. discriminate.
Defined.

Lemma out_of_stock_addable_witness :
  ∃ item, shop_step (Some foliar) foliar_variants (select_size foliar_variants "5L" pd_init, []) PdAdd =
            (pd_init, addItem [] item) ∧ variant_id item = Some "v5" ∧ quantity item = 1%Z.
Proof.
  destruct (out_of_stock_addable (λ q, pretty (Qnum q)) foliar foliar_variants pd_init [] foliar_5l_v "Aphids")
    as [_ H]; [cbn; lia|discriminate|discriminate|reflexivity|reflexivity|reflexivity|exact H].
Defined.
