(* ===== verification/CartPage.v ===== *)
(** * The cart page's screens

    src/src/pages/Cart.tsx, lines 27-231, the part the file [Shop] leaves
    out:
    - the sign-in modal ([showAuthWarning], lines 27, 43-65 and 72-95):
      "Proceed to Checkout" without a user opens it, "Cancel" closes it and
      "Sign In" closes it and goes to the account page with a message;
    - the empty-cart screen (lines 97-128), shown when [totalItems] is 0;
    - the page (lines 130-231): one row per line, with its unit price and
      its line total printed by [toFixed(2)] ([Js.to_fixed2]), the
      subtotal and total, and the proceed button, disabled while the
      session loads.
    The page's [getUnitPrice], [lineTotal] and [computedSubtotal] are
    [Pricing]'s; the bulk label and the line buttons are [Shop]'s.

    The theorems: the line totals and the subtotal are rounded separately,
    so the printed line totals can disagree with the printed subtotal by
    up to half a cent per line; a cart the pages build is empty on screen
    exactly when it has no line; and the modal's routes. *)

From S2P Require Import Prelude Js Pricing Cart Store Shop.
Open Scope nat_scope.

(** ** Screens *)

Record line_view := mk_line_view {
  lv_key : string;            (** [`${item.id}-${item.variant_id}`] *)
  lv_name : string;
  lv_size : option string;    (** the "Size:" line, shown when [item.size] is truthy *)
  lv_unit : string;           (** [unitPrice.toFixed(2)] *)
  lv_bulk : bool;             (** "Bulk discount applied" *)
  lv_quantity : Z;
  lv_minus_disabled : bool;   (** [disabled={item.quantity <= 1}] *)
  lv_total : string           (** [lineTotalPrice.toFixed(2)] *)
}.

(** A template literal's conversion of an optional string. *)
Definition opt_text (o : option string) : string :=
  match o with Some s => s | None => "undefined" end.

Definition line_view_of (item : cart_item) : line_view :=
  mk_line_view (String.append (id item) (String "-" (opt_text (variant_id item))))
    (name item) (truthy_text (size item)) (to_fixed2 (getUnitPrice item)) (bulk_label item)
    (quantity item) (Z.leb (quantity item) 1) (to_fixed2 (lineTotal item)).

Inductive cart_screen :=
| SignInModal
| EmptyCart
| CartList (lines : list line_view) (count : Z) (subtotal total : string)
    (proceed_disabled : bool) (proceed_label : string).

(** The component's three returns, in the order the code tests them. *)
Definition cart_render (show_warning loading : bool) (cart : list cart_item) : cart_screen :=
  if show_warning then SignInModal
  else if Z.eqb (totalItems cart) 0 then EmptyCart
  else CartList (map line_view_of cart) (totalItems cart)
         (to_fixed2 (computedSubtotal cart)) (to_fixed2 (computedSubtotal cart))
         (Z.eqb (totalItems cart) 0 || loading)
         (if loading then "Loading..." else "Proceed to Checkout").

(** ** Navigation *)

Inductive cart_nav :=
| NavStay
| NavBack                                   (** [navigate(-1)] *)
| NavHome                                   (** [handleContinueShopping] *)
| NavCheckout                               (** [navigate('/checkout')] *)
| NavAccount (from message : string).       (** [navigate('/account', { state })] *)

Inductive page_click :=
| ClickBack | ClickContinue | ClickProceed | ClickCancel | ClickSignIn.

(** A click on a button of the current screen; a button that is not on
    the screen, or is disabled, cannot be clicked. *)
Definition page_click_step (loading : bool) (a : auth) (cart : list cart_item)
  (show_warning : bool) (c : page_click) : bool * cart_nav :=
  match cart_render show_warning loading cart, c with
  | SignInModal, ClickCancel => (false, NavStay)
  | SignInModal, ClickSignIn => (false, NavAccount "cart" "Sign in first in order to place order")
  | EmptyCart, (ClickBack | ClickContinue) | CartList _ _ _ _ _ _, ClickContinue =>
      (show_warning, if c is ClickBack then NavBack else NavHome)
  | CartList _ _ _ _ _ _, ClickBack => (show_warning, NavBack)
  | CartList _ _ _ _ disabled _, ClickProceed =>
      if disabled then (show_warning, NavStay) else
      match handleProceedToCheckout loading a with
      | ProceedWait => (show_warning, NavStay)
      | ProceedWarn => (true, NavStay)
      | ProceedCheckout => (show_warning, NavCheckout)
      end
  | _, _ => (show_warning, NavStay)
  end.

(** ** Lemmas *)

Lemma inject_Z_length_cons {A} (x : A) xs :
  inject_Z (Z.of_nat (length (x :: xs))) = (inject_Z (Z.of_nat (length xs)) + 1)%Q.
Proof. cbn [length]. by rewrite Nat2Z.inj_succ, <- Z.add_1_r, inject_Z_plus. Qed.

(** Rounding each term: the sum of the printed cents is within half a cent
    per term of the exact sum. *)
Lemma sum_cents_bounds {A} (f : A → Q) xs :
  (inject_Z (reduce_sumZ (λ x, cents_of (f x)) xs)
     <= 100 * reduce_sum f xs + inject_Z (Z.of_nat (length xs)) * (1#2) ∧
   100 * reduce_sum f xs - inject_Z (Z.of_nat (length xs)) * (1#2)
     <= inject_Z (reduce_sumZ (λ x, cents_of (f x)) xs))%Q.
Proof.
  induction xs as [|x xs [IH1 IH2]]; [split; unfold Qle; vm_compute; discriminate|].
  rewrite reduce_sumZ_cons, inject_Z_plus, inject_Z_length_cons. cbv beta.
  pose proof (reduce_sum_cons f x xs). destruct (cents_of_bounds (f x)). split; lra.
Qed.

Lemma sum_cents_lower_strict {A} (f : A → Q) x xs :
  (100 * reduce_sum f (x :: xs) - inject_Z (Z.of_nat (length (x :: xs))) * (1#2)
     < inject_Z (reduce_sumZ (λ y, cents_of (f y)) (x :: xs)))%Q.
Proof.
  destruct (sum_cents_bounds f xs) as [_ IH].
  rewrite reduce_sumZ_cons, inject_Z_plus, inject_Z_length_cons. cbv beta.
  pose proof (reduce_sum_cons f x xs). destruct (cents_of_bounds (f x)). lra.
Qed.

Lemma computedSubtotal_nonneg cart :
  Forall (λ it, 0 <= lineTotal it)%Q cart → (0 <= computedSubtotal cart)%Q.
Proof. rewrite Forall_forall. apply reduce_sum_nonneg. Qed.

(** Reachable carts have quantities of at least 1. *)
Lemma totalItems_pos cart :
  Forall (λ it, 1 <= quantity it)%Z cart → (Z.of_nat (length cart) <= totalItems cart)%Z.
Proof.
  unfold totalItems. induction cart as [|x cart IH]; intros Hq; [done|].
  apply Forall_cons in Hq as [Hx Hq]. rewrite reduce_sumZ_cons. cbn [length]. specialize (IH Hq). lia.
Qed.

(** ** Properties *)

(** C27 [bounds]: the cart page prints each line total and the subtotal
    with [toFixed(2)], rounding each separately: on a cart of [k] lines
    whose totals are not negative, the printed line totals are the cents
    [cents_of (lineTotal item)], the printed subtotal is
    [cents_of (computedSubtotal cart)], and the sum of the former differs
    from the latter by at most [k / 2] cents. *)
Theorem cart_display_drift loading cart ls n sub tot dis lbl :
  Forall (λ it, 0 <= lineTotal it)%Q cart →
  cart_render false loading cart = CartList ls n sub tot dis lbl →
  map lv_total ls = map (λ it, fixed2_text (cents_of (lineTotal it))) cart ∧
  sub = fixed2_text (cents_of (computedSubtotal cart)) ∧
  (2 * Z.abs (reduce_sumZ (λ it, cents_of (lineTotal it)) cart - cents_of (computedSubtotal cart))
     <= Z.of_nat (length cart))%Z.
Proof.
  intros Hnn Hr. unfold cart_render in Hr. destruct (Z.eqb (totalItems cart) 0); [done|].
  injection Hr as <- _ <- _ _ _. split; [|split].
  - rewrite map_map. apply map_ext_in. intros it Hit. apply to_fixed2_nonneg.
    rewrite Forall_forall in Hnn. by apply Hnn, list_elem_of_In.
  - by apply to_fixed2_nonneg, computedSubtotal_nonneg.
  - destruct cart as [|x cart']; [reflexivity|].
    destruct (sum_cents_bounds lineTotal (x :: cart')) as [H1 _].
    pose proof (sum_cents_lower_strict lineTotal x cart') as H2.
    destruct (cents_of_bounds (computedSubtotal (x :: cart'))) as [H3 H4].
    set (S := reduce_sumZ (λ it, cents_of (lineTotal it)) (x :: cart')) in *.
    set (c := cents_of (computedSubtotal (x :: cart'))) in *.
    set (k := Z.of_nat (length (x :: cart'))) in *. unfold computedSubtotal in *.
    assert (inject_Z (2 * S) < inject_Z (2 * c + k + 1))%Q
      by (rewrite !inject_Z_plus, !inject_Z_mult; change (inject_Z 2) with 2%Q;
          change (inject_Z 1) with 1%Q; lra).
    assert (inject_Z (2 * c) < inject_Z (2 * S + k + 1))%Q
      by (rewrite !inject_Z_plus, !inject_Z_mult; change (inject_Z 2) with 2%Q;
          change (inject_Z 1) with 1%Q; lra).
    rewrite <- Zlt_Qlt in *. lia.
Qed.

(** A cart the pages build shows the empty-cart screen exactly when it
    has no line. *)
Lemma reachable_empty_screen loading cart :
  reachable cart → (cart_render false loading cart = EmptyCart ↔ cart = []).
Proof.
  intros Hr. destruct (reachable_cart_wf cart Hr) as [_ Hq]. pose proof (totalItems_pos cart Hq).
  unfold cart_render. split.
  - destruct cart as [|x cart]; [done|]. cbn [length] in *. destruct (Z.eqb_spec (totalItems (x :: cart)) 0); [lia|done].
  - intros ->. reflexivity.
Qed.

(** Without a user, "Proceed to Checkout" opens the modal, whose "Sign
    In" goes to the account page with the message; with a user it goes to
    the checkout. *)
Lemma proceed_routes cart uid :
  (0 < totalItems cart)%Z →
  page_click_step false (mk_auth false None) cart false ClickProceed = (true, NavStay) ∧
  page_click_step false (mk_auth false None) cart true ClickSignIn =
    (false, NavAccount "cart" "Sign in first in order to place order") ∧
  page_click_step false (mk_auth true (Some uid)) cart false ClickProceed = (false, NavCheckout).
Proof.
  intros Hp. unfold page_click_step, cart_render.
  destruct (Z.eqb_spec (totalItems cart) 0); [lia|]. done.
Qed.

(** ** Witnesses *)

(** Two lines of KES 10.125 each (a binary fraction, so the page's
    floating-point numbers hold it exactly): each prints as 10.13, the
    subtotal as 20.25. *)
Definition drift_cart : list cart_item :=
  [mk_item "p1" "Foliar - 1L" (10125 # 1000) 1 None None (Some "1L") (Some "v1");
   mk_item "p2" "Compost - 5kg" (10125 # 1000) 1 None None (Some "5kg") (Some "v2")].

Lemma cart_display_drift_witness :
  map lv_total (map line_view_of drift_cart) = ["10.13"; "10.13"] ∧
  to_fixed2 (computedSubtotal drift_cart) = "20.25" ∧
  (2 * Z.abs (reduce_sumZ (λ it, cents_of (lineTotal it)) drift_cart - cents_of (computedSubtotal drift_cart))
     <= 2)%Z.
Proof.
  split; [vm_compute; reflexivity|]. split; [vm_compute; reflexivity|].
  refine (proj2 (proj2 (cart_display_drift false drift_cart _ _ _ _ _ _ _ _)));
    [repeat constructor; vm_compute; discriminate | reflexivity].
Defined.
