(* ===== verification/Admin.v ===== *)
(** * The admin dashboard's catalog editor

    src/src/pages/AdminDashboard.tsx holds two versions of the page, the
    second after a separator line (line 109); the first only says that
    admin access is restricted.  This file models the second one, the
    products tab of the full dashboard (lines 141-271 and the forms of
    lines 401-640):
    - [catalog_db]: the [products] and [product_variants] tables as maps;
    - [admin_state]: [editingProductId], [editingTiers], [editingVariants]
      and the new-product form [newProduct];
    - one [admin_event] per handler or input of the page, [admin_step]
      their effect on the state and the tables.

    The store's side: [updateProductMutation] updates the row's
    [pricing_tiers]; [upsertVariantMutation] upserts a variant, and fails
    on the empty id of a variant added in the page (not a uuid); the
    delete of [removeVariant] is built but never awaited, so the client
    never sends it; [addProductMutation] inserts the product and then its
    variants, whose empty ids make the batch insert fail.  The product
    insert's answer is an input. *)

From S2P Require Import Prelude Js Pricing Shop.
From stdpp Require Import gmap.
Open Scope nat_scope.

(** ** Tables *)

(** [PricingTier] as the dashboard edits it: a number and a text price. *)
Record tier_text := mk_tier_text { tt_min : Z; tt_price : string }.

(** [ProductVariant] as the dashboard edits it. *)
Record admin_variant := mk_av {
  av_id : string;
  av_product : string;
  av_size : string;
  av_price : string;
  av_stock : Z
}.

Record product_row := mk_prow {
  pr_name : string;
  pr_price : string;
  pr_description : string;
  pr_benefits : option string;  (** [controls_or_benefits]; [None] when the row has no such field *)
  pr_tiers : option (list tier_text)
}.

Record catalog_db := mk_cdb {
  cdb_products : gmap string product_row;
  cdb_variants : gmap string admin_variant
}.

(** [product.product_variants]: the variants of the join
    [select] of the products with their [product_variants]. *)
Definition variants_of (db : catalog_db) (pid : string) : list admin_variant :=
  List.filter (λ v, String.eqb (av_product v) pid) (map snd (map_to_list (cdb_variants db))).

Definition set_row_tiers (ts : list tier_text) (r : product_row) : product_row :=
  mk_prow (pr_name r) (pr_price r) (pr_description r) (pr_benefits r) (Some ts).

(** [.update({ pricing_tiers }).eq('id', id)] *)
Definition update_tiers (db : catalog_db) (pid : string) (ts : list tier_text) : catalog_db :=
  mk_cdb (alter (set_row_tiers ts) pid (cdb_products db)) (cdb_variants db).

(** [.upsert(variant)]: an empty id is not a uuid and the call fails. *)
Definition upsert_variant (db : catalog_db) (v : admin_variant) : catalog_db :=
  if String.eqb (av_id v) "" then db
  else mk_cdb (cdb_products db) (<[av_id v := v]> (cdb_variants db)).

(** ** Page state *)

Record new_product := mk_np {
  np_name : string;
  np_price : string;
  np_description : string;
  np_tiers : list tier_text;
  np_variants : list admin_variant
}.

Definition empty_np : new_product := mk_np "" "" "" [] [].

Record admin_state := mk_admin {
  ad_editing : option string;
  ad_tiers : list tier_text;
  ad_variants : list admin_variant;
  ad_new : new_product
}.

Definition admin_init : admin_state := mk_admin None [] [] empty_np.

Definition blank_tier : tier_text := mk_tier_text 0 "".
Definition blank_variant : admin_variant := mk_av "" "" "" "" 0.

Inductive tier_field := TMin (n : Z) | TPrice (s : string).

(** [{ ...tier, [field]: value }]; the number inputs pass
    [parseInt(e.target.value) || 0], an integer. *)
Definition set_tier (f : tier_field) (t : tier_text) : tier_text :=
  match f with
  | TMin n => mk_tier_text n (tt_price t)
  | TPrice s => mk_tier_text (tt_min t) s
  end.

Inductive variant_field := VSize (s : string) | VPrice (s : string) | VStock (n : Z).

(** [{ ...variant, [field]: value }] *)
Definition set_variant (f : variant_field) (v : admin_variant) : admin_variant :=
  match f with
  | VSize s => mk_av (av_id v) (av_product v) s (av_price v) (av_stock v)
  | VPrice s => mk_av (av_id v) (av_product v) (av_size v) s (av_stock v)
  | VStock n => mk_av (av_id v) (av_product v) (av_size v) (av_price v) n
  end.

(** ** Events *)

Inductive admin_event :=
| EditTiers (pid : string)                 (** [handleEditTiers] *)
| AddTier                                  (** [addTier] *)
| RemoveTier (i : nat)                     (** [removeTier] *)
| UpdateTier (i : nat) (f : tier_field)    (** [updateTier] *)
| SaveTiers                                (** [saveTiers] *)
| CancelEdit                               (** [setEditingProductId(null)] *)
| EditVariants (pid : string)              (** [handleEditVariants] *)
| AddVariant                               (** [addVariant] *)
| RemoveVariant (i : nat)                  (** [removeVariant] *)
| UpdateVariant (i : nat) (f : variant_field)  (** [updateVariant] *)
| SaveVariants                             (** [saveVariants] *)
| NewField (name price descr : string)     (** the name, price and description inputs *)
| NewAddTier                               (** "Add Tier" of the form *)
| NewRemoveTier (i : nat)
| NewUpdateTier (i : nat) (f : tier_field)
| NewAddVariant                            (** "Add Variant" of the form *)
| NewRemoveVariant (i : nat)
| NewUpdateVariant (i : nat) (f : variant_field)
| AddProduct (fresh : string) (insert_ok : bool).  (** [handleAddProduct] *)

Definition with_editing (st : admin_state) (e : option string) (ts : list tier_text)
  (vs : list admin_variant) : admin_state := mk_admin e ts vs (ad_new st).

Definition with_new (st : admin_state) (np : new_product) : admin_state :=
  mk_admin (ad_editing st) (ad_tiers st) (ad_variants st) np.

Definition new_tiers (np : new_product) (ts : list tier_text) : new_product :=
  mk_np (np_name np) (np_price np) (np_description np) ts (np_variants np).

Definition new_variants (np : new_product) (vs : list admin_variant) : new_product :=
  mk_np (np_name np) (np_price np) (np_description np) (np_tiers np) vs.

(** [addProductMutation]: the product row (the form's name, price,
    description and tiers; the form has no [controls_or_benefits] field,
    so the row is stored without one), then the variants' batch
    insert, which fails as a whole on an empty id (not a uuid) or on a
    key already taken, and then leaves the form as it was. *)
Definition add_product (db : catalog_db) (st : admin_state) (fresh : string) (ok : bool)
  : catalog_db * admin_state :=
  let np := ad_new st in
  if negb ok then (db, st) else
  let db' := mk_cdb (<[fresh := mk_prow (np_name np) (np_price np) (np_description np) None (Some (np_tiers np))]>
                       (cdb_products db)) (cdb_variants db) in
  match np_variants np with
  | [] => (db', with_new st empty_np)
  | vs =>
      if existsb (λ v, String.eqb (av_id v) "") vs
         || negb (bool_decide (NoDup (map av_id vs)))
         || existsb (λ v, bool_decide (is_Some (cdb_variants db !! av_id v))) vs then (db', st)
      else (mk_cdb (cdb_products db')
              (foldl (λ m v, <[av_id v := mk_av (av_id v) fresh (av_size v) (av_price v) (av_stock v)]> m)
                 (cdb_variants db') vs), with_new st empty_np)
  end.

Definition admin_step (s : catalog_db * admin_state) (e : admin_event) : catalog_db * admin_state :=
  let '(db, st) := s in
  match e with
  | EditTiers pid =>
      (db, with_editing st (Some pid) (default [] (cdb_products db !! pid ≫= pr_tiers)) (ad_variants st))
  | AddTier => (db, with_editing st (ad_editing st) (ad_tiers st ++ [blank_tier]) (ad_variants st))
  | RemoveTier i => (db, with_editing st (ad_editing st) (delete i (ad_tiers st)) (ad_variants st))
  | UpdateTier i f =>
      (db, with_editing st (ad_editing st) (alter (set_tier f) i (ad_tiers st)) (ad_variants st))
  | SaveTiers =>
      match ad_editing st with
      | Some pid => (update_tiers db pid (ad_tiers st), with_editing st None (ad_tiers st) (ad_variants st))
      | None => (db, st)
      end
  | CancelEdit => (db, with_editing st None (ad_tiers st) (ad_variants st))
  | EditVariants pid => (db, with_editing st (Some pid) (ad_tiers st) (variants_of db pid))
  | AddVariant => (db, with_editing st (ad_editing st) (ad_tiers st) (ad_variants st ++ [blank_variant]))
  | RemoveVariant i => (db, with_editing st (ad_editing st) (ad_tiers st) (delete i (ad_variants st)))
  | UpdateVariant i f =>
      (db, with_editing st (ad_editing st) (ad_tiers st) (alter (set_variant f) i (ad_variants st)))
  | SaveVariants => (foldl upsert_variant db (ad_variants st), with_editing st None (ad_tiers st) (ad_variants st))
  | NewField n p d =>
      (db, with_new st (mk_np n p d (np_tiers (ad_new st)) (np_variants (ad_new st))))
  | NewAddTier => (db, with_new st (new_tiers (ad_new st) (np_tiers (ad_new st) ++ [blank_tier])))
  | NewRemoveTier i => (db, with_new st (new_tiers (ad_new st) (delete i (np_tiers (ad_new st)))))
  | NewUpdateTier i f => (db, with_new st (new_tiers (ad_new st) (alter (set_tier f) i (np_tiers (ad_new st)))))
  | NewAddVariant => (db, with_new st (new_variants (ad_new st) (np_variants (ad_new st) ++ [blank_variant])))
  | NewRemoveVariant i => (db, with_new st (new_variants (ad_new st) (delete i (np_variants (ad_new st)))))
  | NewUpdateVariant i f =>
      (db, with_new st (new_variants (ad_new st) (alter (set_variant f) i (np_variants (ad_new st)))))
  | AddProduct fresh ok => add_product db st fresh ok
  end.

Definition admin_run (s : catalog_db * admin_state) (es : list admin_event) : catalog_db * admin_state :=
  foldl admin_step s es.

(** The product page's view of a stored product: the tiers' text prices
    are parsed by [parsePriceToNumber]. *)
Definition shop_product (pid : string) (r : product_row) : product :=
  mk_product pid (pr_name r) (PStr (pr_price r)) None (pr_benefits r)
    (option_map (map (λ t, (tt_min t, PStr (tt_price t)))) (pr_tiers r)).

Definition shop_variant (v : admin_variant) : variant :=
  mk_variant (av_id v) (av_size v) (PStr (av_price v)) (av_stock v).

(** The product page's product query, [.select('*').eq('id', id).single()],
    which fails unless exactly one row matches. *)
Definition product_query (db : catalog_db) (pid : string) : js (option product) :=
  match cdb_products db !! pid with
  | Some r => Ok (Some (shop_product pid r))
  | None => Err (ErrorMsg "JSON object requested, multiple (or no) rows returned")
  end.

(** ** The shared [editingProductId] *)

(** C15 [safety]: "Edit Tiers" on product [a] and then "Edit Variants" on
    another product [b] leave the tiers of [a] in the editor, now shown
    under [b] (both forms show for [editingProductId === product.id]);
    "Save Tiers" writes them into [b]'s row and leaves [a] as it was. *)
Theorem save_tiers_after_edit_variants db st a b ra rb :
  a ≠ b → cdb_products db !! a = Some ra → cdb_products db !! b = Some rb →
  let '(db', st') := admin_run (db, st) [EditTiers a; EditVariants b; SaveTiers] in
  cdb_products db' !! b = Some (set_row_tiers (default [] (pr_tiers ra)) rb) ∧
  cdb_products db' !! a = Some ra ∧ ad_editing st' = None.
Proof.
  intros Hab Ha Hb. cbn. rewrite Ha. cbn.
  by rewrite lookup_alter_eq, Hb, lookup_alter_ne, Ha by done.
Qed.

(** ** The default tier *)

(** [parsePriceToNumber('')]: an empty price text reads as 0. *)
Lemma parsePriceToNumber_empty : parsePriceToNumber (PStr "") = 0%Q.
Proof. reflexivity. Qed.

(** The tier lookup falls through tiers whose minimum exceeds the
    quantity to the last one. *)
Lemma getUnitPrice_fall_through item ts t :
  pricing_tiers item = Some (ts ++ [t]) → Forall (λ t', (quantity item < min_quantity t')%Z) ts →
  (min_quantity t ≤ quantity item)%Z → getUnitPrice item = tier_price t.
Proof.
  intros Ht Hlt Hge. unfold getUnitPrice. rewrite Ht.
  destruct (ts ++ [t]) as [|x l] eqn:E; [by destruct ts|]. rewrite <-E. clear E.
  induction Hlt as [|t' ts' Hx _ IH]; cbn; rewrite Z.geb_leb.
  - by rewrite (proj2 (Z.leb_le _ _) Hge).
  - by rewrite (proj2 (Z.leb_gt _ _) Hx).
Qed.

(** C34 [functional]: on any product, "Edit Tiers", "Add Tier" and "Save
    Tiers" store the product's tiers followed by the blank tier
    [{ min_quantity: 0, price: '' }]; the product page then charges 0 a
    unit for every variant and every quantity below all of the product's
    earlier minimums (every quantity, when it had no tier). *)
Theorem blank_tier_prices_zero db st pid r :
  cdb_products db !! pid = Some r →
  cdb_products (admin_run (db, st) [EditTiers pid; AddTier; SaveTiers]).1 !! pid
    = Some (set_row_tiers (default [] (pr_tiers r) ++ [blank_tier]) r) ∧
  ∀ vs pst item, (0 ≤ pd_quantity pst)%Z → Forall (λ t, (pd_quantity pst < tt_min t)%Z) (default [] (pr_tiers r)) →
    handleAddToCart (Some (shop_product pid (set_row_tiers (default [] (pr_tiers r) ++ [blank_tier]) r))) vs pst
      = Some item → getUnitPrice item = 0%Q.
Proof.
  intros Hr. split.
  { cbn. rewrite Hr. cbn. by rewrite lookup_alter_eq, Hr. }
  intros vs pst item Hq Hlt (p & v & [= <-] & _ & _ & ->)%handleAddToCart_some.
  apply (getUnitPrice_fall_through _ (map (λ t, mk_tier (tt_min t) (parsePriceToNumber (PStr (tt_price t))))
                                          (default [] (pr_tiers r))) (mk_tier 0 0)); [|by apply Forall_map|done].
  cbn. by rewrite !map_app, map_map.
Qed.

(** ** The variant table's keys *)

(** Each variant row is stored under its own id. *)
Definition keyed (m : gmap string admin_variant) : Prop := map_Forall (λ k v, av_id v = k) m.

(** The ids the editors hold: rows of the table, or the empty id of a
    line added in the page. *)
Definition editor_ids (m : gmap string admin_variant) (st : admin_state) : Prop :=
  Forall (λ v, av_id v = "" ∨ av_id v ∈ dom m) (ad_variants st) ∧
  Forall (λ v, av_id v = "") (np_variants (ad_new st)).

Definition admin_inv (s : catalog_db * admin_state) : Prop :=
  keyed (cdb_variants s.1) ∧ editor_ids (cdb_variants s.1) s.2.

Lemma set_variant_id f v : av_id (set_variant f v) = av_id v.
Proof. by destruct f. Qed.

#[export] Hint Resolve Forall_delete : rue.

Lemma upsert_variant_keyed db v :
  keyed (cdb_variants db) → av_id v = "" ∨ av_id v ∈ dom (cdb_variants db) →
  cdb_variants (upsert_variant db v) = cdb_variants db ∨
  (cdb_variants (upsert_variant db v) = <[av_id v := v]> (cdb_variants db) ∧ av_id v ∈ dom (cdb_variants db)).
Proof.
  unfold upsert_variant. destruct (String.eqb_spec (av_id v) "") as [|Hne]; [by left|].
  intros _ [|Hin]; [done|]. by right.
Qed.

Lemma foldl_upsert_inv db vs :
  keyed (cdb_variants db) → Forall (λ v, av_id v = "" ∨ av_id v ∈ dom (cdb_variants db)) vs →
  keyed (cdb_variants (foldl upsert_variant db vs)) ∧
  dom (cdb_variants (foldl upsert_variant db vs)) = dom (cdb_variants db).
Proof.
  revert db. induction vs as [|v vs IH]; intros db Hk Hvs; [done|].
  apply Forall_cons in Hvs as [Hv Hvs]. cbn.
  assert (keyed (cdb_variants (upsert_variant db v)) ∧
          dom (cdb_variants (upsert_variant db v)) = dom (cdb_variants db)) as [Hk' Hd].
  { destruct (upsert_variant_keyed db v Hk Hv) as [-> | [-> Hin]]; [done|].
    split; [by apply map_Forall_insert_2|]. rewrite dom_insert_L. set_solver. }
  rewrite <- Hd. apply IH; [done|]. by rewrite Hd.
Qed.

Lemma variants_of_lookup db pid v :
  keyed (cdb_variants db) → v ∈ variants_of db pid → cdb_variants db !! av_id v = Some v.
Proof.
  intros Hk Hin. apply list_elem_of_In, filter_In in Hin as [Hin _].
  apply list_elem_of_In, list_elem_of_fmap in Hin as ([k w] & -> & Hkw).
  apply elem_of_map_to_list in Hkw. cbn. by rewrite (Hk k w Hkw).
Qed.

Lemma add_product_inv db st fresh ok :
  editor_ids (cdb_variants db) st →
  cdb_variants (add_product db st fresh ok).1 = cdb_variants db ∧
  editor_ids (cdb_variants db) (add_product db st fresh ok).2.
Proof.
  intros Hst. unfold add_product. destruct ok; cbn; [|done].
  pose proof (proj2 Hst) as Hn.
  destruct (np_variants (ad_new st)) as [|v vs] eqn:E; [by destruct Hst|].
  apply Forall_cons in Hn as [Hid _]. by rewrite Hid.
Qed.

(** Once the product insert succeeds, the row is stored under its id
    with the form's fields and no [controls_or_benefits], whatever
    becomes of the variants' insert. *)
Lemma add_product_stored db st fresh :
  cdb_products (add_product db st fresh true).1 !! fresh =
    Some (mk_prow (np_name (ad_new st)) (np_price (ad_new st)) (np_description (ad_new st)) None
            (Some (np_tiers (ad_new st)))).
Proof.
  unfold add_product; cbn. destruct (np_variants (ad_new st)); cbn; [|case_match; cbn];
    by rewrite lookup_insert_eq.
Qed.

Ltac admin_inv_tac :=
  repeat split; cbn; try done;
  try (apply Forall_app_2; [done|by repeat constructor]);
  try (apply Forall_alter; [done|]; intros ? _; by rewrite set_variant_id); eauto with rue.

Lemma admin_step_inv s e :
  admin_inv s → admin_inv (admin_step s e) ∧ dom (cdb_variants (admin_step s e).1) = dom (cdb_variants s.1).
Proof.
  destruct s as [db st]. intros [Hk [Hv Hn]].
  destruct e; try by admin_inv_tac.
  - cbn. destruct (ad_editing st); by admin_inv_tac.
  - admin_inv_tac. apply Forall_forall. intros v Hin%(variants_of_lookup db pid v Hk).
    right. by apply elem_of_dom_2 in Hin.
  - cbn. destruct (foldl_upsert_inv db (ad_variants st) Hk Hv) as [Hk' Hd].
    admin_inv_tac; try (eapply Forall_impl; [exact Hv|]; intros v; by rewrite Hd); by rewrite Hd.
  - cbn [admin_step]. destruct (add_product_inv db st fresh insert_ok) as [Hd Hst]; [done|].
    unfold admin_inv. rewrite Hd. split; [split; [exact Hk|exact Hst]|reflexivity].
Qed.

Lemma admin_run_inv s es :
  admin_inv s → admin_inv (admin_run s es) ∧ dom (cdb_variants (admin_run s es).1) = dom (cdb_variants s.1).
Proof.
  revert s. induction es as [|e es IH]; intros s Hs; [done|]. cbn.
  destruct (admin_step_inv s e Hs) as [Hs' Hd]. rewrite <- Hd. by apply IH.
Qed.

(** C16 [invariant]: whatever the admin does on the dashboard, from the
    page's first render, the set of variant ids in [product_variants]
    never changes: "Remove" sends no delete, and every variant added,
    in the editor or in the new-product form, has the empty id, which
    the store rejects. *)
Theorem admin_variant_ids_fixed db es :
  keyed (cdb_variants db) →
  dom (cdb_variants (admin_run (db, admin_init) es).1) = dom (cdb_variants db).
Proof.
  intros Hk. apply admin_run_inv. split; [done|]. split; constructor.
Qed.

(** ** Removing a variant *)

Lemma keyed_ids (m : gmap string admin_variant) :
  keyed m → map av_id (map snd (map_to_list m)) = map fst (map_to_list m).
Proof.
  intros Hk%map_Forall_to_list. induction Hk as [|[k v] l Hkv _ IH]; [done|]. cbn in *. by rewrite Hkv, IH.
Qed.

Lemma variants_of_NoDup db pid : keyed (cdb_variants db) → NoDup (map av_id (variants_of db pid)).
Proof. intros Hk. apply NoDup_map_List_filter. rewrite keyed_ids by done. apply NoDup_fst_map_to_list. Qed.

Lemma foldl_upsert_other db vs k :
  Forall (λ v, av_id v ≠ k) vs → cdb_variants (foldl upsert_variant db vs) !! k = cdb_variants db !! k.
Proof.
  revert db. induction vs as [|v vs IH]; intros db Hvs; [done|]. apply Forall_cons in Hvs as [Hv Hvs].
  cbn. rewrite IH by done. unfold upsert_variant. case_match; [done|]. cbn. by rewrite lookup_insert_ne.
Qed.

(** C35 [functional]: "Edit Variants" on a product, "Remove" on one of its
    variants and "Save Variants" leave that variant's row in
    [product_variants] as it was: the delete is never sent, and the
    upserts of the other lines do not touch it. *)
Theorem removed_variant_kept db st pid i v :
  keyed (cdb_variants db) → variants_of db pid !! i = Some v →
  cdb_variants (admin_run (db, st) [EditVariants pid; RemoveVariant i; SaveVariants]).1 !! av_id v = Some v.
Proof.
  intros Hk Hi. cbn [admin_run foldl admin_step with_editing ad_variants fst].
  rewrite foldl_upsert_other.
  - apply (variants_of_lookup db pid); [done|]. by eapply list_elem_of_lookup_2.
  - apply NoDup_map_delete_other; [by apply variants_of_NoDup|done].
Qed.

(** ** Witnesses *)

Definition foliar_row : product_row :=
  mk_prow "Foliar Feed" "KES 1,000" "Leaf feed" (Some "Feeds leaves") (Some [mk_tier_text 10 "KES 900"]).
Definition root_row : product_row := mk_prow "Root Boost" "KES 500" "Rooting aid" (Some "Roots") None.
Definition foliar_1l_av : admin_variant := mk_av "v1" "pA" "1L" "KES 1,000" 12.

Definition demo_catalog : catalog_db :=
  mk_cdb (<["pA" := foliar_row]> (<["pB" := root_row]> ∅))
    (<["v1" := foliar_1l_av]> (<["v2" := mk_av "v2" "pB" "500ml" "KES 500" 3]> ∅)).

Lemma demo_catalog_keyed : keyed (cdb_variants demo_catalog).
Proof. apply map_Forall_to_list. vm_compute. repeat constructor. Defined.

Lemma save_tiers_after_edit_variants_witness :
  let '(db', st') := admin_run (demo_catalog, admin_init) [EditTiers "pA"; EditVariants "pB"; SaveTiers] in
  cdb_products db' !! "pB" = Some (set_row_tiers [mk_tier_text 10 "KES 900"] root_row) ∧
  cdb_products db' !! "pA" = Some foliar_row ∧ ad_editing st' = None.
Proof.
  refine (save_tiers_after_edit_variants demo_catalog admin_init "pA" "pB" foliar_row root_row _ _ _);
    [done|reflexivity|reflexivity].
Defined.

Definition one_litre_foliar : pd_state := mk_pd 3 "1L" "v1" "" 5 "".

(** Foliar Feed, whose only tier starts at 10 units, sells 3 units of
    its 1 L size for 0 once a blank tier is added. *)
Lemma blank_tier_prices_zero_witness :
  cdb_products (admin_run (demo_catalog, admin_init) [EditTiers "pA"; AddTier; SaveTiers]).1 !! "pA"
    = Some (set_row_tiers [mk_tier_text 10 "KES 900"; blank_tier] foliar_row) ∧
  handleAddToCart (Some (shop_product "pA" (set_row_tiers [mk_tier_text 10 "KES 900"; blank_tier] foliar_row)))
    (map shop_variant (map snd (map_to_list (cdb_variants demo_catalog)))) one_litre_foliar
    = Some (mk_item "pA" "Foliar Feed - 1L" 1000 3 None
              (Some [mk_tier 10 900; mk_tier 0 0]) (Some "1L") (Some "v1")) ∧
  getUnitPrice (mk_item "pA" "Foliar Feed - 1L" 1000 3 None
                  (Some [mk_tier 10 900; mk_tier 0 0]) (Some "1L") (Some "v1")) = 0%Q.
Proof.
  destruct (blank_tier_prices_zero demo_catalog admin_init "pA" foliar_row eq_refl) as [Hdb Hprice].
  split; [exact Hdb|]. split; [vm_compute; reflexivity|].
  apply (Hprice (map shop_variant (map snd (map_to_list (cdb_variants demo_catalog)))) one_litre_foliar);
    [cbn; lia | repeat constructor; cbn; lia | vm_compute; reflexivity].
Defined.

Definition new_size_session : list admin_event :=
  [EditVariants "pA"; AddVariant; UpdateVariant 1 (VSize "5L"); UpdateVariant 1 (VPrice "KES 4,500");
   RemoveVariant 0; SaveVariants; NewField "Soil Mix" "KES 300" "Potting soil"; NewAddVariant;
   NewUpdateVariant 0 (VSize "10kg"); AddProduct "pC" true].

Lemma admin_variant_ids_fixed_witness :
  dom (cdb_variants (admin_run (demo_catalog, admin_init) new_size_session).1) = dom (cdb_variants demo_catalog).
Proof. exact (admin_variant_ids_fixed demo_catalog new_size_session demo_catalog_keyed). Defined.

Lemma removed_variant_kept_witness :
  cdb_variants (admin_run (demo_catalog, admin_init) [EditVariants "pA"; RemoveVariant 0; SaveVariants]).1
    !! "v1" = Some foliar_1l_av.
Proof. refine (removed_variant_kept demo_catalog admin_init "pA" 0 foliar_1l_av demo_catalog_keyed _). vm_compute. reflexivity. Defined.
