(* ===== verification/Account.v ===== *)
(** * The account page: sign-in forms and saved addresses

    src/src/pages/Account.tsx, and the part of src/src/pages/Checkout.tsx
    that reads what it stores:
    - the e-mail forms' state [authMode], [authForm], [authError],
      [otpSent] as [form_state], and each handler ([handleAuthInputChange],
      [sendOtp], [handleSignIn], [handleSignUp], [verifyOtp],
      [handleGoogleAuth]) as a function of it, with the answers of the
      auth service, [confirm] and [prompt] as inputs.  The file does not
      import [supabase], so [sendOtp] and [verifyOtp] throw a
      ReferenceError where they reach it; [useAuth()] provides no
      [signInWithGoogle], so calling it throws a TypeError;
    - the saved addresses: [localStorage] as a map from keys to strings,
      the page's lazy initial state and its persisting effect through a
      [JsonCodec], [addAddress], [setDefaultAddress], [deleteAddress];
      the checkout's loading effect, its default-address autofill and
      [handleAddressSelect]. *)

From S2P Require Import Prelude Js Json Pricing Store Checkout.
From stdpp Require Import gmap.
Open Scope nat_scope.

(** ** The e-mail forms *)

Inductive auth_mode := SignInMode | SignUpMode.

Record auth_form := mk_form { f_email : string; f_password : string; f_confirm : string }.

Record form_state := mk_fs {
  fs_mode : auth_mode;
  fs_form : auth_form;
  fs_error : string;
  fs_otp_sent : bool
}.

Definition form_init : form_state := mk_fs SignInMode (mk_form "" "" "") "" false.

Inductive form_field := FEmail | FPassword | FConfirm.

Definition set_error (st : form_state) (msg : string) : form_state :=
  mk_fs (fs_mode st) (fs_form st) msg (fs_otp_sent st).

(** [error.message || fallback] *)
Definition msg_or (msg fallback : string) : string := if String.eqb msg "" then fallback else msg.

(** [handleAuthInputChange]: [{ ...prev, [name]: value }], and the error
    is cleared. *)
Definition handleAuthInputChange (f : form_field) (v : string) (st : form_state) : form_state :=
  let fm := fs_form st in
  let fm' := match f with
             | FEmail => mk_form v (f_password fm) (f_confirm fm)
             | FPassword => mk_form (f_email fm) v (f_confirm fm)
             | FConfirm => mk_form (f_email fm) (f_password fm) v
             end in
  mk_fs (fs_mode st) fm' "" (fs_otp_sent st).

(** The message of the ReferenceError that reading the unbound [supabase]
    throws. *)
Definition supabase_unbound : string := "supabase is not defined".

(** [sendOtp]: past the e-mail guard, [supabase.auth] throws before any
    request; the catch shows the error's message. *)
Definition sendOtp (st : form_state) : form_state :=
  if String.eqb (f_email (fs_form st)) "" then set_error st "Please enter your email."
  else set_error st (msg_or supabase_unbound "Failed to send OTP. Please try again.").

(** [handleSignIn]: [res] is the answer of [signIn] ([None] when it
    resolves, else the thrown error's message), [resend] the answer to
    [confirm('Resend confirmation email?')]. *)
Definition handleSignIn (res : option string) (resend : bool) (st : form_state) : form_state :=
  let fm := fs_form st in
  if String.eqb (f_email fm) "" || String.eqb (f_password fm) "" then set_error st "Please fill in all fields."
  else match res with
  | None => mk_fs (fs_mode st) (mk_form "" "" "") (fs_error st) false
  | Some msg =>
      if str_includes "Email not confirmed" msg then
        let st' := set_error st "Email not confirmed. Resend confirmation?" in
        if resend then sendOtp st' else st'
      else set_error st (msg_or msg "Sign in failed. Please try again.")
  end.

(** [handleSignUp]; [password.length] counts characters of the text. *)
Definition handleSignUp (res : option string) (st : form_state) : form_state :=
  let fm := fs_form st in
  if String.eqb (f_email fm) "" || String.eqb (f_password fm) "" || String.eqb (f_confirm fm) "" then
    set_error st "Please fill in all fields."
  else if negb (String.eqb (f_password fm) (f_confirm fm)) then set_error st "Passwords do not match."
  else if String.length (f_password fm) <? 6 then set_error st "Password must be at least 6 characters."
  else match res with
  | None => mk_fs (fs_mode st) (mk_form (f_email fm) "" "") (fs_error st) true
  | Some msg => set_error st (msg_or msg "Account creation failed. Please try again.")
  end.

(** [verifyOtp]: [answer] is what [prompt] returns ([None] on cancel). *)
Definition verifyOtp (answer : option string) (st : form_state) : form_state :=
  match answer with
  | Some otp =>
      if String.eqb otp "" || negb (String.length otp =? 6) then set_error st "Invalid OTP code."
      else set_error st (msg_or supabase_unbound "OTP verification failed.")
  | None => set_error st "Invalid OTP code."
  end.

(** [handleGoogleAuth]: [signInWithGoogle] is [undefined] in the context's
    value, and calling it throws this TypeError. *)
Definition google_unbound : string := "signInWithGoogle is not a function".

Definition handleGoogleAuth (st : form_state) : form_state :=
  set_error st (msg_or google_unbound "Google sign in failed. Please try again.").

Inductive form_event :=
| Input (f : form_field) (v : string)
| SetMode (m : auth_mode)
| SignInClick (res : option string) (resend : bool)
| SignUpClick (res : option string)
| VerifyClick (answer : option string)
| GoogleClick.

Definition form_step (st : form_state) (e : form_event) : form_state :=
  match e with
  | Input f v => handleAuthInputChange f v st
  | SetMode m => mk_fs m (fs_form st) (fs_error st) (fs_otp_sent st)
  | SignInClick res resend => handleSignIn res resend st
  | SignUpClick res => handleSignUp res st
  | VerifyClick a => verifyOtp a st
  | GoogleClick => handleGoogleAuth st
  end.

(** ** Saved addresses *)

(** [SavedAddress] *)
Record saved_address := mk_addr { a_id : string; a_label : string; a_full : string; a_default : bool }.

(** The object [addAddress] builds, keys in its order. *)
Definition address_to_json (a : saved_address) : jvalue :=
  JObj [("id", JStr (a_id a)); ("label", JStr (a_label a)); ("fullAddress", JStr (a_full a));
        ("isDefault", JBool (a_default a))].

Definition address_of_json (v : jvalue) : option saved_address :=
  match v with
  | JObj [(k1, JStr i); (k2, JStr l); (k3, JStr f); (k4, JBool d)] =>
      if String.eqb k1 "id" && String.eqb k2 "label" && String.eqb k3 "fullAddress" && String.eqb k4 "isDefault"
      then Some (mk_addr i l f d) else None
  | _ => None
  end.

(** The parsed value read as [SavedAddress[]]; [None] for a value of
    another shape, which the pages would use as it is. *)
Definition addresses_of_json (v : jvalue) : option (list saved_address) :=
  match v with JArr xs => mapM address_of_json xs | _ => None end.

(** [localStorage]: keys to strings. *)
Abbreviation local_storage := (gmap string string).

Definition addresses_key : string := "savedAddresses".

Section storage.
Context `{JsonCodec}.

(** The lazy initial state [stored ? JSON.parse(stored) : []]; the
    checkout's effect [if (stored) setSavedAddresses(JSON.parse(stored))]
    over its initial [[]] computes the same list. *)
Definition load_addresses (ls : local_storage) : js (option (list saved_address)) :=
  match ls !! addresses_key with
  | Some s => if String.eqb s "" then Ok (Some []) else v ← json_parse s; Ok (addresses_of_json v)
  | None => Ok (Some [])
  end.

(** The effect [localStorage.setItem('savedAddresses', JSON.stringify(savedAddresses))]. *)
Definition persist_addresses (l : list saved_address) (ls : local_storage) : local_storage :=
  <[addresses_key := json_stringify (JArr (map address_to_json l))]> ls.

End storage.

(** The address part of the account page's state. *)
Record account_state := mk_acct { ac_addrs : list saved_address; ac_label : string; ac_full : string }.

(** [addAddress]: [now_id] is [Date.now().toString()], [u] the signed-in
    user. *)
Definition addAddress (u : option string) (now_id : string) (st : account_state) : account_state :=
  if negb (String.eqb (ac_label st) "") && negb (String.eqb (ac_full st) "") && bool_decide (is_Some u) then
    mk_acct (ac_addrs st ++ [mk_addr now_id (ac_label st) (ac_full st) (length (ac_addrs st) =? 0)]) "" ""
  else st.

(** [setDefaultAddress]: [{ ...addr, isDefault: addr.id === id }] *)
Definition setDefaultAddress (id : string) (l : list saved_address) : list saved_address :=
  map (λ a, mk_addr (a_id a) (a_label a) (a_full a) (String.eqb (a_id a) id)) l.

(** [deleteAddress]: [prev.filter(addr => addr.id !== id)] *)
Definition deleteAddress (id : string) (l : list saved_address) : list saved_address :=
  List.filter (λ a, negb (String.eqb (a_id a) id)) l.

Inductive addr_event :=
| TypeLabel (s : string)
| TypeFull (s : string)
| AddAddress (now_id : string)
| SetDefault (id : string)
| DeleteAddress (id : string).

Definition acct_step (u : option string) (st : account_state) (e : addr_event) : account_state :=
  match e with
  | TypeLabel s => mk_acct (ac_addrs st) s (ac_full st)
  | TypeFull s => mk_acct (ac_addrs st) (ac_label st) s
  | AddAddress now_id => addAddress u now_id st
  | SetDefault id => mk_acct (setDefaultAddress id (ac_addrs st)) (ac_label st) (ac_full st)
  | DeleteAddress id => mk_acct (deleteAddress id (ac_addrs st)) (ac_label st) (ac_full st)
  end.

(** A visit of the account page by user [u]: the initial state from the
    storage, the events, and the storage the persisting effect leaves
    (it writes the whole list after each change, so the last write is
    the final list). *)
Definition account_session `{JsonCodec} (u : option string) (ls : local_storage) (es : list addr_event)
  : js (option (local_storage * account_state)) :=
  o ← load_addresses ls;
  match o with
  | Some l => let st := foldl (acct_step u) (mk_acct l "" "") es in
              Ok (Some (persist_addresses (ac_addrs st) ls, st))
  | None => Ok None
  end.

(** ** The checkout's use of the addresses *)

(** The checkout's loading effect: only with a session. *)
Definition checkout_addresses `{JsonCodec} (session : bool) (ls : local_storage)
  : js (option (list saved_address)) :=
  if session then load_addresses ls else Ok (Some []).

(** The auto-fill effect: with addresses and an empty address field, the
    first default address is selected and copied into the field. *)
Definition autofill (l : list saved_address) (sel : string) (st : checkout_state) : string * checkout_state :=
  if negb (length l =? 0) && String.eqb (address (co_delivery st)) "" then
    match List.find a_default l with
    | Some a => (a_id a, mk_co (mk_delivery (a_full a) (instructions_text (co_delivery st)))
                            (co_code st) (co_applied st) (co_placing st))
    | None => (sel, st)
    end
  else (sel, st).

(** [handleAddressSelect] *)
Definition handleAddressSelect (l : list saved_address) (id : string) (st : checkout_state)
  : string * checkout_state :=
  match List.find (λ a, String.eqb (a_id a) id) l with
  | Some a => (id, mk_co (mk_delivery (a_full a) (instructions_text (co_delivery st)))
                      (co_code st) (co_applied st) (co_placing st))
  | None => (id, st)
  end.

(** ** The one-time-code and Google paths *)

(** "Verify OTP" never verifies: whatever [prompt] returns it
    leaves [otpSent] and the mode as they were and shows an error, for a
    six-character code the ReferenceError's message; the resend offered
    by sign-in never sends; "Continue with Google" always shows the
    TypeError's message. *)
Theorem otp_and_google_fail st answer :
  let st' := verifyOtp answer st in
  fs_otp_sent st' = fs_otp_sent st ∧ fs_mode st' = fs_mode st ∧ fs_error st' ≠ "" ∧
  (∀ otp, answer = Some otp → String.length otp = 6 → fs_error st' = supabase_unbound) ∧
  (f_email (fs_form st) ≠ "" →
     fs_error (sendOtp st) = supabase_unbound ∧ fs_otp_sent (sendOtp st) = fs_otp_sent st) ∧
  fs_error (handleGoogleAuth st) = google_unbound.
Proof.
  unfold verifyOtp, sendOtp. refine (conj _ (conj _ (conj _ (conj _ (conj _ _))))).
  - destruct answer as [otp|]; [case_match|]; done.
  - destruct answer as [otp|]; [case_match|]; done.
  - destruct answer as [otp|]; [case_match|]; done.
  - intros otp -> Hl. cbn. rewrite Hl. by destruct (String.eqb_spec otp "") as [->|].
  - intros He. apply String.eqb_neq in He. by rewrite He.
  - done.
Qed.

(** ** The stored list *)

Lemma addresses_of_json_map l : addresses_of_json (JArr (map address_to_json l)) = Some l.
Proof. induction l as [|a l IH]; [done|]. cbn in *. rewrite IH. by destruct a. Qed.

Lemma addresses_json_ok l : json_ok (JArr (map address_to_json l)) = true.
Proof. by induction l. Qed.

Section roundtrip.
Context `{JsonCodecLaws}.

Lemma load_persist_addresses l ls : load_addresses (persist_addresses l ls) = Ok (Some l).
Proof.
  unfold load_addresses, persist_addresses. rewrite lookup_insert_eq.
  pose proof (json_stringify_nonempty _ (addresses_json_ok l)) as Hne. apply String.eqb_neq in Hne.
  rewrite Hne, json_roundtrip by apply addresses_json_ok. rewrite bind_ok. by rewrite addresses_of_json_map.
Qed.

Lemma load_addresses_none ls : ls !! addresses_key = None → load_addresses ls = Ok (Some []).
Proof. unfold load_addresses. by intros ->. Qed.

Lemma account_session_ok u ls es ls' st :
  account_session u ls es = Ok (Some (ls', st)) →
  ∃ l, load_addresses ls = Ok (Some l) ∧ st = foldl (acct_step u) (mk_acct l "" "") es ∧
       ls' = persist_addresses (ac_addrs st) ls.
Proof.
  unfold account_session. destruct (load_addresses ls) as [[l|]|]; cbn; try discriminate.
  intros [= <- <-]. by exists l.
Qed.

(** A later visit of the account page, by any user, starts
    with exactly the addresses the previous visit ended with, and leaves
    the stored text as it was: the JSON text the effect writes reads back
    as the same list. *)
Theorem account_revisit_roundtrip u u' ls es ls' st :
  account_session u ls es = Ok (Some (ls', st)) →
  account_session u' ls' [] = Ok (Some (ls', mk_acct (ac_addrs st) "" "")).
Proof.
  intros (l & _ & _ & ->)%account_session_ok. unfold account_session.
  rewrite load_persist_addresses, bind_ok. cbn. unfold persist_addresses. by rewrite insert_insert_eq.
Qed.

(** C17 [safety]: the addresses are stored under one key for every user:
    when user [ua] saves a first address, the checkout of whoever signs in
    next on the same browser loads it and fills it in as the delivery
    address. *)
Theorem checkout_prefills_previous_users_address ls ua lbl full now_id :
  ls !! addresses_key = None → lbl ≠ "" → full ≠ "" →
  ∃ ls' st, account_session (Some ua) ls [TypeLabel lbl; TypeFull full; AddAddress now_id] = Ok (Some (ls', st)) ∧
    ∀ ub : auth, session ub = true →
      checkout_addresses (session ub) ls' = Ok (Some [mk_addr now_id lbl full true]) ∧
      autofill [mk_addr now_id lbl full true] "" init_checkout = (now_id, mk_co (mk_delivery full "") "" 0 false).
Proof.
  intros Hls Hl Hf. apply String.eqb_neq in Hl, Hf.
  assert (addAddress (Some ua) now_id (mk_acct [] lbl full) = mk_acct [mk_addr now_id lbl full true] "" "")
    as Hadd by (unfold addAddress; cbn; by rewrite Hl, Hf).
  unfold account_session. rewrite (load_addresses_none ls Hls), bind_ok.
  cbn [foldl acct_step ac_addrs ac_label ac_full]. rewrite Hadd.
  eexists _, _. split; [reflexivity|]. intros ub ->. cbn [checkout_addresses].
  by rewrite load_persist_addresses.
Qed.

End roundtrip.

(** ** The default address *)

(** All addresses marked default share one id. *)
Definition defaults_agree (l : list saved_address) : Prop :=
  ∀ c d, c ∈ l → d ∈ l → a_default c = true → a_default d = true → a_id c = a_id d.

Lemma List_filter_elem {A} (p : A → bool) (x : A) xs : x ∈ List.filter p xs ↔ x ∈ xs ∧ p x = true.
Proof. rewrite !list_elem_of_In. apply filter_In. Qed.

Lemma acct_step_agree u st e : defaults_agree (ac_addrs st) → defaults_agree (ac_addrs (acct_step u st e)).
Proof.
  destruct e as [s|s|now_id|id|id]; cbn; try done.
  - unfold addAddress. case_match; [|done]. cbn. intros Hag c d Hc Hd.
    apply elem_of_app in Hc as [Hc| ->%list_elem_of_singleton];
    apply elem_of_app in Hd as [Hd| ->%list_elem_of_singleton]; cbn; [by apply Hag| | |done];
      destruct (ac_addrs st); cbn; [set_solver|discriminate| set_solver|discriminate].
  - intros _ c d (c' & -> & _)%list_elem_of_fmap (d' & -> & _)%list_elem_of_fmap. cbn.
    intros ->%String.eqb_eq ->%String.eqb_eq. done.
  - intros Hag c d [Hc _]%List_filter_elem [Hd _]%List_filter_elem. by apply Hag.
Qed.

Lemma foldl_acct_agree u st es :
  defaults_agree (ac_addrs st) → defaults_agree (ac_addrs (foldl (acct_step u) st es)).
Proof.
  revert st. induction es as [|e es IH]; intros st Hst; [done|]. cbn. by apply IH, acct_step_agree.
Qed.

(** On any list the account page builds, deleting the
    default address while another address remains leaves a non-empty
    list with no default, and the checkout then fills in no address. *)
Theorem delete_default_no_prefill u es a sel cst :
  let st := foldl (acct_step u) (mk_acct [] "" "") es in
  a ∈ ac_addrs st → a_default a = true → (∃ b, b ∈ ac_addrs st ∧ a_id b ≠ a_id a) →
  let l := ac_addrs (acct_step u st (DeleteAddress (a_id a))) in
  l ≠ [] ∧ Forall (λ c, a_default c = false) l ∧ autofill l sel cst = (sel, cst).
Proof.
  cbn zeta. intros Ha Hda (b & Hb & Hba). cbn [acct_step ac_addrs]. unfold deleteAddress.
  assert (Hag : defaults_agree (ac_addrs (foldl (acct_step u) (mk_acct [] "" "") es))).
  { apply foldl_acct_agree. intros c d Hc. by apply elem_of_nil in Hc. }
  assert (Hnd : Forall (λ c, a_default c = false) (List.filter (λ c, negb (String.eqb (a_id c) (a_id a)))
            (ac_addrs (foldl (acct_step u) (mk_acct [] "" "") es)))).
  { apply Forall_forall. intros c [Hc Hne]%List_filter_elem. apply not_true_is_false. intros Hdc.
    rewrite (Hag c a Hc Ha Hdc Hda), String.eqb_refl in Hne. discriminate. }
  split_and!; [|done|].
  - intros Hnil. apply (elem_of_nil b). rewrite <- Hnil. apply List_filter_elem.
    split; [done|]. by apply negb_true_iff, String.eqb_neq.
  - unfold autofill. rewrite find_None_intro; [by case_match|].
    intros c Hc. by eapply Forall_forall in Hnd.
Qed.

(** ** Witnesses *)

Definition home : saved_address := mk_addr "1700000000000" "Home" "Plot 12, Ngong Road" true.
Definition farm : saved_address := mk_addr "1700000000001" "Farm" "Kitengela" false.

Definition home_events : list addr_event :=
  [TypeLabel "Home"; TypeFull "Plot 12, Ngong Road"; AddAddress "1700000000000"].

Definition two_address_events : list addr_event :=
  home_events ++ [TypeLabel "Farm"; TypeFull "Kitengela"; AddAddress "1700000000001"].

Lemma account_revisit_roundtrip_witness :
  account_session (Some "u1") ∅ home_events = Ok (Some (persist_addresses [home] ∅, mk_acct [home] "" "")) ∧
  account_session (Some "u2") (persist_addresses [home] ∅) [] =
    Ok (Some (persist_addresses [home] ∅, mk_acct [home] "" "")).
Proof.
  assert (E : account_session (Some "u1") ∅ home_events =
              Ok (Some (persist_addresses [home] ∅, mk_acct [home] "" ""))) by (vm_compute; reflexivity).
  split; [exact E|]. exact (account_revisit_roundtrip _ _ _ _ _ _ E).
Defined.

Lemma checkout_prefills_previous_users_address_witness :
  ∃ ls' st, account_session (Some "u1") ∅ home_events = Ok (Some (ls', st)) ∧
    ∀ ub : auth, session ub = true →
      checkout_addresses (session ub) ls' = Ok (Some [home]) ∧
      autofill [home] "" init_checkout = ("1700000000000", mk_co (mk_delivery "Plot 12, Ngong Road" "") "" 0 false).
Proof.
  refine (checkout_prefills_previous_users_address ∅ "u1" "Home" "Plot 12, Ngong Road" "1700000000000" _ _ _);
    [reflexivity|done|done].
Defined.

Lemma delete_default_no_prefill_witness :
  let l := ac_addrs (acct_step (Some "u1") (foldl (acct_step (Some "u1")) (mk_acct [] "" "") two_address_events)
                      (DeleteAddress "1700000000000")) in
  l ≠ [] ∧ Forall (λ c, a_default c = false) l ∧ autofill l "" init_checkout = ("", init_checkout).
Proof.
  refine (delete_default_no_prefill (Some "u1") two_address_events home "" init_checkout _ _ _).
  - vm_compute. left.
  - reflexivity.
  - exists farm. split; [vm_compute; right; left|]. done.
Defined.
