(* ===== verification/CartStore.v ===== *)
(** * The cart's persistence: [CartProvider]'s localStorage effects

    src/src/contexts/AuthContext.tsx (second part, lines 168-224):
    - [loadInitialCart] reads the [cart] key and returns
      [stored ? JSON.parse(stored) : []], or [[]] when [JSON.parse] throws;
      nothing checks that the parsed value is a [CartItem[]];
    - the effect on [[cart]] writes [JSON.stringify(cart)] back after
      every change (and once on mount), swallowing the error of a full
      storage;
    - [clearCart] dispatches [CLEAR_CART] and removes the key, and the
      effect then writes [[]] again;
    - the render computes [totalItems] and [subtotal] with [cart.reduce],
      which throws a [TypeError] when the parsed value is not an array.

    [item_json] is [JSON.stringify]'s view of a cart line (undefined
    fields left out); [item_of_json] reads a parsed value as a line of the
    [CartItem] interface, the fields the pages use.  The codec is the
    [JsonCodec] interface with its round-trip law, which covers integer
    numbers: the theorems about reloading assume integer prices. *)

From S2P Require Import Prelude Js Json Pricing Cart Account.
From stdpp Require Import gmap list_monad.
Open Scope nat_scope.

Definition cart_key : string := "cart".

(** ** The stored text *)

(** A field whose value is [undefined] is left out by [JSON.stringify]. *)
Definition undef_field (k : string) (o : option jvalue) : list (string * jvalue) :=
  match o with Some v => [(k, v)] | None => [] end.

Definition cart_tier_json (t : tier) : jvalue :=
  JObj [("min_quantity", JNum (inject_Z (min_quantity t))); ("price", JNum (tier_price t))].

(** The line as [addItem] builds it from the product page's literal
    ([id], [name], [price], [imageUrl], [quantity], [size],
    [variant_id], [pricing_tiers]); the reducer's spreads keep the order. *)
Definition item_json (it : cart_item) : jvalue :=
  JObj ([("id", JStr (id it)); ("name", JStr (name it)); ("price", JNum (price it))] ++
        undef_field "imageUrl" (option_map JStr (imageUrl it)) ++
        [("quantity", JNum (inject_Z (quantity it)))] ++
        undef_field "size" (option_map JStr (Pricing.size it)) ++
        undef_field "variant_id" (option_map JStr (variant_id it)) ++
        undef_field "pricing_tiers" (option_map (λ ts, JArr (map cart_tier_json ts)) (pricing_tiers it))).

Definition cart_json (cart : list cart_item) : jvalue := JArr (map item_json cart).

(** ** Reading a parsed value as a cart *)

Definition as_str (v : option jvalue) : option string :=
  match v with Some (JStr s) => Some s | _ => None end.
Definition as_num (v : option jvalue) : option Q :=
  match v with Some (JNum q) => Some q | _ => None end.
Definition as_int (v : option jvalue) : option Z :=
  match v with Some (JNum q) => if (Qden q =? 1)%positive then Some (Qnum q) else None | _ => None end.

(** An optional field of the interface: absent, [undefined] or [null]. *)
Definition opt_decode {A} (f : jvalue → option A) (v : option jvalue) : option (option A) :=
  match v with
  | None | Some JUndef | Some JNull => Some None
  | Some x => option_map Some (f x)
  end.

Definition tier_of_json (v : jvalue) : option tier :=
  match v with
  | JObj fs => m ← as_int (obj_find "min_quantity" fs); p ← as_num (obj_find "price" fs); Some (mk_tier m p)
  | _ => None
  end.

Definition tiers_of_json (v : jvalue) : option (list tier) :=
  match v with JArr xs => mapM tier_of_json xs | _ => None end.

(** The [CartItem] interface. *)
Definition item_of_json (v : jvalue) : option cart_item :=
  match v with
  | JObj fs =>
      i ← as_str (obj_find "id" fs); n ← as_str (obj_find "name" fs);
      p ← as_num (obj_find "price" fs); q ← as_int (obj_find "quantity" fs);
      img ← opt_decode (λ x, as_str (Some x)) (obj_find "imageUrl" fs);
      ts ← opt_decode tiers_of_json (obj_find "pricing_tiers" fs);
      sz ← opt_decode (λ x, as_str (Some x)) (obj_find "size" fs);
      vid ← opt_decode (λ x, as_str (Some x)) (obj_find "variant_id" fs);
      Some (mk_item i n p q img ts sz vid)
  | _ => None
  end.

Definition cart_of_json (v : jvalue) : option (list cart_item) :=
  match v with JArr xs => mapM item_of_json xs | _ => None end.

(** Lines whose numbers the codec's law covers: integer prices. *)
Definition item_encodable (it : cart_item) : bool :=
  (Qden (price it) =? 1)%positive &&
  match pricing_tiers it with
  | Some ts => forallb (λ t, Qden (tier_price t) =? 1)%positive ts
  | None => true
  end.

(** ** The provider *)

(** What [useReducer] starts from: a cart, or a parsed value that is not
    one. *)
Inductive loaded := LoadedCart (cart : list cart_item) | LoadedOther (v : jvalue).

Section provider.
Context `{JsonCodec}.

(** [loadInitialCart]: [getItem] answers [null] for a missing key; the
    empty string is falsy; a [SyntaxError] of [JSON.parse] is caught. *)
Definition loadInitialCart (ls : local_storage) : loaded :=
  match ls !! cart_key with
  | Some s =>
      if String.eqb s "" then LoadedCart [] else
      match json_parse s with
      | Ok v => match cart_of_json v with Some c => LoadedCart c | None => LoadedOther v end
      | Err _ => LoadedCart []
      end
  | None => LoadedCart []
  end.

(** The save effect; [stored] is [false] when [setItem] throws (a full
    storage) and the error is only logged. *)
Definition save_cart (stored : bool) (cart : list cart_item) (ls : local_storage) : local_storage :=
  if stored then <[cart_key := json_stringify (cart_json cart)]> ls else ls.

Inductive provider_event :=
| Dispatch (a : cart_action) (stored : bool)  (** [addItem], [updateQuantity], [removeItem] *)
| ClearCart (stored : bool).                  (** [clearCart] *)

(** Every action returns a new array, so the effect runs after each. *)
Definition provider_step (s : list cart_item * local_storage) (e : provider_event)
  : list cart_item * local_storage :=
  let '(cart, ls) := s in
  match e with
  | Dispatch a ok => let cart' := cartReducer cart a in (cart', save_cart ok cart' ls)
  | ClearCart ok => ([], save_cart ok [] (delete cart_key ls))
  end.

(** A visit: the first render (whose [cart.reduce] throws on a value that
    is not an array), the mount effect, then the events.  A parsed array
    whose elements are not cart lines is outside the model ([None]). *)
Definition provider_session (stored : bool) (ls : local_storage) (es : list provider_event)
  : js (option (list cart_item * local_storage)) :=
  match loadInitialCart ls with
  | LoadedCart c => Ok (Some (foldl provider_step (c, save_cart stored c ls) es))
  | LoadedOther (JArr _) => Ok None
  | LoadedOther _ => Err TypeError
  end.

End provider.

(** The events the pages produce: [addItem] with at least one unit of a
    line with integer prices. *)
Definition event_ok (e : provider_event) : bool :=
  match e with
  | Dispatch a _ =>
      action_ok a && match a with ADD_ITEM p => item_encodable p | _ => true end
  | ClearCart _ => true
  end.

Definition event_stored (e : provider_event) : bool :=
  match e with Dispatch _ ok | ClearCart ok => ok end.

(** ** Decoding what is encoded *)

Lemma mapM_map_inv {A B} (f : A → option B) (g : B → A) (l : list B) :
  (∀ x, f (g x) = Some x) → mapM f (map g l) = Some l.
Proof. intros Hfg. induction l as [|x l IH]; [done|]. cbn. by rewrite Hfg, IH. Qed.

Lemma tier_of_cart_tier_json t : tier_of_json (cart_tier_json t) = Some t.
Proof. by destruct t. Qed.

Lemma item_of_item_json it : item_of_json (item_json it) = Some it.
Proof.
  destruct it as [i n p q img ts sz vid].
  destruct img, ts, sz, vid; cbn; rewrite ?mapM_map_inv by apply tier_of_cart_tier_json; reflexivity.
Qed.

Lemma cart_of_cart_json c : cart_of_json (cart_json c) = Some c.
Proof. apply mapM_map_inv, item_of_item_json. Qed.

Lemma json_ok_int z : json_ok (JNum (inject_Z z)) = true.
Proof. reflexivity. Qed.

Lemma item_json_ok it : item_encodable it = true → json_ok (item_json it) = true.
Proof.
  destruct it as [i n [pn pd] q img ts sz vid]. unfold item_encodable. cbn [price pricing_tiers Qden].
  intros [Hp Ht]%andb_prop. apply Pos.eqb_eq in Hp as ->.
  destruct img, ts as [ts|], sz, vid; cbn; rewrite ?andb_true_r; try reflexivity;
    induction ts as [|[m [tn td]] ts IH]; cbn in *; try done;
    apply andb_prop in Ht as [Htd Hts]; destruct td; try discriminate Htd; cbn; by apply IH.
Qed.

Lemma cart_json_ok c : Forall (λ it, item_encodable it = true) c → json_ok (cart_json c) = true.
Proof.
  induction 1 as [|it c Hit _ IH]; [done|]. cbn. apply andb_true_intro. split; [by apply item_json_ok|done].
Qed.

Lemma cartReducer_encodable c a :
  Forall (λ it, item_encodable it = true) c →
  match a with ADD_ITEM p => item_encodable p | _ => true end = true →
  Forall (λ it, item_encodable it = true) (cartReducer c a).
Proof.
  intros Hc Ha.
  assert (Hmap : ∀ (f : cart_item → bool) (g : cart_item → Z),
            Forall (λ it, item_encodable it = true)
              (map (λ item, if f item then with_quantity item (g item) else item) c)).
  { intros f g. apply Forall_fmap, (Forall_impl _ _ _ Hc). intros x Hx. cbn. destruct (f x); exact Hx. }
  destruct a as [p|i q|i|]; cbn.
  - destruct (find _ c); [apply Hmap|]. apply Forall_app. split; [done|by constructor].
  - apply Forall_List_filter, Hmap.
  - by apply Forall_List_filter.
  - constructor.
Qed.

(** ** Reloading *)

Section laws.
Context `{JsonCodec} `{!JsonCodecLaws}.

(** The storage holds a cart the invariant admits, with integer prices. *)
Definition stored_ok (ls : local_storage) : Prop :=
  ∃ c, loadInitialCart ls = LoadedCart c ∧ cart_wf c ∧ Forall (λ it, item_encodable it = true) c.

Definition provider_inv (s : list cart_item * local_storage) : Prop :=
  cart_wf s.1 ∧ Forall (λ it, item_encodable it = true) s.1 ∧ stored_ok s.2.

Definition synced (s : list cart_item * local_storage) : Prop := loadInitialCart s.2 = LoadedCart s.1.

Lemma load_delete_cart ls : loadInitialCart (delete cart_key ls) = LoadedCart [].
Proof. unfold loadInitialCart. by rewrite lookup_delete_eq. Qed.

(** What the effect stores reads back as the same cart, whatever its
    quantities and ids. *)
Lemma load_save_cart c ls :
  Forall (λ it, item_encodable it = true) c → loadInitialCart (save_cart true c ls) = LoadedCart c.
Proof.
  intros Hc. unfold loadInitialCart, save_cart. rewrite lookup_insert_eq.
  pose proof (json_stringify_nonempty _ (cart_json_ok c Hc)) as Hne. apply String.eqb_neq in Hne.
  rewrite Hne, json_roundtrip by (by apply cart_json_ok). by rewrite cart_of_cart_json.
Qed.

Lemma stored_ok_save b c ls :
  cart_wf c → Forall (λ it, item_encodable it = true) c → stored_ok ls → stored_ok (save_cart b c ls).
Proof. intros ? ? ?. destruct b; [|done]. exists c. split_and!; [|done..]. by apply load_save_cart. Qed.

Lemma provider_step_inv s e :
  event_ok e = true → provider_inv s →
  provider_inv (provider_step s e) ∧ (event_stored e = true → synced (provider_step s e)).
Proof.
  destruct s as [c ls]. intros He (Hwf & Henc & Hst). destruct e as [a ok|ok]; cbn in He |- *.
  - apply andb_prop in He as [Ha Hp].
    assert (Hwf' : cart_wf (cartReducer c a)) by by apply cartReducer_wf.
    assert (Henc' := cartReducer_encodable c a Henc Hp).
    split; [split_and!; [done|done|by apply stored_ok_save]|].
    intros ->. unfold synced. cbn. by apply load_save_cart.
  - assert (Hnil : cart_wf []) by (split; constructor).
    split; [split_and!; [done|constructor|]|].
    + apply stored_ok_save; [done|constructor|]. exists []. split_and!; [apply load_delete_cart|done|constructor].
    + intros ->. unfold synced. cbn. apply load_save_cart. constructor.
Qed.

Lemma foldl_provider_inv es s :
  Forall (λ e, event_ok e = true) es → provider_inv s →
  provider_inv (foldl provider_step s es) ∧
  (synced s → Forall (λ e, event_stored e = true) es → synced (foldl provider_step s es)).
Proof.
  intros Hes. revert s. induction Hes as [|e es He _ IH]; intros s Hs; cbn; [done|].
  destruct (provider_step_inv s e He Hs) as [Hs' Hsync].
  destruct (IH _ Hs') as [Hinv Hsy]. split; [done|]. intros _ Hst. inversion Hst; subst.
  apply Hsy; [by apply Hsync|done].
Qed.

Lemma provider_session_start b ls c es :
  loadInitialCart ls = LoadedCart c →
  provider_session b ls es = Ok (Some (foldl provider_step (c, save_cart b c ls) es)).
Proof. intros Hl. unfold provider_session. by rewrite Hl. Qed.

Lemma session_inv b ls es cart ls' :
  stored_ok ls → Forall (λ e, event_ok e = true) es →
  provider_session b ls es = Ok (Some (cart, ls')) →
  provider_inv (cart, ls') ∧
  (b = true → Forall (λ e, event_stored e = true) es → synced (cart, ls')).
Proof.
  intros (c & Hl & Hwf & Henc) Hes Hs. rewrite (provider_session_start b ls c es Hl) in Hs.
  injection Hs as Hs. rewrite <-Hs.
  assert (Hi : provider_inv (c, save_cart b c ls)) by (split_and!; [done|done|apply stored_ok_save; [done|done|by exists c]]).
  destruct (foldl_provider_inv es _ Hes Hi) as [Hinv Hsy]. split; [done|].
  intros -> Hst. apply Hsy; [|done]. by apply load_save_cart.
Qed.

(** C29 [invariant]: Across reloads the cart invariant holds: from a
    storage holding a cart the invariant admits, any visit of actions the
    pages dispatch, whose saves may fail on a full storage, ends with a
    cart that satisfies the invariant and leaves the storage holding such
    a cart for the next visit. *)
Theorem reload_keeps_cart_wf b ls es cart ls' :
  stored_ok ls → Forall (λ e, event_ok e = true) es →
  provider_session b ls es = Ok (Some (cart, ls')) →
  cart_wf cart ∧ stored_ok ls'.
Proof. intros Hls Hes Hs. destruct (session_inv b ls es cart ls' Hls Hes Hs) as [[? [_ ?]] _]. done. Qed.

(** C30 [roundtrip]: When every save of a visit succeeds, the next visit
    starts from exactly the cart the previous one ended with. *)
Theorem reload_restores_cart ls es cart ls' :
  stored_ok ls → Forall (λ e, event_ok e = true ∧ event_stored e = true) es →
  provider_session true ls es = Ok (Some (cart, ls')) →
  loadInitialCart ls' = LoadedCart cart.
Proof.
  intros Hls Hes Hs. apply Forall_and in Hes as [Hok Hst].
  exact (proj2 (session_inv true ls es cart ls' Hls Hok Hs) eq_refl Hst).
Qed.

(** C31 [error]: The provider trusts the stored text: a text that is not
    JSON starts the cart empty, while JSON of anything but an array (for
    instance null) makes the first render's [cart.reduce] throw a
    TypeError, and no page renders. *)
Theorem provider_start_cases b ls s es :
  ls !! cart_key = Some s → s ≠ "" →
  (∀ e, json_parse s = Err e → provider_session b ls es = Ok (Some (foldl provider_step ([], save_cart b [] ls) es))) ∧
  (∀ v, json_parse s = Ok v → (∀ xs, v ≠ JArr xs) → provider_session b ls es = Err TypeError).
Proof.
  intros Hs Hne. apply String.eqb_neq in Hne. split.
  - intros e He. apply provider_session_start. unfold loadInitialCart. by rewrite Hs, Hne, He.
  - intros v Hv Hnot. unfold provider_session, loadInitialCart. rewrite Hs, Hne, Hv.
    destruct v as [| | | | |xs|]; try done; by destruct (Hnot xs).
Qed.

End laws.

(** ** The two users of localStorage *)

(** The cart and the account page's saved addresses live under different
    keys: neither page's writes change what the other one loads. *)
Lemma cart_addresses_independent `{JsonCodec} b c l ls :
  load_addresses (save_cart b c ls) = load_addresses ls ∧
  loadInitialCart (persist_addresses l ls) = loadInitialCart ls.
Proof.
  split.
  - destruct b; [|done]. unfold load_addresses, save_cart. by rewrite lookup_insert_ne.
  - unfold loadInitialCart, persist_addresses. by rewrite lookup_insert_ne.
Qed.

(** ** Witnesses *)

Definition stored_foliar : cart_item :=
  mk_item "pA" "Foliar Feed - 1L" 1000 1 None (Some [mk_tier 10 900]) (Some "1L") (Some "v1").
Definition stored_soil : cart_item := mk_item "pB" "Soil Mix - 10kg" 300 2 None None (Some "10kg") (Some "v9").

Definition visit (ok2 : bool) : list provider_event :=
  [Dispatch (ADD_ITEM stored_foliar) true; Dispatch (ADD_ITEM stored_soil) ok2;
   Dispatch (UPDATE_QUANTITY "pA" 3) true].

Definition visit_cart : list cart_item := [with_quantity stored_foliar 3; stored_soil].

Lemma empty_stored_ok : stored_ok (∅ : local_storage).
Proof. exists []. split_and!; [reflexivity|split; constructor|constructor]. Qed.

Lemma reload_keeps_cart_wf_witness :
  cart_wf visit_cart ∧ stored_ok (save_cart true visit_cart ∅).
Proof.
  apply (reload_keeps_cart_wf true ∅ (visit false)).
  - apply empty_stored_ok.
  - repeat constructor.
  - vm_compute. reflexivity.
Defined.

Lemma reload_restores_cart_witness : loadInitialCart (save_cart true visit_cart ∅) = LoadedCart visit_cart.
Proof.
  apply (reload_restores_cart ∅ (visit true)).
  - apply empty_stored_ok.
  - repeat constructor.
  - vm_compute. reflexivity.
Defined.

Lemma provider_start_cases_witness :
  provider_session true ({[cart_key := "null"]} : local_storage) [] = Err TypeError.
Proof.
  refine (proj2 (provider_start_cases true {[cart_key := "null"]} "null" [] _ _) JNull _ _);
    [reflexivity|discriminate|reflexivity|discriminate].
Defined.
