(* ===== verification/Auth.v ===== *)
(** * The auth session: [AuthProvider]

    src/src/contexts/AuthContext.tsx, lines 1-93.  The provider's state is
    [session], [loading] and the ref [isInitialLoad]; two sources write
    it: the promise of [supabase.auth.getSession()] (once, on mount) and
    the [onAuthStateChange] subscription (every sign-in, sign-out and
    refresh).  [auth_event] lists their deliveries in the order they
    reach the provider; [auth_step] is the effect's callbacks.  The
    context's value ([user], [isAdmin], [loading]) is computed from the
    state; [auth_of] is the [auth] record the pages' models take.

    The theorems: [loading] goes false at the first delivery and stays
    false; the pages always see a user exactly when there is a session;
    and a [getSession] answer that arrives after a newer auth event
    overwrites it. *)

From S2P Require Import Prelude Store.
Open Scope nat_scope.

(** The parts of a Supabase session the code reads: [user.id] and
    [user.user_metadata.role]. *)
Record session_t := mk_session { s_user : string; s_role : option string }.

Record auth_state := mk_as {
  as_session : option session_t;
  as_loading : bool;
  as_initial : bool;       (** [isInitialLoad.current] *)
  as_get_pending : bool    (** the [getSession()] promise has not settled *)
}.

Definition auth_init : auth_state := mk_as None true true true.

Inductive auth_event :=
| GetSessionOk (s : option session_t)   (** [getSession()] resolves *)
| GetSessionFail                        (** it rejects: only the [finally] runs *)
| AuthChange (s : option session_t).    (** an [onAuthStateChange] callback *)

Definition auth_step (st : auth_state) (e : auth_event) : auth_state :=
  match e with
  | GetSessionOk s => if as_get_pending st then mk_as s false false false else st
  | GetSessionFail => if as_get_pending st then mk_as (as_session st) false false false else st
  | AuthChange s =>
      if as_initial st then mk_as s false false (as_get_pending st)
      else mk_as s (as_loading st) false (as_get_pending st)
  end.

Definition auth_run (es : list auth_event) : auth_state := foldl auth_step auth_init es.

(** The context's value. *)
Definition ctx_user (st : auth_state) : option string := s_user <$> as_session st.

(** [session?.user?.user_metadata?.role === 'admin'] *)
Definition isAdmin (st : auth_state) : bool :=
  match as_session st with Some s => bool_decide (s_role s = Some "admin") | None => false end.

Definition auth_of (st : auth_state) : auth := mk_auth (bool_decide (is_Some (as_session st))) (ctx_user st).

(** ** Loading *)

(** [loading] mirrors [isInitialLoad], and the [getSession()] promise
    only settles while the provider is still in its initial load or
    after it. *)
Definition auth_wf (st : auth_state) : Prop :=
  as_loading st = as_initial st ∧ (as_get_pending st = false → as_initial st = false).

Lemma auth_step_wf st e : auth_wf st → auth_wf (auth_step st e).
Proof.
  intros [Hl Hp]. destruct e; cbn; repeat case_match; cbn; split; try done; try congruence; auto.
Qed.

Lemma auth_step_initial e : as_loading (auth_step auth_init e) = false.
Proof. by destruct e. Qed.

Lemma auth_steps_settled st es : auth_wf st → as_loading st = false → as_loading (foldl auth_step st es) = false.
Proof.
  revert st. induction es as [|e es IH]; intros st Hwf Hl; [done|]. cbn. apply IH; [by apply auth_step_wf|].
  destruct Hwf as [Hli Hp]. destruct e; cbn; repeat case_match; cbn; congruence.
Qed.

(** [loading] is false exactly when at least one delivery has reached the
    provider: whichever of [getSession()] and [onAuthStateChange] comes
    first ends the loading screen, and it never comes back. *)
Lemma auth_run_loading es : as_loading (auth_run es) = false ↔ es ≠ [].
Proof.
  unfold auth_run. destruct es as [|e es]; cbn; [done|]. split; [done|]. intros _.
  apply auth_steps_settled; [|apply auth_step_initial]. apply auth_step_wf. by split.
Qed.

(** ** The two sources *)

(** A [getSession()] answer that arrives after an auth event overwrites
    the newer session: a sign-out delivered first is undone. *)
Lemma get_session_overwrites st s_new s_old :
  as_get_pending st = true →
  as_session (auth_step (auth_step st (AuthChange s_new)) (GetSessionOk s_old)) = s_old.
Proof. intros Hp. unfold auth_step. destruct (as_initial st); cbn; rewrite Hp; reflexivity. Qed.

(** The pages see a user exactly when the provider holds a session. *)
Lemma auth_of_user st : session (auth_of st) = true ↔ is_Some (user (auth_of st)).
Proof. cbn. rewrite bool_decide_eq_true. unfold ctx_user. by rewrite fmap_is_Some. Qed.
