(* ===== verification/Shell.v ===== *)
(** * The shell: routes, splash screen, catalog page and offers

    - src/src/App.tsx (lines 26-65): the splash flag and the route table
      of [<Routes>], matched as React Router does (segments, dynamic
      [:id] segments, case-insensitive static segments, the [*] route
      last); no route checks the session, [/admin] included;
    - src/unnamed/part_000: the splash screen's timer, which hands over to
      the routes after 3 seconds ([splash_done_after]);
    - src/unnamed/part_001 ([Index], the catalog page): the unread badge's
      count query and the product grid's render, which splits each
      product's [controls_or_benefits] text and throws a TypeError when
      the row has none, as every row the dashboard's Add Product form
      inserts ([Admin.add_product]);
    - the catalog page's screens ([index_page]): loading, error, and the
      grid with the unread and cart badges;
    - the [Offers] page (App.tsx lines 68-246): the offers query keeps the
      offers whose expiry date lies after now (an expiry that does not
      parse is [NaN] and never compares greater), the cards, and the code
      copy whose paste at checkout only [SAVE10] turns into a discount. *)

From S2P Require Import Prelude Js Shop Admin Notifications Checkout.
From stdpp Require Import gmap sorting pretty.
Open Scope nat_scope.

(** ** Routes *)

(** The path's segments, empty ones (leading, trailing or doubled
    slashes) dropped. *)
Definition segments (path : string) : list string :=
  List.filter (λ w, negb (String.eqb w "")) (split_on "/" path).

Definition lower_ascii (c : ascii) : ascii :=
  let n := nat_of_ascii c in if (65 <=? n) && (n <=? 90) then ascii_of_nat (n + 32) else c.

Fixpoint lower (s : string) : string :=
  match s with EmptyString => EmptyString | String c r => String (lower_ascii c) (lower r) end.

(** Static segments match case-insensitively. *)
Definition seg_is (w lit : string) : bool := String.eqb (lower w) lit.

Inductive routed_page :=
| PIndex | PProduct (id : string) | PCart | PCheckout | POrders | PTrack (order_id : option string)
| POffers | PSupport | PAccount | PNotifications | PAdmin | PNotFound | PSplash.

Definition static_pages : list (string * routed_page) :=
  [("cart", PCart); ("checkout", PCheckout); ("orders", POrders); ("track", PTrack None);
   ("offers", POffers); ("support", PSupport); ("account", PAccount);
   ("notifications", PNotifications); ("admin", PAdmin)].

(** The [<Routes>] table. *)
Definition route (path : string) : routed_page :=
  match segments path with
  | [] => PIndex
  | [w] => default PNotFound (snd <$> List.find (λ sp, seg_is w sp.1) static_pages)
  | [w; x] => if seg_is w "product" then PProduct x else if seg_is w "track" then PTrack (Some x) else PNotFound
  | _ => PNotFound
  end.

(** [showSplash ? <SplashScreen/> : <Routes/>]: the splash shows until its
    timer fires ([setTimeout(.., 3000)] calls [onSplashComplete]). *)
Definition app_page (splash_done : bool) (path : string) : routed_page :=
  if splash_done then route path else PSplash.

(** ** The catalog page *)

(** [.select('*', { count: 'exact', head: true }).eq('user_id', uid).eq('read', false)]:
    the count of the user's unread rows; the query fails when the table
    has no [read] column, and the badge then shows the default 0. *)
Definition unread_count (has_read : bool) (db : ntable) (uid : string) : nat :=
  if has_read then length (List.filter (λ kr, String.eqb (n_user kr.2) uid && negb (n_read kr.2)) (map_to_list db))
  else 0.

(** [text.split('\n')] on a value: only a string has the method. *)
Definition split_lines (v : jvalue) : js (list string) :=
  match v with JStr s => Ok (split_on "010"%char s) | _ => Err TypeError end.

(** One card of the grid: the name, the description, the lines of
    [controls_or_benefits] and the price. *)
Record card := mk_card { c_name : jvalue; c_description : jvalue; c_lines : list string; c_price : jvalue }.

Definition render_card (p : jvalue) : js card :=
  name ← get p "name"; descr ← get p "description";
  cb ← get p "controls_or_benefits"; lines ← split_lines cb;
  price ← get p "price"; Ok (mk_card name descr lines price).

(** [products.map(product => ...)]: one card per product, or the first
    card's exception, which takes down the page. *)
Definition render_catalog (products : list jvalue) : js (list card) := map_list render_card products.

(** ** The catalog against the dashboard's rows *)

(** A [products] row as [select('*')] returns it: its columns, with
    [controls_or_benefits] only when the row has one. *)
Definition tier_json (t : tier_text) : jvalue :=
  JObj [("min_quantity", JNum (inject_Z (tt_min t))); ("price", JStr (tt_price t))].

Definition catalog_json (pid : string) (r : product_row) : jvalue :=
  JObj ([("id", JStr pid); ("name", JStr (pr_name r)); ("price", JStr (pr_price r));
         ("description", JStr (pr_description r))] ++
        match pr_benefits r with Some b => [("controls_or_benefits", JStr b)] | None => [] end ++
        [("pricing_tiers", match pr_tiers r with Some ts => JArr (map tier_json ts) | None => JNull end)]).

(** [setProducts(data)] then the grid: the rows in the order the query
    returns them. *)
Definition catalog_of_rows (rows : list (string * product_row)) : js (list card) :=
  render_catalog (map (λ kr, catalog_json kr.1 kr.2) rows).

(** ** Offers *)

(** An offer row: its title, its discount text, its code and its expiry
    as milliseconds since the epoch, [None] when [new Date(offer.expiry)]
    is an invalid date. *)
Record offer := mk_offer { o_title : string; o_discount : string; o_code : string; o_expiry : option Z }.

(** [(data || []).filter(offer => new Date(offer.expiry) > new Date(now))] *)
Definition active_offers (now : Z) (offers : list offer) : list offer :=
  List.filter (λ o, match o_expiry o with Some t => (now <? t)%Z | None => false end) offers.

Inductive offers_view := OffersLoading | OffersMessage (error : bool) | OffersList (l : list offer).

(** The page: loading, then the error or empty message, or the list. *)
Definition offers_page (q : option (js (list offer))) (now : Z) : offers_view :=
  match q with
  | None => OffersLoading
  | Some (Err _) => OffersMessage true
  | Some (Ok l) => let l' := active_offers now l in if length l' =? 0 then OffersMessage false else OffersList l'
  end.

(** One offer's card: its title, its discount text and the button
    "Click To Copy Code: {code}", whose [copyCode] writes the code to the
    clipboard; "Apply" is a link to [/cart]. *)
Record offer_card := mk_offer_card { of_title : string; of_discount : string; of_copy_label : string; of_apply : routed_page }.

Definition offer_card_of (o : offer) : offer_card :=
  mk_offer_card (o_title o) (o_discount o) (String.append "Click To Copy Code: " (o_code o)) (route "/cart").

(** [copyCode(offer.code)]: the clipboard afterwards. *)
Definition copyCode (o : offer) : option string := Some (o_code o).

(** ** The splash screen and the catalog page's screens *)

(** [setTimeout(() => onSplashComplete?.(), 3000)], cleared on unmount:
    the splash is done once 3000 ms have passed while it is mounted. *)
Definition splash_done_after (elapsed_ms : Z) : bool := (3000 <=? elapsed_ms)%Z.

Inductive index_screen :=
| IndexLoading                          (** "Loading products..." *)
| IndexError                            (** "Error loading products." *)
| IndexPage (unread_badge : option nat) (cart_badge : option Z) (cards : list card).

(** [Index]: the products query's state ([None] while loading), the
    unread count (its query runs only with a session's user, else the
    default 0) and [totalItems]; the badges show only positive counts. *)
Definition index_page (q : option (js (list jvalue))) (has_read : bool) (db : ntable) (sess_user : option string)
  (total_items : Z) : js index_screen :=
  match q with
  | None => Ok IndexLoading
  | Some (Err _) => Ok IndexError
  | Some (Ok ps) =>
      cards ← render_catalog ps;
      let unread := match sess_user with Some uid => unread_count has_read db uid | None => 0 end in
      Ok (IndexPage (if 0 <? unread then Some unread else None)
            (if (0 <? total_items)%Z then Some total_items else None) cards)
  end.

(** ** Routes *)

(** The links the pages build, [`/product/${product.id}`] and
    [`/track/${order.id}`], open the product page and the tracking page
    of that id, whenever the id is not empty and has no slash. *)
Lemma route_dynamic (seg : string) (id : string) :
  (seg = "product" ∨ seg = "track") →
  id ≠ "" → (∀ i d, String.get i id = Some d → d ≠ "/"%char) →
  route (String.append "/" (String.append seg (String.append "/" id))) =
    if String.eqb seg "product" then PProduct id else PTrack (Some id).
Proof.
  intros [-> | ->] Hne Hid; unfold route, segments; rewrite !sappend_cons, !sappend_nil; cbn;
    rewrite split_on_no_sep by done; cbn; apply String.eqb_neq in Hne; by rewrite Hne.
Qed.

(** No route consults the session: [/admin] renders the dashboard for
    every visitor. *)
Lemma admin_route_unguarded : route "/admin" = PAdmin ∧ route "/Admin/" = PAdmin.
Proof. split; reflexivity. Qed.

(** ** The catalog against the repository's schema *)

(** The columns of [public.products] in src/unnamed/part_003. *)
Definition products_schema_columns : list string :=
  ["id"; "name"; "description"; "controls"; "benefits"; "price_kes"; "image_url"; "is_active";
   "created_at"; "updated_at"].

Lemma obj_find_absent k fs : Forall (λ kv, kv.1 ≠ k) fs → obj_find k fs = None.
Proof.
  induction fs as [|[k' v] fs IH]; intros Hfs; [done|]. apply Forall_cons in Hfs as [Hk Hfs].
  cbn. rewrite IH by done. cbn in Hk. destruct (String.eqb_spec k k'); [congruence|done].
Qed.

(** A row of that table, as the select returns it, has no
    [controls_or_benefits]: its card throws. *)
Lemma render_card_schema fs :
  Forall (λ kv, kv.1 ∈ products_schema_columns) fs → render_card (JObj fs) = Err TypeError.
Proof.
  intros Hfs. unfold render_card. rewrite !get_obj, !bind_ok, (obj_find_absent "controls_or_benefits").
  - done.
  - eapply Forall_impl; [exact Hfs|]. intros [k v] Hk Heq. cbn in Hk, Heq. subst k.
    apply list_elem_of_In in Hk. cbn in Hk. intuition discriminate.
Qed.

(** So against the repository's schema the catalog page throws as soon as
    there is one product. *)
Lemma render_catalog_schema ps :
  ps ≠ [] → Forall (λ p, ∃ fs, p = JObj fs ∧ Forall (λ kv, kv.1 ∈ products_schema_columns) fs) ps →
  render_catalog ps = Err TypeError.
Proof.
  destruct ps as [|p ps]; [done|]. intros _ [(fs & -> & Hfs) _]%Forall_cons.
  unfold render_catalog. cbn [map_list]. by rewrite render_card_schema, bind_err.
Qed.

(** ** The catalog against the dashboard's rows *)

(** Every exception of a card is a [TypeError]: a property read on
    [null] or [undefined], or [split] on a value that is not a string. *)
Lemma render_card_err p e : render_card p = Err e → e = TypeError.
Proof.
  unfold render_card, split_lines, mbind, outcome_bind. destruct p; cbn; repeat case_match; congruence.
Qed.

(** A row with [controls_or_benefits] renders its card: the name, the
    description, the text's lines and the price. *)
Lemma render_card_row pid r b :
  pr_benefits r = Some b →
  render_card (catalog_json pid r) =
    Ok (mk_card (JStr (pr_name r)) (JStr (pr_description r)) (split_on "010"%char b) (JStr (pr_price r))).
Proof. intros Hb. unfold catalog_json. rewrite Hb. reflexivity. Qed.

(** A row without one throws. *)
Lemma render_card_row_none pid r : pr_benefits r = None → render_card (catalog_json pid r) = Err TypeError.
Proof. intros Hb. unfold catalog_json. rewrite Hb. reflexivity. Qed.

(** C18 [safety]: a product added from the dashboard's form breaks the
    catalog page.  The form has no [controls_or_benefits] field, so the
    row is stored without one; once the products query returns it,
    wherever it stands among the other rows, rendering the grid throws a
    [TypeError], and so does the product's own page, whatever its
    variants and state. *)
Theorem added_product_breaks_catalog db st fresh rows show_num vs pst :
  rows ≡ₚ map_to_list (cdb_products (add_product db st fresh true).1) →
  catalog_of_rows rows = Err TypeError ∧
  pd_render show_num (Some (product_query (add_product db st fresh true).1 fresh)) vs pst = Err TypeError.
Proof.
  intros Hrows. split; [|unfold product_query; by rewrite add_product_stored].
  unfold catalog_of_rows, render_catalog.
  assert (∃ r, cdb_products (add_product db st fresh true).1 !! fresh = Some r ∧ pr_benefits r = None)
    as (r & Hr & Hb) by (eexists; split; [apply add_product_stored|done]).
  eapply map_list_err; [apply render_card_err| |by apply (render_card_row_none fresh r)].
  apply list_elem_of_fmap. exists (fresh, r). split; [done|].
  rewrite Hrows. by apply elem_of_map_to_list.
Qed.

(** ** The unread badge *)

(** With a [read] column, the count the catalog's badge
    queries equals the number of unread notifications the notifications
    page lists for the same user and table (the page's select filters,
    then sorts). *)
Theorem unread_count_page db uid :
  unread_count true db uid = length (List.filter (λ kr, negb (n_read kr.2)) (select_notifications db uid)).
Proof.
  unfold unread_count, select_notifications.
  rewrite (Permutation_length (Permutation_List_filter _ _ _ (merge_sort_Permutation _ _))).
  by rewrite List_filter_filter.
Qed.

(** Against the repository's schema, whose column is [is_read], the
    count query fails and the badge shows 0 whatever the table holds. *)
Lemma unread_badge_repo_schema db uid : unread_count notif_schema_has_read db uid = 0.
Proof. reflexivity. Qed.

(** ** Offers *)

(** The page lists exactly the offers whose expiry parses to a time after
    now. *)
Lemma active_offers_spec now l o :
  o ∈ active_offers now l ↔ o ∈ l ∧ ∃ t, o_expiry o = Some t ∧ (now < t)%Z.
Proof.
  unfold active_offers. rewrite !list_elem_of_In, filter_In.
  destruct (o_expiry o) as [t|]; [|naive_solver]. rewrite Z.ltb_lt. naive_solver.
Qed.

(** ** Witnesses *)

(** The demo catalog renders; after a product is added from the form, it
    throws. *)
Lemma added_product_breaks_catalog_witness :
  is_ok (catalog_of_rows (map_to_list (cdb_products demo_catalog))) = true ∧
  catalog_of_rows (map_to_list (cdb_products (add_product demo_catalog admin_init "pN" true).1)) = Err TypeError ∧
  pd_render (λ q, pretty (Qnum q)) (Some (product_query (add_product demo_catalog admin_init "pN" true).1 "pN"))
    [] pd_init = Err TypeError.
Proof.
  split; [vm_compute; reflexivity|].
  apply (added_product_breaks_catalog demo_catalog admin_init "pN" _ (λ q, pretty (Qnum q)) [] pd_init); done.
Defined.

(** ** Offers at checkout *)

(** Copying an offer's code and pasting it at checkout: the pasted code is
    kept, but only [SAVE10] gives a discount, always 10% of the subtotal,
    whatever discount the offer states; any other offer's code sets the
    discount to 0, also when one was applied before. *)
Lemma offer_code_at_checkout subtotal o st :
  co_applied (handlePaste subtotal (copyCode o) st) =
    (if String.eqb (trim (o_code o)) "SAVE10" then subtotal * (1 # 10) else 0)%Q ∧
  co_code (handlePaste subtotal (copyCode o) st) = trim (o_code o) ∧
  of_apply (offer_card_of o) = PCart.
Proof. split_and!; reflexivity. Qed.

(** The catalog page never shows the unread badge against the
    repository's schema. *)
Lemma index_no_unread_badge q db sess t b c cards :
  index_page q notif_schema_has_read db sess t = Ok (IndexPage b c cards) → b = None.
Proof.
  unfold index_page. destruct q as [[ps|]|]; try discriminate.
  destruct (render_catalog ps); cbn; [|discriminate]. intros [= <- _ _].
  destruct sess; reflexivity.
Qed.
