(* ===== verification/OrdersPage.v ===== *)
(** * The orders page: its screens and the types of its rows

    Models the render of the [Orders] component of
    src/src/pages/Notifications.tsx (lines 334-505), on top of the query of
    file [OrdersList]:
    - [orders_page]: the sign-in prompt without a session, the error
      screen, the loading screen, and the list, one card per order, with
      "No orders yet." when there is none;
    - [order_card_of]: one card, [order.id.slice(-6).toUpperCase()], the
      total [order.total_price.toFixed(2)] (a [TypeError] unless the column
      holds a number), the status and its badge colour, the items' lines,
      the first three stages (a [TypeError] on a value that is not an
      array, or on a [null] stage), "... and more", and the "Track
      Details" link, routed by [Shell.route];
    - the interfaces [Stage], [OrderItem] and [Order] of lines 227-250 as
      [Js.ts_type]s, checked against the rows checkout writes.

    The theorems: the row checkout inserts has the declared type in every
    column but [stages], which holds JSON text; and an order placed
    through checkout is listed as a card with its total to two decimals,
    the yellow badge, no item and no stage, and a link to its own
    tracking page. *)

From S2P Require Import Prelude Js Json Pricing Stages Store TrackOrder Checkout OrdersList Shell.
From stdpp Require Import gmap.
Open Scope nat_scope.

(** ** The declared types *)

Definition stage_fields : list (string * bool * ts_type) :=
  [("name", false, TString); ("timestamp", false, TString); ("completed", false, TBool)].

Definition order_item_fields : list (string * bool * ts_type) :=
  [("product_id", false, TString); ("variant_id", true, TString); ("size", true, TString);
   ("quantity", false, TNumber); ("name", true, TString)].

Definition order_fields : list (string * bool * ts_type) :=
  [("id", false, TString); ("total_price", false, TNumber); ("status", false, TString);
   ("items", false, TArray (TObject order_item_fields)); ("stages", false, TArray (TObject stage_fields));
   ("created_at", false, TString); ("delivery_address", true, TString); ("instructions", true, TString)].

(** A row of [orders] as [select('*')] returns it. *)
Definition row_json (oid : string) (r : order_row) : jvalue :=
  JObj [("id", JStr oid); ("user_id", JStr (row_user_id r)); ("status", row_status r);
        ("stages", row_stages r); ("items", row_items r); ("total_price", row_total_price r);
        ("created_at", row_created_at r)].

(** ** One card *)

Record stage_view := mk_stage_view { sv_completed : bool; sv_name : jvalue; sv_time : option jvalue }.

(** [stage.completed ? ... ], [stage.name], [stage.timestamp && ...] *)
Definition stage_view_of (s : jvalue) : js stage_view :=
  c ← get s "completed"; n ← get s "name"; t ← get s "timestamp";
  Ok (mk_stage_view (truthy c) n (if truthy t then Some t else None)).

(** [order.stages.slice(0, 3).map(...)]: a string's [slice] is a string,
    which has no [map]; other values have no [slice]. *)
Definition first_stages (v : jvalue) : js (list stage_view) :=
  match v with JArr xs => map_list stage_view_of (take 3 xs) | _ => Err TypeError end.

(** A property of the object [{ ...item, name, size }]: spreading a value
    that is not an object copies none of its fields. *)
Definition spread_field (k : string) (v : jvalue) : jvalue :=
  match v with JObj fs => default JUndef (obj_find k fs) | _ => JUndef end.

Record item_line := mk_item_line { il_name : jvalue; il_size : option jvalue; il_quantity : jvalue }.

(** [{item.name || 'Unknown'} {item.size ? `(${item.size})` : ''} x {item.quantity}] *)
Definition item_line_of (it : list_item) : item_line :=
  mk_item_line (li_name it ||| JStr "Unknown") (if truthy (li_size it) then Some (li_size it) else None)
    (spread_field "quantity" (li_raw it)).

Inductive badge := BadgeGreen | BadgeBlue | BadgeYellow.

Definition badge_of (status : jvalue) : badge :=
  if js_eq_str status "Delivered" then BadgeGreen
  else if js_eq_str status "Payment Approved" then BadgeBlue else BadgeYellow.

(** [order.total_price.toFixed(2)]: only a number has the method. *)
Definition total_text (v : jvalue) : js string :=
  match v with JNum q => Ok (to_fixed2 q) | _ => Err TypeError end.

Record order_card := mk_order_card {
  oc_code : string;
  oc_total : string;
  oc_status : jvalue;
  oc_badge : badge;
  oc_items : list item_line;
  oc_stages : list stage_view;
  oc_more : bool;           (** "... and more" *)
  oc_track : routed_page    (** where "Track Details" leads *)
}.

Definition order_card_of (s : summary) : js order_card :=
  total ← total_text (row_total_price (sm_row s));
  stages ← first_stages (sm_stages s);
  let more := match sm_stages s with JArr xs => 3 <? length xs | _ => false end in
  Ok (mk_order_card (order_code (sm_id s)) total (row_status (sm_row s))
        (badge_of (row_status (sm_row s))) (map item_line_of (sm_items s)) stages more
        (route (String.append "/track/" (sm_id s)))).

(** ** The page *)

Inductive orders_screen :=
| OrdersSignIn                 (** "Please sign in to view orders." *)
| OrdersFailed                 (** "Failed to load orders." with Retry *)
| OrdersLoading
| OrdersShown (cards : list order_card) (none_yet : bool).

(** The three early returns in the code's order, then [orders.map(...)],
    which throws the first card's exception; [q] is the query's state
    ([None] while it loads). *)
Definition orders_page (a : auth) (q : option (outcome list_error (list summary))) : js orders_screen :=
  if negb (session a) then Ok OrdersSignIn else
  match q with
  | Some (Err _) => Ok OrdersFailed
  | None => Ok OrdersLoading
  | Some (Ok ls) => cards ← promise_all order_card_of ls; Ok (OrdersShown cards (length ls =? 0))
  end.

(** ** Lemmas *)

Lemma has_type_order_item item : has_type (TObject order_item_fields) (order_item_json item) = true.
Proof. unfold order_item_json. by destruct (variant_id item), (Pricing.size item). Qed.

Lemma order_item_json_obj item : ∃ fs, order_item_json item = JObj fs.
Proof. by eexists. Qed.

Lemma has_type_items cart : has_type (TArray (TObject order_item_fields)) (JArr (map order_item_json cart)) = true.
Proof.
  cbn [has_type]. apply forallb_forall. intros v [it [<- _]]%in_map_iff. apply has_type_order_item.
Qed.

(** A listed order of the user, once the query succeeded. *)
Lemma listed_summary cat db a uid ls oid r :
  list_orders cat db a = Ok ls → user a = Some uid → db !! oid = Some r → row_user_id r = uid →
  ∃ s, s ∈ ls ∧ sm_id s = oid ∧ sm_row s = r.
Proof.
  unfold list_orders. intros Hl Hu Hr Ho. rewrite Hu in Hl.
  destruct (promise_all _ _) as [ls'|] eqn:Hp; [|discriminate]. injection Hl as <-.
  assert ((oid, r) ∈ list_rows db uid) as Hin by (by apply list_rows_spec).
  destruct (Forall2_elem_l _ _ _ _ (promise_all_ok _ _ _ Hp) Hin) as (s & Hs & Hsum).
  destruct (summarize_ok _ _ _ Hsum). eauto.
Qed.

Lemma promise_all_elem {E A B} (f : A → outcome E B) xs ys x y :
  promise_all f xs = Ok ys → x ∈ xs → f x = Ok y → y ∈ ys.
Proof.
  intros Hp Hx Hf. destruct (Forall2_elem_l _ _ _ _ (promise_all_ok _ _ _ Hp) Hx) as (y' & Hy' & Hf').
  congruence.
Qed.

(** ** Properties *)

(** C24 [type]: the row checkout inserts has the type the orders page's
    [Order] interface declares in every column but one: its items are
    [OrderItem]s with numeric quantities, its total a number and its
    status a string, but its [stages] column holds the JSON text of the
    legacy delivery record where [Stage[]] is declared. *)
Theorem checkout_row_types uid cart total d created oid :
  has_type (TObject (List.filter (λ f, negb (String.eqb f.1.1 "stages")) order_fields))
    (row_json oid (checkout_row uid cart total d (JStr created))) = true ∧
  has_type (TObject order_fields) (row_json oid (checkout_row uid cart total d (JStr created))) = false.
Proof.
  pose proof (has_type_items cart) as Hi. cbn in *. by rewrite Hi.
Qed.

(** C22 [functional]: an order placed through checkout reaches the orders
    page as a blank card: once the list query succeeds, the page (for
    the buyer, signed in) lists a card with the order's code, the total
    the checkout page showed on its "Total:" line, the status
    "Order Placed (Making Order)" with the yellow badge, no item, no
    stage, and a "Track Details" link to the tracking page of that
    order. *)
Theorem placed_order_card check subtotal db a p ok cart st fresh now db' cart' oid cat ls scr n :
  handlePlaceOrder check subtotal db a p ok cart st fresh now = (db', cart', CoPlaced oid) →
  cart ≠ [] → session a = true →
  oid ≠ "" → (∀ i c, String.get i oid = Some c → c ≠ "/"%char) →
  list_orders cat db' a = Ok ls →
  orders_page a (Some (Ok ls)) = Ok scr →
  ∃ cards, scr = OrdersShown cards false ∧
    mk_order_card (order_code oid) (cv_total (checkout_view (session a) n subtotal cart st))
      (JStr "Order Placed (Making Order)") BadgeYellow [] [] false (PTrack (Some oid)) ∈ cards.
Proof.
  intros Hh Hc Hs Hne Hsl Hl Hp.
  apply handlePlaceOrder_placed, place_order_placed in Hh as (uid & Hu & _ & <- & -> & ->).
  destruct (listed_summary _ _ _ _ _ oid _ Hl Hu (lookup_insert_eq _ _ _) eq_refl) as (s & Hin & Hid & Hrow).
  destruct cart as [|c cs]; [done|].
  destruct (order_item_json_obj c) as [fs Hfs].
  destruct (list_checkout_orders_blank cat _ a ls s fs (map order_item_json cs) Hl Hin) as [Hst Hit].
  { rewrite Hrow. cbn. by rewrite Hfs. }
  assert (order_card_of s = Ok (mk_order_card (order_code oid) (to_fixed2 (discountedTotal subtotal st))
      (JStr "Order Placed (Making Order)") BadgeYellow [] [] false (PTrack (Some oid)))) as Hcard.
  { unfold order_card_of. rewrite Hrow, Hst, Hit, Hid.
    change (String.append "/track/" oid) with (String.append "/" (String.append "track" (String.append "/" oid))).
    by rewrite (route_dynamic "track" oid (or_intror eq_refl) Hne Hsl). }
  unfold orders_page in Hp. rewrite Hs in Hp. cbn in Hp.
  destruct (promise_all order_card_of ls) as [cards|] eqn:Hpa; [|done]. injection Hp as <-.
  exists cards. split.
  - destruct ls; [by apply elem_of_nil in Hin|done].
  - by eapply promise_all_elem.
Qed.

(** ** Witnesses *)

Lemma checkout_row_types_witness :
  has_type (TObject order_fields)
    (row_json "o9" (checkout_row "u1" [foliar_line] 1000 (co_delivery plot_state) (JStr "t0"))) = false.
Proof. exact (proj2 (checkout_row_types "u1" [foliar_line] 1000 (co_delivery plot_state) "t0" "o9")). Defined.

Lemma placed_order_card_witness :
  ∃ cards, orders_page (mk_auth true (Some "u1")) (Some (list_orders demo_cat placed_db (mk_auth true (Some "u1"))))
             = Ok (OrdersShown cards false) ∧
    mk_order_card "O9" "1000.00" (JStr "Order Placed (Making Order)") BadgeYellow [] [] false (PTrack (Some "o9"))
      ∈ cards.
Proof.
  destruct (list_orders demo_cat placed_db (mk_auth true (Some "u1"))) as [ls|] eqn:El; [|vm_compute in El; discriminate].
  destruct (orders_page (mk_auth true (Some "u1")) (Some (Ok ls))) as [scr|] eqn:Ep;
    [|vm_compute in El; injection El as <-; vm_compute in Ep; discriminate].
  destruct (placed_order_card (λ _, true) 1000 ∅ (mk_auth true (Some "u1")) (None, None) false
              [foliar_line] plot_state "o9" (JStr "2025-03-01T10:00:00Z") placed_db [] "o9" demo_cat ls scr 0)
    as (cards & -> & Hin); [vm_compute; reflexivity|done|done|done| |done|done|].
  - intros [|[|]] c; cbn; congruence.
  - exists cards. split; [done|]. exact Hin.
Defined.
