(* ===== verification/Nav.v ===== *)
(** * The pages' chrome: header, navigation drawer, admin tabs, account
      panels and the farmer support page

    Every page of src/src repeats the same fixed header (a menu button,
    the page title and a cart button) and the same slide-out drawer: a
    dimmed overlay whose [onClick] closes the drawer, holding a panel
    with a Close button and seven [<Link>]s, the one whose path is
    [location.pathname] highlighted by [isActive].  The copies differ
    only in the last link: none (Offers, FarmerSupport, TrackOrder,
    Notifications, Orders), [{isAdmin && ..}] (Account), or an Admin
    Dashboard link always highlighted (AdminDashboard, both versions).

    - [Drawer]: [drawer] lists the links, [chrome_step] the page's
      [isMenuOpen] and location under the header's and the drawer's
      clicks; a click inside the panel bubbles to the overlay, so every
      click in the open drawer closes it;
    - [AdminTabs]: the dashboard's [activeTab] and [filterDate], the tab
      bar and the panels; the Manage Orders panel maps over the literal
      [[]] whatever the filter;
    - [AccountPanels]: the account page's session panel and its quick
      links;
    - [Restricted]: the first version of AdminDashboard.tsx, a notice
      with a bottom navigation bar;
    - [Support]: FarmerSupport.tsx's call and WhatsApp buttons, with
      [encodeURIComponent] and its left inverse. *)

From S2P Require Import Prelude Js Auth Admin Shell.
From stdpp Require Import gmap.
Open Scope nat_scope.

Module Drawer.

(** [isActive]: the link's path is the location's pathname. *)
Definition isActive (pathname path : string) : bool := String.eqb pathname path.

(** The seven links every drawer shows, in their order. *)
Definition nav_links : list (string * string) :=
  [("/", "Home/Catalog"); ("/orders", "Orders"); ("/track", "Track Order");
   ("/offers", "Offers"); ("/support", "Farmer Support"); ("/account", "Account");
   ("/notifications", "Notifications")].

(** The drawer's last link, as each page writes it. *)
Inductive admin_link :=
| NoAdminLink                   (** no admin link; a comment says it is hidden *)
| AdminLinkIf (isAdmin : bool)  (** Account: shown when [isAdmin], highlighted by [isActive] *)
| AdminLinkPinned.              (** AdminDashboard: shown and highlighted *)

Record drawer_link := mk_dlink { dl_path : string; dl_label : string; dl_active : bool }.

Definition admin_dlink (active : bool) : drawer_link := mk_dlink "/admin" "Admin Dashboard" active.

Definition drawer (v : admin_link) (pathname : string) : list drawer_link :=
  map (λ pl, mk_dlink pl.1 pl.2 (isActive pathname pl.1)) nav_links ++
  match v with
  | NoAdminLink => []
  | AdminLinkIf b => if b then [admin_dlink (isActive pathname "/admin")] else []
  | AdminLinkPinned => [admin_dlink true]
  end.

(** The page's [isMenuOpen] and the router's location.  Navigating to
    another page mounts it with [useState(false)]. *)
Record chrome := mk_chrome { ch_path : string; ch_menu : bool }.

Inductive chrome_event :=
| OpenMenu              (** the header's menu button: [setIsMenuOpen(true)] *)
| CartButton            (** the header's cart button: [navigate('/cart')] *)
| CloseButton           (** the panel's Close button *)
| OverlayClick          (** the overlay outside the panel *)
| PanelClick            (** the panel outside its button and links *)
| LinkClick (to : string).  (** the drawer's link to [to] *)

(** The element the event clicks is on screen: the header always, the
    drawer under [{isMenuOpen && ..}]. *)
Definition enabled (v : admin_link) (c : chrome) (e : chrome_event) : bool :=
  match e with
  | OpenMenu | CartButton => true
  | CloseButton | OverlayClick | PanelClick => ch_menu c
  | LinkClick to => ch_menu c && existsb (λ d, String.eqb (dl_path d) to) (drawer v (ch_path c))
  end.

(** The panel has no [stopPropagation]: the Close button's and the
    links' clicks, and any click on the panel, reach the overlay's
    [onClick={() => setIsMenuOpen(false)}]. *)
Definition chrome_step (v : admin_link) (c : chrome) (e : chrome_event) : chrome :=
  if negb (enabled v c e) then c else
  match e with
  | OpenMenu => mk_chrome (ch_path c) true
  | CartButton => mk_chrome "/cart" false
  | CloseButton | OverlayClick | PanelClick => mk_chrome (ch_path c) false
  | LinkClick to => mk_chrome to false
  end.

Definition chrome_run (v : admin_link) (c : chrome) (es : list chrome_event) : chrome :=
  foldl (chrome_step v) c es.

(** ** Lemmas *)

Lemma nav_links_routed :
  Forall (λ pl, route pl.1 ≠ PNotFound ∧ route pl.1 ≠ PAdmin) nav_links.
Proof. repeat constructor; vm_compute; discriminate. Qed.

Lemma drawer_paths_NoDup v p : NoDup (map dl_path (drawer v p)).
Proof. destruct v as [|[]|]; cbn; apply (bool_decide_unpack _); vm_compute; exact I. Qed.

(** Outside the dashboard's pinned link, a link is highlighted exactly
    when its path is the location. *)
Lemma drawer_active v p d :
  v ≠ AdminLinkPinned → d ∈ drawer v p → dl_active d = String.eqb p (dl_path d).
Proof.
  intros Hv Hd. unfold drawer in Hd. apply elem_of_app in Hd as [Hd|Hd].
  - apply list_elem_of_fmap in Hd as [pl [-> _]]. reflexivity.
  - destruct v as [|[]|]; try done; try by apply not_elem_of_nil in Hd.
    apply list_elem_of_singleton in Hd as ->; reflexivity.
Qed.

Lemma filter_eqb_NoDup (p : string) (l : list drawer_link) :
  NoDup (map dl_path l) → length (List.filter (λ d, String.eqb p (dl_path d)) l) ≤ 1.
Proof.
  induction l as [|d l IH]; cbn; [lia|]. intros Hn. apply NoDup_cons in Hn as [Hn1 Hn2].
  destruct (String.eqb_spec p (dl_path d)) as [->|]; cbn; [|auto].
  enough (List.filter (λ d', String.eqb (dl_path d) (dl_path d')) l = []) as -> by (cbn; lia).
  clear IH Hn2. induction l as [|d' l IH']; cbn; [done|].
  apply not_elem_of_cons in Hn1 as [Ha Hb].
  destruct (String.eqb_spec (dl_path d) (dl_path d')); [congruence|auto].
Qed.

Lemma filter_inactive p (l : list (string * string)) :
  Forall (λ pl, p ≠ pl.1) l →
  List.filter dl_active (map (λ pl, mk_dlink pl.1 pl.2 (isActive p pl.1)) l) = [].
Proof.
  induction 1 as [|pl l Hp _ IH]; [done|]. cbn.
  unfold isActive. by destruct (String.eqb_spec p pl.1).
Qed.

(** At most one link of a drawer is highlighted, unless the dashboard
    pins its own. *)
Lemma drawer_one_active v p :
  v ≠ AdminLinkPinned → length (List.filter dl_active (drawer v p)) ≤ 1.
Proof.
  intros Hv. rewrite (List.filter_ext_in _ (λ d, String.eqb p (dl_path d))).
  - apply filter_eqb_NoDup, drawer_paths_NoDup.
  - intros d Hd. apply (drawer_active v); [done|]. by apply list_elem_of_In.
Qed.

(** On every path the router sends to the dashboard, its drawer
    highlights the pinned link only. *)
Lemma admin_drawer_active p :
  route p = PAdmin → List.filter dl_active (drawer AdminLinkPinned p) = [admin_dlink true].
Proof.
  intros Hp. unfold drawer. rewrite List.filter_app, filter_inactive; [done|].
  eapply Forall_impl; [apply nav_links_routed|]. intros pl [_ Hpl] ->. by apply Hpl.
Qed.

Lemma enabled_link v c d :
  ch_menu c = true → d ∈ drawer v (ch_path c) → enabled v c (LinkClick (dl_path d)) = true.
Proof.
  intros Hm Hd. unfold enabled. rewrite Hm. cbn [andb]. apply existsb_exists. exists d.
  split; [by apply list_elem_of_In|apply String.eqb_refl].
Qed.

Section chrome.
Variable v : admin_link.

(** Every click the open drawer receives closes it, a click on the
    panel's background included. *)
Lemma drawer_click_closes c e :
  e ≠ OpenMenu → enabled v c e = true → ch_menu (chrome_step v c e) = false.
Proof. intros He Hen. unfold chrome_step. rewrite Hen. by destruct e. Qed.

(** With the drawer closed, only the header's buttons do anything. *)
Lemma closed_drawer_inert c e :
  ch_menu c = false → e ≠ OpenMenu → e ≠ CartButton → chrome_step v c e = c.
Proof. intros Hm ? ?. unfold chrome_step, enabled. rewrite Hm. by destruct e. Qed.

(** Opening the drawer and following one of its links lands on the
    link's path with the drawer closed. *)
Lemma drawer_follow p d :
  d ∈ drawer v p →
  chrome_run v (mk_chrome p false) [OpenMenu; LinkClick (dl_path d)] = mk_chrome (dl_path d) false.
Proof.
  intros Hd. unfold chrome_run. cbn [foldl].
  change (chrome_step v (mk_chrome p false) OpenMenu) with (mk_chrome p true).
  unfold chrome_step. rewrite (enabled_link v (mk_chrome p true) d); done.
Qed.

End chrome.

End Drawer.

(** ** The dashboard's tabs (AdminDashboard.tsx, second version) *)

Module AdminTabs.

(** [activeTab] and [filterDate]: [useState('orders')], [useState('all')]. *)
Record tabs_state := mk_tabs { tb_active : string; tb_filter : string }.

Definition tabs_init : tabs_state := mk_tabs "orders" "all".

Definition admin_tabs : list string := ["orders"; "products"; "analytics"; "notifications"; "discounts"].

(** The date filter's options, value and text. *)
Definition filter_options : list (string * string) :=
  [("all", "All Time"); ("today", "Today"); ("week", "This Week"); ("month", "This Month")].

(** [tab.charAt(0).toUpperCase() + tab.slice(1)] *)
Definition tab_label (tab : string) : string :=
  match tab with EmptyString => EmptyString | String c r => String (upper_ascii c) r end.

Record tab_button := mk_tab_button { tbn_key : string; tbn_label : string; tbn_active : bool }.

(** The tab bar: one button per tab, highlighted when it is [activeTab]. *)
Definition tab_bar (st : tabs_state) : list tab_button :=
  map (λ t, mk_tab_button t (tab_label t) (String.eqb (tb_active st) t)) admin_tabs.

Inductive tabs_event :=
| ClickTab (tab : string)       (** a tab button: [setActiveTab(tab)] *)
| SelectFilter (value : string).  (** the select: [setFilterDate(e.target.value)] *)

(** Only the bar's buttons and the select's options can be clicked. *)
Definition tabs_step (st : tabs_state) (e : tabs_event) : tabs_state :=
  match e with
  | ClickTab t => if existsb (String.eqb t) admin_tabs then mk_tabs t (tb_filter st) else st
  | SelectFilter v =>
      if existsb (String.eqb v) (map fst filter_options) then mk_tabs (tb_active st) v else st
  end.

Definition tabs_run (es : list tabs_event) : tabs_state := foldl tabs_step tabs_init es.

Inductive admin_panel :=
| ManageOrders (filter : string) (orders : list jvalue)  (** the select's value and the cards mapped *)
| ProductsPanel                                         (** the catalog editor of Admin.v *)
| EmptyPanel (tab : string).                            (** analytics, notifications, discounts: an empty div *)

(** Each [{activeTab === tab && ..}] block; the orders block maps over
    the literal [[]], not over [filteredOrders] (itself [[]]) and not
    over any query. *)
Definition admin_panels (st : tabs_state) : list admin_panel :=
  (if String.eqb (tb_active st) "orders" then [ManageOrders (tb_filter st) []] else []) ++
  (if String.eqb (tb_active st) "products" then [ProductsPanel] else []) ++
  List.flat_map (λ t, if String.eqb (tb_active st) t then [EmptyPanel t] else [])
    ["analytics"; "notifications"; "discounts"].

Definition tabs_wf (st : tabs_state) : Prop :=
  tb_active st ∈ admin_tabs ∧ tb_filter st ∈ map fst filter_options.

Lemma existsb_eqb_elem (x : string) xs : existsb (String.eqb x) xs = true ↔ x ∈ xs.
Proof.
  rewrite existsb_exists, list_elem_of_In. split.
  - intros [y [Hy Hxy]]. by apply String.eqb_eq in Hxy as ->.
  - intros Hx. exists x. split; [done|apply String.eqb_refl].
Qed.

Lemma tabs_step_wf st e : tabs_wf st → tabs_wf (tabs_step st e).
Proof.
  intros [Ha Hf]. destruct e as [t|v]; unfold tabs_step.
  - destruct (existsb (String.eqb t) admin_tabs) eqn:E; [|done].
    apply existsb_eqb_elem in E. by split.
  - destruct (existsb (String.eqb v) (map fst filter_options)) eqn:E; [|done].
    apply existsb_eqb_elem in E. by split.
Qed.

Lemma tabs_run_wf es : tabs_wf (tabs_run es).
Proof.
  unfold tabs_run. cut (∀ st, tabs_wf st → tabs_wf (foldl tabs_step st es)).
  - intros H. apply H. split; cbn; set_solver.
  - induction es as [|e es IH]; intros st Hst; cbn; [done|]. by apply IH, tabs_step_wf.
Qed.

(** In a well-formed state the bar highlights one button and the page
    shows one panel, the orders panel empty whatever the filter. *)
Lemma tabs_wf_view st :
  tabs_wf st →
  length (List.filter tbn_active (tab_bar st)) = 1 ∧
  ∃ p, admin_panels st = [p] ∧ (tb_active st = "orders" → p = ManageOrders (tb_filter st) []).
Proof.
  intros [Ha _]. unfold tab_bar, admin_panels.
  repeat (apply elem_of_cons in Ha as [-> | Ha]; [split; [reflexivity|eexists; split; [reflexivity|done]]|]).
  by apply not_elem_of_nil in Ha.
Qed.

(** Whatever tabs and filters the admin clicks, the bar highlights one
    tab, and the Manage Orders tab lists no order. *)
Lemma tabs_run_view es :
  length (List.filter tbn_active (tab_bar (tabs_run es))) = 1 ∧
  (tb_active (tabs_run es) = "orders" → admin_panels (tabs_run es) = [ManageOrders (tb_filter (tabs_run es)) []]).
Proof.
  destruct (tabs_wf_view _ (tabs_run_wf es)) as [H1 [p [Hp Ho]]].
  split; [done|]. intros Ha. by rewrite Hp, Ho.
Qed.

End AdminTabs.

(** ** The account page's panels (Account.tsx) *)

Module AccountPanels.
Import Drawer.

(** The account page's drawer: its admin link under [{isAdmin && ..}]. *)
Definition account_drawer (st : auth_state) (pathname : string) : list drawer_link :=
  drawer (AdminLinkIf (isAdmin st)) pathname.

Inductive session_panel :=
| AccountLoading                                  (** [if (loading) return <div>Loading...</div>] *)
| Welcome (email : option string) (admin_badge : bool)  (** Welcome back!, the e-mail, Admin Role Active *)
| SignInOptions.                                  (** Google and the e-mail forms *)

(** [session ? (..) : (..)], after the early return on [loading]; the
    e-mail is [user?.email], which the context's session carries. *)
Definition session_panel_of (st : auth_state) (email : option string) : session_panel :=
  if as_loading st then AccountLoading
  else if bool_decide (is_Some (as_session st)) then Welcome email (isAdmin st) else SignInOptions.

(** The quick links: Order History, Farmer Support and, for admins, the
    dashboard. *)
Definition quick_links (isAdmin : bool) : list (string * string) :=
  [("/orders", "Order History"); ("/support", "Farmer Support")] ++
  (if isAdmin then [("/admin", "Admin Dashboard")] else []).

End AccountPanels.

(** ** The first version of AdminDashboard.tsx *)

Module Restricted.
Import Drawer.

Inductive restricted_event :=
| RChrome (e : chrome_event)   (** the header and the drawer *)
| BackToHome                   (** the notice's button: [navigate('/')] *)
| BottomNav (to : string).     (** the bottom bar's Home, Cart and Account buttons *)

Definition bottom_nav : list string := ["/"; "/cart"; "/account"].

(** The notice and the bottom bar lie under the open drawer's overlay
    ([z-40] over [z-10]): a click there is the overlay's. *)
Definition restricted_step (c : chrome) (e : restricted_event) : chrome :=
  match e with
  | RChrome e => chrome_step AdminLinkPinned c e
  | BackToHome =>
      if ch_menu c then chrome_step AdminLinkPinned c OverlayClick else mk_chrome "/" false
  | BottomNav to =>
      if ch_menu c then chrome_step AdminLinkPinned c OverlayClick
      else if existsb (String.eqb to) bottom_nav then mk_chrome to false else c
  end.

End Restricted.

(** ** Farmer support (FarmerSupport.tsx) *)

Module Support.
Import Drawer.

(** [window.open(url, target)] *)
Inductive support_action := WindowOpen (url target : string).

(** [encodeURIComponent]: letters, digits and [- _ . ! ~ * ' ( )] are
    kept, every other character is written as the percent-escaped bytes
    of its UTF-8 encoding, in upper-case hexadecimal.  A character of
    the model is a code point below 256: one byte below 128, two from
    128 on. *)
Definition unreserved (c : ascii) : bool :=
  let n := nat_of_ascii c in
  ((48 <=? n) && (n <=? 57)) || ((65 <=? n) && (n <=? 90)) || ((97 <=? n) && (n <=? 122))
  || existsb (λ d, Ascii.eqb c d) ["-"; "_"; "."; "!"; "~"; "*"; "'"; "("; ")"]%char.

Definition hex_digit (n : nat) : ascii := ascii_of_nat (if n <? 10 then 48 + n else 55 + n).

Definition percent_byte (n : nat) : string :=
  String "%" (String (hex_digit (n / 16)) (String (hex_digit (n mod 16)) EmptyString)).

Definition encode_char (c : ascii) : string :=
  let n := nat_of_ascii c in
  if unreserved c then String c EmptyString
  else if n <? 128 then percent_byte n
  else String.append (percent_byte (192 + n / 64)) (percent_byte (128 + n mod 64)).

Fixpoint encodeURIComponent (s : string) : string :=
  match s with
  | EmptyString => EmptyString
  | String c r => String.append (encode_char c) (encodeURIComponent r)
  end.

Definition handleCall : support_action := WindowOpen "tel:0725600710" "_blank".

Definition whatsapp_message : string := "Hi Mr. Rue, I have a question about organic farming...".

Definition handleWhatsApp : support_action :=
  WindowOpen (String.append "https://wa.me/254725600710?text=" (encodeURIComponent whatsapp_message)) "_blank".

Inductive support_event := SupportChrome (e : chrome_event) | Call | WhatsApp.

(** The page: its drawer has no admin link; the two buttons lie under
    the open drawer's overlay. *)
Definition support_step (c : chrome) (e : support_event) : chrome * option support_action :=
  match e with
  | SupportChrome e => (chrome_step NoAdminLink c e, None)
  | Call => if ch_menu c then (chrome_step NoAdminLink c OverlayClick, None) else (c, Some handleCall)
  | WhatsApp => if ch_menu c then (chrome_step NoAdminLink c OverlayClick, None) else (c, Some handleWhatsApp)
  end.

(** ** Decoding, the left inverse of [encodeURIComponent] *)

Definition hex_val (c : ascii) : option nat :=
  let n := nat_of_ascii c in
  if (48 <=? n) && (n <=? 57) then Some (n - 48)
  else if (65 <=? n) && (n <=? 70) then Some (n - 55) else None.

(** One escaped byte at the head of [s], and the rest. *)
Definition take_byte (s : string) : option (nat * string) :=
  match s with
  | String p (String h1 (String h2 r)) =>
      if Ascii.eqb p "%" then
        match hex_val h1, hex_val h2 with Some a, Some b => Some (16 * a + b, r) | _, _ => None end
      else None
  | _ => None
  end.

Fixpoint decode_fuel (fuel : nat) (s : string) : option string :=
  match fuel with
  | 0 => None
  | S f =>
      match s with
      | EmptyString => Some EmptyString
      | String c r =>
          if unreserved c then String c <$> decode_fuel f r
          else match take_byte s with
               | Some (n, r1) =>
                   if n <? 128 then String (ascii_of_nat n) <$> decode_fuel f r1
                   else match take_byte r1 with
                        | Some (m, r2) => String (ascii_of_nat ((n - 192) * 64 + (m - 128))) <$> decode_fuel f r2
                        | None => None
                        end
               | None => None
               end
      end
  end.

Definition uri_decode (s : string) : option string := decode_fuel (S (String.length s)) s.

Fixpoint all_chars (p : ascii → bool) (s : string) : bool :=
  match s with EmptyString => true | String c r => p c && all_chars p r end.

Definition url_safe (c : ascii) : bool := unreserved c || Ascii.eqb c "%".

(** Checked on each of the 256 characters. *)
Lemma decode_encode_char c r f :
  decode_fuel (S f) (String.append (encode_char c) r) = String c <$> decode_fuel f r.
Proof. destruct c as [[] [] [] [] [] [] [] []]; reflexivity. Qed.

Lemma encode_char_safe c : all_chars url_safe (encode_char c) = true.
Proof. destruct c as [[] [] [] [] [] [] [] []]; reflexivity. Qed.

Lemma encode_char_length c : 1 ≤ String.length (encode_char c).
Proof.
  unfold encode_char. repeat case_match; cbn; [lia|lia|].
  rewrite slength_append; cbn; lia.
Qed.

Lemma all_chars_append p s1 s2 :
  all_chars p (String.append s1 s2) = all_chars p s1 && all_chars p s2.
Proof.
  induction s1 as [|c s1 IH]; autorewrite with rue_rw; cbn; [done|].
  by rewrite IH, andb_assoc.
Qed.

Lemma encode_length s : String.length s ≤ String.length (encodeURIComponent s).
Proof.
  induction s as [|c s IH]; cbn; [lia|].
  rewrite slength_append. pose proof (encode_char_length c). lia.
Qed.

Lemma decode_fuel_encode s f :
  String.length s < f → decode_fuel f (encodeURIComponent s) = Some s.
Proof.
  revert f. induction s as [|c s IH]; intros [|f] Hf; cbn in Hf; try lia; [done|].
  cbn [encodeURIComponent]. rewrite decode_encode_char, IH by lia. done.
Qed.

(** [encodeURIComponent] has a left inverse: no two texts share an
    encoding. *)
Lemma uri_decode_encode s : uri_decode (encodeURIComponent s) = Some s.
Proof. apply decode_fuel_encode. pose proof (encode_length s). lia. Qed.

Lemma encodeURIComponent_inj s t : encodeURIComponent s = encodeURIComponent t → s = t.
Proof.
  intros E. enough (Some s = Some t) by congruence.
  by rewrite <- (uri_decode_encode s), <- (uri_decode_encode t), E.
Qed.

Lemma encode_safe s : all_chars url_safe (encodeURIComponent s) = true.
Proof.
  induction s as [|c s IH]; [done|]. cbn [encodeURIComponent].
  by rewrite all_chars_append, encode_char_safe, IH.
Qed.

End Support.

(** ** Access to the dashboard *)

Import Drawer AccountPanels Support.

(** The FarmerSupport WhatsApp button opens wa.me with the message as
    its [text] parameter, escaped so that it decodes back to itself and
    holds no character that would end the parameter. *)
Lemma whatsapp_link p :
  ∃ e, support_step (mk_chrome p false) WhatsApp =
         (mk_chrome p false, Some (WindowOpen (String.append "https://wa.me/254725600710?text=" e) "_blank"))
       ∧ uri_decode e = Some whatsapp_message ∧ all_chars url_safe e = true.
Proof.
  exists (encodeURIComponent whatsapp_message).
  split_and!; [reflexivity|apply uri_decode_encode|apply encode_safe].
Qed.

(** C19 [safety]: A signed-in user without the admin role sees no link to
    the dashboard, neither in the account page's drawer nor in its quick
    links, yet the path /admin routes to the dashboard, whose handlers
    check no role: Edit Tiers, Add Tier and Save Tiers there append a
    blank tier to a product's row. *)
Theorem admin_dashboard_unguarded st p db pid r :
  isAdmin st = false → cdb_products db !! pid = Some r →
  (∀ d, d ∈ account_drawer st p → route (dl_path d) ≠ PAdmin) ∧
  (∀ q, q ∈ quick_links (isAdmin st) → route q.1 ≠ PAdmin) ∧
  app_page true "/admin" = PAdmin ∧
  cdb_products (admin_run (db, admin_init) [EditTiers pid; AddTier; SaveTiers]).1 !! pid
    = Some (set_row_tiers (default [] (pr_tiers r) ++ [blank_tier]) r).
Proof.
  intros Ha Hr. unfold account_drawer. rewrite Ha. split_and!.
  - intros d Hd. unfold drawer in Hd. rewrite app_nil_r in Hd.
    apply list_elem_of_fmap in Hd as [pl [-> Hpl]].
    destruct (proj1 (Forall_forall _ _) nav_links_routed pl Hpl) as [_ H]. exact H.
  - intros q Hq. cbn in Hq.
    repeat (apply elem_of_cons in Hq as [-> | Hq]; [vm_compute; discriminate|]).
    by apply not_elem_of_nil in Hq.
  - reflexivity.
  - cbn. rewrite Hr. cbn. rewrite lookup_alter, Hr. by rewrite decide_True.
Qed.

(** ** Witnesses *)

Definition farmer_session : auth_state := mk_as (Some (mk_session "u1" (Some "farmer"))) false false false.

Lemma admin_dashboard_unguarded_witness :
  (∀ d, d ∈ account_drawer farmer_session "/account" → route (dl_path d) ≠ PAdmin) ∧
  (∀ q, q ∈ quick_links (isAdmin farmer_session) → route q.1 ≠ PAdmin) ∧
  app_page true "/admin" = PAdmin ∧
  cdb_products (admin_run (demo_catalog, admin_init) [EditTiers "pA"; AddTier; SaveTiers]).1 !! "pA"
    = Some (set_row_tiers [mk_tier_text 10 "KES 900"; blank_tier] foliar_row).
Proof.
  refine (admin_dashboard_unguarded farmer_session "/account" demo_catalog "pA" foliar_row _ _);
    reflexivity.
Defined.
