(* ===== verification/Schema.v ===== *)
(** * The repository's SQL schema and the store's answers under it

    src/unnamed/part_003 creates nine tables of [public] ([profiles],
    [user_roles], [products], [orders], [order_items],
    [order_stage_history], [delivery_addresses], [discounts],
    [notifications]), each with its columns' types, [NOT NULL] flags,
    defaults and [CHECK] constraints, and enables row-level security on
    every one of them without creating a policy.

    - [repo_schema] transcribes the file: one [table_schema] per
      [CREATE TABLE], one [column] per column line, one check per [CHECK];
    - [insert] is what PostgREST and Postgres answer to a client's
      [.from(t).insert(payload)]: an unknown table, then an unknown
      column of the payload (PostgREST's schema cache), then the casts of
      the JSON values to the column types, then the row-level security
      check of the new row (denied when no policy admits it), then
      [NOT NULL] with the defaults filled in, then the [CHECK]s, which
      only fail on [false] (a [NULL] result passes);
    - [select] is the rows a client's [.select()] sees: with row-level
      security on, only those some [SELECT] policy admits.

    The client's role is [anon] or [authenticated], never one that
    bypasses row-level security.  Timestamps are not validated; numeric
    text is outside the model (no payload of the code sends any). *)

From S2P Require Import Prelude Js Json Pricing Store Checkout Notifications Admin Shell.
From stdpp Require Import gmap.
Open Scope nat_scope.

(** ** Tables *)

Inductive sql_type :=
| Uuid | Text | Timestamptz | Boolean | Integer
| Numeric (precision scale : nat).

Inductive sql_default := NoDefault | DefNow | DefUuid | DefValue (v : jvalue).

Record column := mk_col { c_name : string; c_type : sql_type; c_not_null : bool; c_default : sql_default }.

Abbreviation row := (list (string * jvalue)).

Inductive sql_cmd := CmdSelect | CmdInsert | CmdUpdate | CmdDelete | CmdAll.

#[export] Instance sql_cmd_eq_dec : EqDecision sql_cmd.
Proof. solve_decision. Defined.

(** [CREATE POLICY .. FOR cmd USING/WITH CHECK (pred)]. *)
Record policy := mk_policy { p_cmd : sql_cmd; p_pred : row → bool }.

(** A [CHECK] evaluates to true, false or [NULL] ([None]). *)
Record table_schema := mk_table {
  t_name : string;
  t_columns : list column;
  t_checks : list (row → option bool);
  t_rls : bool;
  t_policies : list policy
}.

(** Primary keys are [NOT NULL]. *)
Definition pk_uuid : column := mk_col "id" Uuid true DefUuid.
Definition stamp (n : string) : column := mk_col n Timestamptz true DefNow.

(** [x IN (..)] on a text column: [NULL] when [x] is. *)
Definition sql_in (k : string) (vals : list string) (r : row) : option bool :=
  match obj_find k r with
  | None | Some JNull => None
  | Some (JStr s) => Some (bool_decide (s ∈ vals))
  | Some _ => Some false
  end.

Definition is_null (k : string) (r : row) : bool :=
  match obj_find k r with None | Some JNull => true | _ => false end.

Definition profiles_t : table_schema :=
  mk_table "profiles"
    [mk_col "id" Uuid true NoDefault; mk_col "phone" Text false NoDefault;
     mk_col "full_name" Text false NoDefault; stamp "created_at"; stamp "updated_at"] [] true [].

Definition user_roles_t : table_schema :=
  mk_table "user_roles"
    [pk_uuid; mk_col "user_id" Uuid true NoDefault; mk_col "role" Text true NoDefault; stamp "created_at"]
    [sql_in "role" ["admin"; "user"]] true [].

Definition products_t : table_schema :=
  mk_table "products"
    [pk_uuid; mk_col "name" Text true NoDefault; mk_col "description" Text true NoDefault;
     mk_col "controls" Text false NoDefault; mk_col "benefits" Text false NoDefault;
     mk_col "price_kes" (Numeric 10 2) false NoDefault; mk_col "image_url" Text false NoDefault;
     mk_col "is_active" Boolean false (DefValue (JBool true)); stamp "created_at"; stamp "updated_at"]
    [] true [].

Definition orders_t : table_schema :=
  mk_table "orders"
    [pk_uuid; mk_col "user_id" Uuid true NoDefault;
     mk_col "status" Text true (DefValue (JStr "order_placed"));
     mk_col "delivery_address" Text true NoDefault; mk_col "delivery_instructions" Text false NoDefault;
     mk_col "delivery_latitude" (Numeric 10 8) false NoDefault;
     mk_col "delivery_longitude" (Numeric 11 8) false NoDefault;
     mk_col "discount_code" Text false NoDefault;
     mk_col "discount_amount" (Numeric 10 2) false (DefValue (JNum 0));
     mk_col "subtotal" (Numeric 10 2) true NoDefault; mk_col "total" (Numeric 10 2) true NoDefault;
     mk_col "payment_approved_at" Timestamptz false NoDefault;
     mk_col "delivered_at" Timestamptz false NoDefault; mk_col "confirmed_at" Timestamptz false NoDefault;
     stamp "created_at"; stamp "updated_at"]
    [sql_in "status" schema_statuses] true [].

(** [CHECK (quantity > 0)] *)
Definition positive_quantity (r : row) : option bool :=
  match obj_find "quantity" r with
  | None | Some JNull => None
  | Some (JNum q) => Some (negb (Qle_bool q 0))
  | Some _ => Some false
  end.

Definition order_items_t : table_schema :=
  mk_table "order_items"
    [pk_uuid; mk_col "order_id" Uuid true NoDefault; mk_col "product_id" Uuid true NoDefault;
     mk_col "quantity" Integer true NoDefault; mk_col "price_at_purchase" (Numeric 10 2) true NoDefault;
     stamp "created_at"]
    [positive_quantity] true [].

Definition order_stage_history_t : table_schema :=
  mk_table "order_stage_history"
    [pk_uuid; mk_col "order_id" Uuid true NoDefault; mk_col "from_status" Text false NoDefault;
     mk_col "to_status" Text true NoDefault; mk_col "notes" Text false NoDefault; stamp "created_at"]
    [] true [].

Definition delivery_addresses_t : table_schema :=
  mk_table "delivery_addresses"
    [pk_uuid; mk_col "user_id" Uuid true NoDefault; mk_col "label" Text true NoDefault;
     mk_col "address" Text true NoDefault; mk_col "latitude" (Numeric 10 8) false NoDefault;
     mk_col "longitude" (Numeric 11 8) false NoDefault;
     mk_col "is_default" Boolean false (DefValue (JBool false)); stamp "created_at"; stamp "updated_at"]
    [] true [].

(** Exactly one of the percentage and the amount is set. *)
Definition one_discount_kind (r : row) : option bool :=
  Some ((negb (is_null "discount_percentage" r) && is_null "discount_amount" r) ||
        (is_null "discount_percentage" r && negb (is_null "discount_amount" r))).

Definition discounts_t : table_schema :=
  mk_table "discounts"
    [pk_uuid; mk_col "code" Text true NoDefault; mk_col "description" Text false NoDefault;
     mk_col "discount_percentage" (Numeric 5 2) false NoDefault;
     mk_col "discount_amount" (Numeric 10 2) false NoDefault;
     mk_col "is_active" Boolean false (DefValue (JBool true)); stamp "valid_from";
     mk_col "valid_until" Timestamptz false NoDefault; mk_col "max_uses" Integer false NoDefault;
     mk_col "current_uses" Integer false (DefValue (JNum 0)); stamp "created_at"; stamp "updated_at"]
    [one_discount_kind] true [].

Definition notifications_t : table_schema :=
  mk_table "notifications"
    [pk_uuid; mk_col "user_id" Uuid true NoDefault; mk_col "title" Text true NoDefault;
     mk_col "message" Text true NoDefault; mk_col "type" Text true NoDefault;
     mk_col "related_order_id" Uuid false NoDefault;
     mk_col "is_read" Boolean false (DefValue (JBool false)); stamp "created_at"]
    [] true [].

Definition repo_schema : list table_schema :=
  [profiles_t; user_roles_t; products_t; orders_t; order_items_t; order_stage_history_t;
   delivery_addresses_t; discounts_t; notifications_t].

(** ** The store's answers *)

Inductive db_error :=
| UnknownTable (t : string)              (** PGRST205: no such relation in the schema cache *)
| UnknownColumn (t c : string)           (** PGRST204: the payload names no column of [t] *)
| InvalidInput (t c : string)            (** 22P02 / 22003: the value does not cast to the type *)
| RlsViolation (t : string)              (** 42501: the new row violates row-level security *)
| NotNullViolation (t c : string)        (** 23502 *)
| CheckFailed (t : string).              (** 23514 *)

#[export] Instance db_error_eq_dec : EqDecision db_error.
Proof. solve_decision. Defined.

Definition is_hex (c : ascii) : bool :=
  let n := nat_of_ascii c in is_digit c || ((65 <=? n) && (n <=? 70)) || ((97 <=? n) && (n <=? 102)).

Fixpoint all_hex (s : string) : bool :=
  match s with EmptyString => true | String c r => is_hex c && all_hex r end.

(** The uuid input syntax: 32 hexadecimal digits, bare or in the 8-4-4-4-12
    groups. *)
Definition is_uuid (s : string) : bool :=
  let groups := split_on "-" s in
  (bool_decide (map String.length groups = [8; 4; 4; 4; 12]) || (String.length s =? 32))
  && forallb all_hex groups.

(** [round(q, s)], half away from zero, as [NUMERIC(p, s)] stores it. *)
Definition round_scale (s : nat) (q : Q) : Z :=
  let m := (Qnum q * 10 ^ Z.of_nat s)%Z in
  let d := Zpos (Qden q) in
  if (0 <=? m)%Z then ((2 * m + d) / (2 * d))%Z else (- ((2 * - m + d) / (2 * d)))%Z.

(** The cast of a non-null JSON value to the column's type. *)
Definition casts (t : sql_type) (v : jvalue) : bool :=
  match t, v with
  | Uuid, JStr s => is_uuid s
  | Uuid, _ => false
  | Text, _ => true
  | Timestamptz, JStr _ => true
  | Timestamptz, _ => false
  | Boolean, JBool _ => true
  | Boolean, _ => false
  | Integer, JNum q => (Qden q =? 1)%positive && (- 2 ^ 31 <=? Qnum q)%Z && (Qnum q <? 2 ^ 31)%Z
  | Integer, _ => false
  | Numeric p s, JNum q => (Z.abs (round_scale s q) <? 10 ^ Z.of_nat p)%Z
  | Numeric _ _, _ => false
  end.

Definition find_table (sch : list table_schema) (tname : string) : option table_schema :=
  List.find (λ t, String.eqb (t_name t) tname) sch.

Definition column_names (t : table_schema) : list string := map c_name (t_columns t).

(** The stored row: each column's value from the payload, else its
    default ([now] and [fresh] stand for [NOW()] and [gen_random_uuid()]),
    else [NULL]. *)
Definition fill_row (t : table_schema) (now fresh : string) (payload : row) : row :=
  map (λ c, (c_name c,
             match obj_find (c_name c) payload with
             | Some v => v
             | None =>
                 match c_default c with
                 | NoDefault => JNull
                 | DefNow => JStr now
                 | DefUuid => JStr fresh
                 | DefValue v => v
                 end
             end)) (t_columns t).

(** The policies that admit [cmd] on a row. *)
Definition admits (t : table_schema) (cmd : sql_cmd) (r : row) : bool :=
  negb (t_rls t) ||
  existsb (λ p, (bool_decide (p_cmd p = cmd) || bool_decide (p_cmd p = CmdAll)) && p_pred p r) (t_policies t).

Definition first_some {A B} (f : A → option B) (l : list A) : option B :=
  List.fold_right (λ x acc, match f x with Some b => Some b | None => acc end) None l.

Definition insert (sch : list table_schema) (tname now fresh : string) (payload : row) : outcome db_error row :=
  match find_table sch tname with
  | None => Err (UnknownTable tname)
  | Some t =>
      match first_some (λ kv, if bool_decide (kv.1 ∈ column_names t) then None else Some kv.1) payload with
      | Some k => Err (UnknownColumn tname k)
      | None =>
      match first_some (λ c, match obj_find (c_name c) payload with
                             | Some JNull | None => None
                             | Some v => if casts (c_type c) v then None else Some (c_name c)
                             end) (t_columns t) with
      | Some k => Err (InvalidInput tname k)
      | None =>
      let r := fill_row t now fresh payload in
      if negb (admits t CmdInsert r) then Err (RlsViolation tname) else
      match first_some (λ c, if c_not_null c && is_null (c_name c) r then Some (c_name c) else None)
              (t_columns t) with
      | Some k => Err (NotNullViolation tname k)
      | None => if existsb (λ chk, bool_decide (chk r = Some false)) (t_checks t)
                then Err (CheckFailed tname) else Ok r
      end
      end
      end
  end.

(** The rows of the table a client's select returns. *)
Definition select (sch : list table_schema) (tname : string) (rows : list row) : outcome db_error (list row) :=
  match find_table sch tname with
  | None => Err (UnknownTable tname)
  | Some t => Ok (List.filter (admits t CmdSelect) rows)
  end.

(** [.delete().eq(..)]: the rows the filter matches and a [DELETE] policy
    admits are removed; the call succeeds whatever it removed. *)
Definition delete_where (sch : list table_schema) (tname : string) (matches : row → bool) (rows : list row)
  : outcome db_error (list row) :=
  match find_table sch tname with
  | None => Err (UnknownTable tname)
  | Some t => Ok (List.filter (λ r, negb (matches r && admits t CmdDelete r)) rows)
  end.

(** The same tables under other security settings: [rls] and one policy
    list for every table. *)
Definition with_security (rls : bool) (ps : list policy) (t : table_schema) : table_schema :=
  mk_table (t_name t) (t_columns t) (t_checks t) rls ps.

(** ** The code's payloads *)

(** Checkout's [.from('orders').insert({ user_id, items, total_price,
    status, stages })]. *)
Definition checkout_payload (r : order_row) : row :=
  [("user_id", JStr (row_user_id r)); ("items", row_items r); ("total_price", row_total_price r);
   ("status", row_status r); ("stages", row_stages r)].

(** Checkout's [.from('notifications').insert({ user_id, title, message })]. *)
Definition notification_payload (n : notif_row) : row :=
  [("user_id", JStr (n_user n)); ("title", JStr (n_title n)); ("message", JStr (n_message n))].

Definition variant_json (v : admin_variant) : jvalue :=
  JObj [("id", JStr (av_id v)); ("product_id", JStr (av_product v)); ("size", JStr (av_size v));
        ("price", JStr (av_price v)); ("stock", JNum (inject_Z (av_stock v)))].

(** The dashboard's [.from('products').insert(newProductData)]: the whole
    form state, its [variants] included. *)
Definition product_payload (np : new_product) : row :=
  [("name", JStr (np_name np)); ("price", JStr (np_price np)); ("description", JStr (np_description np));
   ("pricing_tiers", JArr (map tier_json (np_tiers np))); ("variants", JArr (map variant_json (np_variants np)))].

(** The store's constraint on the orders checkout writes, as the
    [check] of [Store.insert_row]: the insert succeeds. *)
Definition schema_accepts (sch : list table_schema) (now fresh : string) (r : order_row) : bool :=
  is_ok (insert sch "orders" now fresh (checkout_payload r)).

(** ** Lemmas *)

Definition locked (t : table_schema) : Prop := t_rls t = true ∧ t_policies t = [].

Lemma repo_tables_locked : Forall locked repo_schema.
Proof. repeat constructor. Qed.

Lemma find_table_in sch n t : find_table sch n = Some t → t ∈ sch ∧ t_name t = n.
Proof.
  unfold find_table. intros Hf. apply List.find_some in Hf as [Hin Hn].
  split; [by apply list_elem_of_In|by apply String.eqb_eq].
Qed.

Lemma locked_admits t cmd r : locked t → admits t cmd r = false.
Proof. intros [Hr Hp]. unfold admits. by rewrite Hr, Hp. Qed.

(** An insert into a table no insert policy admits fails. *)
Lemma insert_denied sch n t now fresh p :
  find_table sch n = Some t → (∀ r, admits t CmdInsert r = false) →
  ∃ e, insert sch n now fresh p = Err e.
Proof.
  intros Hf Hadm. unfold insert. rewrite Hf.
  destruct (first_some _ p); [eauto|]. destruct (first_some _ (t_columns t)); [eauto|].
  rewrite Hadm. eauto.
Qed.

Lemma filter_all_false {A} (f : A → bool) xs : (∀ x, f x = false) → List.filter f xs = [].
Proof. intros Hf. induction xs as [|x xs IH]; cbn; [done|]. by rewrite Hf. Qed.

Lemma filter_all_true {A} (f : A → bool) xs : (∀ x, f x = true) → List.filter f xs = xs.
Proof. intros Hf. induction xs as [|x xs IH]; cbn; [done|]. by rewrite Hf, IH. Qed.

Lemma find_table_security rls ps n t :
  find_table repo_schema n = Some t → find_table (map (with_security rls ps) repo_schema) n = Some (with_security rls ps t).
Proof.
  unfold find_table. generalize repo_schema. intros sch. induction sch as [|t' sch IH]; cbn; [done|].
  by destruct (String.eqb (t_name t') n); [intros [= ->]|].
Qed.

Lemma schema_accepts_locked sch now fresh r :
  (∀ t, find_table sch "orders" = Some t → ∀ r, admits t CmdInsert r = false) →
  schema_accepts sch now fresh r = false.
Proof.
  intros Hl. unfold schema_accepts. destruct (find_table sch "orders") as [t|] eqn:Hf.
  - destruct (insert_denied sch "orders" t now fresh (checkout_payload r) Hf (Hl t eq_refl)) as [e ->]. done.
  - unfold insert. by rewrite Hf.
Qed.

(** The lists other files took from the schema are its columns. *)
Lemma notif_schema_columns_transcribed : notif_schema_columns = column_names notifications_t.
Proof. reflexivity. Qed.

Lemma products_schema_columns_transcribed : products_schema_columns = column_names products_t.
Proof. reflexivity. Qed.

Lemma notif_required_transcribed :
  notif_required_columns =
  map c_name (List.filter (λ c, c_not_null c && match c_default c with NoDefault => true | _ => false end)
               (t_columns notifications_t)).
Proof. reflexivity. Qed.

(** ** The code against the repository's schema *)

(** C20 [safety]: The repository's schema turns row-level security on for
    every table and creates no policy, so a client (signed in or not) can
    write nothing and read nothing: every insert into one of its tables
    fails, every select returns no row, and every delete removes none
    while reporting success. *)
Theorem repo_schema_denies_client tname t :
  find_table repo_schema tname = Some t →
  (∀ now fresh p, ∃ e, insert repo_schema tname now fresh p = Err e) ∧
  (∀ rows, select repo_schema tname rows = Ok []) ∧
  (∀ m rows, delete_where repo_schema tname m rows = Ok rows).
Proof.
  intros Hf. destruct (find_table_in _ _ _ Hf) as [Hin _].
  assert (Hl : locked t) by (eapply Forall_forall; [apply repo_tables_locked|done]).
  split_and!.
  - intros now fresh p. apply (insert_denied _ _ t); [done|]. intros r. by apply locked_admits.
  - intros rows. unfold select. rewrite Hf. f_equal. apply filter_all_false. intros r. by apply locked_admits.
  - intros m rows. unfold delete_where. rewrite Hf. f_equal. apply filter_all_true.
    intros r. by rewrite locked_admits, andb_false_r.
Qed.

(** The tables the product page, the dashboard and the offers page query
    are not in the schema. *)
Lemma missing_tables now fresh p :
  Forall (λ n, insert repo_schema n now fresh p = Err (UnknownTable n)) ["product_variants"; "reviews"; "offers"].
Proof. repeat constructor. Qed.

(** C21 [error]: Whatever row-level security and policies the tables get,
    checkout's order insert names columns the orders table does not have
    ([items], then [total_price] and [stages]) and is rejected; with the
    store's answer taken from the schema, Place Order never places an
    order, leaves the table and the cart as they were, and ends in Order
    creation failed or an earlier exit. *)
Theorem checkout_rejected_by_schema rls ps `{JsonCodec} subtotal db a prompts ok cart st fresh now
    now' fresh' db' cart' res :
  (∀ uid cart total d created,
     insert (map (with_security rls ps) repo_schema) "orders" now' fresh'
       (checkout_payload (checkout_row uid cart total d created)) = Err (UnknownColumn "orders" "items")) ∧
  (handlePlaceOrder (schema_accepts (map (with_security rls ps) repo_schema) now' fresh') subtotal
     db a prompts ok cart st fresh now = (db', cart', res) →
   db' = db ∧ cart' = cart ∧ ∀ oid, res ≠ CoPlaced oid).
Proof.
  assert (Hins : ∀ uid cart total d created,
     insert (map (with_security rls ps) repo_schema) "orders" now' fresh'
       (checkout_payload (checkout_row uid cart total d created)) = Err (UnknownColumn "orders" "items")).
  { intros. unfold insert. by rewrite (find_table_security rls ps "orders" orders_t). }
  split; [done|].
  assert (Hplace : ∀ db a cart st fresh now db' cart' res,
    place_order (schema_accepts (map (with_security rls ps) repo_schema) now' fresh') subtotal
      db a cart st fresh now = (db', cart', res) → db' = db ∧ cart' = cart ∧ ∀ oid, res ≠ CoPlaced oid).
  { intros db0 a0 cart0 st0 fresh0 now0 db1 cart1 res1. unfold place_order.
    destruct (user a0) as [uid|]; [|intros [= <- <- <-]; done].
    destruct (String.eqb _ _); [intros [= <- <- <-]; done|].
    unfold insert_row, schema_accepts. rewrite Hins. cbn. intros [= <- <- <-]. done. }
  unfold handlePlaceOrder. destruct (session a); [apply Hplace|].
  destruct (_ && _); [|intros [= <- <- <-]; done].
  destruct ok; [apply Hplace|intros [= <- <- <-]; done].
Qed.

(** With the policies out of the way, the notification checkout inserts
    after an order still fails: it sends no [type], a [NOT NULL] column
    without a default. *)
Lemma notification_lacks_type uid oid created now fresh :
  is_uuid uid = true →
  insert (map (with_security false []) repo_schema) "notifications" now fresh
    (notification_payload (order_notification uid oid created)) = Err (NotNullViolation "notifications" "type").
Proof. intros Hu. unfold insert. cbn. by rewrite Hu. Qed.

(** ** Witnesses *)

Lemma repo_schema_denies_client_witness :
  (∀ now fresh p, ∃ e, insert repo_schema "orders" now fresh p = Err e) ∧
  (∀ rows, select repo_schema "orders" rows = Ok []) ∧
  (∀ m rows, delete_where repo_schema "orders" m rows = Ok rows).
Proof. apply (repo_schema_denies_client "orders" orders_t). reflexivity. Defined.

Definition buyer_uuid : string := "8f14e45f-ceea-4a7b-9f1d-2c3b4a5d6e7f".

Lemma checkout_rejected_by_schema_witness :
  handlePlaceOrder (schema_accepts repo_schema "t0" "o1") 1000 placed_db (mk_auth true (Some buyer_uuid))
    (None, None) true [foliar_line] plot_state "o9" (JStr "t1") = (placed_db, [foliar_line], CoInsertFailed) ∧
  (placed_db = placed_db ∧ [foliar_line] = [foliar_line] ∧ ∀ oid, CoInsertFailed ≠ CoPlaced oid).
Proof.
  assert (E : handlePlaceOrder (schema_accepts repo_schema "t0" "o1") 1000 placed_db (mk_auth true (Some buyer_uuid))
    (None, None) true [foliar_line] plot_state "o9" (JStr "t1") = (placed_db, [foliar_line], CoInsertFailed))
    by (vm_compute; reflexivity).
  split; [exact E|].
  exact (proj2 (checkout_rejected_by_schema true [] 1000 placed_db (mk_auth true (Some buyer_uuid))
    (None, None) true [foliar_line] plot_state "o9" (JStr "t1") "t0" "o1" placed_db [foliar_line] CoInsertFailed) E).
Defined.
