(* ===== verification/Reviews.v ===== *)
(** * The product page's reviews (ProductDetail.tsx)

    - [reviews_query]: [.from('reviews').select('*').eq('product_id', id)
      .order('created_at', { ascending: false })], each row spread with
      [user_email: 'Anonymous'] (lines 101-116); the page reads
      [data: reviews = []], so a failed query shows as no review;
    - [review_card], [review_form] and [reviews_section]: the section's
      render (lines 354-428): the count, the form for a session (five
      star buttons, the comment, the error, the submit button) or the
      sign-in prompt, the cards with five stars each, and the empty text;
    - [review_step]: the star buttons, the comment input and the submit,
      whose mutation answer comes from the store ([Shop.handleAddReview]).

    Composed with [Schema], whose schema has no [reviews] table, the
    section never shows a review and every submission ends in the
    store's error message. *)

From S2P Require Import Prelude Js Json Store Shop Schema.
From stdpp Require Import sorting.
Open Scope nat_scope.

(** ** The query *)

Record review_row := mk_rrow {
  rr_id : string; rr_product : string; rr_user : string;
  rr_comment : string; rr_rating : Z; rr_created : string
}.

Definition newer_review (x y : review_row) : Prop := String.leb (rr_created y) (rr_created x) = true.

#[export] Instance newer_review_dec : RelDecision newer_review.
Proof. intros x y. unfold newer_review. apply _. Defined.

#[export] Instance newer_review_total : Total newer_review.
Proof. intros x y. unfold newer_review. destruct (String.leb_total (rr_created x) (rr_created y)); auto. Qed.

(** [{ ...review, user_email: 'Anonymous' }] *)
Record review_view := mk_rview { rv_data : review_row; rv_email : string }.

Definition reviews_query (rows : list review_row) (pid : string) : list review_view :=
  map (λ r, mk_rview r "Anonymous") (merge_sort newer_review (List.filter (λ r, String.eqb (rr_product r) pid) rows)).

(** [const { data: reviews = [] } = useQuery(..)]: an error leaves
    [data] undefined. *)
Definition reviews_data {E} (q : outcome E (list review_view)) : list review_view :=
  match q with Ok l => l | Err _ => [] end.

(** ** The render *)

(** [[...Array(5)].map((_, i) => i < review.rating)]: the filled stars. *)
Definition card_stars (rating : Z) : list bool := map (λ i, (i <? rating)%Z) [0; 1; 2; 3; 4]%Z.

Record review_card := mk_rcard { rc_stars : list bool; rc_by : string; rc_comment : string }.

Definition review_card_of (v : review_view) : review_card :=
  mk_rcard (card_stars (rr_rating (rv_data v))) (String.append "by " (rv_email v)) (rr_comment (rv_data v)).

(** The form's stars: [[1, 2, 3, 4, 5].map(star => newReview.rating >= star)]. *)
Definition form_stars (rating : Z) : list bool := map (λ star, (star <=? rating)%Z) [1; 2; 3; 4; 5]%Z.

Inductive review_form :=
| ReviewForm (stars : list bool) (comment : string) (error : option string) (submit_label : string) (disabled : bool)
| SignInPrompt.

Definition review_form_of (session : bool) (st : pd_state) (loading : bool) : review_form :=
  if session then
    ReviewForm (form_stars (pd_rating st)) (pd_comment st)
      (if String.eqb (pd_error st) "" then None else Some (pd_error st))
      (if loading then "Submitting..." else "Submit Review") loading
  else SignInPrompt.

Record reviews_section := mk_rsection {
  rs_count : nat; rs_form : review_form; rs_cards : list review_card; rs_empty_text : bool
}.

Definition reviews_render (session : bool) (reviews : list review_view) (st : pd_state) (loading : bool)
  : reviews_section :=
  mk_rsection (length reviews) (review_form_of session st loading) (map review_card_of reviews)
    (Nat.eqb (length reviews) 0).

(** ** The events *)

Inductive review_event :=
| ClickStar (star : Z)           (** [setNewReview({ ...newReview, rating: star })] *)
| TypeComment (text : string)    (** the textarea *)
| SubmitReview.                  (** [handleAddReview] and the mutation *)

Definition set_review (st : pd_state) (comment : string) (rating : Z) : pd_state :=
  mk_pd (pd_quantity st) (pd_size st) (pd_variant st) comment rating (pd_error st).

(** [insert_err] is the store's answer to the insert. *)
Definition review_step (a : auth) (insert_err : option string) (st : pd_state) (e : review_event) : pd_state :=
  match e with
  | ClickStar s => set_review st (pd_comment st) s
  | TypeComment t => set_review st t (pd_rating st)
  | SubmitReview => (handleAddReview a insert_err st).1
  end.

(** ** The reviews under the repository's schema *)

(** The messages PostgREST and Postgres send with the errors. *)
Definition quoted (s : string) : string := String dq (String.append s (String dq EmptyString)).

Definition db_error_message (e : db_error) : string :=
  match e with
  | UnknownTable t => String.append "Could not find the table 'public." (String.append t "' in the schema cache")
  | UnknownColumn t c =>
      String.append "Could not find the '" (String.append c
        (String.append "' column of '" (String.append t "' in the schema cache")))
  | InvalidInput t c => String.append "invalid input value for column " (quoted c)
  | RlsViolation t => String.append "new row violates row-level security policy for table " (quoted t)
  | NotNullViolation t c =>
      String.append "null value in column " (String.append (quoted c)
        (String.append " of relation " (String.append (quoted t) " violates not-null constraint")))
  | CheckFailed t => String.append "new row for relation " (String.append (quoted t) " violates check constraint")
  end.

(** The review insert's payload (lines 123-129). *)
Definition review_payload (pid uid : string) (st : pd_state) : row :=
  [("product_id", JStr pid); ("user_id", JStr uid); ("comment", JStr (pd_comment st));
   ("rating", JNum (inject_Z (pd_rating st)))].

Definition insert_error {A} (r : outcome db_error A) : option string :=
  match r with Ok _ => None | Err e => Some (db_error_message e) end.

(** The page's query against the store's answer: the visible rows, or
    the error the query function rethrows. *)
Definition reviews_fetch (visible : outcome db_error (list review_row)) (pid : string)
  : outcome db_error (list review_view) :=
  rows ← visible; Ok (reviews_query rows pid).

(** ** Lemmas *)

(** The list holds the product's reviews, each once, newest first, all
    shown as written by Anonymous. *)
Lemma reviews_query_spec rows pid :
  map rv_data (reviews_query rows pid) ≡ₚ List.filter (λ r, String.eqb (rr_product r) pid) rows ∧
  Sorted newer_review (map rv_data (reviews_query rows pid)) ∧
  Forall (λ v, rv_email v = "Anonymous") (reviews_query rows pid).
Proof.
  unfold reviews_query. rewrite map_map. cbn. rewrite map_id. split_and!.
  - apply merge_sort_Permutation.
  - apply Sorted_merge_sort; apply _.
  - apply Forall_forall. intros v Hv. apply list_elem_of_In, in_map_iff in Hv as [r [<- _]]. done.
Qed.

(** A card fills [rating] stars, clamped to 0..5; so does the form. *)
Lemma card_stars_count r : length (List.filter id (card_stars r)) = Z.to_nat (Z.max 0 (Z.min 5 r)).
Proof.
  unfold card_stars. cbn [map].
  destruct (Z.ltb_spec 0 r), (Z.ltb_spec 1 r), (Z.ltb_spec 2 r), (Z.ltb_spec 3 r), (Z.ltb_spec 4 r);
    cbn [List.filter id length]; lia.
Qed.

Lemma form_stars_count r : length (List.filter id (form_stars r)) = Z.to_nat (Z.max 0 (Z.min 5 r)).
Proof.
  unfold form_stars. cbn [map].
  destruct (Z.leb_spec 1 r), (Z.leb_spec 2 r), (Z.leb_spec 3 r), (Z.leb_spec 4 r), (Z.leb_spec 5 r);
    cbn [List.filter id length]; lia.
Qed.

Lemma repo_schema_no_reviews now fresh p : Schema.insert repo_schema "reviews" now fresh p = Err (UnknownTable "reviews").
Proof. reflexivity. Qed.

(** C36 [error]: Against the repository's schema, which has no [reviews]
    table, the product page's review section shows no review and the empty
    text, and a review submitted by a signed-in user with a non-blank
    comment ends in PostgREST's schema-cache message, the comment and the
    rating kept in the form. *)
Lemma reviews_without_table session0 pid st loading a uid now fresh :
  let q := reviews_fetch (Err (UnknownTable "reviews")) pid in
  reviews_render session0 (reviews_data q) st loading = mk_rsection 0 (review_form_of session0 st loading) [] true ∧
  (Store.session a = true → user a = Some uid → String.eqb (trim (pd_comment st)) "" = false →
   review_step a (insert_error (Schema.insert repo_schema "reviews" now fresh (review_payload pid uid st))) st SubmitReview
   = mk_pd (pd_quantity st) (pd_size st) (pd_variant st) (pd_comment st) (pd_rating st)
       "Could not find the table 'public.reviews' in the schema cache").
Proof.
  split; [reflexivity|]. intros Hs Hu Hc.
  rewrite repo_schema_no_reviews. cbn [review_step insert_error]. unfold handleAddReview.
  rewrite Hs, Hc, Hu. reflexivity.
Qed.

(** ** Witnesses *)

Definition review_draft : pd_state := mk_pd 1 "" "" "Good on tomatoes" 4 "".

Lemma reviews_without_table_witness :
  Store.session (mk_auth true (Some "u1")) = true ∧ user (mk_auth true (Some "u1")) = Some "u1" ∧
  String.eqb (trim (pd_comment review_draft)) "" = false ∧
  review_step (mk_auth true (Some "u1"))
    (insert_error (Schema.insert repo_schema "reviews" "t1" "r1" (review_payload "p1" "u1" review_draft)))
    review_draft SubmitReview
  = mk_pd 1 "" "" "Good on tomatoes" 4 "Could not find the table 'public.reviews' in the schema cache".
Proof.
  split_and!; [reflexivity | reflexivity | vm_compute; reflexivity |].
  exact (proj2 (reviews_without_table true "p1" review_draft false (mk_auth true (Some "u1")) "u1" "t1" "r1")
           eq_refl eq_refl eq_refl).
Defined.
